(** * hyp-studio: the .hyp container codec, the asset rewriter and the
    world database exchange, embedded from the JavaScript sources.

    - [Js]      strings as sequences of UTF-16 code units, the string
                methods the sources call, outcomes of a computation;
    - [Json]    JSON values with the property order of JS objects,
                [JSON.stringify] (compact and indented), [JSON.parse];
    - [Utf8]    [TextDecoder.decode] (WHATWG UTF-8, replacement mode);
    - [Path]    [path.basename], [path.extname], [path.join] (posix);
    - [Apps]    packages/cli/apps.js;
    - [Worlds]  packages/cli/worlds.js;
    - [DbCli]   the db-cli commands (second part of
                packages/cli/rollupManifestPlugin.js) and the deploy
                command's database step;
    - [Plugin]  the manifest plugin (first part of
                packages/cli/rollupManifestPlugin.js);
    - [Stats]   the statistics of showDbStatus
                (packages/cli/worlds.js). *)

From Stdlib Require Import ZArith List Bool Lia String Ascii.
From Stdlib Require Import DecimalN.
Import ListNotations.
Open Scope Z_scope.
Set Warnings "-register-all".

(* ================================================================== *)
(** ** JavaScript strings and outcomes *)
(* ================================================================== *)

Module Js.

(** A JS string is a sequence of 16-bit code units. *)
Definition jsstring := list Z.

Definition lit (s : string) : jsstring :=
  map (fun a => Z.of_N (N_of_ascii a)) (list_ascii_of_string s).

Fixpoint str_eqb (a b : jsstring) : bool :=
  match a, b with
  | [], [] => true
  | x :: a', y :: b' => (x =? y) && str_eqb a' b'
  | _, _ => false
  end.

(** A text written with apostrophes where it has double quotes, for
    the JSON texts of the examples. *)
Definition json_text (s : string) : jsstring :=
  map (fun c => if c =? 39 then 34 else c) (lit s).

(** [String.prototype.startsWith]. *)
Fixpoint startsWith (s p : jsstring) {struct p} : bool :=
  match p, s with
  | [], _ => true
  | x :: p', y :: s' => (x =? y) && startsWith s' p'
  | _ :: _, [] => false
  end.

(** [String.prototype.endsWith]. *)
Definition endsWith (s p : jsstring) : bool :=
  startsWith (rev s) (rev p).

(** [String.prototype.substring(n)] for [0 <= n]. *)
Definition substring (n : nat) (s : jsstring) : jsstring := skipn n s.

(** [s.replace(pat, rep)] with a string pattern: the first occurrence
    only. *)
Fixpoint replace_first (pat rep s : jsstring) : jsstring :=
  if startsWith s pat then rep ++ skipn (List.length pat) s
  else match s with
       | [] => []
       | c :: s' => c :: replace_first pat rep s'
       end.

(** [s.split(sep)] for a one-unit separator [sep]. *)
Fixpoint split (sep : Z) (s : jsstring) : list jsstring :=
  match s with
  | [] => [[]]
  | c :: s' =>
      if c =? sep then [] :: split sep s'
      else match split sep s' with
           | [] => [[c]]
           | seg :: segs => (c :: seg) :: segs
           end
  end.

(** [s.split("/").pop()]. *)
Definition split_pop (sep : Z) (s : jsstring) : jsstring :=
  last (split sep s) [].

Fixpoint join (sep : jsstring) (l : list jsstring) : jsstring :=
  match l with
  | [] => []
  | [x] => x
  | x :: l' => x ++ sep ++ join sep l'
  end.

(** ASCII part of [String.prototype.toLowerCase]. *)
Definition lower_unit (c : Z) : Z :=
  if (65 <=? c) && (c <=? 90) then c + 32 else c.

Definition toLowerCase_ascii (s : jsstring) : jsstring := map lower_unit s.

(** Decimal digits of a natural number, as code units. *)
Fixpoint uint_units (d : Decimal.uint) : jsstring :=
  match d with
  | Decimal.Nil => []
  | Decimal.D0 d => 48 :: uint_units d
  | Decimal.D1 d => 49 :: uint_units d
  | Decimal.D2 d => 50 :: uint_units d
  | Decimal.D3 d => 51 :: uint_units d
  | Decimal.D4 d => 52 :: uint_units d
  | Decimal.D5 d => 53 :: uint_units d
  | Decimal.D6 d => 54 :: uint_units d
  | Decimal.D7 d => 55 :: uint_units d
  | Decimal.D8 d => 56 :: uint_units d
  | Decimal.D9 d => 57 :: uint_units d
  end.

(** [Number.prototype.toString] on an integer. *)
Definition int_toString (n : Z) : jsstring :=
  if n <? 0 then 45 :: uint_units (N.to_uint (Z.to_N (- n)))
  else uint_units (N.to_uint (Z.to_N n)).

(** The integers a JS number holds exactly. *)
Definition safe_int (n : Z) : bool := (Z.abs n <=? 9007199254740991).

(** Errors a computation throws. *)
Inductive exn := SyntaxError | TypeError | RangeError | IOError | DbError.

(** Outcome of a computation: a value, a thrown error, or [Unmodelled]
    when the run leaves what this development models (non-integer
    numbers, coercions of ill-typed fields). [Unmodelled] is never
    caught. *)
Inductive result (A : Type) :=
| Ok (a : A)
| Throw (e : exn)
| Unmodelled.
Arguments Ok {A} a.
Arguments Throw {A} e.
Arguments Unmodelled {A}.

Definition bind {A B} (m : result A) (k : A -> result B) : result B :=
  match m with
  | Ok a => k a
  | Throw e => Throw e
  | Unmodelled => Unmodelled
  end.

(** [try { m } catch { h }]. *)
Definition try_catch {A} (m : result A) (h : exn -> result A) : result A :=
  match m with
  | Throw e => h e
  | _ => m
  end.

End Js.

Notation "x <- m ;; k" := (Js.bind m (fun x => k))
  (at level 61, m at next level, right associativity).

Import Js.

(* ================================================================== *)
(** ** JSON values, JSON.stringify, JSON.parse *)
(* ================================================================== *)

Module Json.

(** A value produced by [JSON.parse]. An object lists its own
    properties in the order JS enumerates them. Numbers are the
    integers a double holds exactly. *)
Inductive json :=
| JNull
| JBool (b : bool)
| JNum (n : Z)
| JStr (s : jsstring)
| JArr (l : list json)
| JObj (l : list (jsstring * json)).

Definition props := list (jsstring * json).

(** Digits of a code-unit string, when it is a non-empty digit run. *)
Fixpoint digits_value (acc : Z) (s : jsstring) : option Z :=
  match s with
  | [] => Some acc
  | c :: s' =>
      if (48 <=? c) && (c <=? 57) then digits_value (10 * acc + (c - 48)) s'
      else None
  end.

(** An "array index" key: the canonical decimal form of an integer in
    [0, 2^32 - 2]. Such keys are enumerated first, in ascending
    order. *)
Definition array_index (k : jsstring) : option Z :=
  match k with
  | [] => None
  | c :: r =>
      if (c =? 48) && negb (match r with [] => true | _ => false end) then None
      else if (10 <? Z.of_nat (List.length k)) then None
      else match digits_value 0 k with
           | Some n => if n <=? 4294967294 then Some n else None
           | None => None
           end
  end.

(** Own-property lookup. *)
Fixpoint obj_get (k : jsstring) (o : props) : option json :=
  match o with
  | [] => None
  | (k', v) :: o' => if str_eqb k k' then Some v else obj_get k o'
  end.

Fixpoint obj_has (k : jsstring) (o : props) : bool :=
  match o with
  | [] => false
  | (k', _) :: o' => str_eqb k k' || obj_has k o'
  end.

Fixpoint obj_replace (k : jsstring) (v : json) (o : props) : props :=
  match o with
  | [] => []
  | (k', v') :: o' =>
      if str_eqb k k' then (k', v) :: o' else (k', v') :: obj_replace k v o'
  end.

(** Place of a new array-index key [n]: before the first key that is
    not an index or is a larger index. *)
Fixpoint obj_insert_index (n : Z) (k : jsstring) (v : json) (o : props) : props :=
  match o with
  | [] => [(k, v)]
  | (k', v') :: o' =>
      match array_index k' with
      | Some m => if m <? n then (k', v') :: obj_insert_index n k v o'
                  else (k, v) :: o
      | None => (k, v) :: o
      end
  end.

(** [o[k] = v] on an ordinary object: an existing key keeps its place,
    a new index key goes among the indices, any other new key goes
    last. *)
Definition obj_set (k : jsstring) (v : json) (o : props) : props :=
  if obj_has k o then obj_replace k v o
  else match array_index k with
       | Some n => obj_insert_index n k v o
       | None => o ++ [(k, v)]
       end.

(** [delete o[k]]. *)
Fixpoint obj_delete (k : jsstring) (o : props) : props :=
  match o with
  | [] => []
  | (k', v') :: o' =>
      if str_eqb k k' then obj_delete k o' else (k', v') :: obj_delete k o'
  end.

(** Property read [v.k] for a name [k] that no prototype defines:
    [None] is [undefined]. Reading a property of [null] throws. *)
Definition get_prop (v : json) (k : jsstring) : result (option json) :=
  match v with
  | JNull => Throw TypeError
  | JObj o => Ok (obj_get k o)
  | _ => Ok None
  end.

(** ToBoolean. *)
Definition truthy (v : json) : bool :=
  match v with
  | JNull => false
  | JBool b => b
  | JNum n => negb (n =? 0)
  | JStr s => match s with [] => false | _ => true end
  | JArr _ => true
  | JObj _ => true
  end.

Definition truthy_opt (v : option json) : bool :=
  match v with
  | None => false
  | Some v => truthy v
  end.

(** Own enumerable string-keyed properties of a value, as [for...in]
    and object spread see them. *)
Fixpoint index_props (i : Z) (l : list json) : props :=
  match l with
  | [] => []
  | v :: l' => (int_toString i, v) :: index_props (i + 1) l'
  end.

Definition own_props (v : json) : props :=
  match v with
  | JObj o => o
  | JArr l => index_props 0 l
  | JStr s => index_props 0 (map (fun c => JStr [c]) s)
  | _ => []
  end.

(** [{ ...base, ...v }] onto an object under construction. *)
Definition spread_into (base : props) (v : json) : props :=
  fold_left (fun o kv => obj_set (fst kv) (snd kv) o) (own_props v) base.

(* ---------------------------------------------------------------- *)
(** *** JSON.stringify *)

Definition hex_digit (n : Z) : Z :=
  if n <? 10 then 48 + n else 97 + (n - 10).

(** [\uXXXX], lower-case hexadecimal. *)
Definition unicode_escape (c : Z) : jsstring :=
  [92; 117; hex_digit (Z.shiftr c 12 mod 16); hex_digit (Z.shiftr c 8 mod 16);
   hex_digit (Z.shiftr c 4 mod 16); hex_digit (c mod 16)].

Definition is_high_surrogate (c : Z) : bool := (55296 <=? c) && (c <=? 56319).
Definition is_low_surrogate (c : Z) : bool := (56320 <=? c) && (c <=? 57343).

(** QuoteJSONString, without the enclosing quotes. *)
Fixpoint quote_units (s : jsstring) : jsstring :=
  match s with
  | [] => []
  | c :: s' =>
      if c =? 8 then 92 :: 98 :: quote_units s'
      else if c =? 9 then 92 :: 116 :: quote_units s'
      else if c =? 10 then 92 :: 110 :: quote_units s'
      else if c =? 12 then 92 :: 102 :: quote_units s'
      else if c =? 13 then 92 :: 114 :: quote_units s'
      else if c =? 34 then 92 :: 34 :: quote_units s'
      else if c =? 92 then 92 :: 92 :: quote_units s'
      else if c <? 32 then unicode_escape c ++ quote_units s'
      else if is_high_surrogate c then
        match s' with
        | d :: s'' =>
            if is_low_surrogate d then c :: d :: quote_units s''
            else unicode_escape c ++ quote_units s'
        | [] => unicode_escape c
        end
      else if is_low_surrogate c then unicode_escape c ++ quote_units s'
      else c :: quote_units s'
  end.

Definition quote (s : jsstring) : jsstring := 34 :: quote_units s ++ [34].

(** [JSON.stringify(v)]. *)
Fixpoint stringify (v : json) : jsstring :=
  match v with
  | JNull => lit "null"
  | JBool true => lit "true"
  | JBool false => lit "false"
  | JNum n => int_toString n
  | JStr s => quote s
  | JArr l => 91 :: join [44] (map stringify l) ++ [93]
  | JObj o =>
      123 :: join [44] (map (fun kv => quote (fst kv) ++ 58 :: stringify (snd kv)) o)
          ++ [125]
  end.

Definition spaces (n : nat) : jsstring := repeat 32 n.

(** [JSON.stringify(v, null, 2)] at nesting depth [d]. *)
Fixpoint stringify_at (d : nat) (v : json) : jsstring :=
  match v with
  | JArr [] => lit "[]"
  | JArr l =>
      91 :: 10 :: spaces (2 * S d)
         ++ join (44 :: 10 :: spaces (2 * S d)) (map (stringify_at (S d)) l)
         ++ 10 :: spaces (2 * d) ++ [93]
  | JObj [] => lit "{}"
  | JObj o =>
      123 :: 10 :: spaces (2 * S d)
          ++ join (44 :: 10 :: spaces (2 * S d))
               (map (fun kv => quote (fst kv) ++ 58 :: 32 :: stringify_at (S d) (snd kv)) o)
          ++ 10 :: spaces (2 * d) ++ [125]
  | _ => stringify v
  end.

Definition stringify_pretty (v : json) : jsstring := stringify_at 0 v.

(* ---------------------------------------------------------------- *)
(** *** JSON.parse *)

Definition is_ws (c : Z) : bool :=
  (c =? 32) || (c =? 9) || (c =? 10) || (c =? 13).

Fixpoint skip_ws (s : jsstring) : jsstring :=
  match s with
  | [] => []
  | c :: s' => if is_ws c then skip_ws s' else s
  end.

Definition is_digit (c : Z) : bool := (48 <=? c) && (c <=? 57).

Definition hex_value (c : Z) : option Z :=
  if is_digit c then Some (c - 48)
  else if (65 <=? c) && (c <=? 70) then Some (c - 55)
  else if (97 <=? c) && (c <=? 102) then Some (c - 87)
  else None.

Definition hex4 (a b c d : Z) : option Z :=
  match hex_value a, hex_value b, hex_value c, hex_value d with
  | Some x, Some y, Some z, Some w => Some (((x * 16 + y) * 16 + z) * 16 + w)
  | _, _, _, _ => None
  end.

(** The unit a single-character escape stands for. *)
Definition simple_escape (e : Z) : option Z :=
  if e =? 34 then Some 34
  else if e =? 92 then Some 92
  else if e =? 47 then Some 47
  else if e =? 98 then Some 8
  else if e =? 102 then Some 12
  else if e =? 110 then Some 10
  else if e =? 114 then Some 13
  else if e =? 116 then Some 9
  else None.

Definition cons_fst (c : Z) (r : option (jsstring * jsstring)) :=
  match r with
  | Some (s, rest) => Some (c :: s, rest)
  | None => None
  end.

(** A string literal after its opening quote: the string and the input
    after the closing quote. *)
Fixpoint parse_string_body (s : jsstring) : option (jsstring * jsstring) :=
  match s with
  | [] => None
  | c :: s' =>
      if c =? 34 then Some ([], s')
      else if c <? 32 then None
      else if c =? 92 then
        match s' with
        | [] => None
        | e :: s'' =>
            if e =? 117 then
              match s'' with
              | h1 :: h2 :: h3 :: h4 :: s3 =>
                  match hex4 h1 h2 h3 h4 with
                  | Some u => cons_fst u (parse_string_body s3)
                  | None => None
                  end
              | _ => None
              end
            else
              match simple_escape e with
              | Some u => cons_fst u (parse_string_body s'')
              | None => None
              end
        end
      else cons_fst c (parse_string_body s')
  end.

(** Longest run of digits at the head of the input. *)
Fixpoint span_digits (s : jsstring) : jsstring * jsstring :=
  match s with
  | [] => ([], [])
  | c :: s' =>
      if is_digit c then let (d, r) := span_digits s' in (c :: d, r)
      else ([], s)
  end.

Fixpoint digits_Z (acc : Z) (s : jsstring) : Z :=
  match s with
  | [] => acc
  | c :: s' => digits_Z (10 * acc + (c - 48)) s'
  end.

(** The integer [m * 10^e] a number literal denotes, when it is an
    integer a double holds exactly; [Unmodelled] otherwise. *)
Definition scaled_int (neg : bool) (m e : Z) : result Z :=
  if m =? 0 then Ok 0
  else if 400 <? Z.abs e then Unmodelled
  else if 0 <=? e then
    let v := m * 10 ^ e in
    if safe_int v then Ok (if neg then - v else v) else Unmodelled
  else
    let p := 10 ^ (- e) in
    if (m mod p =? 0) && safe_int (m / p) then
      Ok (if neg then - (m / p) else m / p)
    else Unmodelled.

(** A number literal after its integer part [ip]: [frac? exp?]. *)
Definition number_tail (neg : bool) (ip s2 : jsstring) : result (Z * jsstring) :=
  let '(fp, s3, frac_ok) :=
    match s2 with
    | c :: r =>
        if c =? 46 then
          let (f, r') := span_digits r in
          (f, r', negb (match f with [] => true | _ => false end))
        else ([], s2, true)
    | [] => ([], s2, true)
    end in
  if negb frac_ok then Throw SyntaxError
  else
    let '(ex, s4, exp_ok) :=
      match s3 with
      | c :: r =>
          if (c =? 101) || (c =? 69) then
            let '(eneg, r1) :=
              match r with
              | g :: r0 => if g =? 45 then (true, r0)
                           else if g =? 43 then (false, r0)
                           else (false, r)
              | [] => (false, r)
              end in
            let (ed, r2) := span_digits r1 in
            match ed with
            | [] => (0, r2, false)
            | _ =>
                if 6 <? Z.of_nat (List.length ed) then
                  ((if eneg then -1000000 else 1000000), r2, true)
                else ((if eneg then - digits_Z 0 ed else digits_Z 0 ed), r2, true)
            end
          else (0, s3, true)
      | [] => (0, s3, true)
      end in
    if negb exp_ok then Throw SyntaxError
    else
      n <- scaled_int neg (digits_Z 0 (ip ++ fp)) (ex - Z.of_nat (List.length fp)) ;;
      Ok (n, s4).

(** A number literal: [-? int frac? exp?]. *)
Definition parse_number (s : jsstring) : result (Z * jsstring) :=
  let (neg, s1) := match s with
                   | c :: r => if c =? 45 then (true, r) else (false, s)
                   | [] => (false, s)
                   end in
  let (ip, s2) := span_digits s1 in
  match ip with
  | [] => Throw SyntaxError
  | d :: ip' =>
      let leading_zero := (d =? 48) && negb (match ip' with [] => true | _ => false end) in
      if leading_zero then Throw SyntaxError
      else number_tail neg ip s2
  end.

Definition with_rest {A} (r : result (A * jsstring)) (f : A -> json)
  : option (result (json * jsstring)) :=
  Some (match r with
        | Ok (a, rest) => Ok (f a, rest)
        | Throw e => Throw e
        | Unmodelled => Unmodelled
        end).

(** Recursive descent over the input; [None] when the fuel runs out,
    which [2 * length s + 2] rules out. Members are added with
    [obj_set], so a repeated key keeps its first place and its last
    value. *)
Fixpoint parse_value (fuel : nat) (s : jsstring)
  : option (result (json * jsstring)) :=
  match fuel with
  | O => None
  | S f =>
      match skip_ws s with
      | [] => Some (Throw SyntaxError)
      | c :: r =>
          if c =? 123 then
            match skip_ws r with
            | d :: r' => if d =? 125 then Some (Ok (JObj [], r'))
                         else parse_members f [] r
            | [] => Some (Throw SyntaxError)
            end
          else if c =? 91 then
            match skip_ws r with
            | d :: r' => if d =? 93 then Some (Ok (JArr [], r'))
                         else parse_elements f [] r
            | [] => Some (Throw SyntaxError)
            end
          else if c =? 34 then
            match parse_string_body r with
            | Some (str, rest) => Some (Ok (JStr str, rest))
            | None => Some (Throw SyntaxError)
            end
          else if startsWith (c :: r) (lit "true") then Some (Ok (JBool true, skipn 4 (c :: r)))
          else if startsWith (c :: r) (lit "false") then Some (Ok (JBool false, skipn 5 (c :: r)))
          else if startsWith (c :: r) (lit "null") then Some (Ok (JNull, skipn 4 (c :: r)))
          else if (c =? 45) || is_digit c then with_rest (parse_number (c :: r)) JNum
          else Some (Throw SyntaxError)
      end
  end
with parse_elements (fuel : nat) (acc : list json) (s : jsstring)
  : option (result (json * jsstring)) :=
  match fuel with
  | O => None
  | S f =>
      match parse_value f s with
      | None => None
      | Some (Ok (v, r)) =>
          match skip_ws r with
          | d :: r' =>
              if d =? 44 then parse_elements f (v :: acc) r'
              else if d =? 93 then Some (Ok (JArr (rev (v :: acc)), r'))
              else Some (Throw SyntaxError)
          | [] => Some (Throw SyntaxError)
          end
      | Some (Throw e) => Some (Throw e)
      | Some Unmodelled => Some Unmodelled
      end
  end
with parse_members (fuel : nat) (acc : props) (s : jsstring)
  : option (result (json * jsstring)) :=
  match fuel with
  | O => None
  | S f =>
      match skip_ws s with
      | q :: r =>
          if q =? 34 then
            match parse_string_body r with
            | Some (k, r1) =>
                match skip_ws r1 with
                | c :: r2 =>
                    if c =? 58 then
                      match parse_value f r2 with
                      | None => None
                      | Some (Ok (v, r3)) =>
                          match skip_ws r3 with
                          | d :: r4 =>
                              if d =? 44 then parse_members f (obj_set k v acc) r4
                              else if d =? 125 then Some (Ok (JObj (obj_set k v acc), r4))
                              else Some (Throw SyntaxError)
                          | [] => Some (Throw SyntaxError)
                          end
                      | Some (Throw e) => Some (Throw e)
                      | Some Unmodelled => Some Unmodelled
                      end
                    else Some (Throw SyntaxError)
                | [] => Some (Throw SyntaxError)
                end
            | None => Some (Throw SyntaxError)
            end
          else Some (Throw SyntaxError)
      | [] => Some (Throw SyntaxError)
      end
  end.

(** [JSON.parse(s)]: one value, then only white space. *)
Definition parse (s : jsstring) : result json :=
  match parse_value (2 * List.length s + 2) s with
  | None => Unmodelled
  | Some r =>
      vr <- r ;;
      match skip_ws (snd vr) with
      | [] => Ok (fst vr)
      | _ => Throw SyntaxError
      end
  end.

End Json.

Import Json.

(* ================================================================== *)
(** ** TextDecoder (UTF-8) *)
(* ================================================================== *)

Module Utf8.

(** A multi-byte sequence under way: bytes still needed, the code
    point so far, and the range allowed for the next byte. *)
Record pending := { needed : Z; cp : Z; lower : Z; upper : Z }.

Inductive lead := Single (c : Z) | Start (p : pending) | Invalid.

Definition classify (b : Z) : lead :=
  if (0 <=? b) && (b <=? 127) then Single b
  else if (194 <=? b) && (b <=? 223) then
    Start {| needed := 1; cp := Z.land b 31; lower := 128; upper := 191 |}
  else if (224 <=? b) && (b <=? 239) then
    Start {| needed := 2; cp := Z.land b 15;
             lower := if b =? 224 then 160 else 128;
             upper := if b =? 237 then 159 else 191 |}
  else if (240 <=? b) && (b <=? 244) then
    Start {| needed := 3; cp := Z.land b 7;
             lower := if b =? 240 then 144 else 128;
             upper := if b =? 244 then 143 else 191 |}
  else Invalid.

(** UTF-16 units of a code point. *)
Definition units (c : Z) : jsstring :=
  if c <? 65536 then [c]
  else [55296 + Z.shiftr (c - 65536) 10; 56320 + Z.land (c - 65536) 1023].

(** The WHATWG UTF-8 decoder with replacement: a byte that cannot
    continue the sequence ends it with U+FFFD and is read again as a
    first byte. *)
Fixpoint decode_from (st : option pending) (bs : list Z) : jsstring :=
  match bs with
  | [] => match st with
          | None => []
          | Some _ => [65533]
          end
  | b :: bs' =>
      let fresh :=
        match classify b with
        | Single c => c :: decode_from None bs'
        | Start p => decode_from (Some p) bs'
        | Invalid => 65533 :: decode_from None bs'
        end in
      match st with
      | None => fresh
      | Some p =>
          if (lower p <=? b) && (b <=? upper p) then
            let c := Z.lor (Z.shiftl (cp p) 6) (Z.land b 63) in
            if needed p =? 1 then units c ++ decode_from None bs'
            else decode_from
                   (Some {| needed := needed p - 1; cp := c; lower := 128; upper := 191 |})
                   bs'
          else 65533 :: fresh
      end
  end.

(** [new TextDecoder().decode(bytes)]: a leading byte order mark is
    dropped. *)
Definition decode (bs : list Z) : jsstring :=
  match bs with
  | 239 :: 187 :: 191 :: bs' => decode_from None bs'
  | _ => decode_from None bs
  end.

(** UTF-8 bytes of a code point. *)
Definition encode_cp (c : Z) : list Z :=
  if c <? 128 then [c]
  else if c <? 2048 then [192 + Z.shiftr c 6; 128 + Z.land c 63]
  else if c <? 65536 then
    [224 + Z.shiftr c 12; 128 + Z.land (Z.shiftr c 6) 63; 128 + Z.land c 63]
  else
    [240 + Z.shiftr c 18; 128 + Z.land (Z.shiftr c 12) 63;
     128 + Z.land (Z.shiftr c 6) 63; 128 + Z.land c 63].

(** UTF-8 encoding of a JS string: a surrogate pair is one code point,
    a lone surrogate becomes U+FFFD. *)
Fixpoint encode (s : jsstring) : list Z :=
  match s with
  | [] => []
  | c :: s' =>
      if Json.is_high_surrogate c then
        match s' with
        | d :: s'' =>
            if Json.is_low_surrogate d then
              encode_cp (65536 + (c - 55296) * 1024 + (d - 56320)) ++ encode s''
            else encode_cp 65533 ++ encode s'
        | [] => encode_cp 65533
        end
      else if Json.is_low_surrogate c then encode_cp 65533 ++ encode s'
      else encode_cp c ++ encode s'
  end.

End Utf8.

(* ================================================================== *)
(** ** node:path (posix) *)
(* ================================================================== *)

Module Path.

Definition slash : Z := 47.
Definition dot : Z := 46.

Fixpoint drop_slashes (s : jsstring) : jsstring :=
  match s with
  | [] => []
  | c :: s' => if c =? slash then drop_slashes s' else s
  end.

Fixpoint take_segment (s : jsstring) : jsstring :=
  match s with
  | [] => []
  | c :: s' => if c =? slash then [] else c :: take_segment s'
  end.

Fixpoint drop_segment (s : jsstring) : jsstring :=
  match s with
  | [] => []
  | c :: s' => if c =? slash then s else drop_segment s'
  end.

(** [path.basename(p)]: the last segment, trailing slashes ignored. *)
Definition basename (p : jsstring) : jsstring :=
  rev (take_segment (drop_slashes (rev p))).

Fixpoint take_to_dot (s : jsstring) : option (jsstring * jsstring) :=
  match s with
  | [] => None
  | c :: s' =>
      if c =? dot then Some ([], s')
      else match take_to_dot s' with
           | Some (a, b) => Some (c :: a, b)
           | None => None
           end
  end.

(** [path.extname(p)]: from the last dot of the basename, unless that
    dot starts the basename or the basename is [".."]. *)
Definition extname (p : jsstring) : jsstring :=
  let b := basename p in
  match take_to_dot (rev b) with
  | None => []
  | Some (rext, rstem) =>
      match rstem with
      | [] => []
      | _ => if str_eqb b [dot; dot] then [] else dot :: rev rext
      end
  end.

(** Segments kept by [normalizeString]. *)
Fixpoint normalize_segments (above_root : bool) (acc : list jsstring)
  (segs : list jsstring) : list jsstring :=
  match segs with
  | [] => rev acc
  | seg :: segs' =>
      if str_eqb seg [] || str_eqb seg [dot] then
        normalize_segments above_root acc segs'
      else if str_eqb seg [dot; dot] then
        match acc with
        | last :: acc' =>
            if str_eqb last [dot; dot] then
              normalize_segments above_root
                (if above_root then seg :: acc else acc) segs'
            else normalize_segments above_root acc' segs'
        | [] =>
            normalize_segments above_root
              (if above_root then [seg] else []) segs'
        end
      else normalize_segments above_root (seg :: acc) segs'
  end.

(** [path.normalize(p)]. *)
Definition normalize (p : jsstring) : jsstring :=
  match p with
  | [] => [dot]
  | c :: _ =>
      let absolute := c =? slash in
      let trailing := last p 0 =? slash in
      let body := Js.join [slash]
                    (normalize_segments (negb absolute) [] (split slash p)) in
      match body with
      | [] => if absolute then [slash]
              else if trailing then [dot; slash] else [dot]
      | _ =>
          let body' := if trailing then body ++ [slash] else body in
          if absolute then slash :: body' else body'
      end
  end.

(** [path.join(a, b)]. *)
Definition join (a b : jsstring) : jsstring :=
  match a, b with
  | [], [] => [dot]
  | [], _ => normalize b
  | _, [] => normalize a
  | _, _ => normalize (a ++ slash :: b)
  end.

(** [path.dirname(p)]. *)
Definition dirname (p : jsstring) : jsstring :=
  match p with
  | [] => [dot]
  | c :: t =>
      let root := c =? slash in
      match drop_slashes (rev t) with
      | [] => if root then [slash] else [dot]
      | r1 =>
          match drop_segment r1 with
          | [] => if root then [slash] else [dot]
          | _ :: r3 =>
              match r3 with
              | [] => if root then [slash; slash] else [c]
              | _ => c :: rev r3
              end
          end
      end
  end.

End Path.

(* ================================================================== *)
(** ** The file system and the console *)
(* ================================================================== *)

Module Fs.

(** Outcome of a file system call: it returns or it throws. *)
Inductive io (A : Type) :=
| Done (a : A)
| Failed (e : exn).
Arguments Done {A} a.
Arguments Failed {A} e.

Definition lift {A} (x : io A) : result A :=
  match x with
  | Done a => Ok a
  | Failed e => Throw e
  end.

(** The [fs] calls the sources make, over a file system state [F].
    The sources treat them as primitives. *)
Class FileSystem (F : Type) := {
  existsSync : F -> jsstring -> bool;
  (** [fs.statSync(p).isDirectory()] *)
  stat_isDirectory : F -> jsstring -> io bool;
  (** the bytes of a file *)
  read_bytes : F -> jsstring -> io (list Z);
  write_bytes : F -> jsstring -> list Z -> io F;
  (** [fs.mkdirSync(p, { recursive: true })] *)
  mkdir_recursive : F -> jsstring -> io F;
  unlink : F -> jsstring -> io F;
  readdir : F -> jsstring -> io (list jsstring)
}.

Section Calls.
Context {F : Type} `{FileSystem F}.

Definition isDirectory (fs : F) (p : jsstring) : result bool :=
  lift (stat_isDirectory fs p).

Definition readFile (fs : F) (p : jsstring) : result (list Z) :=
  lift (read_bytes fs p).

Definition writeFile (fs : F) (p : jsstring) (data : list Z) : result F :=
  lift (write_bytes fs p data).

Definition mkdirp (fs : F) (p : jsstring) : result F :=
  lift (mkdir_recursive fs p).

Definition unlinkSync (fs : F) (p : jsstring) : result F :=
  lift (unlink fs p).

Definition readdirSync (fs : F) (p : jsstring) : result (list jsstring) :=
  lift (readdir fs p).

End Calls.

(** [fs.copyFileSync(src, dst)]. *)
Definition copyFileSync {F} `{FileSystem F} (fs : F) (src dst : jsstring) : result F :=
  data <- readFile fs src ;;
  writeFile fs dst data.

(** [fs.readFileSync(p, "utf8")]: the bytes decoded as UTF-8, a byte
    order mark kept. *)
Definition readFileUtf8 {F} `{FileSystem F} (fs : F) (p : jsstring) : result jsstring :=
  data <- readFile fs p ;;
  Ok (Utf8.decode_from None data).

(** [fs.writeFileSync(p, text)]: the text encoded as UTF-8. *)
Definition writeFileText {F} `{FileSystem F} (fs : F) (p : jsstring) (text : jsstring)
  : result F :=
  writeFile fs p (Utf8.encode text).

(** A message on [console.warn] or [console.error]: the text that is
    the first argument of the call, an error object printed after it
    being left out. [Stack e] is [console.error(err.stack)] for the
    error [e], a text the engine makes. *)
Inductive msg := Warn (text : jsstring) | Error (text : jsstring) | Stack (e : exn).

(** A concrete file system: normalized paths bound to files or
    directories, the first binding of a path being the current one.
    ["."] and ["/"] always exist. *)
Inductive node := File (data : list Z) | Dir.

Definition disk := list (jsstring * node).

Definition key (p : jsstring) : jsstring :=
  let n := Path.normalize p in
  match rev n with
  | c :: r => if (c =? Path.slash) && negb (str_eqb n [Path.slash]) then rev r else n
  | [] => n
  end.

Fixpoint assoc (k : jsstring) (d : disk) : option node :=
  match d with
  | [] => None
  | (k', n) :: d' => if str_eqb k k' then Some n else assoc k d'
  end.

Definition disk_lookup (d : disk) (p : jsstring) : option node :=
  let k := key p in
  if str_eqb k [Path.dot] || str_eqb k [Path.slash] then Some Dir
  else assoc k d.

Definition disk_exists (d : disk) (p : jsstring) : bool :=
  match p with
  | [] => false
  | _ => match disk_lookup d p with
         | Some _ => true
         | None => false
         end
  end.

Definition disk_isDirectory (d : disk) (p : jsstring) : io bool :=
  match disk_lookup d p with
  | Some Dir => Done true
  | Some (File _) => Done false
  | None => Failed IOError
  end.

Definition disk_read (d : disk) (p : jsstring) : io (list Z) :=
  match disk_lookup d p with
  | Some (File data) => Done data
  | _ => Failed IOError
  end.

Definition disk_write (d : disk) (p : jsstring) (data : list Z) : io disk :=
  match disk_lookup d p, disk_lookup d (Path.dirname (key p)) with
  | Some Dir, _ => Failed IOError
  | _, Some Dir => Done ((key p, File data) :: d)
  | _, _ => Failed IOError
  end.

(** The path and its ancestors, nearest first. *)
Fixpoint ancestors (fuel : nat) (k : jsstring) : list jsstring :=
  match fuel with
  | O => []
  | S f =>
      if str_eqb k [Path.dot] || str_eqb k [Path.slash] then []
      else k :: ancestors f (Path.dirname k)
  end.

Definition disk_mkdirp (d : disk) (p : jsstring) : io disk :=
  let ks := ancestors (List.length p) (key p) in
  if existsb (fun k => match assoc k d with Some (File _) => true | _ => false end) ks
  then Failed IOError
  else Done (map (fun k => (k, Dir))
               (filter (fun k => match assoc k d with Some _ => false | None => true end) ks)
             ++ d).

Definition disk_unlink (d : disk) (p : jsstring) : io disk :=
  match disk_lookup d p with
  | Some (File _) => Done (filter (fun kn => negb (str_eqb (fst kn) (key p))) d)
  | _ => Failed IOError
  end.

Fixpoint dedup (seen : list jsstring) (l : list jsstring) : list jsstring :=
  match l with
  | [] => []
  | x :: l' =>
      if existsb (str_eqb x) seen then dedup seen l'
      else x :: dedup (x :: seen) l'
  end.

Definition disk_readdir (d : disk) (p : jsstring) : io (list jsstring) :=
  match disk_lookup d p with
  | Some Dir =>
      Done (dedup []
            (map (fun kn => Path.basename (fst kn))
               (filter (fun kn => str_eqb (Path.dirname (fst kn)) (key p)) d)))
  | _ => Failed IOError
  end.

#[export] Instance disk_fs : FileSystem disk := {|
  existsSync := disk_exists;
  stat_isDirectory := disk_isDirectory;
  read_bytes := disk_read;
  write_bytes := disk_write;
  mkdir_recursive := disk_mkdirp;
  unlink := disk_unlink;
  readdir := disk_readdir
|}.

End Fs.

Import Fs.

(* ================================================================== *)
(** ** packages/cli/apps.js *)
(* ================================================================== *)

Module Apps.

(** [str2ab]: one byte per code unit, [buf[i] = str.charCodeAt(i)]
    stored into a [Uint8Array], that is modulo 256. *)
Definition str2ab (str : jsstring) : list Z := map (fun c => c mod 256) str.

(** [ab2str]: [new TextDecoder().decode(buf)]. *)
Definition ab2str (buf : list Z) : jsstring := Utf8.decode buf.

(** [ArrayBuffer.prototype.slice(begin, end)] on integer arguments. *)
Definition ab_slice (buf : list Z) (b e : Z) : list Z :=
  let len := Z.of_nat (List.length buf) in
  let first := if b <? 0 then Z.max (len + b) 0 else Z.min b len in
  let final := if e <? 0 then Z.max (len + e) 0 else Z.min e len in
  firstn (Z.to_nat (Z.max (final - first) 0)) (skipn (Z.to_nat first) buf).

(** [new DataView(buffer).getUint32(0, true)]. *)
Definition getUint32_le (buf : list Z) : result Z :=
  match buf with
  | b0 :: b1 :: b2 :: b3 :: _ => Ok (b0 + 256 * b1 + 65536 * b2 + 16777216 * b3)
  | _ => Throw RangeError
  end.

(** [new DataView(a.buffer).setUint32(0, n, true)] on a fresh 4-byte
    array. *)
Definition setUint32_le (n : Z) : list Z :=
  let m := n mod 4294967296 in
  [m mod 256; (m / 256) mod 256; (m / 65536) mod 256; (m / 16777216) mod 256].

Definition printable (c : Z) : bool := (32 <=? c) && (c <=? 126).

(** Removal of every unit outside the printable ASCII range
    [\x20-\x7E]. *)
Definition strip_nonprintable (s : jsstring) : jsstring := filter printable s.

Fixpoint take_to_quote (s : jsstring) : option (jsstring * jsstring) :=
  match s with
  | [] => None
  | c :: s' =>
      if c =? 34 then Some ([], s')
      else match take_to_quote s' with
           | Some (a, b) => Some (c :: a, b)
           | None => None
           end
  end.

(** A match, at the head of the input, of the pattern of
    [parseHypHeader]: a quoted key [message] or [emoji] followed by
    digits, a colon, and a quoted value free of quotes. The result is
    the matched text. *)
Definition match_field (s : jsstring) : option jsstring :=
  match s with
  | c :: r =>
      if c =? 34 then
        let name := if startsWith r (lit "message") then Some (lit "message")
                    else if startsWith r (lit "emoji") then Some (lit "emoji")
                    else None in
        match name with
        | Some nm =>
            let (ds, r2) := span_digits (skipn (List.length nm) r) in
            if startsWith r2 [34; 58; 34] then
              match take_to_quote (skipn 3 r2) with
              | Some (body, _) => Some (34 :: nm ++ ds ++ [34; 58; 34] ++ body ++ [34])
              | None => None
              end
            else None
        | None => None
        end
      else None
  | [] => None
  end.

(** The global replace of [parseHypHeader]: every match, left to
    right, loses its non-printable units; [skip] counts the units of
    the current match still to pass. *)
Fixpoint fix_fields (skip : nat) (s : jsstring) : jsstring :=
  match s with
  | [] => []
  | c :: s' =>
      match skip with
      | S k => fix_fields k s'
      | O =>
          match match_field s with
          | Some m => strip_nonprintable m ++ fix_fields (List.length m - 1) s'
          | None => c :: fix_fields 0 s'
          end
      end
  end.

(** [parseHypHeader(buffer, headerSize)]: what it returns or throws.
    What it prints is [parseHypHeader_errors]. *)
Definition parseHypHeader (buffer : list Z) (headerSize : Z) : result json :=
  let rawHeaderStr := ab2str (ab_slice buffer 4 (4 + headerSize)) in
  let fixedHeaderStr := fix_fields 0 rawHeaderStr in
  try_catch (parse fixedHeaderStr)
    (fun _ => parse (strip_nonprintable rawHeaderStr)).

(** What [parseHypHeader] prints on the error channel: the
    [console.error] of its [catch], reached when the fixed text does
    not parse. *)
Definition parseHypHeader_errors (buffer : list Z) (headerSize : Z) : list msg :=
  let rawHeaderStr := ab2str (ab_slice buffer 4 (4 + headerSize)) in
  match parse (fix_fields 0 rawHeaderStr) with
  | Throw _ => [Error (lit "Still having JSON parsing issues:")]
  | _ => []
  end.

(** An asset as [importApp] returns it. *)
Record imported_asset := {
  ia_type : option json;
  ia_url : jsstring;
  ia_fileName : jsstring;
  ia_data : list Z;
  ia_size : Z;
  ia_mime : option json
}.

Record imported_app := {
  app_blueprint : option json;
  app_assets : list imported_asset
}.

(** What [for (const x of v)] iterates. *)
Definition iterate (v : option json) : result (list json) :=
  match v with
  | Some (JArr l) => Ok l
  | Some (JStr s) => Ok (map (fun c => JStr [c]) s)
  | _ => Throw TypeError
  end.

(** The extraction loop of [importApp]. *)
Fixpoint extract_assets (buffer : list Z) (position : Z) (infos : list json)
  : result (list imported_asset) :=
  match infos with
  | [] => Ok []
  | assetInfo :: rest =>
      size <- get_prop assetInfo (lit "size") ;;
      match size with
      | Some (JNum n) =>
          if safe_int (position + n) then
            let data := ab_slice buffer position (position + n) in
            url <- get_prop assetInfo (lit "url") ;;
            match url with
            | Some (JStr u) =>
                ty <- get_prop assetInfo (lit "type") ;;
                mime <- get_prop assetInfo (lit "mime") ;;
                more <- extract_assets buffer (position + n) rest ;;
                Ok ({| ia_type := ty; ia_url := u; ia_fileName := split_pop 47 u;
                       ia_data := data; ia_size := n; ia_mime := mime |} :: more)
            | _ => Throw TypeError
            end
          else Unmodelled
      | _ => Unmodelled
      end
  end.

(** What [importApp] prints on the error channel: what
    [parseHypHeader] prints, when the header as read does not parse. *)
Definition importApp_errors (buffer : list Z) : list msg :=
  match getUint32_le buffer with
  | Ok headerSize =>
      match parse (ab2str (ab_slice buffer 4 (4 + headerSize))) with
      | Throw _ => parseHypHeader_errors buffer headerSize
      | _ => []
      end
  | _ => []
  end.

(** [importApp(filePath)], on the bytes of the file: what it returns
    or throws. What it prints is [importApp_errors]. *)
Definition importApp (buffer : list Z) : result imported_app :=
  headerSize <- getUint32_le buffer ;;
  header <- try_catch (parse (ab2str (ab_slice buffer 4 (4 + headerSize))))
              (fun _ => parseHypHeader buffer headerSize) ;;
  assets <- get_prop header (lit "assets") ;;
  infos <- iterate assets ;;
  extracted <- extract_assets buffer (4 + headerSize) infos ;;
  blueprint <- get_prop header (lit "blueprint") ;;
  Ok {| app_blueprint := blueprint; app_assets := extracted |}.

Definition mimeTypes : list (jsstring * jsstring) :=
  [ (lit ".vrm", lit "model/vrm");
    (lit ".gltf", lit "model/gltf+json");
    (lit ".glb", lit "model/gltf-binary");
    (lit ".js", lit "application/javascript");
    (lit ".png", lit "image/png");
    (lit ".jpg", lit "image/jpeg");
    (lit ".jpeg", lit "image/jpeg");
    (lit ".gif", lit "image/gif");
    (lit ".webp", lit "image/webp");
    (lit ".mp3", lit "audio/mpeg");
    (lit ".wav", lit "audio/wav");
    (lit ".mp4", lit "video/mp4");
    (lit ".webm", lit "video/webm") ].

Fixpoint table_get (k : jsstring) (t : list (jsstring * jsstring)) : option jsstring :=
  match t with
  | [] => None
  | (k', v) :: t' => if str_eqb k k' then Some v else table_get k t'
  end.

(** [getMimeType(filePath)]. No unit outside ASCII lower-cases to a
    letter of the table's keys, so the ASCII lower-casing decides the
    lookup. *)
Definition getMimeType (filePath : jsstring) : jsstring :=
  match table_get (toLowerCase_ascii (Path.extname filePath)) mimeTypes with
  | Some m => m
  | None => lit "application/octet-stream"
  end.

(** ToString of a value inside a template literal. *)
Fixpoint to_string (v : json) : jsstring :=
  match v with
  | JNull => lit "null"
  | JBool true => lit "true"
  | JBool false => lit "false"
  | JNum n => int_toString n
  | JStr s => s
  | JArr l =>
      Js.join [44] (map (fun e => match e with
                                  | JNull => []
                                  | _ => to_string e
                                  end) l)
  | JObj _ => lit "[object Object]"
  end.

(** An asset named by the blueprint and found in the directory. *)
Record asset_path := {
  ap_type : option json;
  ap_url : jsstring;
  ap_path : jsstring
}.

(** An asset read from the directory. *)
Record packed_asset := {
  pa_type : option json;
  pa_url : jsstring;
  pa_data : list Z;
  pa_size : Z;
  pa_mime : jsstring
}.

(** [v.split("/").pop()] on a property value. *)
Definition file_name_of (v : json) : result jsstring :=
  match v with
  | JStr s => Ok (split_pop 47 s)
  | _ => Throw TypeError
  end.

Definition str_of (v : json) : jsstring :=
  match v with
  | JStr s => s
  | _ => []
  end.

Section WithFs.
Context {F : Type} `{FileSystem F}.

(** One reference of [packDirectory]: the entry pushed on
    [assetPaths] when the file is in the directory, and the warning
    otherwise. *)
Definition collect_ref (fs : F) (dirPath : jsstring) (ty : option json)
  (what : jsstring) (url : json) : result (list asset_path * list msg) :=
  name <- file_name_of url ;;
  let path := Path.join dirPath name in
  if existsSync fs path then
    Ok ([{| ap_type := ty; ap_url := str_of url; ap_path := path |}], [])
  else Ok ([], [Warn (lit "Warning: " ++ what ++ lit " file " ++ name ++ lit " not found")]).

(** A prop: its url, when the prop and the url are truthy. *)
Definition collect_prop (fs : F) (dirPath : jsstring) (value : json)
  : result (list asset_path * list msg) :=
  if truthy value then
    url <- get_prop value (lit "url") ;;
    if truthy_opt url then
      ty <- get_prop value (lit "type") ;;
      match url with
      | Some u => collect_ref fs dirPath ty (lit "Prop") u
      | None => Ok ([], [])
      end
    else Ok ([], [])
  else Ok ([], []).

Fixpoint collect_props (fs : F) (dirPath : jsstring) (entries : props)
  : result (list asset_path * list msg) :=
  match entries with
  | [] => Ok ([], [])
  | (key, value) :: rest =>
      one <- collect_prop fs dirPath value ;;
      more <- collect_props fs dirPath rest ;;
      Ok (fst one ++ fst more, snd one ++ snd more)
  end.

(** "Check for model", "Check for script", "Check for image" and
    "Check for props". *)
Definition collect_model (fs : F) (dirPath : jsstring) (model : option json)
  : result (list asset_path * list msg) :=
  match model with
  | Some m =>
      if truthy m then
        collect_ref fs dirPath
          (Some (JStr (if endsWith (str_of m) (lit ".vrm") then lit "avatar"
                       else lit "model")))
          (lit "Model") m
      else Ok ([], [])
  | None => Ok ([], [])
  end.

Definition collect_script (fs : F) (dirPath : jsstring) (script : option json)
  : result (list asset_path * list msg) :=
  match script with
  | Some m =>
      if truthy m then
        collect_ref fs dirPath (Some (JStr (lit "script"))) (lit "Script") m
      else Ok ([], [])
  | None => Ok ([], [])
  end.

Definition collect_image (fs : F) (dirPath : jsstring) (image : option json)
  : result (list asset_path * list msg) :=
  match image with
  | Some im =>
      if truthy im then
        url <- get_prop im (lit "url") ;;
        match url with
        | Some u =>
            if truthy u then
              collect_ref fs dirPath (Some (JStr (lit "texture"))) (lit "Image") u
            else Ok ([], [])
        | None => Ok ([], [])
        end
      else Ok ([], [])
  | None => Ok ([], [])
  end.

Definition collect_all_props (fs : F) (dirPath : jsstring) (props : option json)
  : result (list asset_path * list msg) :=
  match props with
  | Some ps => if truthy ps then collect_props fs dirPath (own_props ps)
               else Ok ([], [])
  | None => Ok ([], [])
  end.

(** The blueprint's references ("Find all assets mentioned in the
    blueprint"): model, script, image, props, in that order. *)
Definition collect_assets (fs : F) (dirPath : jsstring) (blueprintJson : json)
  : result (list asset_path * list msg) :=
  model <- get_prop blueprintJson (lit "model") ;;
  a1 <- collect_model fs dirPath model ;;
  script <- get_prop blueprintJson (lit "script") ;;
  a2 <- collect_script fs dirPath script ;;
  image <- get_prop blueprintJson (lit "image") ;;
  a3 <- collect_image fs dirPath image ;;
  props <- get_prop blueprintJson (lit "props") ;;
  a4 <- collect_all_props fs dirPath props ;;
  Ok (fst a1 ++ fst a2 ++ fst a3 ++ fst a4, snd a1 ++ snd a2 ++ snd a3 ++ snd a4).

(** The warnings that have been printed when the search for the
    assets ends, or throws: those of a step and of the steps after
    it, none of which is reached when the step throws. *)
Definition warnings_then {A} (r : result (A * list msg)) (later : list msg) : list msg :=
  match r with
  | Ok a => snd a ++ later
  | _ => []
  end.

Fixpoint props_warnings (fs : F) (dirPath : jsstring) (entries : props) : list msg :=
  match entries with
  | [] => []
  | (key, value) :: rest =>
      warnings_then (collect_prop fs dirPath value) (props_warnings fs dirPath rest)
  end.

Definition collect_warnings (fs : F) (dirPath : jsstring) (blueprintJson : json)
  : list msg :=
  match get_prop blueprintJson (lit "model"), get_prop blueprintJson (lit "script"),
        get_prop blueprintJson (lit "image"), get_prop blueprintJson (lit "props") with
  | Ok model, Ok script, Ok image, Ok props =>
      warnings_then (collect_model fs dirPath model)
        (warnings_then (collect_script fs dirPath script)
           (warnings_then (collect_image fs dirPath image)
              (match props with
               | Some ps =>
                   if truthy ps then props_warnings fs dirPath (own_props ps) else []
               | None => []
               end)))
  | _, _, _, _ => []
  end.

(** "Read asset files": the size is [fs.statSync(path).size], the data
    the bytes of the same file. *)
Fixpoint read_assets (fs : F) (paths : list asset_path) : result (list packed_asset) :=
  match paths with
  | [] => Ok []
  | a :: rest =>
      data <- readFile fs (ap_path a) ;;
      more <- read_assets fs rest ;;
      Ok ({| pa_type := ap_type a; pa_url := ap_url a; pa_data := data;
             pa_size := Z.of_nat (List.length data);
             pa_mime := getMimeType (ap_path a) |} :: more)
  end.

End WithFs.

(** The descriptor of an asset in the header; [JSON.stringify] leaves
    out a [type] that is [undefined]. *)
Definition descriptor (a : packed_asset) : json :=
  JObj ((match pa_type a with
         | Some t => [(lit "type", t)]
         | None => []
         end)
        ++ [(lit "url", JStr (pa_url a));
            (lit "size", JNum (pa_size a));
            (lit "mime", JStr (pa_mime a))]).

(** "Create header structure". *)
Definition make_header (blueprintJson : json) (assets : list packed_asset) : json :=
  JObj [(lit "blueprint", blueprintJson);
        (lit "assets", JArr (map descriptor assets))].

(** The bytes [packDirectory] writes: the size prefix, the header
    bytes, then the data of every asset. *)
Definition container_bytes (blueprintJson : json) (assets : list packed_asset) : list Z :=
  let headerBytes := str2ab (stringify (make_header blueprintJson assets)) in
  setUint32_le (Z.of_nat (List.length headerBytes))
    ++ headerBytes ++ List.concat (map pa_data assets).

(** How a command ends. *)
Inductive status (A : Type) := Returned (a : A) | Exited (code : Z) | Beyond.
Arguments Returned {A} a.
Arguments Exited {A} code.
Arguments Beyond {A}.

Section Pack.
Context {F : Type} `{FileSystem F}.

(** [${blueprintJson.name || "app"}.hyp]. *)
Definition hyp_name (blueprintJson : json) : result jsstring :=
  name <- get_prop blueprintJson (lit "name") ;;
  Ok ((match name with
       | Some n => if truthy n then to_string n else lit "app"
       | None => lit "app"
       end) ++ lit ".hyp").

(** The body of [packDirectory]'s [try]. *)
Definition pack_body (fs : F) (cwd dirPath : jsstring) (outputPath : option jsstring)
  : result (F * jsstring * list msg) :=
  text <- readFileUtf8 fs (Path.join dirPath (lit "blueprint.json")) ;;
  blueprintJson <- parse text ;;
  _ <- get_prop blueprintJson (lit "name") ;;
  found <- collect_assets fs dirPath blueprintJson ;;
  assets <- read_assets fs (fst found) ;;
  file <- hyp_name blueprintJson ;;
  out <- match outputPath with
         | None => Ok (Path.join cwd file)
         | Some o =>
             match o with
             | [] => Ok (Path.join cwd file)
             | _ =>
                 if existsSync fs o then
                   d <- isDirectory fs o ;;
                   Ok (if d then Path.join o file else o)
                 else Ok o
             end
         end ;;
  fs' <- writeFile fs out (container_bytes blueprintJson assets) ;;
  Ok (fs', out, snd found).

(** The warnings printed in the [try] of [packDirectory] when it
    throws: none when the blueprint could not be read, and otherwise
    those of the search for the assets, as far as it went. *)
Definition pack_warnings (fs : F) (dirPath : jsstring) : list msg :=
  match (text <- readFileUtf8 fs (Path.join dirPath (lit "blueprint.json")) ;;
         blueprintJson <- parse text ;;
         _ <- get_prop blueprintJson (lit "name") ;;
         Ok blueprintJson) with
  | Ok blueprintJson => collect_warnings fs dirPath blueprintJson
  | _ => []
  end.

(** [packDirectory(dirPath, outputPath, options)]: the file system
    after the run, what was printed on the warning and error channels,
    and the returned output path or the exit code. *)
Definition packDirectory (fs : F) (cwd dirPath : jsstring) (outputPath : option jsstring)
  : F * list msg * status jsstring :=
  if negb (existsSync fs dirPath) then
    (fs, [Error (lit "Error: Directory not found: " ++ dirPath)], Exited 1)
  else
    match isDirectory fs dirPath with
    | Ok false => (fs, [Error (lit "Error: " ++ dirPath ++ lit " is not a directory.")], Exited 1)
    | Ok true =>
        if negb (existsSync fs (Path.join dirPath (lit "blueprint.json"))) then
          (fs, [Error (lit "Error: blueprint.json not found in " ++ dirPath)], Exited 1)
        else
          match pack_body fs cwd dirPath outputPath with
          | Ok (fs', out, log) => (fs', log, Returned out)
          | Throw _ =>
              (fs, pack_warnings fs dirPath ++ [Error (lit "Error packing directory:")],
               Exited 1)
          | Unmodelled => (fs, [], Beyond)
          end
    | Throw _ => (fs, [Error (lit "Error packing directory:")], Exited 1)
    | Unmodelled => (fs, [], Beyond)
    end.

End Pack.

(** What [findAsset] returns. *)
Record found_asset := {
  originalPath : jsstring;
  fileName : jsstring
}.

(** An entry of [assetsCopied]. *)
Record copied_asset := {
  ca_source : jsstring;
  ca_dest : jsstring;
  ca_type : jsstring;
  ca_propKey : option jsstring;
  ca_hashedName : jsstring
}.

Section Build.
Context {F : Type} `{FileSystem F}.
(** The hexadecimal sha256 digest of a byte sequence. *)
Variable sha256_hex : list Z -> jsstring.

(** One loop of [findAsset] over the search directories: a directory
    that does not exist is passed over. *)
Fixpoint search_dirs (fs : F) (name : jsstring) (searchDirs : list jsstring)
  : option jsstring :=
  match searchDirs with
  | [] => None
  | dir :: rest =>
      if negb (existsSync fs dir) then search_dirs fs name rest
      else
        let fullPath := Path.join dir name in
        if existsSync fs fullPath then Some fullPath
        else search_dirs fs name rest
  end.

(** [findAsset(assetPath, searchDirs)]; [None] is [null]. *)
Definition findAsset (fs : F) (assetPath : jsstring) (searchDirs : list jsstring)
  : option found_asset :=
  let cleanPath := if startsWith assetPath (lit "asset://") then substring 8 assetPath
                   else assetPath in
  if existsSync fs cleanPath then
    Some {| originalPath := cleanPath; fileName := Path.basename cleanPath |}
  else
    let name := Path.basename cleanPath in
    match search_dirs fs name searchDirs with
    | Some fullPath => Some {| originalPath := fullPath; fileName := name |}
    | None =>
        match search_dirs fs cleanPath searchDirs with
        | Some fullPath =>
            Some {| originalPath := fullPath; fileName := Path.basename fullPath |}
        | None => None
        end
    end.

(** [hashFile(filePath)]. *)
Definition hashFile (fs : F) (filePath : jsstring) : result jsstring :=
  data <- readFile fs filePath ;;
  Ok (sha256_hex data).

(** The state [processAssets] works on: the file system, the entries
    of [assetsCopied] and the warnings printed. A step that throws
    keeps the state it had reached. *)
Record build_state := {
  bs_fs : F;
  bs_copied : list copied_asset;
  bs_log : list msg
}.

(** The treatment [processAssets] gives one reference: found, the file
    is copied under its hashed name and the new reference returned;
    not found, a warning is printed and [None] returned. *)
Definition process_ref (st : build_state) (appDir : jsstring) (searchDirs : list jsstring)
  (ty : jsstring) (propKey : option jsstring) (warning : jsstring) (ref : json)
  : build_state * result (option jsstring) :=
  match ref with
  | JStr r =>
      match findAsset (bs_fs st) r searchDirs with
      | Some asset =>
          match hashFile (bs_fs st) (originalPath asset) with
          | Ok hash =>
              let hashedName := hash ++ Path.extname (fileName asset) in
              let destPath := Path.join appDir hashedName in
              match copyFileSync (bs_fs st) (originalPath asset) destPath with
              | Ok fs' =>
                  ({| bs_fs := fs';
                      bs_copied := bs_copied st ++
                        [{| ca_source := originalPath asset; ca_dest := destPath;
                            ca_type := ty; ca_propKey := propKey;
                            ca_hashedName := hashedName |}];
                      bs_log := bs_log st |},
                   Ok (Some (lit "asset://" ++ hashedName)))
              | Throw e => (st, Throw e)
              | Unmodelled => (st, Unmodelled)
              end
          | Throw e => (st, Throw e)
          | Unmodelled => (st, Unmodelled)
          end
      | None =>
          ({| bs_fs := bs_fs st; bs_copied := bs_copied st;
              bs_log := bs_log st ++ [Warn warning] |}, Ok None)
      end
  | _ => (st, Throw TypeError)
  end.

(** [v.url = url] on a value whose [url] was read. *)
Definition set_url (v : json) (url : jsstring) : json :=
  match v with
  | JObj o => JObj (obj_set (lit "url") (JStr url) o)
  | _ => v
  end.

Definition set_url_opt (v : json) (url : option jsstring) : json :=
  match url with
  | Some u => set_url v u
  | None => v
  end.

(** [x && x.url], for [image] and for a prop. *)
Definition truthy_url (x : json) : option json :=
  match x with
  | JObj o =>
      match obj_get (lit "url") o with
      | Some u => if truthy u then Some u else None
      | None => None
      end
  | _ => None
  end.

(** The loop over [updatedBlueprint.props]. *)
Fixpoint process_props (st : build_state) (appDir : jsstring) (searchDirs : list jsstring)
  (entries : props) : build_state * result props :=
  match entries with
  | [] => (st, Ok [])
  | (key, prop) :: rest =>
      match truthy_url prop with
      | Some u =>
          match process_ref st appDir searchDirs (lit "prop") (Some key)
                  (lit "Warning: Prop asset not found: " ++ to_string u
                     ++ lit " (" ++ key ++ lit ")") u with
          | (st1, Ok new) =>
              match process_props st1 appDir searchDirs rest with
              | (st2, Ok rest') => (st2, Ok ((key, set_url_opt prop new) :: rest'))
              | (st2, Throw e) => (st2, Throw e)
              | (st2, Unmodelled) => (st2, Unmodelled)
              end
          | (st1, Throw e) => (st1, Throw e)
          | (st1, Unmodelled) => (st1, Unmodelled)
          end
      | None =>
          match process_props st appDir searchDirs rest with
          | (st2, Ok rest') => (st2, Ok ((key, prop) :: rest'))
          | (st2, Throw e) => (st2, Throw e)
          | (st2, Unmodelled) => (st2, Unmodelled)
          end
      end
  end.

(** The value [props] holds after the loop has set the [url] of its
    entries. *)
Definition rebuild_props (ps : json) (entries : props) : json :=
  match ps with
  | JObj _ => JObj entries
  | JArr _ => JArr (map snd entries)
  | _ => ps
  end.

(** "Process model". *)
Definition process_model (st : build_state) (appDir : jsstring) (searchDirs : list jsstring)
  (b : props) : build_state * result props :=
  match obj_get (lit "model") b with
  | Some m =>
      if truthy m then
        match process_ref st appDir searchDirs (lit "model") None
                (lit "Warning: Model asset not found: " ++ to_string m) m with
        | (st1, Ok (Some url')) => (st1, Ok (obj_set (lit "model") (JStr url') b))
        | (st1, Ok None) => (st1, Ok b)
        | (st1, Throw e) => (st1, Throw e)
        | (st1, Unmodelled) => (st1, Unmodelled)
        end
      else (st, Ok b)
  | None => (st, Ok b)
  end.

(** "Process image". *)
Definition process_image (st : build_state) (appDir : jsstring) (searchDirs : list jsstring)
  (b : props) : build_state * result props :=
  match obj_get (lit "image") b with
  | Some im =>
      match truthy_url im with
      | Some u =>
          match process_ref st appDir searchDirs (lit "image") None
                  (lit "Warning: Image asset not found: " ++ to_string u) u with
          | (st1, Ok (Some url')) => (st1, Ok (obj_set (lit "image") (set_url im url') b))
          | (st1, Ok None) => (st1, Ok b)
          | (st1, Throw e) => (st1, Throw e)
          | (st1, Unmodelled) => (st1, Unmodelled)
          end
      | None => (st, Ok b)
      end
  | None => (st, Ok b)
  end.

(** "Process props". *)
Definition process_all_props (st : build_state) (appDir : jsstring)
  (searchDirs : list jsstring) (b : props) : build_state * result props :=
  match obj_get (lit "props") b with
  | Some ps =>
      if truthy ps then
        match process_props st appDir searchDirs (own_props ps) with
        | (st1, Ok entries) =>
            (st1, Ok (obj_set (lit "props") (rebuild_props ps entries) b))
        | (st1, Throw e) => (st1, Throw e)
        | (st1, Unmodelled) => (st1, Unmodelled)
        end
      else (st, Ok b)
  | None => (st, Ok b)
  end.

Definition then_do (r : build_state * result props)
  (k : build_state -> props -> build_state * result props) : build_state * result props :=
  match r with
  | (st, Ok b) => k st b
  | _ => r
  end.

(** [processAssets(blueprint, { appDir, searchDirs })]: the file
    system, [assetsCopied] and the warnings at the end of the call,
    and the updated blueprint it returns. *)
Definition processAssets (fs : F) (blueprint : json) (appDir : jsstring)
  (searchDirs : list jsstring) : build_state * result json :=
  let st := {| bs_fs := fs; bs_copied := []; bs_log := [] |} in
  match then_do (then_do (process_model st appDir searchDirs (spread_into [] blueprint))
                   (fun st1 b1 => process_image st1 appDir searchDirs b1))
          (fun st2 b2 => process_all_props st2 appDir searchDirs b2) with
  | (st3, Ok b3) => (st3, Ok (JObj b3))
  | (st3, Throw e) => (st3, Throw e)
  | (st3, Unmodelled) => (st3, Unmodelled)
  end.

End Build.

Section Extract.
Context {F : Type} `{FileSystem F}.

(** [path.basename(filePath, ".hyp")] on a path that ends with
    [.hyp]: the base name without the extension, unless the base name
    is the extension; the empty string when the path is the
    extension. *)
Definition basename_hyp (filePath : jsstring) : jsstring :=
  if str_eqb filePath (lit ".hyp") then []
  else
    let base := Path.basename filePath in
    if str_eqb base (lit ".hyp") then base
    else firstn (List.length base - 4) base.

(** [importedApp.blueprint.name || path.basename(filePath, ".hyp")],
    as [path.join] takes it: a name that is not a string is refused
    there. *)
Definition app_name (blueprint : json) (filePath : jsstring) : result jsstring :=
  name <- get_prop blueprint (lit "name") ;;
  match name with
  | Some n =>
      if truthy n then
        match n with
        | JStr s => Ok s
        | _ => Throw TypeError
        end
      else Ok (basename_hyp filePath)
  | None => Ok (basename_hyp filePath)
  end.

(** "Extract all assets": a write that throws keeps the files written
    before it. *)
Fixpoint write_assets (fs : F) (appDir : jsstring) (assets : list imported_asset)
  : F * result unit :=
  match assets with
  | [] => (fs, Ok tt)
  | asset :: rest =>
      match writeFile fs (Path.join appDir (ia_fileName asset)) (ia_data asset) with
      | Ok fs' => write_assets fs' appDir rest
      | Throw e => (fs, Throw e)
      | Unmodelled => (fs, Unmodelled)
      end
  end.

(** The body of [extractHypFile]'s [try], once the path has passed
    the two checks. *)
Definition extract_body (fs : F) (filePath outputDir : jsstring) : F * result jsstring :=
  match (buffer <- readFile fs filePath ;; importApp buffer) with
  | Ok importedApp =>
      match app_blueprint importedApp with
      | None => (fs, Throw TypeError)
      | Some blueprint =>
          match app_name blueprint filePath with
          | Ok appName =>
              let appDir := Path.join outputDir appName in
              match mkdirp fs appDir with
              | Ok fs1 =>
                  match writeFileText fs1 (Path.join appDir (lit "blueprint.json"))
                          (stringify_pretty blueprint) with
                  | Ok fs2 =>
                      match write_assets fs2 appDir (app_assets importedApp) with
                      | (fs3, Ok _) => (fs3, Ok appDir)
                      | (fs3, Throw e) => (fs3, Throw e)
                      | (fs3, Unmodelled) => (fs3, Unmodelled)
                      end
                  | Throw e => (fs1, Throw e)
                  | Unmodelled => (fs1, Unmodelled)
                  end
              | Throw e => (fs, Throw e)
              | Unmodelled => (fs, Unmodelled)
              end
          | Throw e => (fs, Throw e)
          | Unmodelled => (fs, Unmodelled)
          end
      end
  | Throw e => (fs, Throw e)
  | Unmodelled => (fs, Unmodelled)
  end.

(** What the [try] of [extractHypFile] prints on the error channel
    before it returns or throws: what [importApp] prints on the bytes
    of the file. *)
Definition extract_errors (fs : F) (filePath : jsstring) : list msg :=
  match readFile fs filePath with
  | Ok buffer => importApp_errors buffer
  | _ => []
  end.

(** [extractHypFile(filePath, outputDir, options)]: the file system
    after the run, what was printed on the error channel, and the
    returned directory or the exit code. *)
Definition extractHypFile (fs : F) (filePath outputDir : jsstring)
  : F * list msg * status jsstring :=
  if negb (endsWith filePath (lit ".hyp")) then
    (fs, [Error (lit "Error: File must have .hyp extension.")], Exited 1)
  else if negb (existsSync fs filePath) then
    (fs, [Error (lit "Error: File not found: " ++ filePath)], Exited 1)
  else
    match extract_body fs filePath outputDir with
    | (fs', Ok appDir) => (fs', extract_errors fs filePath, Returned appDir)
    | (fs', Throw _) =>
        (fs', extract_errors fs filePath ++ [Error (lit "Error extracting .hyp file:")],
         Exited 1)
    | (fs', Unmodelled) => (fs', extract_errors fs filePath, Beyond)
    end.

End Extract.

End Apps.

Import Apps.

(* ================================================================== *)
(** ** The world database *)
(* ================================================================== *)

Module Db.

(** A row of [blueprints] or [entities]; a column holds [JNull], a
    number or a text. *)
Record row := {
  r_id : json;
  r_data : json;
  r_createdAt : json;
  r_updatedAt : json
}.

Record config_row := {
  c_key : json;
  c_value : json
}.

(** The tables; [None] is a table that does not exist. Rows of [users]
    are kept as the objects a query returns. *)
Record database := {
  config : option (list config_row);
  users : option (list json);
  blueprints : option (list row);
  entities : option (list row)
}.

Definition empty_db : database :=
  {| config := None; users := None; blueprints := None; entities := None |}.

(** A value of a [const { x } = obj] pattern or a property read, as a
    column: [undefined] is stored as NULL. *)
Definition column (v : option json) : json :=
  match v with
  | Some x => x
  | None => JNull
  end.

(** [JSON.parse(v)] on a column: the argument is first made a
    string. *)
Definition parse_column (v : json) : result json := parse (to_string v).

(** Two primary keys clash when neither is NULL and they have the same
    text. *)
Definition same_key (a b : json) : bool :=
  match a, b with
  | JNull, _ => false
  | _, JNull => false
  | _, _ => str_eqb (to_string a) (to_string b)
  end.

(** [db(table).insert(row)] under a primary key. *)
Definition insert {R} (key : R -> json) (r : R) (t : option (list R)) : result (list R) :=
  match t with
  | None => Throw DbError
  | Some rows =>
      if existsb (fun r' => same_key (key r) (key r')) rows then Throw DbError
      else Ok (rows ++ [r])
  end.

(** [db.schema.createTable(name, ...)]. *)
Definition createTable {R} (t : option (list R)) : result (option (list R)) :=
  match t with
  | Some _ => Throw DbError
  | None => Ok (Some [])
  end.

(** [db(table).where("id", id).first()]. *)
Definition first_by_id (id : json) (rows : list row) : option row :=
  find (fun r => same_key id (r_id r)) rows.

(** [db(table).where("id", id).update({ data, updatedAt })]. *)
Definition update_by_id (id : json) (data updatedAt : json) (rows : list row) : list row :=
  map (fun r => if same_key id (r_id r)
                then {| r_id := r_id r; r_data := data;
                        r_createdAt := r_createdAt r; r_updatedAt := updatedAt |}
                else r) rows.

End Db.

Import Db.

(* ================================================================== *)
(** ** packages/cli/worlds.js *)
(* ================================================================== *)

Module Worlds.

(** What [storeAsset] returns, and with [usedIn] an entry of the
    manifest's [assets]. *)
Record asset_info := {
  ai_originalPath : jsstring;
  ai_originalName : jsstring;
  ai_hash : jsstring;
  ai_filename : jsstring;
  ai_extension : jsstring
}.

Record manifest_asset := {
  ma_info : asset_info;
  ma_id : json;
  ma_field : jsstring
}.

(** The manifest entry as the JSON object written to
    [world-metadata.json]. *)
Definition manifest_asset_json (a : manifest_asset) : json :=
  JObj [(lit "originalPath", JStr (ai_originalPath (ma_info a)));
        (lit "originalName", JStr (ai_originalName (ma_info a)));
        (lit "hash", JStr (ai_hash (ma_info a)));
        (lit "filename", JStr (ai_filename (ma_info a)));
        (lit "extension", JStr (ai_extension (ma_info a)));
        (lit "usedIn", JObj [(lit "type", JStr (lit "blueprint"));
                             (lit "id", ma_id a);
                             (lit "field", JStr (ma_field a))])].

(** [x?.startsWith("asset://")]: [Ok (Some s)] when [x] is a string
    with the prefix, [Ok None] when the test is false or [x] is
    nullish, a [TypeError] when [x] is of another type. *)
Definition asset_ref (x : option json) : result (option jsstring) :=
  match x with
  | None => Ok None
  | Some JNull => Ok None
  | Some (JStr s) => Ok (if startsWith s (lit "asset://") then Some s else None)
  | Some _ => Throw TypeError
  end.

(** [x?.url], for [image?.url] and [prop?.url]. *)
Definition url_of (x : option json) : option json :=
  match x with
  | Some (JObj o) => obj_get (lit "url") o
  | _ => None
  end.

Section Exchange.
Context {F : Type} `{FileSystem F}.
Variable sha256_hex : list Z -> jsstring.

(** [ensureDir(dir)]. *)
Definition ensureDir (fs : F) (dir : jsstring) : result F :=
  if existsSync fs dir then Ok fs else mkdirp fs dir.

(** [storeAsset(sourcePath, globalAssetsDir, verbose)]: the file
    system after the call, the asset info or [None] for [null], and
    the error printed by the [catch]. What it prints with [verbose]
    goes to [console.log], which is not followed here. *)
Definition storeAsset (fs : F) (sourcePath globalAssetsDir : jsstring)
  : F * option asset_info * list msg :=
  if negb (existsSync fs sourcePath) then (fs, None, [])
  else
    let failed fs' :=
      (fs', None, [Error (lit "Error storing asset " ++ sourcePath ++ lit ":")]) in
    match readFile fs sourcePath with
    | Ok fileContent =>
        let hash := sha256_hex fileContent in
        let ext := Path.extname sourcePath in
        let assetFilename := hash ++ ext in
        let destPath := Path.join globalAssetsDir assetFilename in
        match ensureDir fs globalAssetsDir with
        | Ok fs1 =>
            let info := {| ai_originalPath := sourcePath;
                           ai_originalName := Path.basename sourcePath;
                           ai_hash := hash; ai_filename := assetFilename;
                           ai_extension := ext |} in
            if negb (existsSync fs1 destPath) then
              match copyFileSync fs1 sourcePath destPath with
              | Ok fs2 => (fs2, Some info, [])
              | _ => failed fs1
              end
            else (fs1, Some info, [])
        | _ => failed fs
        end
    | _ => failed fs
    end.

(** State of the forward rewrite of one blueprint. *)
Record rewrite_state := {
  rs_fs : F;
  rs_assets : list manifest_asset;
  rs_log : list msg
}.

(** One reference of [extractBlueprints]: the asset is stored, the
    manifest entry pushed, and the new reference returned; [None] when
    the file is not in the source directory. *)
Definition store_ref (st : rewrite_state) (sourceAssetsDir globalAssetsDir : jsstring)
  (id : json) (field : jsstring) (ref : jsstring) : rewrite_state * option jsstring :=
  let assetFile := replace_first (lit "asset://") [] ref in
  let sourcePath := Path.join sourceAssetsDir assetFile in
  let '(fs', info, log) := storeAsset (rs_fs st) sourcePath globalAssetsDir in
  match info with
  | Some i =>
      ({| rs_fs := fs';
          rs_assets := rs_assets st ++ [{| ma_info := i; ma_id := id; ma_field := field |}];
          rs_log := rs_log st ++ log |},
       Some (lit "asset://" ++ ai_filename i))
  | None => ({| rs_fs := fs'; rs_assets := rs_assets st; rs_log := rs_log st ++ log |}, None)
  end.

(** A field [x] that may hold a reference: stored, the new reference
    is returned. A step that throws keeps the state it had reached. *)
Definition store_field (st : rewrite_state) (sourceAssetsDir globalAssetsDir : jsstring)
  (id : json) (field : jsstring) (x : option json)
  : rewrite_state * result (option jsstring) :=
  match asset_ref x with
  | Ok (Some ref) =>
      let '(st1, new) := store_ref st sourceAssetsDir globalAssetsDir id field ref in
      (st1, Ok new)
  | Ok None => (st, Ok None)
  | Throw e => (st, Throw e)
  | Unmodelled => (st, Unmodelled)
  end.

(** The loop over [fullBlueprint.props]. *)
Fixpoint store_props (st : rewrite_state) (sourceAssetsDir globalAssetsDir : jsstring)
  (id : json) (entries : props) : rewrite_state * result props :=
  match entries with
  | [] => (st, Ok [])
  | (key, prop) :: rest =>
      match store_field st sourceAssetsDir globalAssetsDir id
              (lit "props." ++ key ++ lit ".url") (url_of (Some prop)) with
      | (st1, Ok new) =>
          match store_props st1 sourceAssetsDir globalAssetsDir id rest with
          | (st2, Ok rest') => (st2, Ok ((key, set_url_opt prop new) :: rest'))
          | (st2, Throw e) => (st2, Throw e)
          | (st2, Unmodelled) => (st2, Unmodelled)
          end
      | (st1, Throw e) => (st1, Throw e)
      | (st1, Unmodelled) => (st1, Unmodelled)
      end
  end.

Definition set_str_opt (k : jsstring) (new : option jsstring) (b : props) : props :=
  match new with
  | Some url' => obj_set k (JStr url') b
  | None => b
  end.

Definition set_image_opt (new : option jsstring) (b : props) : props :=
  match new, obj_get (lit "image") b with
  | Some url', Some im => obj_set (lit "image") (set_url im url') b
  | _, _ => b
  end.

Definition rw_then (r : rewrite_state * result props)
  (k : rewrite_state -> props -> rewrite_state * result props)
  : rewrite_state * result props :=
  match r with
  | (st, Ok b) => k st b
  | _ => r
  end.

Definition rw_map {A} (r : rewrite_state * result A) (f : A -> props)
  : rewrite_state * result props :=
  match r with
  | (st, Ok a) => (st, Ok (f a))
  | (st, Throw e) => (st, Throw e)
  | (st, Unmodelled) => (st, Unmodelled)
  end.

(** The forward rewrite of [extractBlueprints] ("Extract assets from
    the blueprint"): model, script, image.url, then every prop. *)
Definition rewrite_forward (st : rewrite_state) (sourceAssetsDir globalAssetsDir : jsstring)
  (id : json) (fullBlueprint : props) : rewrite_state * result props :=
  rw_then
    (rw_map (store_field st sourceAssetsDir globalAssetsDir id (lit "model")
               (obj_get (lit "model") fullBlueprint))
       (fun new => set_str_opt (lit "model") new fullBlueprint))
    (fun st1 b1 =>
  rw_then
    (rw_map (store_field st1 sourceAssetsDir globalAssetsDir id (lit "script")
               (obj_get (lit "script") b1))
       (fun new => set_str_opt (lit "script") new b1))
    (fun st2 b2 =>
  rw_then
    (rw_map (store_field st2 sourceAssetsDir globalAssetsDir id (lit "image.url")
               (url_of (obj_get (lit "image") b2)))
       (fun new => set_image_opt new b2))
    (fun st3 b3 =>
  match obj_get (lit "props") b3 with
  | Some ps =>
      if truthy ps then
        rw_map (store_props st3 sourceAssetsDir globalAssetsDir id (own_props ps))
          (fun entries => obj_set (lit "props") (rebuild_props ps entries) b3)
      else (st3, Ok b3)
  | None => (st3, Ok b3)
  end))).

(** The state of an unpack or a pack: the file system, the database
    and what was printed on the error channel. The database is kept
    apart from the file at [dbPath], of which the file system holds
    the presence only: a run that writes to that file through [fs],
    an output path being the database path, is not described. *)
Record world := {
  w_fs : F;
  w_db : database;
  w_log : list msg
}.

Definition log_error (w : world) (text : jsstring) : world :=
  {| w_fs := w_fs w; w_db := w_db w; w_log := w_log w ++ [Error text] |}.

Definition with_fs (w : world) (fs : F) : world :=
  {| w_fs := fs; w_db := w_db w; w_log := w_log w |}.

Definition with_db (w : world) (db : database) : world :=
  {| w_fs := w_fs w; w_db := db; w_log := w_log w |}.

(** A step that throws keeps the state it had reached. *)
Definition step : Type := (world * result unit)%type.

Definition done (w : world) : step := (w, Ok tt).
Definition throw (w : world) (e : exn) : step := (w, Throw e).

Definition of_result {A} (w : world) (r : result A) (k : A -> step) : step :=
  match r with
  | Ok a => k a
  | Throw e => (w, Throw e)
  | Unmodelled => (w, Unmodelled)
  end.

Definition and_then (s : step) (k : world -> step) : step :=
  match s with
  | (w, Ok _) => k w
  | _ => s
  end.

(** [extractConfig(db, outputDir, verbose)]. *)
Fixpoint extract_config_rows (w : world) (outputDir : jsstring) (rows : list config_row)
  : step :=
  match rows with
  | [] => done w
  | c :: rest =>
      let configPath := Path.join outputDir (to_string (c_key c) ++ lit ".json") in
      match try_catch (parse_column (c_value c)) (fun _ => Ok (c_value c)) with
      | Ok configValue =>
          of_result w
            (writeFileText (w_fs w) configPath
               (stringify_pretty (JObj [(lit "key", c_key c); (lit "value", configValue)])))
            (fun fs' => extract_config_rows (with_fs w fs') outputDir rest)
      | Throw e => throw w e
      | Unmodelled => (w, Unmodelled)
      end
  end.

Definition extractConfig (w : world) (outputDir : jsstring) : step :=
  match config (w_db w) with
  | None => done w
  | Some rows => extract_config_rows w outputDir rows
  end.

(** [extractUsers(db, outputDir, verbose)]. *)
Fixpoint extract_user_rows (w : world) (outputDir : jsstring) (rows : list json) : step :=
  match rows with
  | [] => done w
  | user :: rest =>
      of_result w (get_prop user (lit "id")) (fun id =>
      let userPath := Path.join outputDir (to_string (column id) ++ lit ".json") in
      of_result w (writeFileText (w_fs w) userPath (stringify_pretty user))
        (fun fs' => extract_user_rows (with_fs w fs') outputDir rest))
  end.

Definition extractUsers (w : world) (outputDir : jsstring) : step :=
  match users (w_db w) with
  | None => done w
  | Some rows => extract_user_rows w outputDir rows
  end.

(** [{ id, createdAt, updatedAt, ...data }]. *)
Definition full_record (r : row) (data : json) : props :=
  spread_into [(lit "id", r_id r); (lit "createdAt", r_createdAt r);
               (lit "updatedAt", r_updatedAt r)] data.

(** The line the extract loops print with [-v] once a row is written,
    [`... (${data.type || "unknown type"})`]: it reads a property of
    the parsed data, which throws when the data is [null]. *)
Definition extracted_line (verbose : bool) (data : json) : result unit :=
  if verbose then (_ <- get_prop data (lit "type") ;; Ok tt) else Ok tt.

(** The loop of [extractBlueprints]: a row whose data does not parse
    is reported and passed over. *)
Fixpoint extract_blueprint_rows (w : world) (assets : list manifest_asset)
  (outputDir sourceAssetsDir globalAssetsDir : jsstring) (verbose : bool)
  (rows : list row) : step * list manifest_asset :=
  match rows with
  | [] => (done w, assets)
  | blueprint :: rest =>
      match parse_column (r_data blueprint) with
      | Throw _ =>
          extract_blueprint_rows
            (log_error w (lit "  - Error parsing blueprint data for "
                            ++ to_string (r_id blueprint)))
            assets outputDir sourceAssetsDir globalAssetsDir verbose rest
      | Unmodelled => ((w, Unmodelled), assets)
      | Ok data =>
          let st := {| rs_fs := w_fs w; rs_assets := assets; rs_log := w_log w |} in
          let '(st', r) := rewrite_forward st sourceAssetsDir globalAssetsDir
                             (r_id blueprint) (full_record blueprint data) in
          let w1 := {| w_fs := rs_fs st'; w_db := w_db w; w_log := rs_log st' |} in
          match r with
          | Ok fullBlueprint =>
              let blueprintPath :=
                Path.join outputDir (to_string (r_id blueprint) ++ lit ".json") in
              match writeFileText (w_fs w1) blueprintPath
                      (stringify_pretty (JObj fullBlueprint)) with
              | Ok fs' =>
                  match extracted_line verbose data with
                  | Ok _ =>
                      extract_blueprint_rows (with_fs w1 fs') (rs_assets st')
                        outputDir sourceAssetsDir globalAssetsDir verbose rest
                  | Throw e => (throw (with_fs w1 fs') e, rs_assets st')
                  | Unmodelled => ((with_fs w1 fs', Unmodelled), rs_assets st')
                  end
              | Throw e => (throw w1 e, rs_assets st')
              | Unmodelled => ((w1, Unmodelled), rs_assets st')
              end
          | Throw e => (throw w1 e, rs_assets st')
          | Unmodelled => ((w1, Unmodelled), rs_assets st')
          end
      end
  end.

(** [extractBlueprints(db, outputDir, sourceAssetsDir, globalAssetsDir,
    verbose)], with the assets it returns. *)
Definition extractBlueprints (w : world) (outputDir sourceAssetsDir globalAssetsDir : jsstring)
  (verbose : bool) : step * list manifest_asset :=
  match blueprints (w_db w) with
  | None => (done w, [])
  | Some rows =>
      extract_blueprint_rows w [] outputDir sourceAssetsDir globalAssetsDir verbose rows
  end.

(** The loop of [extractEntities]. *)
Fixpoint extract_entity_rows (w : world) (outputDir : jsstring) (verbose : bool)
  (rows : list row) : step :=
  match rows with
  | [] => done w
  | entity :: rest =>
      match parse_column (r_data entity) with
      | Throw _ =>
          extract_entity_rows
            (log_error w (lit "  - Error parsing entity data for "
                            ++ to_string (r_id entity)))
            outputDir verbose rest
      | Unmodelled => (w, Unmodelled)
      | Ok data =>
          let entityPath := Path.join outputDir (to_string (r_id entity) ++ lit ".json") in
          of_result w
            (writeFileText (w_fs w) entityPath
               (stringify_pretty (JObj (full_record entity data))))
            (fun fs' =>
               of_result (with_fs w fs') (extracted_line verbose data)
                 (fun _ => extract_entity_rows (with_fs w fs') outputDir verbose rest))
      end
  end.

(** [extractEntities(db, outputDir, verbose)]. *)
Definition extractEntities (w : world) (outputDir : jsstring) (verbose : bool) : step :=
  match entities (w_db w) with
  | None => done w
  | Some rows => extract_entity_rows w outputDir verbose rows
  end.

Fixpoint ensure_dirs (w : world) (dirs : list jsstring) : step :=
  match dirs with
  | [] => done w
  | d :: rest =>
      of_result w (ensureDir (w_fs w) d) (fun fs' => ensure_dirs (with_fs w fs') rest)
  end.

(** The [try] block of [unpackDatabase]. *)
Definition unpack_body (w : world) (now dbPath outputDir assetsDir globalAssetsDir : jsstring)
  (verbose : bool) : step :=
  let configDir := Path.join outputDir (lit "config") in
  let usersDir := Path.join outputDir (lit "users") in
  let blueprintsDir := Path.join outputDir (lit "blueprints") in
  let entitiesDir := Path.join outputDir (lit "entities") in
  and_then (ensure_dirs w [outputDir; configDir; usersDir; blueprintsDir; entitiesDir;
                           globalAssetsDir]) (fun w1 =>
  and_then (extractConfig w1 configDir) (fun w2 =>
  and_then (extractUsers w2 usersDir) (fun w3 =>
  let '(s4, assets) :=
    extractBlueprints w3 blueprintsDir assetsDir globalAssetsDir verbose in
  and_then s4 (fun w4 =>
  and_then (extractEntities w4 entitiesDir verbose) (fun w5 =>
  of_result w5
    (writeFileText (w_fs w5) (Path.join outputDir (lit "world-metadata.json"))
       (stringify_pretty
          (JObj [(lit "exportedAt", JStr now);
                 (lit "source", JStr dbPath);
                 (lit "assetsDir", JStr assetsDir);
                 (lit "assets", JArr (map manifest_asset_json assets))])))
    (fun fs' => done (with_fs w5 fs'))))))).

Definition log_stack (w : world) (e : exn) : world :=
  {| w_fs := w_fs w; w_db := w_db w; w_log := w_log w ++ [Stack e] |}.

(** How [try { body } catch (err) { console.error(text, err.message);
    if (verbose) console.error(err.stack); }] ends: the error is
    printed, with [-v] its stack after it, and the run goes on after
    the block. *)
Definition caught (verbose : bool) (s : step) (text : jsstring) : world * bool :=
  match s with
  | (w, Ok _) => (w, true)
  | (w, Throw e) =>
      (if verbose then log_stack (log_error w text) e else log_error w text, true)
  | (w, Unmodelled) => (w, false)
  end.

(** [unpackDatabase(dbPath, outputDir, assetsDir, globalAssetsDir,
    verbose)]. *)
Definition unpackDatabase (w : world) (now dbPath outputDir assetsDir globalAssetsDir : jsstring)
  (verbose : bool) : world * status unit :=
  if negb (existsSync (w_fs w) dbPath) then
    (log_error w (lit "Error: Database file not found: " ++ dbPath), Exited 1)
  else if negb (existsSync (w_fs w) assetsDir) then
    (log_error w (lit "Error: Assets directory not found: " ++ assetsDir), Exited 1)
  else
    match caught verbose
            (unpack_body w now dbPath outputDir assetsDir globalAssetsDir verbose)
            (lit "Error unpacking database:") with
    | (w', true) => (w', Returned tt)
    | (w', false) => (w', Beyond)
    end.

(** [fs.readdirSync(dir).filter((file) => file.endsWith(".json"))]. *)
Definition json_files (fs : F) (dir : jsstring) : result (list jsstring) :=
  files <- readdirSync fs dir ;;
  Ok (filter (fun file => endsWith file (lit ".json")) files).

(** [createDatabaseSchema(db, verbose)]. *)
Definition createDatabaseSchema (db : database) : result database :=
  c <- createTable (config db) ;;
  u <- createTable (users db) ;;
  b <- createTable (blueprints db) ;;
  e <- createTable (entities db) ;;
  Ok {| config := c; users := u; blueprints := b; entities := e |}.

(** [typeof v === "object"]. *)
Definition is_object (v : json) : bool :=
  match v with
  | JNull | JArr _ | JObj _ => true
  | _ => false
  end.

(** What the column [value] of [config], declared [table.text],
    holds of an inserted value: a string as it is, and NULL for
    [undefined]. What the driver and the column make of a number or a
    boolean is outside the model. *)
Definition text_cell (v : option json) : result json :=
  match v with
  | None => Ok JNull
  | Some (JStr s) => Ok (JStr s)
  | Some _ => Unmodelled
  end.

(** The loop of [importConfig]: a value of type [object] ([null]
    included) is inserted as its JSON text. *)
Fixpoint import_config_files (w : world) (inputDir : jsstring) (files : list jsstring)
  : step :=
  match files with
  | [] => done w
  | file :: rest =>
      of_result w (readFileUtf8 (w_fs w) (Path.join inputDir file)) (fun text =>
      of_result w (parse text) (fun configJson =>
      of_result w (get_prop configJson (lit "key")) (fun key =>
      of_result w (get_prop configJson (lit "value")) (fun value =>
      let value' := match value with
                    | Some v => Some (if is_object v then JStr (stringify v) else v)
                    | None => None
                    end in
      of_result w (text_cell value') (fun cell =>
      of_result w (insert c_key {| c_key := column key; c_value := cell |}
                     (config (w_db w))) (fun rows =>
      import_config_files
        (with_db w {| config := Some rows; users := users (w_db w);
                      blueprints := blueprints (w_db w);
                      entities := entities (w_db w) |})
        inputDir rest))))))
  end.

Definition importConfig (w : world) (inputDir : jsstring) : step :=
  of_result w (json_files (w_fs w) inputDir) (import_config_files w inputDir).

Definition user_id (user : json) : json :=
  match user with
  | JObj o => column (obj_get (lit "id") o)
  | _ => JNull
  end.

(** The loop of [importUsers]. *)
Fixpoint import_user_files (w : world) (inputDir : jsstring) (files : list jsstring)
  : step :=
  match files with
  | [] => done w
  | file :: rest =>
      of_result w (readFileUtf8 (w_fs w) (Path.join inputDir file)) (fun text =>
      of_result w (parse text) (fun user =>
      of_result w (get_prop user (lit "id")) (fun id =>
      of_result w (get_prop user (lit "name")) (fun name =>
      of_result w (get_prop user (lit "roles")) (fun roles =>
      of_result w (get_prop user (lit "avatar")) (fun avatar =>
      of_result w (get_prop user (lit "createdAt")) (fun createdAt =>
      of_result w (get_prop user (lit "updatedAt")) (fun updatedAt =>
      of_result w (insert user_id
                     (JObj [(lit "id", column id); (lit "name", column name);
                            (lit "roles", column roles); (lit "avatar", column avatar);
                            (lit "createdAt", column createdAt);
                            (lit "updatedAt", column updatedAt)])
                     (users (w_db w))) (fun rows =>
      import_user_files
        (with_db w {| config := config (w_db w); users := Some rows;
                      blueprints := blueprints (w_db w);
                      entities := entities (w_db w) |})
        inputDir rest)))))))))
  end.

Definition importUsers (w : world) (inputDir : jsstring) : step :=
  of_result w (json_files (w_fs w) inputDir) (import_user_files w inputDir).

(** The names every object inherits from [Object.prototype]. *)
Definition proto_names : list jsstring :=
  [lit "constructor"; lit "__proto__"; lit "hasOwnProperty"; lit "isPrototypeOf";
   lit "propertyIsEnumerable"; lit "toLocaleString"; lit "toString"; lit "valueOf";
   lit "__defineGetter__"; lit "__defineSetter__"; lit "__lookupGetter__";
   lit "__lookupSetter__"].

(** [assetMap[asset.filename] = asset.originalName] for every asset of
    the manifest. An [undefined] name is kept as [JNull], which is as
    falsy. *)
Fixpoint build_assetMap (acc : props) (assets : list json) : result props :=
  match assets with
  | [] => Ok acc
  | asset :: rest =>
      filename <- get_prop asset (lit "filename") ;;
      originalName <- get_prop asset (lit "originalName") ;;
      let k := match filename with
               | Some f => to_string f
               | None => lit "undefined"
               end in
      if str_eqb k (lit "__proto__") then Unmodelled
      else build_assetMap (obj_set k (column originalName) acc) rest
  end.

(** [assetMap[hashedFile]] when truthy. A name found only on
    [Object.prototype] is outside the model. *)
Definition assetMap_get (assetMap : props) (hashedFile : jsstring) : result (option json) :=
  match obj_get hashedFile assetMap with
  | Some v => Ok (if truthy v then Some v else None)
  | None => if existsb (str_eqb hashedFile) proto_names then Unmodelled else Ok None
  end.

(** One reference of [importBlueprints]: the original reference when
    the manifest maps the hashed file name. *)
Definition restore_ref (assetMap : props) (x : option json) : result (option jsstring) :=
  r <- asset_ref x ;;
  match r with
  | Some ref =>
      v <- assetMap_get assetMap (replace_first (lit "asset://") [] ref) ;;
      Ok (match v with
          | Some name => Some (lit "asset://" ++ to_string name)
          | None => None
          end)
  | None => Ok None
  end.

Fixpoint restore_props (assetMap : props) (entries : props) : result props :=
  match entries with
  | [] => Ok []
  | (key, prop) :: rest =>
      new <- restore_ref assetMap (url_of (Some prop)) ;;
      rest' <- restore_props assetMap rest ;;
      Ok ((key, set_url_opt prop new) :: rest')
  end.

(** The reverse rewrite of [importBlueprints] ("Rewrite asset
    references"). *)
Definition rewrite_reverse (assetMap : props) (blueprintCopy : props) : result props :=
  m <- restore_ref assetMap (obj_get (lit "model") blueprintCopy) ;;
  let b1 := set_str_opt (lit "model") m blueprintCopy in
  sc <- restore_ref assetMap (obj_get (lit "script") b1) ;;
  let b2 := set_str_opt (lit "script") sc b1 in
  im <- restore_ref assetMap (url_of (obj_get (lit "image") b2)) ;;
  let b3 := set_image_opt im b2 in
  match obj_get (lit "props") b3 with
  | Some ps =>
      if truthy ps then
        entries <- restore_props assetMap (own_props ps) ;;
        Ok (obj_set (lit "props") (rebuild_props ps entries) b3)
      else Ok b3
  | None => Ok b3
  end.

(** [{ ...full }] without [createdAt] and [updatedAt]. *)
Definition payload_copy (full : json) : props :=
  obj_delete (lit "updatedAt") (obj_delete (lit "createdAt") (spread_into [] full)).

Definition with_blueprints (w : world) (rows : list row) : world :=
  with_db w {| config := config (w_db w); users := users (w_db w);
               blueprints := Some rows; entities := entities (w_db w) |}.

Definition with_entities (w : world) (rows : list row) : world :=
  with_db w {| config := config (w_db w); users := users (w_db w);
               blueprints := blueprints (w_db w); entities := Some rows |}.

(** The loop of [importBlueprints]: [JSON.parse] is not guarded, a
    file that does not parse throws out of the loop. *)
Fixpoint import_blueprint_files (w : world) (assetMap : props) (inputDir : jsstring)
  (files : list jsstring) : step :=
  match files with
  | [] => done w
  | file :: rest =>
      of_result w (readFileUtf8 (w_fs w) (Path.join inputDir file)) (fun text =>
      of_result w (parse text) (fun fullBlueprint =>
      of_result w (get_prop fullBlueprint (lit "id")) (fun id =>
      of_result w (get_prop fullBlueprint (lit "createdAt")) (fun createdAt =>
      of_result w (get_prop fullBlueprint (lit "updatedAt")) (fun updatedAt =>
      of_result w (rewrite_reverse assetMap (payload_copy fullBlueprint))
        (fun blueprintCopy =>
      of_result w (insert r_id
                     {| r_id := column id;
                        r_data := JStr (stringify (JObj blueprintCopy));
                        r_createdAt := column createdAt;
                        r_updatedAt := column updatedAt |}
                     (blueprints (w_db w))) (fun rows =>
      import_blueprint_files (with_blueprints w rows) assetMap inputDir rest)))))))
  end.

(** [importBlueprints(db, inputDir, assets, verbose)]. *)
Definition importBlueprints (w : world) (inputDir : jsstring) (assets : json) : step :=
  of_result w (json_files (w_fs w) inputDir) (fun files =>
  match files with
  | [] => done w
  | _ =>
      of_result w (iterate (Some assets)) (fun l =>
      of_result w (build_assetMap [] l) (fun assetMap =>
      import_blueprint_files w assetMap inputDir files))
  end).

(** The loop of [importEntities]. *)
Fixpoint import_entity_files (w : world) (inputDir : jsstring) (files : list jsstring)
  : step :=
  match files with
  | [] => done w
  | file :: rest =>
      of_result w (readFileUtf8 (w_fs w) (Path.join inputDir file)) (fun text =>
      of_result w (parse text) (fun fullEntity =>
      of_result w (get_prop fullEntity (lit "id")) (fun id =>
      of_result w (get_prop fullEntity (lit "createdAt")) (fun createdAt =>
      of_result w (get_prop fullEntity (lit "updatedAt")) (fun updatedAt =>
      of_result w (insert r_id
                     {| r_id := column id;
                        r_data := JStr (stringify (JObj (payload_copy fullEntity)));
                        r_createdAt := column createdAt;
                        r_updatedAt := column updatedAt |}
                     (entities (w_db w))) (fun rows =>
      import_entity_files (with_entities w rows) inputDir rest))))))
  end.

Definition importEntities (w : world) (inputDir : jsstring) : step :=
  of_result w (json_files (w_fs w) inputDir) (import_entity_files w inputDir).

(** [path.join(dir, x)] on a property value: a [TypeError] unless it
    is a string. *)
Definition join_value (dir : jsstring) (x : option json) : result jsstring :=
  match x with
  | Some (JStr s) => Ok (Path.join dir s)
  | _ => Throw TypeError
  end.

(** "Copy required assets from global assets folder to db assets
    folder". *)
Fixpoint copy_assets (w : world) (copiedAssets : list json)
  (globalAssetsDir dbAssetsDir : jsstring) (assets : list json) : step :=
  match assets with
  | [] => done w
  | asset :: rest =>
      of_result w (get_prop asset (lit "filename")) (fun filename =>
      of_result w (join_value globalAssetsDir filename) (fun sourcePath =>
      of_result w (get_prop asset (lit "originalName")) (fun originalName =>
      of_result w (join_value dbAssetsDir originalName) (fun destPath =>
      if existsSync (w_fs w) sourcePath
         && negb (existsb (fun n => str_eqb (to_string n) (to_string (column originalName)))
                    copiedAssets)
      then
        of_result w (copyFileSync (w_fs w) sourcePath destPath) (fun fs' =>
        copy_assets (with_fs w fs') (column originalName :: copiedAssets)
          globalAssetsDir dbAssetsDir rest)
      else copy_assets w copiedAssets globalAssetsDir dbAssetsDir rest))))
  end.

(** "Read metadata to get assets info": [metadata.assets || []], and
    the empty list when the file is missing or does not parse. *)
Definition read_metadata (w : world) (metadataPath : jsstring) : world * result json :=
  if existsSync (w_fs w) metadataPath then
    match (text <- readFileUtf8 (w_fs w) metadataPath ;;
           metadata <- parse text ;;
           assets <- get_prop metadata (lit "assets") ;;
           Ok (match assets with
               | Some a => if truthy a then a else JArr []
               | None => JArr []
               end)) with
    | Ok a => (w, Ok a)
    | Throw _ => (log_error w (lit "Error reading metadata file:"), Ok (JArr []))
    | Unmodelled => (w, Unmodelled)
    end
  else (w, Ok (JArr [])).

(** The [try] block of [packDirectory]. *)
Definition pack_body (w : world) (inputDir globalAssetsDir dbAssetsDir : jsstring)
  (assets : json) : step :=
  of_result w (createDatabaseSchema (w_db w)) (fun db =>
  let w0 := with_db w db in
  and_then (if existsSync (w_fs w0) (Path.join inputDir (lit "config"))
            then importConfig w0 (Path.join inputDir (lit "config")) else done w0)
    (fun w1 =>
  and_then (if existsSync (w_fs w1) (Path.join inputDir (lit "users"))
            then importUsers w1 (Path.join inputDir (lit "users")) else done w1)
    (fun w2 =>
  and_then (of_result w2 (iterate (Some assets)) (fun l =>
            copy_assets w2 [] globalAssetsDir dbAssetsDir l))
    (fun w3 =>
  and_then (if existsSync (w_fs w3) (Path.join inputDir (lit "blueprints"))
            then importBlueprints w3 (Path.join inputDir (lit "blueprints")) assets
            else done w3)
    (fun w4 =>
  if existsSync (w_fs w4) (Path.join inputDir (lit "entities"))
  then importEntities w4 (Path.join inputDir (lit "entities"))
  else done w4))))).

(** What [packDirectory] does once its checks have passed and the
    database file is out of the way: the manifest is read and the
    [try] block run; the error it may throw is caught and printed. *)
Definition pack_import (w : world) (inputDir globalAssetsDir dbAssetsDir : jsstring)
  (verbose : bool) : world * status unit :=
  let '(w1, assets) := read_metadata w (Path.join inputDir (lit "world-metadata.json")) in
  match assets with
  | Ok a =>
      match caught verbose (pack_body w1 inputDir globalAssetsDir dbAssetsDir a)
              (lit "Error packing directory:") with
      | (w', true) => (w', Returned tt)
      | (w', false) => (w', Beyond)
      end
  | _ => (w1, Beyond)
  end.

(** [packDirectory(inputDir, dbPath, globalAssetsDir, force, verbose)].
    The database the run fills is new: the file at [dbPath] is absent
    or has just been removed. An error thrown outside the [try] block
    ends the process. *)
Definition packDirectory (w : world) (inputDir dbPath globalAssetsDir : jsstring)
  (force verbose : bool) : world * status unit :=
  if negb (existsSync (w_fs w) inputDir) then
    (log_error w (lit "Error: Directory not found: " ++ inputDir), Exited 1)
  else
    match isDirectory (w_fs w) inputDir with
    | Ok false =>
        (log_error w (lit "Error: " ++ inputDir ++ lit " is not a directory."), Exited 1)
    | Ok true =>
        if negb (existsSync (w_fs w) globalAssetsDir) then
          (log_error w (lit "Error: Global assets directory not found: "
                          ++ globalAssetsDir), Exited 1)
        else
          let dbExists := existsSync (w_fs w) dbPath in
          if dbExists && negb force then
            (log_error
               (log_error w (lit "Error: Database file already exists: " ++ dbPath))
               (lit "Use --force to overwrite existing database."), Exited 1)
          else
            let dbDir := Path.dirname dbPath in
            let dbAssetsDir := Path.join dbDir (lit "assets") in
            let fresh fs := {| w_fs := fs; w_db := empty_db; w_log := w_log w |} in
            match (if dbExists && force then unlinkSync (w_fs w) dbPath
                   else Ok (w_fs w)) with
            | Ok fs1 =>
                match ensureDir fs1 dbDir with
                | Ok fs2 =>
                    match ensureDir fs2 dbAssetsDir with
                    | Ok fs3 =>
                        pack_import (fresh fs3) inputDir globalAssetsDir dbAssetsDir verbose
                    | Throw _ => (log_error (fresh fs2) (lit "Uncaught error"), Exited 1)
                    | Unmodelled => (fresh fs2, Beyond)
                    end
                | Throw _ => (log_error (fresh fs1) (lit "Uncaught error"), Exited 1)
                | Unmodelled => (fresh fs1, Beyond)
                end
            | Throw _ => (log_error w (lit "Uncaught error"), Exited 1)
            | Unmodelled => (w, Beyond)
            end
    | Throw _ => (log_error w (lit "Uncaught error"), Exited 1)
    | Unmodelled => (w, Beyond)
    end.

End Exchange.

End Worlds.

(* ================================================================== *)
(** ** The db-cli commands and the deploy command's database step *)
(* ================================================================== *)

Module DbCli.

(** [x.k = v] in module (strict) code: on an object the property is
    set; on an array a named property is set that [JSON.stringify]
    does not print; on [null] or a primitive the assignment throws. *)
Definition assign (x : json) (k : jsstring) (v : json) : result json :=
  match x with
  | JObj o => Ok (JObj (obj_set k v o))
  | JArr l => Ok (JArr l)
  | _ => Throw TypeError
  end.

(** [(v || 0) + 1] for [v] read from a property. *)
Definition or_zero_plus_one (v : option json) : result json :=
  match v with
  | None => Ok (JNum 1)
  | Some x =>
      if truthy x then
        match x with
        | JNum n => if safe_int (n + 1) then Ok (JNum (n + 1)) else Unmodelled
        | JBool _ => Ok (JNum 2)
        | JStr s => Ok (JStr (s ++ lit "1"))
        | _ => Ok (JStr (to_string x ++ lit "1"))
        end
      else Ok (JNum 1)
  end.

(** How a command's [try] block ended. *)
Inductive report :=
| Updated
| NotFound
| Failed (e : exn).

(** The [try] block of [blueprint-update], from "Read updated data"
    on, for the existing row: the new [data] column. *)
Definition blueprint_update_data (existing : row) (id : jsstring) (fileContent : jsstring)
  : result jsstring :=
  updatedData <- parse fileContent ;;
  updatedData <- assign updatedData (lit "id") (JStr id) ;;
  existingData <- parse_column (r_data existing) ;;
  version <- get_prop updatedData (lit "version") ;;
  updatedData <- match version with
                 | None =>
                     old <- get_prop existingData (lit "version") ;;
                     v <- or_zero_plus_one old ;;
                     assign updatedData (lit "version") v
                 | Some _ => Ok updatedData
                 end ;;
  Ok (stringify updatedData).

(** The [blueprint-update] command on the [blueprints] table:
    [file] is the outcome of [fs.readFileSync(options.file, "utf8")],
    [now] the value of [moment().toISOString()]. *)
Definition blueprint_update (rows : list row) (id : jsstring) (file : result jsstring)
  (now : jsstring) : result (list row * report) :=
  match first_by_id (JStr id) rows with
  | None => Ok (rows, NotFound)
  | Some existing =>
      match (fileContent <- file ;; blueprint_update_data existing id fileContent) with
      | Ok data => Ok (update_by_id (JStr id) (JStr data) (JStr now) rows, Updated)
      | Throw e => Ok (rows, Failed e)
      | Unmodelled => Unmodelled
      end
  end.

(** "Set state to null for storage". *)
Definition clear_state (updatedData : json) : result json :=
  state <- get_prop updatedData (lit "state") ;;
  if truthy_opt state then assign updatedData (lit "state") JNull
  else Ok updatedData.

(** The object [entity-update] serializes into the [data] column. *)
Definition entity_update_object (id : jsstring) (fileContent : jsstring) : result json :=
  updatedData <- parse fileContent ;;
  updatedData <- assign updatedData (lit "id") (JStr id) ;;
  clear_state updatedData.

(** The [entity-update] command on the [entities] table. *)
Definition entity_update (rows : list row) (id : jsstring) (file : result jsstring)
  (now : jsstring) : result (list row * report) :=
  match first_by_id (JStr id) rows with
  | None => Ok (rows, NotFound)
  | Some _ =>
      match (fileContent <- file ;; entity_update_object id fileContent) with
      | Ok updatedData =>
          Ok (update_by_id (JStr id) (JStr (stringify updatedData)) (JStr now) rows, Updated)
      | Throw e => Ok (rows, Failed e)
      | Unmodelled => Unmodelled
      end
  end.

(** The deploy command's "Insert or update blueprints in the
    database" for one built app whose blueprint has the id [id]. *)
Definition deploy_blueprint (rows : list row) (id : json) (blueprint : json)
  (now : jsstring) : result (list row) :=
  match first_by_id id rows with
  | Some _ => Ok (update_by_id id (JStr (stringify blueprint)) (JStr now) rows)
  | None =>
      insert r_id {| r_id := id; r_data := JStr (stringify blueprint);
                     r_createdAt := JStr now; r_updatedAt := JStr now |}
        (Some rows)
  end.

(** [options.id || uuid()]: the option when it is a non-empty string;
    [uuid] is the outcome of the call [uuid()], made only when the
    option is not used. *)
Definition id_or_uuid (opt_id : option jsstring) (uuid : result jsstring)
  : result jsstring :=
  match opt_id with
  | Some (c :: s) => Ok (c :: s)
  | _ => uuid
  end.

(** "Set ID if not present": [if (!x.id) x.id = options.id || uuid()]. *)
Definition ensure_id (x : json) (opt_id : option jsstring) (uuid : result jsstring)
  : result json :=
  id <- get_prop x (lit "id") ;;
  if truthy_opt id then Ok x
  else
    new <- id_or_uuid opt_id uuid ;;
    assign x (lit "id") (JStr new).

(** [if (x.k === undefined) x.k = d]. *)
Definition default_prop (k : jsstring) (d : json) (x : json) : result json :=
  v <- get_prop x k ;;
  match v with
  | None => assign x k d
  | Some _ => Ok x
  end.

(** "Set default values if not present". *)
Definition blueprint_defaults (blueprint : json) : result json :=
  b <- default_prop (lit "version") (JNum 0) blueprint ;;
  b <- default_prop (lit "props") (JObj []) b ;;
  b <- default_prop (lit "preload") (JBool false) b ;;
  b <- default_prop (lit "public") (JBool false) b ;;
  b <- default_prop (lit "locked") (JBool false) b ;;
  default_prop (lit "unique") (JBool false) b.

(** The [id] and [data] columns of the record an add command inserts.
    A named property set on an array, and an [id] that is not a
    string, are outside the model. *)
Definition add_columns (x : json) : result (jsstring * jsstring) :=
  match x with
  | JObj o =>
      match obj_get (lit "id") o with
      | Some (JStr id) => Ok (id, stringify x)
      | _ => Unmodelled
      end
  | _ => Unmodelled
  end.

(** How an add command's [try] block ended. *)
Inductive add_report :=
| Added (id : jsstring)
| AddFailed (e : exn).

Definition add_record (rows : list row) (columns : result (jsstring * jsstring))
  (now : jsstring) : result (list row * add_report) :=
  match (c <- columns ;;
         rows' <- insert r_id {| r_id := JStr (fst c); r_data := JStr (snd c);
                                 r_createdAt := JStr now; r_updatedAt := JStr now |}
                    (Some rows) ;;
         Ok (rows', fst c)) with
  | Ok (rows', id) => Ok (rows', Added id)
  | Throw e => Ok (rows, AddFailed e)
  | Unmodelled => Unmodelled
  end.

(** The [blueprint-add] command on the [blueprints] table: [file] is
    the outcome of [fs.readFileSync(options.file, "utf8")], [opt_id]
    the [--id] option, [now] the value of [moment().toISOString()]. *)
Definition blueprint_add (rows : list row) (file : result jsstring)
  (opt_id : option jsstring) (uuid : result jsstring) (now : jsstring)
  : result (list row * add_report) :=
  add_record rows
    (fileContent <- file ;;
     blueprint <- parse fileContent ;;
     blueprint <- ensure_id blueprint opt_id uuid ;;
     blueprint <- blueprint_defaults blueprint ;;
     add_columns blueprint)
    now.

(** The [entity-add] command on the [entities] table. *)
Definition entity_add (rows : list row) (file : result jsstring)
  (opt_id : option jsstring) (uuid : result jsstring) (now : jsstring)
  : result (list row * add_report) :=
  add_record rows
    (fileContent <- file ;;
     entity <- parse fileContent ;;
     entity <- ensure_id entity opt_id uuid ;;
     add_columns entity)
    now.

(** What a get command prints. *)
Inductive get_report :=
| Printed (text : jsstring)
| Missing
| GetFailed (e : exn).

(** The [blueprint-get] and [entity-get] commands: the text printed
    after the title line. *)
Definition get_by_id (rows : list row) (id : jsstring) : result get_report :=
  match first_by_id (JStr id) rows with
  | None => Ok Missing
  | Some r =>
      match parse_column (r_data r) with
      | Ok parsed => Ok (Printed (stringify_pretty parsed))
      | Throw e => Ok (GetFailed e)
      | Unmodelled => Unmodelled
      end
  end.

(** [db(table).where("id", id).delete()]: the rows left and the
    number of rows deleted. *)
Definition delete_by_id (id : json) (rows : list row) : list row * Z :=
  let kept := filter (fun r => negb (same_key id (r_id r))) rows in
  (kept, Z.of_nat (List.length rows) - Z.of_nat (List.length kept)).

(** The [blueprint-delete] and [entity-delete] commands: the table
    after the run, and whether "deleted successfully" was printed. *)
Definition delete_command (rows : list row) (id : jsstring) : list row * bool :=
  let '(kept, result) := delete_by_id (JStr id) rows in
  (kept, negb (result =? 0)).

(** [db("config").insert({ key, value }).onConflict("key")
    .merge({ value })]. *)
Definition upsert_config (key value : json) (rows : list config_row) : list config_row :=
  if existsb (fun c => same_key key (c_key c)) rows
  then map (fun c => if same_key key (c_key c)
                     then {| c_key := c_key c; c_value := value |}
                     else c) rows
  else rows ++ [{| c_key := key; c_value := value |}].

(** The [config-set] command. *)
Definition config_set (rows : list config_row) (key value : jsstring) : list config_row :=
  upsert_config (JStr key) (JStr value) rows.

(** The [config-get] command: the value printed and, when it is JSON
    text, its indented form. *)
Definition config_get (rows : list config_row) (key : jsstring)
  : result (option (json * option jsstring)) :=
  match find (fun c => same_key (JStr key) (c_key c)) rows with
  | None => Ok None
  | Some c =>
      match parse_column (c_value c) with
      | Ok parsed => Ok (Some (c_value c, Some (stringify_pretty parsed)))
      | Throw _ => Ok (Some (c_value c, None))
      | Unmodelled => Unmodelled
      end
  end.

(** [if (options.k) updates.k = options.k]. *)
Definition update_of (k : jsstring) (opt : option jsstring) : props :=
  match opt with
  | Some (c :: s) => [(k, JStr (c :: s))]
  | _ => []
  end.

(** The [updates] object of [user-update]. *)
Definition user_updates (name roles avatar : option jsstring) : props :=
  update_of (lit "name") name ++ update_of (lit "roles") roles
  ++ update_of (lit "avatar") avatar.

(** [update(updates)] on one row of [users]. *)
Definition update_columns (updates : props) (user : json) : json :=
  match user with
  | JObj o => JObj (fold_left (fun a kv => obj_set (fst kv) (snd kv) a) updates o)
  | _ => user
  end.

Inductive user_report := UserUpdated | UserNotFound | NoUpdates.

(** The [user-update] command on the [users] table. *)
Definition user_update (rows : list json) (id : jsstring)
  (name roles avatar : option jsstring) : list json * user_report :=
  match find (fun u => same_key (JStr id) (Worlds.user_id u)) rows with
  | None => (rows, UserNotFound)
  | Some _ =>
      match user_updates name roles avatar with
      | [] => (rows, NoUpdates)
      | updates =>
          (map (fun u => if same_key (JStr id) (Worlds.user_id u)
                         then update_columns updates u else u) rows,
           UserUpdated)
      end
  end.

End DbCli.

Import Worlds DbCli.

(* ================================================================== *)
(** ** The manifest plugin (first part of
       packages/cli/rollupManifestPlugin.js) *)
(* ================================================================== *)

Module Plugin.

(** [String.prototype.indexOf(pat)]; [None] is [-1]. *)
Fixpoint indexOf (pat s : jsstring) : option nat :=
  if startsWith s pat then Some O
  else match s with
       | [] => None
       | _ :: s' => option_map S (indexOf pat s')
       end.

(** [String.prototype.substring(a, b)] on indices that are not
    negative: the smaller index is the start. *)
Definition substring2 (a b : nat) (s : jsstring) : jsstring :=
  firstn (Nat.max a b - Nat.min a b) (skipn (Nat.min a b) s).

(** The brace counting loop, at index [i] with [braceCount] braces
    open and [s] the code from [i] on: the value given to
    [manifestEnd], if one is given. *)
Fixpoint scan_braces (braceCount : Z) (i : nat) (s : jsstring) : option nat :=
  match s with
  | [] => None
  | c :: s' =>
      let opened := if c =? 123 then braceCount + 1 else braceCount in
      let closed := if c =? 125 then opened - 1 else opened in
      if closed =? 0 then Some (S i) else scan_braces closed (S i) s'
  end.

(** What [transform] returns: [null], or the new code with the asset
    it has emitted as [blueprint.json]; [Rejected] when [this.error]
    ends the build. *)
Inductive outcome :=
| Untouched
| Replaced (code : jsstring) (blueprint : jsstring)
| Rejected.

Definition marker : jsstring := lit "const manifest = {".

Definition note : jsstring := lit "// manifest extracted for blueprint.json" ++ [10].

Section Transform.
(** [Function(text)()]: the value the text evaluates to, when it is a
    JSON value. *)
Variable evaluate : jsstring -> result json.

(** [transform(code, id)]. *)
Definition transform (code id : jsstring) : result outcome :=
  if negb (endsWith id (lit ".js")) && negb (endsWith id (lit ".jsx"))
     && negb (endsWith id (lit ".ts")) && negb (endsWith id (lit ".tsx"))
  then Ok Untouched
  else
    match indexOf marker code with
    | None => Ok Untouched
    | Some manifestStart =>
        match indexOf [123] (skipn manifestStart code) with
        | None => Unmodelled
        | Some j =>
            let objectStart := (manifestStart + j)%nat in
            let manifestEnd :=
              match scan_braces 0 objectStart (skipn objectStart code) with
              | Some e => e
              | None => manifestStart
              end in
            let objectLiteral := substring2 objectStart manifestEnd code in
            match evaluate (lit "return " ++ objectLiteral) with
            | Ok manifestObj =>
                Ok (Replaced (firstn manifestStart code ++ note ++ skipn manifestEnd code)
                      (stringify_pretty manifestObj))
            | Throw _ => Ok Rejected
            | Unmodelled => Unmodelled
            end
        end
    end.

End Transform.

End Plugin.

Import Plugin.

(* ================================================================== *)
(** ** The statistics of showDbStatus (packages/cli/worlds.js) *)
(* ================================================================== *)

Module Stats.

(** [data.type || "unknown"], as a property key. *)
Definition type_of (data : json) : result jsstring :=
  t <- get_prop data (lit "type") ;;
  Ok (match t with
      | Some v => if truthy v then to_string v else lit "unknown"
      | None => lit "unknown"
      end).

(** [typeCount[type] = (typeCount[type] || 0) + 1] on an object made
    by the loop. A type that names a property every object inherits
    is outside the model. *)
Definition count_type (typeCount : props) (type : jsstring) : result props :=
  if existsb (str_eqb type) proto_names then Unmodelled
  else
    v <- or_zero_plus_one (obj_get type typeCount) ;;
    Ok (obj_set type v typeCount).

(** "Blueprints by type" and "Entities by type": a row whose data is
    not JSON, or is [null], is passed over. *)
Fixpoint count_row_types (typeCount : props) (rows : list row) : result props :=
  match rows with
  | [] => Ok typeCount
  | r :: rest =>
      match (data <- parse_column (r_data r) ;;
             type <- type_of data ;;
             count_type typeCount type) with
      | Ok counted => count_row_types counted rest
      | Throw _ => count_row_types typeCount rest
      | Unmodelled => Unmodelled
      end
  end.

(** The lines printed for the table: a type and its count, in the
    order [for...in] gives. *)
Definition type_statistics (rows : list row) : result props :=
  count_row_types [] rows.

End Stats.

Import Stats.

(* ================================================================== *)
(** * Example data and the predicates of the statements *)
(* ================================================================== *)

(** A row of [entities] and an update payload that carries another
    id and a runtime state. *)
Definition c10_rows : list row :=
  [{| r_id := JStr (lit "e1");
      r_data := JStr (json_text "{'id':'e1','type':'app','state':null}");
      r_createdAt := JStr (lit "2025-01-01T00:00:00.000Z");
      r_updatedAt := JStr (lit "2025-01-01T00:00:00.000Z") |}].

Definition c10_payload : jsstring :=
  json_text "{'id':'other','type':'app','state':{'ready':true},'pinned':false}".


(** A row of [blueprints] at version 3, and an update payload that
    carries version 3 itself. *)
Definition c9_rows : list row :=
  [{| r_id := JStr (lit "bp1");
      r_data := JStr (json_text "{'id':'bp1','name':'old','version':3}");
      r_createdAt := JStr (lit "2025-01-01T00:00:00.000Z");
      r_updatedAt := JStr (lit "2025-01-01T00:00:00.000Z") |}].

Definition c9_payload : jsstring := json_text "{'name':'new','version':3}".

Definition c9_payload_unversioned : jsstring := json_text "{'name':'new'}".


(** The directory of the chair scenario: [blueprint.json] and a
    37-byte [model.glb]; the container packed from it; and that
    container cut 32 bytes short. *)
Definition glb37 : list Z := map Z.of_nat (seq 1 37).

Definition chair_blueprint : json :=
  JObj [(lit "name", JStr (lit "chair")); (lit "model", JStr (lit "model.glb"));
        (lit "props", JObj [])].

Definition chair_dir : disk :=
  [ (lit "chair", Dir);
    (lit "chair/blueprint.json",
     File (json_text "{'name':'chair','model':'model.glb','props':{}}"));
    (lit "chair/model.glb", File glb37) ].

Definition chair_asset : packed_asset :=
  {| pa_type := Some (JStr (lit "model")); pa_url := lit "model.glb";
     pa_data := glb37; pa_size := 37; pa_mime := lit "model/gltf-binary" |}.

Definition chair_hyp : list Z := container_bytes chair_blueprint [chair_asset].

Definition chair_truncated : list Z := firstn (List.length chair_hyp - 32) chair_hyp.

(** A container whose three header bytes are not JSON, whatever is
    stripped from them. *)
Definition not_json_hyp : list Z := [3; 0; 0; 0; 123; 123; 123; 7; 7].

(** A blueprint whose name is the one letter U+0142, and the directory
    that holds it. *)
Definition l_stroke_blueprint : json := JObj [(lit "name", JStr [322])].

Definition l_stroke_dir : disk :=
  [ (lit "app", Dir);
    (lit "app/blueprint.json",
     File (Utf8.encode (json_text "{'name':'" ++ [322] ++ json_text "'}"))) ].

(** A byte, and a byte sequence. *)
Definition is_byte (b : Z) : Prop := 0 <= b < 256.

(** The size and url of a descriptor that is an object with a
    non-negative integer [size] and a string [url]. *)
Definition plain_descriptor (info : json) : option (Z * jsstring) :=
  match info with
  | JObj d =>
      match obj_get (lit "size") d, obj_get (lit "url") d with
      | Some (JNum n), Some (JStr u) => if 0 <=? n then Some (n, u) else None
      | _, _ => None
      end
  | _ => None
  end.

(** The bytes [importApp] gives each asset: what the buffer holds of
    the declared range, no more. *)
Fixpoint clamped_ranges (buffer : list Z) (position : Z) (sizes : list Z)
  : list (list Z) :=
  match sizes with
  | [] => []
  | n :: rest =>
      firstn (Z.to_nat n) (skipn (Z.to_nat position) buffer)
        :: clamped_ranges buffer (position + n) rest
  end.


(** A stand-in for sha256 in the examples: 64 hexadecimal digits
    computed from the bytes. *)
Definition demo_digest (data : list Z) : jsstring :=
  let h := fold_left (fun acc b => (acc * 1099511628211 + b + 1) mod 2 ^ 256)
             data 14695981039346656037 in
  map (fun i => hex_digit ((h / 16 ^ Z.of_nat i) mod 16)) (seq 0 64).

(** The path [findAsset] looks for: the reference without its
    [asset://] prefix. *)
Definition clean_path (assetPath : jsstring) : jsstring :=
  if startsWith assetPath (lit "asset://") then substring 8 assetPath else assetPath.

(** The candidates of a reference over a list of directories, in the
    order stated for [findAsset]: the path itself, its basename under
    every directory, the whole path under every directory. *)
Definition candidates (cleanPath : jsstring) (dirs : list jsstring) : list jsstring :=
  cleanPath
    :: map (fun dir => Path.join dir (Path.basename cleanPath)) dirs
    ++ map (fun dir => Path.join dir cleanPath) dirs.

(** A working directory that holds [x.png] and no directory
    [nodir]. *)
Definition c8_disk : disk := [ (lit "x.png", File [137; 80; 78; 71]) ].

(** A project with an [assets] directory that holds [car.glb] only. *)
Definition c5_disk : disk :=
  [ (lit "assets", Dir); (lit "assets/car.glb", File [1; 2; 3]); (lit "build", Dir) ].














(** An unpacked world: two blueprint files, the first of which is not
    JSON, one entity file, a global assets directory and a database
    file already in place. *)
Definition c7_world_dir : disk :=
  [ (lit "w", Dir);
    (lit "w/blueprints", Dir);
    (lit "w/blueprints/a.json", File (json_text "{'id':'a',"));
    (lit "w/blueprints/b.json",
     File (json_text "{'id':'b','createdAt':'t0','updatedAt':'t0','name':'box'}"));
    (lit "w/entities", Dir);
    (lit "w/entities/e.json",
     File (json_text "{'id':'e','createdAt':'t0','updatedAt':'t0','blueprint':'b'}"));
    (lit "assets", Dir);
    (lit "db", Dir);
    (lit "db/db.sqlite", File [83; 81; 76]) ].

Definition c7_world : world :=
  {| w_fs := c7_world_dir; w_db := empty_db; w_log := [] |}.

(** A database with three blueprint rows, the second of which holds
    text that is not JSON. *)
Definition c7_bad_row : row :=
  {| r_id := JStr (lit "b"); r_data := JStr (json_text "{'name':");
     r_createdAt := JStr (lit "t0"); r_updatedAt := JStr (lit "t0") |}.

Definition c7_last_row : row :=
  {| r_id := JStr (lit "c"); r_data := JStr (json_text "{'name':'lamp'}");
     r_createdAt := JStr (lit "t0"); r_updatedAt := JStr (lit "t0") |}.

Definition c7_rows : list row :=
  [ {| r_id := JStr (lit "a"); r_data := JStr (json_text "{'name':'box'}");
       r_createdAt := JStr (lit "t0"); r_updatedAt := JStr (lit "t0") |};
    c7_bad_row; c7_last_row ].

(** The four tables of the schema are in the database. *)
Definition has_tables (db : database) : Prop :=
  config db <> None /\ users db <> None /\ blueprints db <> None /\ entities db <> None.

(** An unpacked world with one file of each kind but users, beside a
    database in place that holds one blueprint row. *)
Definition c6_world_dir : disk :=
  [ (lit "w", Dir);
    (lit "w/config", Dir);
    (lit "w/config/settings.json",
     File (json_text "{'key':'settings','value':{'public':'yes'}}"));
    (lit "w/blueprints", Dir);
    (lit "w/blueprints/b.json",
     File (json_text "{'id':'b','createdAt':'t0','updatedAt':'t0','name':'box'}"));
    (lit "w/entities", Dir);
    (lit "w/entities/e.json",
     File (json_text "{'id':'e','createdAt':'t0','updatedAt':'t0','blueprint':'b'}"));
    (lit "assets", Dir);
    (lit "db", Dir);
    (lit "db/db.sqlite", File [83; 81; 76]) ].

Definition c6_world : world :=
  {| w_fs := c6_world_dir;
     w_db := {| config := Some []; users := Some [];
                blueprints := Some [c7_last_row]; entities := Some [] |};
     w_log := [] |}.


(** A file name: not empty, without a slash, and neither [.] nor
    [..]. *)
Definition plain_name (name : jsstring) : bool :=
  negb (str_eqb name []) && forallb (fun c => negb (c =? Path.slash)) name
  && negb (str_eqb name [Path.dot]) && negb (str_eqb name [Path.dot; Path.dot]).

(** A plain file name that is shorter than a digest and is not a name
    of [Object.prototype]. *)
Definition file_name (name : jsstring) : bool :=
  plain_name name && (Z.of_nat (List.length name) <? 64)
  && negb (existsb (str_eqb name) proto_names).

(** A manifest entry filed under a name at least as long as a
    digest. *)
Definition long_name (a : manifest_asset) : Prop :=
  (64 <= List.length (ai_filename (ma_info a)))%nat.

(** A manifest in which a hashed file name stands for one original
    name only. *)
Definition consistent (manifest : list manifest_asset) : bool :=
  forallb (fun a1 =>
    forallb (fun a2 =>
      implb (str_eqb (ai_filename (ma_info a1)) (ai_filename (ma_info a2)))
            (str_eqb (ai_originalName (ma_info a1)) (ai_originalName (ma_info a2))))
      manifest) manifest.

(** [b.props[key].url]. *)
Definition prop_url (key : jsstring) (b : props) : option json :=
  match obj_get (lit "props") b with
  | Some (JObj ps) =>
      match obj_get key ps with
      | Some (JObj p) => obj_get (lit "url") p
      | _ => None
      end
  | _ => None
  end.

(** What the forward rewrite makes of the reference [asset://name]
    under a manifest: the reference as it was, or the reference to the
    hashed file of an entry whose original name is [name]. *)
Definition stored_as (manifest : list manifest_asset) (name ref : jsstring) : Prop :=
  ref = lit "asset://" ++ name
  \/ exists a, In a manifest /\ ai_originalName (ma_info a) = name
               /\ ref = lit "asset://" ++ ai_filename (ma_info a).


(** A reference-bearing field the rewrite can read: absent, [null], or
    a string; and a reference does not name a property that every
    object inherits. *)
Definition ref_modelled (x : option json) : bool :=
  match x with
  | None => true
  | Some JNull => true
  | Some (JStr s) =>
      if startsWith s (lit "asset://") then
        negb (existsb (str_eqb (replace_first (lit "asset://") [] s)) proto_names)
      else true
  | Some _ => false
  end.

Definition prop_modelled (kv : jsstring * json) : bool :=
  ref_modelled (url_of (Some (snd kv))).

(** A blueprint all of whose reference-bearing fields are so: [model],
    [script], [image.url] and the [url] of every prop. *)
Definition refs_modelled (b : props) : bool :=
  ref_modelled (obj_get (lit "model") b)
  && ref_modelled (obj_get (lit "script") b)
  && ref_modelled (url_of (obj_get (lit "image") b))
  && match obj_get (lit "props") b with
     | Some ps => forallb prop_modelled (own_props ps)
     | None => true
     end.

(** A source directory that holds [car.glb], [skin.png], and
    [car2.glb] with the bytes of [car.glb]; a blueprint that refers to
    the first two, and one that refers to all three. *)
Definition car_disk : disk :=
  [ (lit "src", Dir);
    (lit "src/car.glb", File [103; 108; 84; 70; 2]);
    (lit "src/skin.png", File [137; 80; 78; 71]);
    (lit "src/car2.glb", File [103; 108; 84; 70; 2]) ].

Definition car_state : rewrite_state :=
  {| rs_fs := car_disk; rs_assets := []; rs_log := [] |}.

Definition car_blueprint : props :=
  [ (lit "id", JStr (lit "bp"));
    (lit "model", JStr (lit "asset://car.glb"));
    (lit "props", JObj [(lit "skin", JObj [(lit "url", JStr (lit "asset://skin.png"))])]) ].

Definition twin_blueprint : props :=
  [ (lit "id", JStr (lit "bp"));
    (lit "model", JStr (lit "asset://car.glb"));
    (lit "props", JObj [(lit "skin", JObj [(lit "url", JStr (lit "asset://skin.png"))]);
                        (lit "spare", JObj [(lit "url", JStr (lit "asset://car2.glb"))])]) ].

(** A database whose blueprint rows are [c7_rows], on a disk with the
    database file and a source assets directory. *)
Definition c7_database_world : world :=
  {| w_fs := [ (lit "db", Dir); (lit "db/db.sqlite", File [83; 81; 76]);
               (lit "src", Dir) ];
     w_db := {| config := Some []; users := Some []; blueprints := Some c7_rows;
                entities := Some [] |};
     w_log := [] |}.

(** A database whose one blueprint is [twin_blueprint], on a disk with
    the three files. *)
Definition twin_world : world :=
  {| w_fs := car_disk ++ [ (lit "db", Dir); (lit "db/db.sqlite", File [83; 81; 76]) ];
     w_db := {| config := Some []; users := Some [];
                blueprints :=
                  Some [ {| r_id := JStr (lit "bp");
                            r_data := JStr (stringify (JObj twin_blueprint));
                            r_createdAt := JStr (lit "t0");
                            r_updatedAt := JStr (lit "t0") |} ];
                entities := Some [] |};
     w_log := [] |}.

(** A string of UTF-16 code units. *)
Definition is_unit (c : Z) : bool := (0 <=? c) && (c <? 65536).

(** Keys in the order JS enumerates them: the array indices first, in
    ascending order from [lo], then the other keys; no key twice.
    [plain] says that a key that is not an index was passed. *)
Fixpoint keys_in_order (lo : Z) (plain : bool) (o : props) : bool :=
  match o with
  | [] => true
  | (k, _) :: o' =>
      negb (obj_has k o')
      && match array_index k with
         | Some n => negb plain && (lo <=? n) && keys_in_order (n + 1) false o'
         | None => keys_in_order lo true o'
         end
  end.

(** The values [JSON.parse] can return: strings of code units, numbers
    a double holds exactly, objects with their keys in enumeration
    order. *)
Fixpoint well_formed (v : json) : bool :=
  match v with
  | JNull => true
  | JBool _ => true
  | JNum n => safe_int n
  | JStr s => forallb is_unit s
  | JArr l => forallb well_formed l
  | JObj o =>
      keys_in_order 0 false o
      && forallb (fun kv => forallb is_unit (fst kv) && well_formed (snd kv)) o
  end.

(** Fuel that is enough to parse the text of a value. *)
Fixpoint parse_cost (v : json) : nat :=
  match v with
  | JArr l => S (fold_right (fun x n => S (parse_cost x + n)) O l)
  | JObj o => S (fold_right (fun kv n => S (parse_cost (snd kv) + n)) O o)
  | _ => 1
  end.

(** What follows a value in a JSON text written by [stringify]:
    nothing, a comma, or a closing bracket or brace. *)
Definition closes (r : jsstring) : bool :=
  match r with
  | [] => true
  | c :: _ => (c =? 44) || (c =? 93) || (c =? 125)
  end.

Definition no_digit_head (r : jsstring) : bool :=
  match r with
  | [] => true
  | c :: _ => negb (is_digit c)
  end.

(** The first unit of a JSON text written by [stringify]. *)
Definition opens (c : Z) : bool :=
  (c =? 34) || (c =? 45) || is_digit c || (c =? 91) || (c =? 102) || (c =? 110)
  || (c =? 116) || (c =? 123).

(** A member of an object as [stringify] writes it. *)
Definition member_text (kv : jsstring * json) : jsstring :=
  quote (fst kv) ++ 58 :: stringify (snd kv).

(** The object a list of assignments builds, from [acc]. *)
Definition assign_all (acc : props) (o : props) : props :=
  fold_left (fun a kv => obj_set (fst kv) (snd kv) a) o acc.

(** A value [JSON.parse] reads back from its text, whatever follows
    that closes it, given fuel for its cost. *)
Definition parses (v : json) : Prop :=
  well_formed v = true ->
  forall fuel r,
    (parse_cost v <= fuel)%nat -> closes r = true ->
    parse_value fuel (stringify v ++ r) = Some (Ok (v, r)).

(** A text of ASCII units. *)
Definition ascii_text (t : jsstring) : bool := forallb (fun c => (0 <=? c) && (c <? 128)) t.

(** An asset a container can carry: the values of its descriptor are
    such as [JSON.parse] returns, and its size is the length of its
    data. *)
Definition packed_ok (a : packed_asset) : bool :=
  match pa_type a with
  | Some t => well_formed t
  | None => true
  end
  && forallb is_unit (pa_url a) && forallb is_unit (pa_mime a)
  && (pa_size a =? Z.of_nat (List.length (pa_data a))).

(** The asset [importApp] returns for a packed asset. *)
Definition imported (a : packed_asset) : imported_asset :=
  {| ia_type := pa_type a; ia_url := pa_url a; ia_fileName := split_pop 47 (pa_url a);
     ia_data := pa_data a; ia_size := pa_size a; ia_mime := Some (JStr (pa_mime a)) |}.

(** The reference a field holds, if it holds one. *)
Definition refs_of (x : option json) : list jsstring :=
  match asset_ref x with
  | Ok (Some ref) => [ref]
  | _ => []
  end.

(** The references of a blueprint, in the order the rewrites visit
    them: [model], [script], [image.url], the [url] of every prop. *)
Definition references (b : props) : list jsstring :=
  refs_of (obj_get (lit "model") b)
  ++ refs_of (obj_get (lit "script") b)
  ++ refs_of (url_of (obj_get (lit "image") b))
  ++ match obj_get (lit "props") b with
     | Some ps => flat_map (fun kv => refs_of (url_of (Some (snd kv)))) (own_props ps)
     | None => []
     end.

(** The source path [extractBlueprints] looks a reference up under. *)
Definition source_path (sourceAssetsDir ref : jsstring) : jsstring :=
  Path.join sourceAssetsDir (replace_first (lit "asset://") [] ref).

(** A manifest entry as [storeAsset] makes it for a reference: the
    base name of the source path, filed under the digest of some data
    followed by the extension of the source path. *)
Definition entry_of (sha256_hex : list Z -> jsstring) (sourceAssetsDir ref : jsstring)
  (a : manifest_asset) : Prop :=
  ai_originalName (ma_info a) = Path.basename (source_path sourceAssetsDir ref)
  /\ exists data,
       ai_filename (ma_info a)
       = sha256_hex data ++ Path.extname (source_path sourceAssetsDir ref).

(** The entries of a manifest all come from the references [refs]. *)
Definition entries_of (sha256_hex : list Z -> jsstring) (sourceAssetsDir : jsstring)
  (refs : list jsstring) (manifest : list manifest_asset) : Prop :=
  Forall (fun a => exists ref, In ref refs /\ entry_of sha256_hex sourceAssetsDir ref a)
    manifest.

(** An entry of a well-formed object. *)
Definition entry_ok (kv : jsstring * json) : bool :=
  forallb is_unit (fst kv) && well_formed (snd kv).

(** What follows a value in a JSON text written with indentation:
    nothing, white space, a comma, or a closing bracket or brace. *)
Definition ends (r : jsstring) : bool :=
  match r with
  | [] => true
  | c :: _ => is_ws c || (c =? 44) || (c =? 93) || (c =? 125)
  end.

(** A value [JSON.parse] reads back from its indented text, at every
    depth. *)
Definition parses_pretty (v : json) : Prop :=
  well_formed v = true ->
  forall d fuel r,
    (parse_cost v <= fuel)%nat -> ends r = true ->
    parse_value fuel (stringify_at d v ++ r) = Some (Ok (v, r)).

(** A member of an object as [stringify_at] writes it. *)
Definition member_pretty (d : nat) (kv : jsstring * json) : jsstring :=
  quote (fst kv) ++ 58 :: 32 :: stringify_at d (snd kv).

(** The defaults [blueprint-add] fills in. *)
Definition blueprint_default_values : props :=
  [(lit "version", JNum 0); (lit "props", JObj []); (lit "preload", JBool false);
   (lit "public", JBool false); (lit "locked", JBool false); (lit "unique", JBool false)].

(** [x.k] when it is defined, [d] otherwise. *)
Definition or_default (v : option json) (d : json) : json :=
  match v with
  | Some x => x
  | None => d
  end.

(** An object after every default has been assigned to the key that
    is not defined. *)
Definition fill_defaults (defaults : props) (o : props) : props :=
  fold_left (fun a kv => match obj_get (fst kv) a with
                         | None => obj_set (fst kv) (snd kv) a
                         | Some _ => a
                         end) defaults o.

(** A blueprint file without an id, whose version is [null], and the
    row [blueprint-add] stores for it under the id [b1]. *)
Definition add_content : jsstring := json_text "{'name':'chair','version':null}".

Definition added_row : row :=
  {| r_id := JStr (lit "b1");
     r_data := JStr (json_text
       "{'name':'chair','version':null,'id':'b1','props':{},'preload':false,'public':false,'locked':false,'unique':false}");
     r_createdAt := JStr (lit "2025-03-03T00:00:00.000Z");
     r_updatedAt := JStr (lit "2025-03-03T00:00:00.000Z") |}.

(** An entity row whose data starts with its id, and a world with an
    empty disk and no table. *)
Definition entity_row : row :=
  {| r_id := JStr (lit "e1");
     r_data := JStr (json_text "{'id':'e1','type':'app','blueprint':'b1'}");
     r_createdAt := JStr (lit "2025-01-01T00:00:00.000Z");
     r_updatedAt := JStr (lit "2025-02-02T00:00:00.000Z") |}.

Definition bare_world : world :=
  {| w_fs := ([] : disk); w_db := empty_db; w_log := [] |}.

(** A world with the file written for the configuration row [motd],
    whose value is the JSON text of the string [hello], and an empty
    [config] table. *)
Definition config_world : world :=
  {| w_fs := [ (lit "in", Dir);
               (lit "in/motd.json",
                File (Utf8.encode
                        (stringify_pretty (JObj [(lit "key", JStr (lit "motd"));
                                                 (lit "value", JStr (lit "hello"))])))) ]
             : disk;
     w_db := {| config := Some []; users := None; blueprints := None; entities := None |};
     w_log := [] |}.

(** Braces opened and not closed in a text. *)
Fixpoint brace_depth (s : jsstring) : Z :=
  match s with
  | [] => 0
  | c :: s' =>
      (if c =? 123 then 1 else 0) - (if c =? 125 then 1 else 0) + brace_depth s'
  end.

(** A module with a manifest declaration, and an evaluation that
    knows its object literal only. *)
Definition manifest_code : jsstring :=
  lit "import x from 'y';" ++ [10] ++ lit "const manifest = { name: 'chair' };" ++ [10]
  ++ lit "export default 1;".

Definition manifest_evaluate (text : jsstring) : result json :=
  if str_eqb text (lit "return { name: 'chair' }")
  then Ok (JObj [(lit "name", JStr (lit "chair"))])
  else Throw SyntaxError.

(** A field that holds no asset reference: absent, [null], or a
    string without the [asset://] prefix. *)
Definition no_reference (x : option json) : bool :=
  match asset_ref x with
  | Ok None => true
  | _ => false
  end.

(** A blueprint none of whose reference-bearing fields holds an asset
    reference: [model], [script], [image.url], the [url] of every
    prop. *)
Definition without_references (b : props) : bool :=
  no_reference (obj_get (lit "model") b)
  && no_reference (obj_get (lit "script") b)
  && no_reference (url_of (obj_get (lit "image") b))
  && match obj_get (lit "props") b with
     | Some ps => forallb (fun kv => no_reference (url_of (Some (snd kv)))) (own_props ps)
     | None => true
     end.

(** A blueprint row whose data holds no asset reference. *)
Definition plain_blueprint_row : row :=
  {| r_id := JStr (lit "b7");
     r_data := JStr (json_text
       "{'id':'b7','version':3,'name':'sign','model':null,'props':{'text':{'value':'hi'}}}");
     r_createdAt := JStr (lit "2025-01-01T00:00:00.000Z");
     r_updatedAt := JStr (lit "2025-02-02T00:00:00.000Z") |}.

(** A container whose header has a raw BEL character in the name of
    the blueprint: it parses only once the character is stripped. *)
Definition bel_header : jsstring :=
  json_text "{'blueprint':{'name':'ch" ++ [7] ++ json_text "air'},'assets':[]}".

Definition bel_hyp : list Z :=
  setUint32_le (Z.of_nat (List.length bel_header)) ++ bel_header.

(** A disk that holds the chair container, a file that is no
    container, and the container with the BEL character. *)
Definition hyp_disk : disk :=
  [ (lit "chair.hyp", File chair_hyp);
    (lit "bad.hyp", File not_json_hyp);
    (lit "bel.hyp", File bel_hyp) ].

(** A sequence under way whose code point so far leaves room for the
    bytes still needed. *)
Definition pending_ok (p : Utf8.pending) : Prop :=
  (Utf8.needed p = 1 /\ 0 <= Utf8.cp p < 32768)
  \/ (Utf8.needed p = 2 /\ 0 <= Utf8.cp p < 512)
  \/ (Utf8.needed p = 3 /\ 0 <= Utf8.cp p < 8).

(** The rows [showDbStatus] counts under a type. *)
Definition has_type (type : jsstring) (r : row) : bool :=
  match (data <- parse_column (r_data r) ;; type_of data) with
  | Ok t => str_eqb t type
  | _ => false
  end.

Definition rows_of_type (type : jsstring) (rows : list row) : Z :=
  Z.of_nat (List.length (filter (has_type type) rows)).

(** An object that holds, for every key, the count [c] gives it, and
    no key for a count of zero. *)
Definition counted (c : jsstring -> Z) (typeCount : props) : Prop :=
  forall k, 0 <= c k
            /\ obj_get k typeCount = if c k =? 0 then None else Some (JNum (c k)).

(** Four rows of [entities]: two of type [app], one that is not JSON,
    one without a type. *)
Definition counted_rows : list row :=
  [ entity_row;
    {| r_id := JStr (lit "e2"); r_data := JStr (lit "not json");
       r_createdAt := JStr (lit "t0"); r_updatedAt := JStr (lit "t0") |};
    {| r_id := JStr (lit "e3"); r_data := JStr (json_text "{'id':'e3','type':'app'}");
       r_createdAt := JStr (lit "t0"); r_updatedAt := JStr (lit "t0") |};
    {| r_id := JStr (lit "e4"); r_data := JStr (json_text "{'id':'e4'}");
       r_createdAt := JStr (lit "t0"); r_updatedAt := JStr (lit "t0") |} ].

(** A code point that is not a surrogate. *)
Definition scalar (c : Z) : Prop :=
  (0 <= c < 55296) \/ (57344 <= c < 1114112).

(** A string of code units in which every surrogate is half of a
    pair: a high one followed at once by a low one. *)
Fixpoint well_paired (s : jsstring) : bool :=
  match s with
  | [] => true
  | c :: s' =>
      if is_high_surrogate c then
        match s' with
        | d :: s'' => is_low_surrogate d && well_paired s''
        | [] => false
        end
      else negb (is_low_surrogate c) && is_unit c && well_paired s'
  end.

(** A value with text outside ASCII, a surrogate pair and a lone
    surrogate, and a disk with the file written for it. *)
Definition accented_value : json :=
  JObj [(lit "name", JStr [322; 55357; 56832; 55296]); (lit "count", JNum 3)].

Definition accented_disk : disk :=
  [ (lit "world", Dir);
    (lit "world/config.json", File (Utf8.encode (stringify_pretty accented_value))) ].

(** An entity row as the server keeps it: the data is the text of an
    object that starts with the row's id and has no [createdAt] and no
    [updatedAt] of its own. *)
Definition entity_form (r : row) : Prop :=
  exists d,
    r_data r = JStr (stringify (JObj ((lit "id", r_id r) :: d)))
    /\ well_formed (JObj ((lit "id", r_id r) :: d)) = true
    /\ well_formed (r_createdAt r) = true /\ well_formed (r_updatedAt r) = true
    /\ obj_has (lit "createdAt") d = false /\ obj_has (lit "updatedAt") d = false.

(** No row of [rows] has the id of a row of [seen] or of a row before
    it: the primary key of the table. *)
Fixpoint distinct_after (seen rows : list row) : bool :=
  match rows with
  | [] => true
  | r :: rest =>
      negb (existsb (fun r' => same_key (r_id r) (r_id r')) seen)
      && distinct_after (seen ++ [r]) rest
  end.

(** The file at [path] holds the bytes [extractEntities] writes for
    the row [r]. *)
Definition holds_entity {F} `{FileSystem F} (fs : F) (path : jsstring) (r : row) : Prop :=
  exists data,
    parse_column (r_data r) = Ok data
    /\ readFile fs path
       = Ok (Utf8.encode (stringify_pretty (JObj (full_record r data)))).

(** Two entity rows and a disk with the files written for them. *)
Definition second_entity_row : row :=
  {| r_id := JStr (lit "e2");
     r_data := JStr (json_text "{'id':'e2','type':'app','blueprint':'b1'}");
     r_createdAt := JStr (lit "2025-03-03T00:00:00.000Z");
     r_updatedAt := JStr (lit "2025-04-04T00:00:00.000Z") |}.

(** The errors [extractEntities] prints for a list of rows: one for
    each row whose data is not JSON, in the order of the rows. *)
Definition entity_errors (rows : list row) : list msg :=
  map (fun r => Error (lit "  - Error parsing entity data for " ++ to_string (r_id r)))
    (filter (fun r => match parse_column (r_data r) with
                      | Throw _ => true
                      | _ => false
                      end) rows).

(** A world whose [entities] table has a row that is not JSON between
    two rows that are, and whose disk has the output directory. *)
Definition entities_world : world :=
  {| w_fs := [ (lit "out", Dir) ];
     w_db := {| config := None; users := None; blueprints := None;
                entities :=
                  Some [ entity_row;
                         {| r_id := JStr (lit "bad"); r_data := JStr (lit "not json");
                            r_createdAt := JStr (lit "t0");
                            r_updatedAt := JStr (lit "t0") |};
                         second_entity_row ] |};
     w_log := [] |}.

(** A world whose [entities] table has a row whose data is the text
    [null] between two rows of objects. *)
Definition null_row_world : world :=
  {| w_fs := [ (lit "out", Dir) ];
     w_db := {| config := None; users := None; blueprints := None;
                entities :=
                  Some [ entity_row;
                         {| r_id := JStr (lit "n"); r_data := JStr (lit "null");
                            r_createdAt := JStr (lit "t0");
                            r_updatedAt := JStr (lit "t0") |};
                         second_entity_row ] |};
     w_log := [] |}.

Definition entity_file_bytes (r : row) : list Z :=
  match parse_column (r_data r) with
  | Ok data => Utf8.encode (stringify_pretty (JObj (full_record r data)))
  | _ => []
  end.

Definition entities_dir_world : world :=
  {| w_fs := [ (lit "in", Dir);
               (lit "in/e1.json", File (entity_file_bytes entity_row));
               (lit "in/e2.json", File (entity_file_bytes second_entity_row)) ] : disk;
     w_db := {| config := None; users := None; blueprints := None; entities := Some [] |};
     w_log := [] |}.

(** The entities directory with a file that is not JSON between the
    two entity files. *)
Definition broken_dir_world : world :=
  {| w_fs := [ (lit "in", Dir);
               (lit "in/e1.json", File (entity_file_bytes entity_row));
               (lit "in/e1b.json", File (Utf8.encode (lit "{")));
               (lit "in/e2.json", File (entity_file_bytes second_entity_row)) ] : disk;
     w_db := {| config := None; users := None; blueprints := None; entities := Some [] |};
     w_log := [] |}.

(* ================================================================== *)
(** * Properties *)
(* ================================================================== *)

(** ** Strings and objects *)

Lemma str_eqb_refl (a : jsstring) : str_eqb a a = true.
Proof.
  induction a as [|x a IH]; simpl; [reflexivity|].
  now rewrite Z.eqb_refl, IH.
Qed.

Lemma str_eqb_eq (a b : jsstring) : str_eqb a b = true <-> a = b.
Proof.
  split.
  - revert b; induction a as [|x a IH]; intros [|y b] E; simpl in E;
      try discriminate; [reflexivity|].
    apply andb_true_iff in E as [E1 E2].
    apply Z.eqb_eq in E1. apply IH in E2. now subst.
  - intros ->. apply str_eqb_refl.
Qed.

Lemma str_eqb_neq (a b : jsstring) : str_eqb a b = false <-> a <> b.
Proof.
  split.
  - intros E ->. rewrite str_eqb_refl in E. discriminate.
  - intros N. destruct (str_eqb a b) eqn:E; [|reflexivity].
    apply str_eqb_eq in E. contradiction.
Qed.

Lemma str_eqb_sym (a b : jsstring) : str_eqb a b = str_eqb b a.
Proof.
  destruct (str_eqb a b) eqn:E.
  - apply str_eqb_eq in E. subst. symmetry. apply str_eqb_refl.
  - symmetry. apply str_eqb_neq. apply str_eqb_neq in E. congruence.
Qed.

Lemma obj_has_get (k : jsstring) (o : props) :
  obj_has k o = match obj_get k o with Some _ => true | None => false end.
Proof.
  induction o as [|[k' v'] o IH]; simpl; [reflexivity|].
  destruct (str_eqb k k'); simpl; auto.
Qed.

Lemma obj_get_replace_eq (k : jsstring) (v : json) (o : props) :
  obj_has k o = true -> obj_get k (obj_replace k v o) = Some v.
Proof.
  induction o as [|[k' v'] o IH]; simpl; [discriminate|].
  destruct (str_eqb k k') eqn:E; simpl; rewrite E; auto.
Qed.

Lemma obj_get_replace_neq (k k2 : jsstring) (v : json) (o : props) :
  k <> k2 -> obj_get k2 (obj_replace k v o) = obj_get k2 o.
Proof.
  intros N. induction o as [|[k' v'] o IH]; simpl; [reflexivity|].
  destruct (str_eqb k k') eqn:E; simpl.
  - apply str_eqb_eq in E. subst k'.
    assert (str_eqb k2 k = false) as -> by (apply str_eqb_neq; congruence).
    reflexivity.
  - destruct (str_eqb k2 k'); auto.
Qed.

Lemma obj_get_insert_index_eq (n : Z) (k : jsstring) (v : json) (o : props) :
  obj_has k o = false -> obj_get k (obj_insert_index n k v o) = Some v.
Proof.
  induction o as [|[k' v'] o IH]; simpl; intros Hh.
  - now rewrite str_eqb_refl.
  - apply orb_false_iff in Hh as [E Hh].
    destruct (array_index k') as [m|]; [destruct (m <? n)|]; simpl;
      rewrite ?str_eqb_refl, ?E; auto.
Qed.

Lemma obj_get_insert_index_neq (n : Z) (k k2 : jsstring) (v : json) (o : props) :
  k <> k2 -> obj_get k2 (obj_insert_index n k v o) = obj_get k2 o.
Proof.
  intros N.
  assert (str_eqb k2 k = false) as Hk by (apply str_eqb_neq; congruence).
  induction o as [|[k' v'] o IH]; simpl.
  - now rewrite Hk.
  - destruct (array_index k') as [m|]; [destruct (m <? n)|]; simpl;
      rewrite ?Hk; try reflexivity.
    now rewrite IH.
Qed.

Lemma obj_get_app_eq (k : jsstring) (v : json) (o : props) :
  obj_has k o = false -> obj_get k (o ++ [(k, v)]) = Some v.
Proof.
  induction o as [|[k' v'] o IH]; simpl; intros Hh.
  - now rewrite str_eqb_refl.
  - apply orb_false_iff in Hh as [E Hh]. rewrite E. auto.
Qed.

Lemma obj_get_app_neq (k k2 : jsstring) (v : json) (o : props) :
  k <> k2 -> obj_get k2 (o ++ [(k, v)]) = obj_get k2 o.
Proof.
  intros N.
  assert (str_eqb k2 k = false) as Hk by (apply str_eqb_neq; congruence).
  induction o as [|[k' v'] o IH]; simpl.
  - now rewrite Hk.
  - destruct (str_eqb k2 k'); auto.
Qed.

(** Reading back the property just set. *)
Lemma obj_get_set_eq (k : jsstring) (v : json) (o : props) :
  obj_get k (obj_set k v o) = Some v.
Proof.
  unfold obj_set. destruct (obj_has k o) eqn:Hh.
  - now apply obj_get_replace_eq.
  - destruct (array_index k).
    + now apply obj_get_insert_index_eq.
    + now apply obj_get_app_eq.
Qed.

(** Setting a property leaves every other property as it was. *)
Lemma obj_get_set_neq (k k2 : jsstring) (v : json) (o : props) :
  k <> k2 -> obj_get k2 (obj_set k v o) = obj_get k2 o.
Proof.
  intros N. unfold obj_set. destruct (obj_has k o).
  - now apply obj_get_replace_neq.
  - destruct (array_index k).
    + now apply obj_get_insert_index_neq.
    + now apply obj_get_app_neq.
Qed.

Lemma obj_get_delete_neq (k k2 : jsstring) (o : props) :
  k <> k2 -> obj_get k2 (obj_delete k o) = obj_get k2 o.
Proof.
  intros N. induction o as [|[k' v'] o IH]; simpl; [reflexivity|].
  destruct (str_eqb k k') eqn:E; simpl.
  - apply str_eqb_eq in E. subst k'.
    assert (str_eqb k2 k = false) as -> by (apply str_eqb_neq; congruence).
    exact IH.
  - destruct (str_eqb k2 k'); auto.
Qed.

Ltac lit_neq := let E := fresh in intro E; vm_compute in E; discriminate E.

(** ** The db-cli update commands *)

(** Rows touched by an update carry the new data and time stamp; the
    others are as before. *)
Lemma update_by_id_spec (id data updatedAt : json) (rows : list row) (r' : row) :
  In r' (update_by_id id data updatedAt rows) ->
  exists r, In r rows /\ r_id r' = r_id r /\ r_createdAt r' = r_createdAt r /\
    if same_key id (r_id r)
    then r_data r' = data /\ r_updatedAt r' = updatedAt
    else r' = r.
Proof.
  unfold update_by_id. intros Hin. apply in_map_iff in Hin as [r [<- Hr]].
  exists r. destruct (same_key id (r_id r)); simpl; auto.
Qed.

Lemma first_by_id_in (id : json) (rows : list row) (r : row) :
  first_by_id id rows = Some r -> In r rows /\ same_key id (r_id r) = true.
Proof. unfold first_by_id. intros E. now apply find_some in E. Qed.

(** C10, counterexample: the payload's [id] field is not written as
    given. The payload carries id [other]; the update of entity [e1]
    stores id [e1]. *)
Lemma C10_counterexample :
  exists p,
    parse c10_payload = Ok (JObj p) /\
    obj_get (lit "id") p = Some (JStr (lit "other")) /\
    entity_update c10_rows (lit "e1") (Ok c10_payload) (lit "2025-02-02T00:00:00.000Z")
    = Ok ([{| r_id := JStr (lit "e1");
              r_data := JStr (json_text
                "{'id':'e1','type':'app','state':null,'pinned':false}");
              r_createdAt := JStr (lit "2025-01-01T00:00:00.000Z");
              r_updatedAt := JStr (lit "2025-02-02T00:00:00.000Z") |}], Updated).
Proof.
  eexists. split; [vm_compute; reflexivity|]. split; vm_compute; reflexivity.
Qed.

(** C10, amended: for an entity that exists and a payload that is a
    JSON object, entity-update stores the serialization of an object
    whose [id] is the target id, whose [state] is [null] when the
    payload's state was truthy and is as given (or absent) otherwise,
    and whose every other field is the payload's. *)
Theorem C10_entity_update_frame
  (rows : list row) (id content now : jsstring) (o : props) :
  first_by_id (JStr id) rows <> None ->
  parse content = Ok (JObj o) ->
  exists o',
    entity_update rows id (Ok content) now
    = Ok (update_by_id (JStr id) (JStr (stringify (JObj o'))) (JStr now) rows, Updated)
    /\ obj_get (lit "id") o' = Some (JStr id)
    /\ obj_get (lit "state") o'
       = (if truthy_opt (obj_get (lit "state") o) then Some JNull
          else obj_get (lit "state") o)
    /\ forall k, k <> lit "id" -> k <> lit "state" -> obj_get k o' = obj_get k o.
Proof.
  intros Hex Hp.
  unfold entity_update. destruct (first_by_id (JStr id) rows); [|contradiction].
  unfold entity_update_object, bind. rewrite Hp. simpl.
  unfold clear_state, bind. simpl.
  assert (Hs : obj_get (lit "state") (obj_set (lit "id") (JStr id) o)
               = obj_get (lit "state") o)
    by (apply obj_get_set_neq; lit_neq).
  rewrite Hs.
  destruct (truthy_opt (obj_get (lit "state") o)) eqn:Ht; simpl.
  - eexists. split; [reflexivity|]. split; [|split].
    + rewrite obj_get_set_neq by lit_neq. apply obj_get_set_eq.
    + apply obj_get_set_eq.
    + intros k N1 N2. rewrite !obj_get_set_neq; congruence.
  - eexists. split; [reflexivity|]. split; [|split].
    + apply obj_get_set_eq.
    + exact Hs.
    + intros k N1 N2. rewrite obj_get_set_neq; congruence.
Qed.

Lemma C10_entity_update_frame_witness :
  exists o',
    entity_update c10_rows (lit "e1") (Ok c10_payload) (lit "2025-02-02T00:00:00.000Z")
    = Ok (update_by_id (JStr (lit "e1")) (JStr (stringify (JObj o')))
            (JStr (lit "2025-02-02T00:00:00.000Z")) c10_rows, Updated)
    /\ obj_get (lit "id") o' = Some (JStr (lit "e1"))
    /\ obj_get (lit "state") o' = Some JNull
    /\ forall k, k <> lit "id" -> k <> lit "state" ->
         obj_get k o'
         = obj_get k [(lit "id", JStr (lit "other")); (lit "type", JStr (lit "app"));
                      (lit "state", JObj [(lit "ready", JBool true)]);
                      (lit "pinned", JBool false)].
Proof.
  apply (C10_entity_update_frame c10_rows (lit "e1") c10_payload
           (lit "2025-02-02T00:00:00.000Z")
           [(lit "id", JStr (lit "other")); (lit "type", JStr (lit "app"));
            (lit "state", JObj [(lit "ready", JBool true)]);
            (lit "pinned", JBool false)]).
  - vm_compute. discriminate.
  - vm_compute. reflexivity.
Defined.

(** C9, counterexample: an update whose payload carries a version
    stores that version. Blueprint [bp1] is at version 3; after an
    update with a payload at version 3, and after a deploy of a built
    blueprint without a version, the stored version is not above 3. *)
Lemma C9_counterexample :
  blueprint_update c9_rows (lit "bp1") (Ok c9_payload) (lit "2025-02-02T00:00:00.000Z")
  = Ok ([{| r_id := JStr (lit "bp1");
            r_data := JStr (json_text "{'name':'new','version':3,'id':'bp1'}");
            r_createdAt := JStr (lit "2025-01-01T00:00:00.000Z");
            r_updatedAt := JStr (lit "2025-02-02T00:00:00.000Z") |}], Updated)
  /\ deploy_blueprint c9_rows (JStr (lit "bp1"))
       (JObj [(lit "id", JStr (lit "bp1")); (lit "name", JStr (lit "new"))])
       (lit "2025-02-02T00:00:00.000Z")
     = Ok [{| r_id := JStr (lit "bp1");
              r_data := JStr (json_text "{'id':'bp1','name':'new'}");
              r_createdAt := JStr (lit "2025-01-01T00:00:00.000Z");
              r_updatedAt := JStr (lit "2025-02-02T00:00:00.000Z") |}].
Proof. split; vm_compute; reflexivity. Qed.

(** C9, amended: for a blueprint that exists, with a stored object
    [e], and a payload that is a JSON object [o], blueprint-update
    stores the current time as [updatedAt] and the serialization of an
    object whose [id] is the target id and whose fields other than
    [id] and [version] are the payload's. Its [version] is the
    payload's when the payload has one; otherwise it is the stored
    version plus one (1 when the stored object has none, or has 0).
    The deploy command's update stores the built blueprint as it is,
    with the current time. *)
Theorem C9_blueprint_update_version
  (rows : list row) (id content now : jsstring) (existing : row) (o e : props) :
  first_by_id (JStr id) rows = Some existing ->
  parse content = Ok (JObj o) ->
  parse_column (r_data existing) = Ok (JObj e) ->
  (forall n, obj_get (lit "version") e = Some (JNum n) -> safe_int (n + 1) = true) ->
  (forall v, obj_get (lit "version") e = Some v -> exists n, v = JNum n) ->
  (exists o',
     blueprint_update rows id (Ok content) now
     = Ok (update_by_id (JStr id) (JStr (stringify (JObj o'))) (JStr now) rows, Updated)
     /\ obj_get (lit "id") o' = Some (JStr id)
     /\ obj_get (lit "version") o'
        = match obj_get (lit "version") o, obj_get (lit "version") e with
          | Some v, _ => Some v
          | None, Some (JNum n) => Some (JNum (if n =? 0 then 1 else n + 1))
          | None, _ => Some (JNum 1)
          end
     /\ forall k, k <> lit "id" -> k <> lit "version" -> obj_get k o' = obj_get k o)
  /\ (forall data r', In r' (update_by_id (JStr id) data (JStr now) rows) ->
        same_key (JStr id) (r_id r') = true ->
        r_data r' = data /\ r_updatedAt r' = JStr now)
  /\ (forall blueprint,
        deploy_blueprint rows (JStr id) blueprint now
        = Ok (update_by_id (JStr id) (JStr (stringify blueprint)) (JStr now) rows)).
Proof.
  intros Hex Hp He Hsafe Hnum. split; [|split].
  - unfold blueprint_update. rewrite Hex.
    unfold blueprint_update_data, bind. rewrite Hp. simpl. rewrite He. simpl.
    assert (Hv : obj_get (lit "version") (obj_set (lit "id") (JStr id) o)
                 = obj_get (lit "version") o)
      by (apply obj_get_set_neq; lit_neq).
    rewrite Hv.
    destruct (obj_get (lit "version") o) as [v|] eqn:Ev; simpl.
    + eexists. split; [reflexivity|]. split; [|split].
      * apply obj_get_set_eq.
      * exact Hv.
      * intros k N1 N2. rewrite obj_get_set_neq; congruence.
    + destruct (obj_get (lit "version") e) as [v|] eqn:Ee; simpl.
      * destruct (Hnum v eq_refl) as [n ->]. simpl.
        destruct (n =? 0) eqn:En; simpl.
        -- eexists. split; [reflexivity|]. split; [|split].
           ++ rewrite obj_get_set_neq by lit_neq. apply obj_get_set_eq.
           ++ apply obj_get_set_eq.
           ++ intros k N1 N2. rewrite !obj_get_set_neq; congruence.
        -- rewrite (Hsafe n eq_refl). simpl.
           eexists. split; [reflexivity|]. split; [|split].
           ++ rewrite obj_get_set_neq by lit_neq. apply obj_get_set_eq.
           ++ apply obj_get_set_eq.
           ++ intros k N1 N2. rewrite !obj_get_set_neq; congruence.
      * eexists. split; [reflexivity|]. split; [|split].
        -- rewrite obj_get_set_neq by lit_neq. apply obj_get_set_eq.
        -- apply obj_get_set_eq.
        -- intros k N1 N2. rewrite !obj_get_set_neq; congruence.
  - intros data r' Hin Hk.
    apply update_by_id_spec in Hin as [r [_ [Hid [_ Hr]]]].
    rewrite <- Hid, Hk in Hr. exact Hr.
  - intros blueprint. unfold deploy_blueprint. now rewrite Hex.
Qed.

Lemma C9_blueprint_update_version_witness :
  exists o',
    blueprint_update c9_rows (lit "bp1") (Ok c9_payload_unversioned)
      (lit "2025-02-02T00:00:00.000Z")
    = Ok (update_by_id (JStr (lit "bp1")) (JStr (stringify (JObj o')))
            (JStr (lit "2025-02-02T00:00:00.000Z")) c9_rows, Updated)
    /\ obj_get (lit "version") o' = Some (JNum 4).
Proof.
  destruct (C9_blueprint_update_version c9_rows (lit "bp1") c9_payload_unversioned
              (lit "2025-02-02T00:00:00.000Z")
              {| r_id := JStr (lit "bp1");
                 r_data := JStr (json_text "{'id':'bp1','name':'old','version':3}");
                 r_createdAt := JStr (lit "2025-01-01T00:00:00.000Z");
                 r_updatedAt := JStr (lit "2025-01-01T00:00:00.000Z") |}
              [(lit "name", JStr (lit "new"))]
              [(lit "id", JStr (lit "bp1")); (lit "name", JStr (lit "old"));
               (lit "version", JNum 3)])
    as [[o' [H1 [_ [H3 _]]]] _].
  - vm_compute. reflexivity.
  - vm_compute. reflexivity.
  - vm_compute. reflexivity.
  - intros n E. vm_compute in E. injection E as <-. reflexivity.
  - intros v E. vm_compute in E. injection E as <-. now exists 3.
  - exists o'. split; [exact H1|exact H3].
Defined.

(** ** The container codec *)

Lemma firstn_short {A} (n m : nat) (l : list A) :
  (List.length l <= m)%nat -> (List.length l <= n)%nat -> firstn n l = firstn m l.
Proof.
  intros H1 H2. now rewrite !firstn_all2.
Qed.

(** A slice over a range that starts at or after 0 is what the buffer
    holds of that range. *)
Lemma ab_slice_clamped (buf : list Z) (p n : Z) :
  0 <= p -> 0 <= n ->
  ab_slice buf p (p + n) = firstn (Z.to_nat n) (skipn (Z.to_nat p) buf).
Proof.
  intros Hp Hn. unfold ab_slice.
  assert ((p <? 0) = false) as -> by lia.
  assert ((p + n <? 0) = false) as -> by lia.
  set (len := Z.of_nat (List.length buf)).
  destruct (Z.le_gt_cases p len) as [Hle|Hgt].
  - rewrite (Z.min_l p len) by lia.
    destruct (Z.le_gt_cases (p + n) len) as [Hle2|Hgt2].
    + rewrite (Z.min_l (p + n) len) by lia. f_equal. lia.
    + rewrite (Z.min_r (p + n) len) by lia.
      apply firstn_short; rewrite length_skipn; unfold len in *; lia.
  - rewrite (Z.min_r p len) by lia.
    rewrite (Z.min_r (p + n) len) by lia.
    rewrite !skipn_all2 by (unfold len in *; lia).
    now rewrite !firstn_nil.
Qed.

Lemma getUint32_le_nonneg (buffer : list Z) (headerSize : Z) :
  Forall is_byte buffer -> getUint32_le buffer = Ok headerSize -> 0 <= headerSize.
Proof.
  intros Hb. unfold getUint32_le.
  destruct buffer as [|b0 [|b1 [|b2 [|b3 rest]]]]; try discriminate.
  intros E.
  assert (E' : b0 + 256 * b1 + 65536 * b2 + 16777216 * b3 = headerSize) by congruence.
  clear E. subst headerSize.
  pose proof (Forall_inv Hb) as H0. apply Forall_inv_tail in Hb.
  pose proof (Forall_inv Hb) as H1. apply Forall_inv_tail in Hb.
  pose proof (Forall_inv Hb) as H2. apply Forall_inv_tail in Hb.
  pose proof (Forall_inv Hb) as H3.
  unfold is_byte in *. lia.
Qed.

(** The extraction loop never fails on sizes: every descriptor with a
    size and a url gets the bytes the buffer holds of its range. *)
Lemma extract_assets_clamped (buffer : list Z) (infos : list json) :
  forall (position : Z) (decls : list (Z * jsstring)),
    0 <= position ->
    map plain_descriptor infos = map Some decls ->
    position + fold_right Z.add 0 (map fst decls) <= 9007199254740991 ->
    exists assets,
      extract_assets buffer position infos = Ok assets
      /\ map ia_data assets = clamped_ranges buffer position (map fst decls)
      /\ map ia_size assets = map fst decls
      /\ map ia_url assets = map snd decls.
Proof.
  induction infos as [|info infos IH]; intros position decls Hpos Hd Hsum.
  - destruct decls; [|discriminate]. exists []. simpl. auto.
  - destruct decls as [|[n u] decls]; [discriminate|].
    simpl in Hd. injection Hd as Hinfo Hrest.
    unfold plain_descriptor in Hinfo.
    destruct info as [| | | | |d]; try discriminate.
    destruct (obj_get (lit "size") d) as [[| |n'| | |]|] eqn:Es; try discriminate.
    destruct (obj_get (lit "url") d) as [[| | |u'| |]|] eqn:Eu; try discriminate.
    destruct (0 <=? n') eqn:En; [|discriminate].
    injection Hinfo as -> ->. apply Z.leb_le in En.
    simpl in Hsum.
    assert (Hfold : 0 <= fold_right Z.add 0 (map fst decls)).
    { clear - Hrest. revert infos Hrest.
      induction decls as [|[m v] decls IHd]; intros infos Hrest; simpl; [lia|].
      destruct infos as [|i infos]; [discriminate|].
      simpl in Hrest. injection Hrest as Hi Hrest.
      specialize (IHd _ Hrest).
      unfold plain_descriptor in Hi.
      destruct i as [| | | | |d]; try discriminate.
      destruct (obj_get (lit "size") d) as [[| |n'| | |]|]; try discriminate.
      destruct (obj_get (lit "url") d) as [[| | |u'| |]|]; try discriminate.
      destruct (0 <=? n') eqn:En; [|discriminate].
      injection Hi as -> ->. apply Z.leb_le in En. lia. }
    destruct (IH (position + n) decls) as [assets [Ha [Hdata [Hsize Hurl]]]];
      [lia|exact Hrest|lia|].
    cbn [extract_assets get_prop bind]. rewrite Es. cbn [bind].
    assert (safe_int (position + n) = true) as ->
      by (unfold safe_int; apply Z.leb_le; lia).
    rewrite Eu. cbn [bind]. rewrite Ha. cbn [bind].
    eexists. split; [reflexivity|]. simpl.
    rewrite Hdata, Hsize, Hurl, ab_slice_clamped by lia. auto.
Qed.

(** C3, counterexample: the chair container cut 32 bytes short still
    declares a 37-byte asset; [importApp] returns it with the 5 bytes
    that are left. *)
Lemma C3_counterexample :
  importApp chair_truncated
  = Ok {| app_blueprint := Some chair_blueprint;
          app_assets :=
            [{| ia_type := Some (JStr (lit "model")); ia_url := lit "model.glb";
                ia_fileName := lit "model.glb"; ia_data := [1; 2; 3; 4; 5];
                ia_size := 37; ia_mime := Some (JStr (lit "model/gltf-binary")) |}] |}.
Proof. vm_compute. reflexivity. Qed.

(** C3, amended: [importApp] fails, with the parser's error, on every
    input whose header region does not parse even after the two
    recovery passes. It does not fail on an input whose declared sizes
    exceed the bytes left after the header: when the header parses to
    an object whose assets are descriptors with a size and a url, it
    returns every asset with the bytes the buffer holds of its
    declared range, fewer than declared when the buffer is short. *)
Theorem C3_importApp_failures (buffer : list Z) (headerSize : Z) :
  Forall is_byte buffer ->
  getUint32_le buffer = Ok headerSize ->
  (forall e1 e2 e3,
     parse (ab2str (ab_slice buffer 4 (4 + headerSize))) = Throw e1 ->
     parse (fix_fields 0 (ab2str (ab_slice buffer 4 (4 + headerSize)))) = Throw e2 ->
     parse (strip_nonprintable (ab2str (ab_slice buffer 4 (4 + headerSize)))) = Throw e3 ->
     importApp buffer = Throw e3)
  /\ (forall o infos decls,
        parse (ab2str (ab_slice buffer 4 (4 + headerSize))) = Ok (JObj o) ->
        obj_get (lit "assets") o = Some (JArr infos) ->
        map plain_descriptor infos = map Some decls ->
        4 + headerSize + fold_right Z.add 0 (map fst decls) <= 9007199254740991 ->
        exists assets,
          importApp buffer
          = Ok {| app_blueprint := obj_get (lit "blueprint") o; app_assets := assets |}
          /\ map ia_data assets
             = clamped_ranges buffer (4 + headerSize) (map fst decls)
          /\ map ia_size assets = map fst decls).
Proof.
  intros Hb Hs. pose proof (getUint32_le_nonneg buffer headerSize Hb Hs) as Hnn. split.
  - intros e1 e2 e3 H1 H2 H3.
    unfold importApp. rewrite Hs. cbn [bind]. rewrite H1. cbn [try_catch].
    unfold parseHypHeader. rewrite H2. cbn [try_catch]. rewrite H3. reflexivity.
  - intros o infos decls Hp Ha Hd Hsum.
    destruct (extract_assets_clamped buffer infos (4 + headerSize) decls)
      as [assets [He [Hdata [Hsize _]]]]; [lia|exact Hd|lia|].
    exists assets. split; [|auto].
    unfold importApp. rewrite Hs. cbn [bind]. rewrite Hp. cbn [try_catch bind get_prop].
    rewrite Ha. cbn [iterate bind]. rewrite He. reflexivity.
Qed.

Lemma chair_truncated_bytes : Forall is_byte chair_truncated.
Proof.
  apply Forall_forall. intros b Hb.
  assert (E : forallb (fun b => (0 <=? b) && (b <? 256)) chair_truncated = true)
    by (vm_compute; reflexivity).
  rewrite forallb_forall in E. specialize (E b Hb).
  apply andb_true_iff in E as [E1 E2]. unfold is_byte. lia.
Qed.

Lemma not_json_hyp_bytes : Forall is_byte not_json_hyp.
Proof. repeat constructor; unfold is_byte; lia. Qed.

Lemma C3_importApp_failures_witness :
  importApp not_json_hyp = Throw SyntaxError
  /\ exists assets,
       importApp chair_truncated
       = Ok {| app_blueprint := Some chair_blueprint; app_assets := assets |}
       /\ map ia_data assets = [[1; 2; 3; 4; 5]]
       /\ map ia_size assets = [37].
Proof.
  split.
  { apply (proj1 (C3_importApp_failures not_json_hyp 3 not_json_hyp_bytes eq_refl)
             SyntaxError SyntaxError SyntaxError); vm_compute; reflexivity. }
  destruct (C3_importApp_failures chair_truncated 144 chair_truncated_bytes)
    as [_ H]; [vm_compute; reflexivity|].
  destruct (H [(lit "blueprint", chair_blueprint);
               (lit "assets",
                JArr [JObj [(lit "type", JStr (lit "model"));
                            (lit "url", JStr (lit "model.glb"));
                            (lit "size", JNum 37);
                            (lit "mime", JStr (lit "model/gltf-binary"))]])]
              [JObj [(lit "type", JStr (lit "model"));
                     (lit "url", JStr (lit "model.glb"));
                     (lit "size", JNum 37);
                     (lit "mime", JStr (lit "model/gltf-binary"))]]
              [(37, lit "model.glb")])
    as [assets [H1 [H2 H3]]].
  - vm_compute. reflexivity.
  - vm_compute. reflexivity.
  - vm_compute. reflexivity.
  - vm_compute. discriminate.
  - exists assets. split; [exact H1|]. split; [exact H2|exact H3].
Defined.

(** C1, at the failing input: a directory whose blueprint is
    [{ name: U+0142 }] packs into a container from which [importApp]
    returns the blueprint [{ name: B }]. [str2ab] keeps the low byte
    0x42 of the unit 0x142, and [ab2str] reads that byte as the
    letter B. *)
Lemma C1_non_ascii_blueprint_not_restored :
  parse (Utf8.decode_from None (Utf8.encode (json_text "{'name':'" ++ [322] ++ json_text "'}")))
  = Ok l_stroke_blueprint
  /\ exists fs',
       Apps.packDirectory l_stroke_dir (lit ".") (lit "app") (Some (lit "out.hyp"))
       = (fs', [], Returned (lit "out.hyp"))
       /\ readFile fs' (lit "out.hyp") = Ok (container_bytes l_stroke_blueprint [])
       /\ importApp (container_bytes l_stroke_blueprint [])
          = Ok {| app_blueprint := Some (JObj [(lit "name", JStr (lit "B"))]);
                  app_assets := [] |}.
Proof.
  split; [vm_compute; reflexivity|].
  eexists. split; [vm_compute; reflexivity|].
  split; vm_compute; reflexivity.
Qed.

(** C2, at the failing input: for the blueprint [{ name: U+0142 }] the
    38 header bytes are not the UTF-8 serialization of the header
    text, which has 39 bytes; read back as UTF-8 they are another
    text. *)
Lemma C2_header_bytes_not_utf8 :
  getUint32_le (container_bytes l_stroke_blueprint []) = Ok 38
  /\ ab_slice (container_bytes l_stroke_blueprint []) 4 (4 + 38)
     = str2ab (stringify (make_header l_stroke_blueprint []))
  /\ List.length (Utf8.encode (stringify (make_header l_stroke_blueprint []))) = 39%nat
  /\ ab2str (ab_slice (container_bytes l_stroke_blueprint []) 4 (4 + 38))
     = json_text "{'blueprint':{'name':'B'},'assets':[]}"
  /\ stringify (make_header l_stroke_blueprint [])
     = json_text "{'blueprint':{'name':'" ++ [322] ++ json_text "'},'assets':[]}".
Proof. repeat split; vm_compute; reflexivity. Qed.

Lemma setUint32_le_bytes (n : Z) : Forall is_byte (setUint32_le n).
Proof.
  unfold setUint32_le, is_byte.
  repeat constructor; apply Z.mod_pos_bound; lia.
Qed.

Lemma getUint32_le_set (n : Z) (rest : list Z) :
  0 <= n < 4294967296 -> getUint32_le (setUint32_le n ++ rest) = Ok n.
Proof.
  intros Hn. unfold setUint32_le. rewrite (Z.mod_small n) by lia.
  cbn [app getUint32_le]. f_equal.
  pose proof (Z.div_mod n 256 ltac:(lia)) as E0.
  pose proof (Z.div_mod (n / 256) 256 ltac:(lia)) as E1.
  pose proof (Z.div_mod (n / 256 / 256) 256 ltac:(lia)) as E2.
  assert (D2 : n / 65536 = n / 256 / 256) by (rewrite Z.div_div by lia; reflexivity).
  assert (D3 : n / 16777216 = n / 256 / 256 / 256) by (rewrite !Z.div_div by lia; reflexivity).
  assert (B : n / 16777216 < 256) by (apply Z.div_lt_upper_bound; lia).
  assert (B' : 0 <= n / 16777216) by (apply Z.div_pos; lia).
  rewrite (Z.mod_small (n / 16777216)) by lia.
  rewrite D2, D3. lia.
Qed.

Lemma length_setUint32_le (n : Z) : List.length (setUint32_le n) = 4%nat.
Proof. reflexivity. Qed.

Lemma clamped_ranges_concat (pre : list Z) (datas : list (list Z)) :
  forall position,
    position = Z.of_nat (List.length pre) ->
    forall tail,
      clamped_ranges (pre ++ List.concat datas ++ tail) position
        (map (fun d => Z.of_nat (List.length d)) datas)
      = datas.
Proof.
  revert pre. induction datas as [|d datas IH]; intros pre position Hp tail;
    [reflexivity|].
  cbn [map clamped_ranges List.concat]. f_equal.
  - subst position. rewrite !Nat2Z.id.
    rewrite skipn_app, skipn_all, Nat.sub_diag. cbn [app skipn].
    rewrite <- app_assoc, firstn_app, firstn_all, Nat.sub_diag. cbn [firstn].
    apply app_nil_r.
  - replace (pre ++ (d ++ List.concat datas) ++ tail)
      with ((pre ++ d) ++ List.concat datas ++ tail)
      by (now rewrite <- !app_assoc).
    apply IH. subst position. rewrite length_app. lia.
Qed.

(** A text of ASCII units has one byte per unit, and these bytes are
    its UTF-8 encoding. *)
Lemma str2ab_ascii (t : jsstring) :
  Forall (fun c => 0 <= c < 128) t -> str2ab t = Utf8.encode t.
Proof.
  induction 1 as [|c t Hc _ IH]; [reflexivity|].
  cbn [str2ab map Utf8.encode]. fold (str2ab t). rewrite IH.
  assert (is_high_surrogate c = false) as ->
    by (unfold is_high_surrogate; apply andb_false_iff; left; lia).
  assert (is_low_surrogate c = false) as ->
    by (unfold is_low_surrogate; apply andb_false_iff; left; lia).
  unfold Utf8.encode_cp. assert ((c <? 128) = true) as -> by lia.
  rewrite Z.mod_small by lia. reflexivity.
Qed.

(** The sizes [packDirectory] declares are the lengths of the data it
    read. *)
Lemma read_assets_sizes {F} `{FileSystem F} (fs : F) (paths : list asset_path) :
  forall assets,
    read_assets fs paths = Ok assets ->
    map pa_size assets = map (fun a => Z.of_nat (List.length (pa_data a))) assets.
Proof.
  induction paths as [|a paths IH]; intros assets E; cbn [read_assets] in E.
  - injection E as <-. reflexivity.
  - destruct (readFile fs (ap_path a)) as [data| |]; try discriminate.
    cbn [bind] in E. destruct (read_assets fs paths) as [more| |]; try discriminate.
    cbn [bind] in E. injection E as <-. cbn [map pa_size pa_data]. f_equal. now apply IH.
Qed.

(** The byte layout of a container: the first four bytes hold, little
    endian, the number [L] of header bytes; the next [L] bytes are the
    header text, one byte per unit; the rest is the data of the assets
    in the order of their descriptors, each as long as its declared
    size. When the header text is ASCII its bytes are its UTF-8
    encoding. *)
Theorem container_layout (blueprint : json) (assets : list packed_asset) :
  let text := stringify (make_header blueprint assets) in
  let L := Z.of_nat (List.length text) in
  let bytes := container_bytes blueprint assets in
  L < 4294967296 ->
  map pa_size assets = map (fun a => Z.of_nat (List.length (pa_data a))) assets ->
  getUint32_le bytes = Ok L
  /\ ab_slice bytes 4 (4 + L) = str2ab text
  /\ skipn (Z.to_nat (4 + L)) bytes = List.concat (map pa_data assets)
  /\ clamped_ranges bytes (4 + L) (map pa_size assets) = map pa_data assets
  /\ (Forall (fun c => 0 <= c < 128) text -> ab_slice bytes 4 (4 + L) = Utf8.encode text).
Proof.
  intros text L bytes HL Hsizes.
  assert (Hlen : List.length (str2ab text) = List.length text)
    by (unfold str2ab; apply length_map).
  assert (Hbytes : bytes = setUint32_le L ++ str2ab text ++ List.concat (map pa_data assets)).
  { unfold bytes, container_bytes. fold text. now rewrite Hlen. }
  assert (Hslice : ab_slice bytes 4 (4 + L) = str2ab text).
  { rewrite ab_slice_clamped by lia. rewrite Hbytes.
    change (Z.to_nat 4) with (List.length (setUint32_le L)).
    rewrite skipn_app, skipn_all, Nat.sub_diag. cbn [app skipn].
    unfold L. rewrite Nat2Z.id, <- Hlen.
    rewrite firstn_app, firstn_all, Nat.sub_diag. cbn [firstn]. apply app_nil_r. }
  split; [|split; [|split; [|split]]].
  - rewrite Hbytes. apply getUint32_le_set. lia.
  - exact Hslice.
  - rewrite Hbytes, app_assoc.
    replace (Z.to_nat (4 + L)) with (List.length (setUint32_le L ++ str2ab text)).
    + rewrite skipn_app, skipn_all, Nat.sub_diag. reflexivity.
    + rewrite length_app, length_setUint32_le, Hlen. unfold L. lia.
  - rewrite Hsizes, Hbytes, app_assoc.
    rewrite <- (app_nil_r (List.concat (map pa_data assets))).
    rewrite <- (map_map pa_data (fun d => Z.of_nat (List.length d))).
    apply clamped_ranges_concat.
    rewrite length_app, length_setUint32_le, Hlen. unfold L. lia.
  - intros Hascii. rewrite Hslice. now apply str2ab_ascii.
Qed.

Lemma container_layout_witness :
  getUint32_le chair_hyp = Ok 144
  /\ ab_slice chair_hyp 4 (4 + 144)
     = str2ab (stringify (make_header chair_blueprint [chair_asset]))
  /\ skipn (Z.to_nat (4 + 144)) chair_hyp = glb37 ++ []
  /\ clamped_ranges chair_hyp (4 + 144) [37] = [glb37]
  /\ (Forall (fun c => 0 <= c < 128) (stringify (make_header chair_blueprint [chair_asset])) ->
      ab_slice chair_hyp 4 (4 + 144)
      = Utf8.encode (stringify (make_header chair_blueprint [chair_asset]))).
Proof.
  apply (container_layout chair_blueprint [chair_asset]).
  - vm_compute. reflexivity.
  - vm_compute. reflexivity.
Defined.

(** The chair scenario: packing the directory that holds
    [blueprint.json] and the 37-byte [model.glb] writes [chair.hyp];
    its first four bytes decode to [L = 144], its next [L] bytes parse
    as JSON whose [assets] is the one descriptor of [model.glb] with
    size 37, and its last 37 bytes are the bytes of [model.glb]. *)
Theorem chair_scenario :
  exists fs',
    Apps.packDirectory chair_dir (lit ".") (lit "chair") (Some (lit "chair.hyp"))
    = (fs', [], Returned (lit "chair.hyp"))
    /\ readFile fs' (lit "chair.hyp") = Ok chair_hyp
    /\ getUint32_le chair_hyp = Ok 144
    /\ parse (ab2str (ab_slice chair_hyp 4 (4 + 144)))
       = Ok (JObj [(lit "blueprint", chair_blueprint);
                   (lit "assets",
                    JArr [JObj [(lit "type", JStr (lit "model"));
                                (lit "url", JStr (lit "model.glb"));
                                (lit "size", JNum 37);
                                (lit "mime", JStr (lit "model/gltf-binary"))]])])
    /\ skipn (List.length chair_hyp - 37) chair_hyp = glb37.
Proof.
  eexists. split; [vm_compute; reflexivity|].
  repeat split; vm_compute; reflexivity.
Qed.

(** ** findAsset and processAssets *)

Lemma find_app {A} (f : A -> bool) (l1 l2 : list A) :
  find f (l1 ++ l2) = match find f l1 with
                      | Some x => Some x
                      | None => find f l2
                      end.
Proof.
  induction l1 as [|x l1 IH]; simpl; [reflexivity|].
  destruct (f x); auto.
Qed.

(** One loop of [findAsset] finds the first existing path among the
    joins of the name to the directories that exist. *)
Lemma search_dirs_find {F} `{FileSystem F} (fs : F) (name : jsstring)
  (dirs : list jsstring) :
  search_dirs fs name dirs
  = find (existsSync fs)
      (map (fun dir => Path.join dir name) (filter (existsSync fs) dirs)).
Proof.
  induction dirs as [|dir dirs IH]; simpl; [reflexivity|].
  destruct (existsSync fs dir); simpl; [|exact IH].
  destruct (existsSync fs (Path.join dir name)); [reflexivity|exact IH].
Qed.

(** C8, counterexample: with the search list [nodir], a directory that
    does not exist, and the reference [../x.png], the stated order
    reaches the candidate [path.join("nodir", "../x.png")], which is
    [x.png] and exists; [findAsset] passes the directory over and
    returns [null]. *)
Lemma C8_counterexample :
  findAsset c8_disk (lit "../x.png") [lit "nodir"] = None
  /\ find (existsSync c8_disk) (candidates (clean_path (lit "../x.png")) [lit "nodir"])
     = Some (lit "x.png").
Proof. split; vm_compute; reflexivity. Qed.

(** C8, amended: [findAsset] returns the first path that exists among,
    in order, the reference without its prefix, its basename joined to
    every search directory that exists, and the whole path joined to
    every search directory that exists, the directories taken in the
    order of the list; it returns [null] when none of these exists. *)
Theorem C8_findAsset_order {F} `{FileSystem F} (fs : F) (assetPath : jsstring)
  (searchDirs : list jsstring) :
  option_map originalPath (findAsset fs assetPath searchDirs)
  = find (existsSync fs)
      (candidates (clean_path assetPath) (filter (existsSync fs) searchDirs)).
Proof.
  unfold findAsset, candidates. fold (clean_path assetPath).
  cbn [find]. destruct (existsSync fs (clean_path assetPath)); [reflexivity|].
  rewrite find_app, <- !search_dirs_find.
  destruct (search_dirs fs (Path.basename (clean_path assetPath)) searchDirs);
    [reflexivity|].
  destruct (search_dirs fs (clean_path assetPath) searchDirs); reflexivity.
Qed.

Lemma find_map_filter {A} (ex : A -> bool) (g : A -> A) (l : list A) :
  (forall d, In d l -> ex d = false -> ex (g d) = false) ->
  find ex (map g (filter ex l)) = find ex (map g l).
Proof.
  induction l as [|d l IH]; intros Hs; simpl; [reflexivity|].
  destruct (ex d) eqn:Ed; simpl.
  - destruct (ex (g d)); [reflexivity|]. apply IH. intros; apply Hs; simpl; auto.
  - rewrite (Hs d (or_introl eq_refl) Ed). apply IH. intros; apply Hs; simpl; auto.
Qed.

(** Where a search directory does not exist and neither of the two
    candidates under it exists, the directories need no filtering:
    the order is the one stated, over the whole list. *)
Theorem findAsset_order_all_dirs {F} `{FileSystem F} (fs : F) (assetPath : jsstring)
  (searchDirs : list jsstring) :
  (forall dir, In dir searchDirs -> existsSync fs dir = false ->
     existsSync fs (Path.join dir (Path.basename (clean_path assetPath))) = false
     /\ existsSync fs (Path.join dir (clean_path assetPath)) = false) ->
  option_map originalPath (findAsset fs assetPath searchDirs)
  = find (existsSync fs) (candidates (clean_path assetPath) searchDirs).
Proof.
  intros Hsane. unfold findAsset, candidates. fold (clean_path assetPath).
  cbn [find]. destruct (existsSync fs (clean_path assetPath)); [reflexivity|].
  rewrite find_app, !search_dirs_find.
  rewrite (find_map_filter (existsSync fs)
             (fun dir => Path.join dir (Path.basename (clean_path assetPath))))
    by (intros d Hd Ed; exact (proj1 (Hsane d Hd Ed))).
  rewrite (find_map_filter (existsSync fs)
             (fun dir => Path.join dir (clean_path assetPath)))
    by (intros d Hd Ed; exact (proj2 (Hsane d Hd Ed))).
  destruct (find (existsSync fs)
              (map (fun dir => Path.join dir (Path.basename (clean_path assetPath)))
                 searchDirs)); [reflexivity|].
  destruct (find (existsSync fs)
              (map (fun dir => Path.join dir (clean_path assetPath)) searchDirs));
    reflexivity.
Qed.

(** A list whose first directory does not exist: the file is found
    under the second. *)
Lemma findAsset_order_all_dirs_witness :
  existsSync c5_disk (lit "nodir") = false
  /\ option_map originalPath
       (findAsset c5_disk (lit "asset://car.glb") [lit "nodir"; lit "assets"])
     = find (existsSync c5_disk)
         (candidates (clean_path (lit "asset://car.glb")) [lit "nodir"; lit "assets"])
  /\ find (existsSync c5_disk)
       (candidates (clean_path (lit "asset://car.glb")) [lit "nodir"; lit "assets"])
     = Some (lit "assets/car.glb").
Proof.
  split; [reflexivity|]. split; [|vm_compute; reflexivity].
  apply (findAsset_order_all_dirs c5_disk (lit "asset://car.glb")
           [lit "nodir"; lit "assets"]).
  intros dir [<-|[<-|[]]] E.
  - split; vm_compute; reflexivity.
  - vm_compute in E. discriminate E.
Defined.

(** ** The exchange pipeline *)

Lemma lift_modelled {A} (x : io A) : lift x <> Unmodelled.
Proof. destruct x; discriminate. Qed.

Section Tables.
Context {F : Type} `{FileSystem F}.

Lemma of_result_tables {A} (w : @world F) (r : result A) (k : A -> @step F) :
  has_tables (w_db w) -> (forall a, has_tables (w_db (fst (k a)))) ->
  has_tables (w_db (fst (of_result w r k))).
Proof. intros Hw Hk. destruct r; cbn [of_result fst]; auto. Qed.

Lemma and_then_tables (s : @step F) (k : @world F -> @step F) :
  has_tables (w_db (fst s)) ->
  (forall w', has_tables (w_db w') -> has_tables (w_db (fst (k w')))) ->
  has_tables (w_db (fst (and_then s k))).
Proof.
  intros Hs Hk. destruct s as [w1 [u| |]]; cbn [and_then fst] in *; auto.
Qed.

Lemma import_config_files_tables (inputDir : jsstring) (files : list jsstring) :
  forall w : @world F, has_tables (w_db w) ->
    has_tables (w_db (fst (import_config_files w inputDir files))).
Proof.
  induction files as [|file rest IH]; intros w Hw; [exact Hw|].
  cbn [import_config_files].
  repeat (apply of_result_tables; [exact Hw|intros ?]).
  apply IH. destruct Hw as (_ & Hu & Hb & He). repeat split; try assumption. discriminate.
Qed.

Lemma import_user_files_tables (inputDir : jsstring) (files : list jsstring) :
  forall w : @world F, has_tables (w_db w) ->
    has_tables (w_db (fst (import_user_files w inputDir files))).
Proof.
  induction files as [|file rest IH]; intros w Hw; [exact Hw|].
  cbn [import_user_files].
  repeat (apply of_result_tables; [exact Hw|intros ?]).
  apply IH. destruct Hw as (Hc & _ & Hb & He). repeat split; try assumption. discriminate.
Qed.

Lemma import_blueprint_files_tables (assetMap : props) (inputDir : jsstring)
    (files : list jsstring) :
  forall w : @world F, has_tables (w_db w) ->
    has_tables (w_db (fst (import_blueprint_files w assetMap inputDir files))).
Proof.
  induction files as [|file rest IH]; intros w Hw; [exact Hw|].
  cbn [import_blueprint_files].
  repeat (apply of_result_tables; [exact Hw|intros ?]).
  apply IH. destruct Hw as (Hc & Hu & _ & He). repeat split; try assumption. discriminate.
Qed.

Lemma import_entity_files_tables (inputDir : jsstring) (files : list jsstring) :
  forall w : @world F, has_tables (w_db w) ->
    has_tables (w_db (fst (import_entity_files w inputDir files))).
Proof.
  induction files as [|file rest IH]; intros w Hw; [exact Hw|].
  cbn [import_entity_files].
  repeat (apply of_result_tables; [exact Hw|intros ?]).
  apply IH. destruct Hw as (Hc & Hu & Hb & _). repeat split; try assumption. discriminate.
Qed.

Lemma copy_assets_tables (globalAssetsDir dbAssetsDir : jsstring) (assets : list json) :
  forall (w : @world F) copiedAssets, has_tables (w_db w) ->
    has_tables (w_db (fst (copy_assets w copiedAssets globalAssetsDir dbAssetsDir assets))).
Proof.
  induction assets as [|asset rest IH]; intros w copiedAssets Hw; [exact Hw|].
  cbn [copy_assets].
  repeat (apply of_result_tables; [exact Hw|intros ?]).
  match goal with |- context [if ?c then _ else _] => destruct c end.
  - apply of_result_tables; [exact Hw|intros fs']. now apply IH.
  - now apply IH.
Qed.

(** The [try] block of [packDirectory] on a database without tables:
    the schema is created first, and whatever the imports do, and
    however they end, the four tables stay. *)
Lemma pack_body_tables (w : @world F) (inputDir globalAssetsDir dbAssetsDir : jsstring)
    (assets : json) :
  w_db w = empty_db ->
  has_tables (w_db (fst (pack_body w inputDir globalAssetsDir dbAssetsDir assets))).
Proof.
  intros Hdb. unfold pack_body. rewrite Hdb. cbn [createDatabaseSchema empty_db
    config users blueprints entities createTable bind of_result].
  set (w0 := with_db w _).
  assert (H0 : has_tables (w_db w0)) by (repeat split; discriminate).
  clearbody w0.
  apply and_then_tables.
  { destruct (existsSync _ _); [|exact H0]. unfold importConfig.
    apply of_result_tables; [exact H0|intros files].
    now apply import_config_files_tables. }
  intros w1 H1. apply and_then_tables.
  { destruct (existsSync _ _); [|exact H1]. unfold importUsers.
    apply of_result_tables; [exact H1|intros files].
    now apply import_user_files_tables. }
  intros w2 H2. apply and_then_tables.
  { apply of_result_tables; [exact H2|intros l]. now apply copy_assets_tables. }
  intros w3 H3. apply and_then_tables.
  { destruct (existsSync _ _); [|exact H3]. unfold importBlueprints.
    apply of_result_tables; [exact H3|intros files].
    destruct files as [|f files]; [exact H3|].
    apply of_result_tables; [exact H3|intros l].
    apply of_result_tables; [exact H3|intros assetMap].
    now apply import_blueprint_files_tables. }
  intros w4 H4.
  destruct (existsSync _ _); [|exact H4]. unfold importEntities.
  apply of_result_tables; [exact H4|intros files].
  now apply import_entity_files_tables.
Qed.

End Tables.

(** C6: when the database file exists and [--force] is not given,
    [packDirectory] ends the process with exit code 1, having printed
    an error and written nothing: the files and the database are as
    they were. When the input directory and the global assets
    directory pass their checks, which come first, the error is
    "Database file already exists" with the hint at [--force];
    otherwise it is the error of the check that failed. With
    [--force], once the checks have passed, the run is not ended
    there: the database file is removed, the directories are prepared,
    and the import runs on a new database; the process does not exit,
    and when the run returns the new database has the four tables of
    the schema. *)
Theorem C6_existing_database_needs_force {F} `{FileSystem F}
  (w : world) (inputDir dbPath globalAssetsDir : jsstring) (verbose : bool) :
  existsSync (w_fs w) dbPath = true ->
  (exists errors,
     Worlds.packDirectory w inputDir dbPath globalAssetsDir false verbose
     = ({| w_fs := w_fs w; w_db := w_db w; w_log := w_log w ++ errors |}, Exited 1)
     /\ errors <> []
     /\ (existsSync (w_fs w) inputDir = true ->
         isDirectory (w_fs w) inputDir = Ok true ->
         existsSync (w_fs w) globalAssetsDir = true ->
         errors = [Error (lit "Error: Database file already exists: " ++ dbPath);
                   Error (lit "Use --force to overwrite existing database.")]))
  /\ (forall fs1 fs2 fs3,
        existsSync (w_fs w) inputDir = true ->
        isDirectory (w_fs w) inputDir = Ok true ->
        existsSync (w_fs w) globalAssetsDir = true ->
        unlinkSync (w_fs w) dbPath = Ok fs1 ->
        ensureDir fs1 (Path.dirname dbPath) = Ok fs2 ->
        ensureDir fs2 (Path.join (Path.dirname dbPath) (lit "assets")) = Ok fs3 ->
        Worlds.packDirectory w inputDir dbPath globalAssetsDir true verbose
        = pack_import {| w_fs := fs3; w_db := empty_db; w_log := w_log w |}
            inputDir globalAssetsDir (Path.join (Path.dirname dbPath) (lit "assets"))
            verbose
        /\ (forall code,
              snd (Worlds.packDirectory w inputDir dbPath globalAssetsDir true verbose)
              <> Exited code)
        /\ (snd (Worlds.packDirectory w inputDir dbPath globalAssetsDir true verbose)
            = Returned tt ->
            has_tables
              (w_db (fst (Worlds.packDirectory w inputDir dbPath globalAssetsDir true
                            verbose))))).
Proof.
  intros Hdb. split.
  - unfold Worlds.packDirectory, log_error.
    destruct (existsSync (w_fs w) inputDir); cbn [negb].
    2:{ eexists. split; [reflexivity|]. split; [discriminate|]. discriminate. }
    unfold isDirectory.
    destruct (stat_isDirectory (w_fs w) inputDir) as [[|]|e]; cbn [lift].
    2:{ eexists. split; [reflexivity|]. split; [discriminate|]. discriminate. }
    2:{ eexists. split; [reflexivity|]. split; [discriminate|]. discriminate. }
    destruct (existsSync (w_fs w) globalAssetsDir); cbn [negb].
    2:{ eexists. split; [reflexivity|]. split; [discriminate|]. discriminate. }
    rewrite Hdb. cbn [negb andb w_fs w_db w_log].
    exists [Error (lit "Error: Database file already exists: " ++ dbPath);
            Error (lit "Use --force to overwrite existing database.")].
    split; [now rewrite <- app_assoc|]. split; [discriminate|reflexivity].
  - intros fs1 fs2 fs3 Hin Hdir Hglob Hun He1 He2.
    assert (E : Worlds.packDirectory w inputDir dbPath globalAssetsDir true verbose
                = pack_import {| w_fs := fs3; w_db := empty_db; w_log := w_log w |}
                    inputDir globalAssetsDir
                    (Path.join (Path.dirname dbPath) (lit "assets")) verbose).
    { unfold Worlds.packDirectory.
      rewrite Hin, Hdir, Hglob, Hdb. cbn [negb andb]. now rewrite Hun, He1, He2. }
    split; [exact E|]. rewrite E. unfold pack_import, read_metadata.
    set (w0 := {| w_fs := fs3; w_db := empty_db; w_log := w_log w |}).
    assert (Hbody : forall w1 a, w_db w1 = empty_db ->
              (forall code,
                 snd (match caught verbose
                              (pack_body w1 inputDir globalAssetsDir
                                 (Path.join (Path.dirname dbPath) (lit "assets")) a)
                              (lit "Error packing directory:") with
                      | (w', true) => (w', Returned tt)
                      | (w', false) => (w', Beyond)
                      end) <> Exited code)
              /\ has_tables
                   (w_db (fst (match caught verbose
                                       (pack_body w1 inputDir globalAssetsDir
                                          (Path.join (Path.dirname dbPath) (lit "assets")) a)
                                       (lit "Error packing directory:") with
                               | (w', true) => (w', Returned tt)
                               | (w', false) => (w', Beyond)
                               end)))).
    { intros w1 a Hw1.
      pose proof (pack_body_tables w1 inputDir globalAssetsDir
                    (Path.join (Path.dirname dbPath) (lit "assets")) a Hw1) as Ht.
      destruct (pack_body w1 inputDir globalAssetsDir _ a) as [w' [u|e|]];
        cbn [caught fst snd] in *.
      - split; [discriminate|exact Ht].
      - destruct verbose; cbn [fst snd log_stack log_error w_db]; split;
          try discriminate; exact Ht.
      - split; [discriminate|exact Ht]. }
    destruct (existsSync (w_fs w0) _).
    + destruct (text <- readFileUtf8 (w_fs w0) _ ;; _) as [a|e|].
      * destruct (Hbody w0 a eq_refl) as [H1 H2]. split; [exact H1|intros _; exact H2].
      * destruct (Hbody (log_error w0 (lit "Error reading metadata file:")) (JArr [])
                    eq_refl) as [H1 H2].
        split; [exact H1|intros _; exact H2].
      * cbn [snd fst]. split; [discriminate|discriminate].
    + destruct (Hbody w0 (JArr []) eq_refl) as [H1 H2].
      split; [exact H1|intros _; exact H2].
Qed.

(** On a world whose database is in place: without [--force] the run
    ends with the two lines of the conflict and nothing has changed;
    with [--force] it returns, and the new database holds the rows of
    the directory in place of the old ones. *)
Lemma C6_existing_database_needs_force_witness :
  Worlds.packDirectory c6_world (lit "w") (lit "db/db.sqlite") (lit "assets") false false
  = ({| w_fs := c6_world_dir; w_db := w_db c6_world;
        w_log := [Error (lit "Error: Database file already exists: db/db.sqlite");
                  Error (lit "Use --force to overwrite existing database.")] |},
     Exited 1)
  /\ snd (Worlds.packDirectory c6_world (lit "w") (lit "db/db.sqlite") (lit "assets")
            true false) = Returned tt
  /\ has_tables (w_db (fst (Worlds.packDirectory c6_world (lit "w") (lit "db/db.sqlite")
                              (lit "assets") true false)))
  /\ option_map (map r_id)
       (blueprints (w_db (fst (Worlds.packDirectory c6_world (lit "w")
                                 (lit "db/db.sqlite") (lit "assets") true false))))
     = Some [JStr (lit "b")]
  /\ option_map (map r_id)
       (entities (w_db (fst (Worlds.packDirectory c6_world (lit "w")
                               (lit "db/db.sqlite") (lit "assets") true false))))
     = Some [JStr (lit "e")]
  /\ config (w_db (fst (Worlds.packDirectory c6_world (lit "w")
                          (lit "db/db.sqlite") (lit "assets") true false)))
     = Some [{| c_key := JStr (lit "settings");
                c_value := JStr (json_text "{'public':'yes'}") |}].
Proof.
  destruct (C6_existing_database_needs_force c6_world (lit "w") (lit "db/db.sqlite")
              (lit "assets") false) as [(errors & H1 & _ & H2) H3];
    [vm_compute; reflexivity|].
  assert (Hr : snd (Worlds.packDirectory c6_world (lit "w") (lit "db/db.sqlite")
                      (lit "assets") true false) = Returned tt)
    by (vm_compute; reflexivity).
  split.
  - rewrite H1. rewrite H2 by (vm_compute; reflexivity). vm_compute. reflexivity.
  - split; [exact Hr|]. split.
    + eapply H3; try exact Hr; vm_compute; reflexivity.
    + repeat split; vm_compute; reflexivity.
Defined.

(** ** Paths of plain file names *)

Lemma split_nonempty (sep : Z) (s : jsstring) : split sep s <> [].
Proof.
  induction s as [|c s IH]; simpl; [discriminate|].
  destruct (c =? sep); [discriminate|].
  destruct (split sep s); [contradiction|discriminate].
Qed.

Lemma split_app_sep (sep : Z) (a b : jsstring) :
  split sep (a ++ sep :: b) = split sep a ++ split sep b.
Proof.
  induction a as [|x a IH]; simpl.
  - now rewrite Z.eqb_refl.
  - destruct (x =? sep); [now rewrite IH|].
    rewrite IH. pose proof (split_nonempty sep a) as Hn.
    destruct (split sep a); [contradiction|reflexivity].
Qed.

Lemma split_no_sep (sep : Z) (s : jsstring) :
  forallb (fun c => negb (c =? sep)) s = true -> split sep s = [s].
Proof.
  induction s as [|c s IH]; simpl; [reflexivity|].
  intros E. apply andb_true_iff in E as [E1 E2].
  apply negb_true_iff in E1. rewrite E1, (IH E2). reflexivity.
Qed.

Lemma normalize_segments_snoc (above : bool) (name : jsstring) (segs : list jsstring) :
  plain_name name = true ->
  forall acc,
    Path.normalize_segments above acc (segs ++ [name])
    = Path.normalize_segments above acc segs ++ [name].
Proof.
  intros Hp. unfold plain_name in Hp.
  apply andb_true_iff in Hp as [Hp H4]. apply andb_true_iff in Hp as [Hp H3].
  apply andb_true_iff in Hp as [H1 H2].
  apply negb_true_iff in H1, H3, H4.
  induction segs as [|seg segs IH]; intros acc.
  - cbn [app Path.normalize_segments]. rewrite H1, H3, H4. reflexivity.
  - cbn [app Path.normalize_segments].
    destruct (str_eqb seg [] || str_eqb seg [Path.dot]); [apply IH|].
    destruct (str_eqb seg [Path.dot; Path.dot]); [|apply IH].
    destruct acc as [|l acc]; [apply IH|].
    destruct (str_eqb l [Path.dot; Path.dot]); apply IH.
Qed.

Lemma join_snoc (sep : jsstring) (xs : list jsstring) (x : jsstring) :
  Js.join sep (xs ++ [x]) = match xs with
                            | [] => x
                            | _ => Js.join sep xs ++ sep ++ x
                            end.
Proof.
  induction xs as [|y xs IH]; [reflexivity|].
  cbn [app Js.join]. rewrite IH.
  destruct xs as [|z xs]; [reflexivity|].
  cbn [app]. now rewrite <- !app_assoc.
Qed.

Lemma take_segment_app (a b : jsstring) :
  forallb (fun c => negb (c =? Path.slash)) a = true ->
  (b = [] \/ exists b', b = Path.slash :: b') ->
  Path.take_segment (a ++ b) = a.
Proof.
  intros Ha Hb. induction a as [|c a IH]; simpl.
  - destruct Hb as [->|[b' ->]]; reflexivity.
  - simpl in Ha. apply andb_true_iff in Ha as [E1 E2].
    apply negb_true_iff in E1. rewrite E1. now rewrite IH.
Qed.

Lemma forallb_rev {A} (f : A -> bool) (l : list A) :
  forallb f (rev l) = forallb f l.
Proof.
  induction l as [|x l IH]; [reflexivity|].
  simpl. rewrite forallb_app, IH. simpl. rewrite andb_true_r. apply andb_comm.
Qed.

(** The basename of [pre ++ name], where [pre] is empty or ends with a
    slash, is [name]. *)
Lemma basename_app_plain (pre name : jsstring) :
  plain_name name = true ->
  (pre = [] \/ exists pre', pre = pre' ++ [Path.slash]) ->
  Path.basename (pre ++ name) = name.
Proof.
  intros Hp Hpre. unfold plain_name in Hp.
  apply andb_true_iff in Hp as [Hp _]. apply andb_true_iff in Hp as [Hp _].
  apply andb_true_iff in Hp as [H1 H2]. apply negb_true_iff in H1.
  unfold Path.basename. rewrite rev_app_distr.
  assert (Hr : forallb (fun c => negb (c =? Path.slash)) (rev name) = true)
    by now rewrite forallb_rev.
  assert (Hd : Path.drop_slashes (rev name ++ rev pre) = rev name ++ rev pre).
  { destruct (rev name) as [|c r] eqn:Er.
    - apply (f_equal (@rev Z)) in Er. rewrite rev_involutive in Er. simpl in Er.
      subst name. discriminate.
    - simpl in Hr. apply andb_true_iff in Hr as [E _]. apply negb_true_iff in E.
      simpl. now rewrite E. }
  rewrite Hd, take_segment_app; [apply rev_involutive|exact Hr|].
  destruct Hpre as [->|[pre' ->]]; [now left|right].
  rewrite rev_app_distr. simpl. eauto.
Qed.

Lemma last_app_nonempty {A} (a b : list A) (d : A) :
  b <> [] -> last (a ++ b) d = last b d.
Proof.
  intros Hb. induction a as [|x a IH]; [reflexivity|].
  simpl. destruct (a ++ b) eqn:E; [|exact IH].
  apply app_eq_nil in E as [_ E]. contradiction.
Qed.

Lemma last_plain (name : jsstring) :
  plain_name name = true -> (last name 0 =? Path.slash) = false.
Proof.
  intros Hp. unfold plain_name in Hp.
  apply andb_true_iff in Hp as [Hp _]. apply andb_true_iff in Hp as [Hp _].
  apply andb_true_iff in Hp as [H1 H2]. apply negb_true_iff in H1.
  induction name as [|c name IH]; [discriminate|].
  simpl in H2. apply andb_true_iff in H2 as [E1 E2].
  destruct name as [|d name]; [now apply negb_true_iff in E1|].
  apply IH; [reflexivity|exact E2].
Qed.

(** [path.normalize] of [src/name] ends with the plain name. *)
Lemma normalize_plain (src name : jsstring) :
  plain_name name = true ->
  exists pre, Path.normalize (src ++ Path.slash :: name) = pre ++ name
              /\ (pre = [] \/ exists pre', pre = pre' ++ [Path.slash]).
Proof.
  intros Hp.
  assert (Hns : forallb (fun c => negb (c =? Path.slash)) name = true).
  { unfold plain_name in Hp.
    apply andb_true_iff in Hp as [Hp' _]. apply andb_true_iff in Hp' as [Hp' _].
    now apply andb_true_iff in Hp' as [_ ?]. }
  assert (Hne : name <> []).
  { intros ->. discriminate. }
  unfold Path.normalize.
  destruct (src ++ Path.slash :: name) as [|c p] eqn:Ep.
  { apply app_eq_nil in Ep as [_ Ep]. discriminate. }
  rewrite <- Ep.
  rewrite (last_app_nonempty src (Path.slash :: name) 0) by discriminate.
  change (last (Path.slash :: name) 0) with
    (match name with [] => Path.slash | _ => last name 0 end).
  destruct name as [|n0 name']; [contradiction|].
  rewrite (last_plain (n0 :: name') Hp).
  rewrite split_app_sep, (split_no_sep Path.slash (n0 :: name') Hns).
  rewrite normalize_segments_snoc by exact Hp.
  rewrite join_snoc.
  destruct (Path.normalize_segments (negb (c =? Path.slash)) [] (split Path.slash src))
    as [|x xs] eqn:Es.
  - destruct (c =? Path.slash).
    + exists [Path.slash]. split; [reflexivity|]. right. now exists [].
    + exists []. split; [reflexivity|now left].
  - set (j := Js.join [Path.slash] (x :: xs)).
    assert (Hb : j ++ [Path.slash] ++ n0 :: name' <> []).
    { destruct j; discriminate. }
    destruct (j ++ [Path.slash] ++ n0 :: name') as [|b0 body] eqn:Eb; [contradiction|].
    rewrite <- Eb.
    destruct (c =? Path.slash).
    + exists (Path.slash :: j ++ [Path.slash]). split.
      * cbn [app]. now rewrite <- app_assoc.
      * right. now exists (Path.slash :: j).
    + exists (j ++ [Path.slash]). split.
      * now rewrite <- app_assoc.
      * right. now exists j.
Qed.

Lemma normalize_plain_alone (name : jsstring) :
  plain_name name = true -> Path.normalize name = name.
Proof.
  intros Hp. pose proof (last_plain name Hp) as Hl.
  unfold plain_name in Hp.
  apply andb_true_iff in Hp as [Hp H4]. apply andb_true_iff in Hp as [Hp H3].
  apply andb_true_iff in Hp as [H1 H2].
  apply negb_true_iff in H1, H3, H4.
  unfold Path.normalize. destruct name as [|c name'] eqn:En; [discriminate|].
  rewrite <- En in *. rewrite Hl, (split_no_sep Path.slash name H2).
  cbn [Path.normalize_segments]. rewrite H1, H3, H4. cbn [orb rev app Js.join].
  rewrite En at 1.
  assert ((c =? Path.slash) = false) as ->.
  { rewrite En in H2. simpl in H2. apply andb_true_iff in H2 as [E _].
    now apply negb_true_iff in E. }
  rewrite En. reflexivity.
Qed.

(** The basename of a plain file name joined to any directory is the
    name. *)
Lemma basename_join_plain (src name : jsstring) :
  plain_name name = true -> Path.basename (Path.join src name) = name.
Proof.
  intros Hp.
  assert (Hne : name <> []) by (intros ->; discriminate).
  assert (Hj : exists pre, Path.join src name = pre ++ name
                           /\ (pre = [] \/ exists pre', pre = pre' ++ [Path.slash])).
  { destruct src as [|s0 src'].
    - exists []. split; [|now left].
      unfold Path.join. destruct name; [contradiction|].
      now apply normalize_plain_alone.
    - unfold Path.join. destruct name as [|n0 name']; [contradiction|].
      apply normalize_plain; exact Hp. }
  destruct Hj as [pre [-> Hpre]]. now apply basename_app_plain.
Qed.

(** ** The rewriter *)

Lemma replace_first_prefix (pat x : jsstring) : replace_first pat [] (pat ++ x) = x.
Proof.
  assert (Hs : startsWith (pat ++ x) pat = true).
  { induction pat as [|c pat IH]; simpl; [reflexivity|]. now rewrite Z.eqb_refl. }
  destruct (pat ++ x) as [|c r] eqn:E; simpl; rewrite Hs; cbn [app].
  - destruct pat; [|discriminate]. simpl in E. subst x. reflexivity.
  - rewrite <- E. now rewrite skipn_app, skipn_all, Nat.sub_diag.
Qed.

Lemma startsWith_prefix (pat x : jsstring) : startsWith (pat ++ x) pat = true.
Proof.
  induction pat as [|c pat IH]; simpl; [reflexivity|]. now rewrite Z.eqb_refl.
Qed.

Lemma asset_ref_prefix (x : jsstring) :
  asset_ref (Some (JStr (lit "asset://" ++ x))) = Ok (Some (lit "asset://" ++ x)).
Proof. unfold asset_ref. now rewrite startsWith_prefix. Qed.

Section Rewriter.
Context {F : Type} `{FileSystem F}.
Variable sha256_hex : list Z -> jsstring.
Hypothesis digest_length : forall data, List.length (sha256_hex data) = 64%nat.

Lemma storeAsset_info (fs fs' : F) (sourcePath globalAssetsDir : jsstring)
  (i : asset_info) (log : list msg) :
  storeAsset sha256_hex fs sourcePath globalAssetsDir = (fs', Some i, log) ->
  ai_originalName i = Path.basename sourcePath
  /\ (64 <= List.length (ai_filename i))%nat.
Proof.
  unfold storeAsset.
  destruct (existsSync fs sourcePath); cbn [negb]; [|discriminate].
  destruct (readFile fs sourcePath) as [data| |]; try discriminate.
  destruct (ensureDir fs globalAssetsDir) as [fs1| |]; try discriminate.
  assert (Hl : (64 <= List.length (sha256_hex data ++ Path.extname sourcePath))%nat)
    by (rewrite length_app, digest_length; lia).
  destruct (existsSync fs1 _); cbn [negb].
  - intros E. injection E as _ <- _. cbn. auto.
  - destruct (copyFileSync fs1 sourcePath _) as [fs2| |]; try discriminate.
    intros E. injection E as _ <- _. cbn. auto.
Qed.

Lemma stored_as_more (m extra : list manifest_asset) (name ref : jsstring) :
  stored_as m name ref -> stored_as (m ++ extra) name ref.
Proof.
  intros [->|[a [Hin [Hn ->]]]]; [now left|right].
  exists a. split; [apply in_or_app; now left|auto].
Qed.

(** A reference to a plain file name, once through [store_ref]. *)
Lemma store_ref_spec (st st1 : rewrite_state) (src glob : jsstring) (id : json)
  (field name : jsstring) (new : option jsstring) :
  plain_name name = true ->
  store_ref sha256_hex st src glob id field (lit "asset://" ++ name) = (st1, new) ->
  (exists extra, rs_assets st1 = rs_assets st ++ extra /\ Forall long_name extra)
  /\ stored_as (rs_assets st1) name
       (match new with Some r => r | None => lit "asset://" ++ name end).
Proof.
  intros Hp. unfold store_ref. rewrite replace_first_prefix.
  destruct (storeAsset sha256_hex (rs_fs st) (Path.join src name) glob)
    as [[fs' [i|]] log] eqn:Es; intros E; injection E as <- <-; cbn [rs_assets].
  - apply storeAsset_info in Es as [Hn Hl].
    rewrite basename_join_plain in Hn by exact Hp.
    split.
    + eexists. split; [reflexivity|]. repeat constructor. exact Hl.
    + right. eexists. split; [apply in_or_app; right; now left|]. cbn. auto.
  - split; [exists []; split; [now rewrite app_nil_r|constructor]|now left].
Qed.

Lemma store_ref_mono (st st1 : rewrite_state) (src glob : jsstring) (id : json)
  (field ref : jsstring) (new : option jsstring) :
  store_ref sha256_hex st src glob id field ref = (st1, new) ->
  exists extra, rs_assets st1 = rs_assets st ++ extra /\ Forall long_name extra.
Proof.
  unfold store_ref.
  destruct (storeAsset sha256_hex (rs_fs st) _ glob) as [[fs' [i|]] log] eqn:Es;
    intros E; injection E as <- <-; cbn [rs_assets].
  - apply storeAsset_info in Es as [_ Hl].
    eexists. split; [reflexivity|]. repeat constructor. exact Hl.
  - exists []. split; [now rewrite app_nil_r|constructor].
Qed.

Lemma store_field_mono (st st1 : rewrite_state) (src glob : jsstring) (id : json)
  (field : jsstring) (x : option json) (r : result (option jsstring)) :
  store_field sha256_hex st src glob id field x = (st1, r) ->
  exists extra, rs_assets st1 = rs_assets st ++ extra /\ Forall long_name extra.
Proof.
  unfold store_field.
  destruct (asset_ref x) as [[ref|]| |];
    try (intros E; injection E as <- <-; exists []; split;
         [now rewrite app_nil_r|constructor]).
  destruct (store_ref sha256_hex st src glob id field ref) as [st2 new] eqn:Er.
  intros E. injection E as <- <-. eapply store_ref_mono; eauto.
Qed.

Lemma store_field_spec (st st1 : rewrite_state) (src glob : jsstring) (id : json)
  (field name : jsstring) (new : option jsstring) :
  plain_name name = true ->
  store_field sha256_hex st src glob id field (Some (JStr (lit "asset://" ++ name)))
  = (st1, Ok new) ->
  stored_as (rs_assets st1) name
    (match new with Some r => r | None => lit "asset://" ++ name end).
Proof.
  intros Hp. unfold store_field. rewrite asset_ref_prefix.
  destruct (store_ref sha256_hex st src glob id field _) as [st2 new'] eqn:Er.
  intros E. injection E as <- <-. eapply store_ref_spec; eauto.
Qed.

Lemma mono_trans (a b c : list manifest_asset) :
  (exists e1, b = a ++ e1 /\ Forall long_name e1) ->
  (exists e2, c = b ++ e2 /\ Forall long_name e2) ->
  exists e, c = a ++ e /\ Forall long_name e.
Proof.
  intros [e1 [-> H1]] [e2 [-> H2]]. exists (e1 ++ e2).
  split; [now rewrite app_assoc|]. apply Forall_app. auto.
Qed.

Lemma store_props_mono (src glob : jsstring) (id : json) (entries : props) :
  forall st st1 r,
    store_props sha256_hex st src glob id entries = (st1, r) ->
    exists extra, rs_assets st1 = rs_assets st ++ extra /\ Forall long_name extra.
Proof.
  induction entries as [|[key prop] rest IH]; intros st st1 r; cbn [store_props].
  - intros E. injection E as <- <-. exists []. split; [now rewrite app_nil_r|constructor].
  - destruct (store_field sha256_hex st src glob id _ _) as [st2 [new| |]] eqn:Ef;
      try (intros E; injection E as <- <-; eapply store_field_mono; eauto).
    destruct (store_props sha256_hex st2 src glob id rest) as [st3 [rest'| |]] eqn:Er;
      intros E; injection E as <- <-;
      (eapply mono_trans; [eapply store_field_mono; eauto|eapply IH; eauto]).
Qed.

Lemma obj_get_set_url (p : props) (u : jsstring) :
  url_of (Some (set_url (JObj p) u)) = Some (JStr u).
Proof. cbn. apply obj_get_set_eq. Qed.

(** The entry of a key after the loop over the props: its url is the
    stored form of the reference it held. *)
Lemma store_props_at (src glob : jsstring) (id : json) (key name : jsstring)
  (entries : props) :
  plain_name name = true ->
  forall st st1 entries' p,
    store_props sha256_hex st src glob id entries = (st1, Ok entries') ->
    obj_get key entries = Some (JObj p) ->
    obj_get (lit "url") p = Some (JStr (lit "asset://" ++ name)) ->
    exists p' u',
      obj_get key entries' = Some (JObj p')
      /\ obj_get (lit "url") p' = Some (JStr u')
      /\ stored_as (rs_assets st1) name u'.
Proof.
  intros Hp. induction entries as [|[k prop] rest IH];
    intros st st1 entries' p; cbn [store_props obj_get]; [discriminate|].
  destruct (store_field sha256_hex st src glob id _ _) as [st2 [new| |]] eqn:Ef;
    try discriminate.
  destruct (store_props sha256_hex st2 src glob id rest) as [st3 [rest'| |]] eqn:Er;
    try discriminate.
  intros E. injection E as <- <-. cbn [obj_get].
  destruct (str_eqb key k) eqn:Ek.
  - intros Eprop Hu. injection Eprop as ->.
    cbn [url_of] in Ef. rewrite Hu in Ef.
    pose proof (store_field_spec _ _ _ _ _ _ _ _ Hp Ef) as Hs.
    destruct (store_props_mono _ _ _ _ _ _ _ Er) as [extra [Hex _]].
    rewrite Hex.
    destruct new as [r|]; cbn [set_url_opt set_url].
    + exists (obj_set (lit "url") (JStr r) p), r.
      split; [reflexivity|]. split; [apply obj_get_set_eq|now apply stored_as_more].
    + exists p, (lit "asset://" ++ name).
      split; [reflexivity|]. split; [exact Hu|now apply stored_as_more].
  - intros Eprop Hu. eapply IH; eauto.
Qed.

End Rewriter.

Lemma obj_get_set_str_opt (k k2 : jsstring) (new : option jsstring) (b : props) :
  k <> k2 -> obj_get k2 (set_str_opt k new b) = obj_get k2 b.
Proof.
  intros N. destruct new; cbn [set_str_opt]; [now apply obj_get_set_neq|reflexivity].
Qed.

Lemma obj_get_set_image_opt (k2 : jsstring) (new : option jsstring) (b : props) :
  lit "image" <> k2 -> obj_get k2 (set_image_opt new b) = obj_get k2 b.
Proof.
  intros N. unfold set_image_opt. destruct new; [|reflexivity].
  destruct (obj_get (lit "image") b); [now apply obj_get_set_neq|reflexivity].
Qed.

Section Forward.
Context {F : Type} `{FileSystem F}.
Variable sha256_hex : list Z -> jsstring.
Hypothesis digest_length : forall data, List.length (sha256_hex data) = 64%nat.

(** The four steps of a forward rewrite that returned. *)
Lemma rewrite_forward_steps (st st' : rewrite_state) (src glob : jsstring) (id : json)
  (b b' : props) :
  rewrite_forward sha256_hex st src glob id b = (st', Ok b') ->
  exists st1 new1 st2 new2 st3 new3,
    store_field sha256_hex st src glob id (lit "model") (obj_get (lit "model") b)
    = (st1, Ok new1)
    /\ store_field sha256_hex st1 src glob id (lit "script")
         (obj_get (lit "script") (set_str_opt (lit "model") new1 b))
       = (st2, Ok new2)
    /\ store_field sha256_hex st2 src glob id (lit "image.url")
         (url_of (obj_get (lit "image")
                    (set_str_opt (lit "script") new2 (set_str_opt (lit "model") new1 b))))
       = (st3, Ok new3)
    /\ let b3 := set_image_opt new3
                   (set_str_opt (lit "script") new2 (set_str_opt (lit "model") new1 b)) in
       match obj_get (lit "props") b3 with
       | Some ps =>
           if truthy ps then
             exists entries,
               store_props sha256_hex st3 src glob id (own_props ps) = (st', Ok entries)
               /\ b' = obj_set (lit "props") (rebuild_props ps entries) b3
           else st' = st3 /\ b' = b3
       | None => st' = st3 /\ b' = b3
       end.
Proof.
  unfold rewrite_forward.
  destruct (store_field sha256_hex st src glob id (lit "model") _)
    as [st1 [new1| |]] eqn:E1; cbn [rw_map rw_then]; try discriminate.
  destruct (store_field sha256_hex st1 src glob id (lit "script") _)
    as [st2 [new2| |]] eqn:E2; cbn [rw_map rw_then]; try discriminate.
  destruct (store_field sha256_hex st2 src glob id (lit "image.url") _)
    as [st3 [new3| |]] eqn:E3; cbn [rw_map rw_then]; try discriminate.
  intros E. exists st1, new1, st2, new2, st3, new3.
  split; [reflexivity|]. split; [exact E2|]. split; [exact E3|]. cbv zeta.
  destruct (obj_get (lit "props") _) as [ps|].
  - destruct (truthy ps).
    + destruct (store_props sha256_hex st3 src glob id (own_props ps))
        as [st4 [entries| |]]; cbn [rw_map] in E; try discriminate.
      injection E as <- <-. eauto.
    + injection E as <- <-. auto.
  - injection E as <- <-. auto.
Qed.

Lemma rewrite_forward_mono (st st' : rewrite_state) (src glob : jsstring) (id : json)
  (b b' : props) :
  rewrite_forward sha256_hex st src glob id b = (st', Ok b') ->
  exists extra, rs_assets st' = rs_assets st ++ extra /\ Forall long_name extra.
Proof.
  intros E. apply rewrite_forward_steps in E
    as (st1 & new1 & st2 & new2 & st3 & new3 & E1 & E2 & E3 & E4).
  cbv zeta in E4.
  eapply mono_trans; [eapply store_field_mono; eauto; exact digest_length|].
  eapply mono_trans; [eapply store_field_mono; eauto; exact digest_length|].
  eapply mono_trans; [eapply store_field_mono; eauto; exact digest_length|].
  destruct (obj_get (lit "props") _) as [ps|].
  - destruct (truthy ps).
    + destruct E4 as [entries [Ep _]]. eapply store_props_mono; eauto.
    + destruct E4 as [-> _]. exists []. split; [now rewrite app_nil_r|constructor].
  - destruct E4 as [-> _]. exists []. split; [now rewrite app_nil_r|constructor].
Qed.

(** After a forward rewrite the model holds the stored form of the
    reference it held. *)
Lemma rewrite_forward_model (st st' : rewrite_state) (src glob : jsstring) (id : json)
  (b b' : props) (name : jsstring) :
  plain_name name = true ->
  obj_get (lit "model") b = Some (JStr (lit "asset://" ++ name)) ->
  rewrite_forward sha256_hex st src glob id b = (st', Ok b') ->
  exists m', obj_get (lit "model") b' = Some (JStr m')
             /\ stored_as (rs_assets st') name m'.
Proof.
  intros Hp Hm E. pose proof E as E0. apply rewrite_forward_steps in E
    as (st1 & new1 & st2 & new2 & st3 & new3 & E1 & E2 & E3 & E4).
  cbv zeta in E4. rewrite Hm in E1.
  pose proof (store_field_spec _ digest_length _ _ _ _ _ _ _ _ Hp E1) as Hs.
  assert (Hmono : exists extra, rs_assets st' = rs_assets st1 ++ extra).
  { assert (M2 := store_field_mono _ digest_length _ _ _ _ _ _ _ _ E2).
    assert (M3 := store_field_mono _ digest_length _ _ _ _ _ _ _ _ E3).
    destruct M2 as [e2 [M2 _]]. destruct M3 as [e3 [M3 _]].
    destruct (obj_get (lit "props") _) as [ps|].
    - destruct (truthy ps).
      + destruct E4 as [entries [Ep _]].
        destruct (store_props_mono _ digest_length _ _ _ _ _ _ _ Ep) as [e4 [M4 _]].
        exists (e2 ++ e3 ++ e4). rewrite M4, M3, M2. now rewrite <- !app_assoc.
      + destruct E4 as [-> _]. exists (e2 ++ e3). rewrite M3, M2.
        now rewrite <- !app_assoc.
    - destruct E4 as [-> _]. exists (e2 ++ e3). rewrite M3, M2.
      now rewrite <- !app_assoc. }
  destruct Hmono as [extra Hex].
  assert (Hb1 : obj_get (lit "model") (set_str_opt (lit "model") new1 b)
                = Some (JStr (match new1 with
                              | Some r => r
                              | None => lit "asset://" ++ name
                              end))).
  { destruct new1; cbn [set_str_opt]; [apply obj_get_set_eq|exact Hm]. }
  assert (Hb3 : obj_get (lit "model")
                  (set_image_opt new3
                     (set_str_opt (lit "script") new2
                        (set_str_opt (lit "model") new1 b)))
                = Some (JStr (match new1 with
                              | Some r => r
                              | None => lit "asset://" ++ name
                              end))).
  { rewrite obj_get_set_image_opt by lit_neq.
    rewrite obj_get_set_str_opt by lit_neq. exact Hb1. }
  eexists. split.
  - destruct (obj_get (lit "props") _) as [ps|].
    + destruct (truthy ps).
      * destruct E4 as [entries [_ ->]].
        rewrite obj_get_set_neq by lit_neq. exact Hb3.
      * destruct E4 as [_ ->]. exact Hb3.
    + destruct E4 as [_ ->]. exact Hb3.
  - rewrite Hex. now apply stored_as_more.
Qed.

(** After a forward rewrite the url of a prop holds the stored form of
    the reference it held. *)
Lemma rewrite_forward_prop (st st' : rewrite_state) (src glob : jsstring) (id : json)
  (b b' ps p : props) (key name : jsstring) :
  plain_name name = true ->
  obj_get (lit "props") b = Some (JObj ps) ->
  obj_get key ps = Some (JObj p) ->
  obj_get (lit "url") p = Some (JStr (lit "asset://" ++ name)) ->
  rewrite_forward sha256_hex st src glob id b = (st', Ok b') ->
  exists u', prop_url key b' = Some (JStr u')
             /\ stored_as (rs_assets st') name u'.
Proof.
  intros Hp Hps Hk Hu E. apply rewrite_forward_steps in E
    as (st1 & new1 & st2 & new2 & st3 & new3 & E1 & E2 & E3 & E4).
  cbv zeta in E4.
  assert (Hb3 : obj_get (lit "props")
                  (set_image_opt new3
                     (set_str_opt (lit "script") new2
                        (set_str_opt (lit "model") new1 b)))
                = Some (JObj ps)).
  { rewrite obj_get_set_image_opt by lit_neq.
    rewrite !obj_get_set_str_opt by lit_neq. exact Hps. }
  rewrite Hb3 in E4. cbn [truthy own_props rebuild_props] in E4.
  destruct E4 as [entries [Ep ->]].
  destruct (store_props_at _ digest_length _ _ _ _ _ _ Hp _ _ _ _ Ep Hk Hu)
    as (p' & u' & Hk' & Hu' & Hs).
  exists u'. split; [|exact Hs].
  unfold prop_url. rewrite obj_get_set_eq, Hk'. exact Hu'.
Qed.

End Forward.

(** ** The reverse rewrite *)

Lemma manifest_filename (a : manifest_asset) :
  get_prop (manifest_asset_json a) (lit "filename")
  = Ok (Some (JStr (ai_filename (ma_info a)))).
Proof. reflexivity. Qed.

Lemma manifest_originalName (a : manifest_asset) :
  get_prop (manifest_asset_json a) (lit "originalName")
  = Ok (Some (JStr (ai_originalName (ma_info a)))).
Proof. reflexivity. Qed.

Lemma long_not_proto (k : jsstring) :
  (64 <= List.length k)%nat -> str_eqb k (lit "__proto__") = false.
Proof.
  intros Hl. apply str_eqb_neq. intros ->. vm_compute in Hl. lia.
Qed.

Lemma build_assetMap_step (acc : props) (a : manifest_asset) (rest : list manifest_asset) :
  long_name a ->
  build_assetMap acc (map manifest_asset_json (a :: rest))
  = build_assetMap
      (obj_set (ai_filename (ma_info a)) (JStr (ai_originalName (ma_info a))) acc)
      (map manifest_asset_json rest).
Proof.
  intros Hl. cbn [map build_assetMap].
  rewrite manifest_filename, manifest_originalName. cbn [bind to_string column].
  now rewrite long_not_proto.
Qed.

(** A key no entry is filed under is as in the initial map. *)
Lemma build_assetMap_other (k : jsstring) (l : list manifest_asset) :
  Forall long_name l ->
  (forall a, In a l -> ai_filename (ma_info a) <> k) ->
  forall acc amap,
    build_assetMap acc (map manifest_asset_json l) = Ok amap ->
    obj_get k amap = obj_get k acc.
Proof.
  induction l as [|a l IH]; intros Hl Hk acc amap E.
  - cbn in E. now injection E as <-.
  - rewrite build_assetMap_step in E by (now apply Forall_inv in Hl).
    apply IH in E; [|now apply Forall_inv_tail in Hl|intros; apply Hk; now right].
    rewrite E. apply obj_get_set_neq. apply Hk. now left.
Qed.

(** A key some entry is filed under maps to the original name of an
    entry filed under it. *)
Lemma build_assetMap_filed (l : list manifest_asset) :
  Forall long_name l ->
  forall acc amap a,
    build_assetMap acc (map manifest_asset_json l) = Ok amap ->
    In a l ->
    exists a', In a' l /\ ai_filename (ma_info a') = ai_filename (ma_info a)
               /\ obj_get (ai_filename (ma_info a)) amap
                  = Some (JStr (ai_originalName (ma_info a'))).
Proof.
  induction l as [|x l IH]; intros Hl acc amap a E Hin; [contradiction|].
  rewrite build_assetMap_step in E by (now apply Forall_inv in Hl).
  pose proof (Forall_inv_tail Hl) as Hl'.
  destruct (existsb (fun a' => str_eqb (ai_filename (ma_info a'))
                                 (ai_filename (ma_info a))) l) eqn:Ex.
  - apply existsb_exists in Ex as [a1 [Hin1 E1]]. apply str_eqb_eq in E1.
    destruct (IH Hl' _ _ a1 E Hin1) as [a' [Hin' [Ef Eg]]].
    exists a'. split; [now right|]. split; [congruence|]. now rewrite <- E1.
  - assert (Hno : forall a', In a' l ->
                             ai_filename (ma_info a') <> ai_filename (ma_info a)).
    { intros a' Hin' Ef.
      assert (existsb (fun a' => str_eqb (ai_filename (ma_info a'))
                                   (ai_filename (ma_info a))) l = true).
      { apply existsb_exists. exists a'. split; [exact Hin'|now apply str_eqb_eq]. }
      congruence. }
    destruct Hin as [->|Hin]; [|exfalso; now apply (Hno a Hin)].
    exists a. split; [now left|]. split; [reflexivity|].
    rewrite (build_assetMap_other _ l Hl' Hno _ _ E). apply obj_get_set_eq.
Qed.

Lemma consistent_spec (manifest : list manifest_asset) :
  consistent manifest = true ->
  forall a1 a2, In a1 manifest -> In a2 manifest ->
    ai_filename (ma_info a1) = ai_filename (ma_info a2) ->
    ai_originalName (ma_info a1) = ai_originalName (ma_info a2).
Proof.
  intros Hc a1 a2 H1 H2 Ef. unfold consistent in Hc.
  rewrite forallb_forall in Hc. specialize (Hc a1 H1).
  rewrite forallb_forall in Hc. specialize (Hc a2 H2).
  rewrite Ef, str_eqb_refl in Hc. now apply str_eqb_eq.
Qed.

Section Reverse.
Variable manifest : list manifest_asset.
Variable assetMap : props.
Hypothesis manifest_long : Forall long_name manifest.
Hypothesis manifest_consistent : consistent manifest = true.
Hypothesis assetMap_built :
  build_assetMap [] (map manifest_asset_json manifest) = Ok assetMap.

(** The reverse rewrite of a stored reference is the reference it
    came from. *)
Lemma restore_ref_stored (name ref : jsstring) :
  file_name name = true ->
  stored_as manifest name ref ->
  exists new,
    restore_ref assetMap (Some (JStr ref)) = Ok new
    /\ match new with Some u => u | None => ref end = lit "asset://" ++ name.
Proof.
  intros Hf Hs. unfold file_name in Hf.
  apply andb_true_iff in Hf as [Hf Hproto]. apply andb_true_iff in Hf as [Hp Hshort].
  apply negb_true_iff in Hproto. apply Z.ltb_lt in Hshort.
  destruct Hs as [->|[a [Hin [Hn ->]]]]; unfold restore_ref;
    rewrite asset_ref_prefix; cbn [bind]; rewrite replace_first_prefix;
    unfold assetMap_get.
  - assert (Hnone : obj_get name assetMap = None).
    { rewrite (build_assetMap_other name manifest manifest_long) with (acc := [])
        by (auto; intros a Hin Ef; rewrite Forall_forall in manifest_long;
            specialize (manifest_long a Hin); unfold long_name in manifest_long;
            rewrite Ef in manifest_long; lia).
      reflexivity. }
    rewrite Hnone, Hproto. cbn [bind]. exists None. auto.
  - destruct (build_assetMap_filed manifest manifest_long _ _ a assetMap_built Hin)
      as [a' [Hin' [Ef Eg]]].
    rewrite Eg. rewrite (consistent_spec manifest manifest_consistent a' a Hin' Hin Ef), Hn.
    assert (Ht : truthy (JStr name) = true).
    { unfold plain_name in Hp. destruct name; [discriminate|reflexivity]. }
    rewrite Ht. cbn [bind to_string]. eexists. split; reflexivity.
Qed.

Lemma restore_props_at (key name : jsstring) (entries : props) :
  file_name name = true ->
  forall entries' p ref,
    restore_props assetMap entries = Ok entries' ->
    obj_get key entries = Some (JObj p) ->
    obj_get (lit "url") p = Some (JStr ref) ->
    stored_as manifest name ref ->
    exists p', obj_get key entries' = Some (JObj p')
               /\ obj_get (lit "url") p' = Some (JStr (lit "asset://" ++ name)).
Proof.
  intros Hf. induction entries as [|[k prop] rest IH]; intros entries' p ref;
    cbn [restore_props obj_get]; [discriminate|].
  destruct (restore_ref assetMap (url_of (Some prop))) as [new| |] eqn:Er;
    cbn [bind]; try discriminate.
  destruct (restore_props assetMap rest) as [rest'| |] eqn:Ers; cbn [bind];
    try discriminate.
  intros E. injection E as <-. cbn [obj_get].
  destruct (str_eqb key k).
  - intros Eprop Hu Hs. injection Eprop as ->.
    cbn [url_of] in Er. rewrite Hu in Er.
    destruct (restore_ref_stored name ref Hf Hs) as [new' [Er' Hnew]].
    rewrite Er' in Er. injection Er as <-.
    destruct new' as [u|]; cbn [set_url_opt set_url].
    + subst u. eexists. split; [reflexivity|]. apply obj_get_set_eq.
    + subst ref. eauto.
  - intros Eprop Hu Hs. eapply IH; eauto.
Qed.

(** The steps of a reverse rewrite that returned. *)
Lemma rewrite_reverse_steps (b b'' : props) :
  rewrite_reverse assetMap b = Ok b'' ->
  exists m sc im,
    restore_ref assetMap (obj_get (lit "model") b) = Ok m
    /\ let b3 := set_image_opt im
                   (set_str_opt (lit "script") sc (set_str_opt (lit "model") m b)) in
       match obj_get (lit "props") b3 with
       | Some ps =>
           if truthy ps then
             exists entries,
               restore_props assetMap (own_props ps) = Ok entries
               /\ b'' = obj_set (lit "props") (rebuild_props ps entries) b3
           else b'' = b3
       | None => b'' = b3
       end.
Proof.
  unfold rewrite_reverse.
  destruct (restore_ref assetMap (obj_get (lit "model") b)) as [m| |];
    cbn [bind]; try discriminate.
  destruct (restore_ref assetMap (obj_get (lit "script") _)) as [sc| |];
    cbn [bind]; try discriminate.
  destruct (restore_ref assetMap (url_of _)) as [im| |]; cbn [bind]; try discriminate.
  intros E. exists m, sc, im. split; [reflexivity|]. cbv zeta.
  destruct (obj_get (lit "props") _) as [ps|].
  - destruct (truthy ps).
    + destruct (restore_props assetMap (own_props ps)) as [entries| |];
        cbn [bind] in E; try discriminate.
      injection E as <-. eauto.
    + now injection E as <-.
  - now injection E as <-.
Qed.

Lemma rewrite_reverse_model (b b'' : props) (name ref : jsstring) :
  file_name name = true ->
  obj_get (lit "model") b = Some (JStr ref) ->
  stored_as manifest name ref ->
  rewrite_reverse assetMap b = Ok b'' ->
  obj_get (lit "model") b'' = Some (JStr (lit "asset://" ++ name)).
Proof.
  intros Hf Hm Hs E.
  apply rewrite_reverse_steps in E as (m & sc & im & Em & E4). cbv zeta in E4.
  rewrite Hm in Em.
  destruct (restore_ref_stored name ref Hf Hs) as [new [Er Hnew]].
  rewrite Er in Em. injection Em as <-.
  assert (Hb3 : obj_get (lit "model")
                  (set_image_opt im
                     (set_str_opt (lit "script") sc (set_str_opt (lit "model") new b)))
                = Some (JStr (lit "asset://" ++ name))).
  { rewrite obj_get_set_image_opt by lit_neq.
    rewrite obj_get_set_str_opt by lit_neq.
    destruct new as [u|]; cbn [set_str_opt].
    - subst u. apply obj_get_set_eq.
    - subst ref. exact Hm. }
  destruct (obj_get (lit "props") _) as [ps|].
  - destruct (truthy ps).
    + destruct E4 as [entries [_ ->]]. rewrite obj_get_set_neq by lit_neq. exact Hb3.
    + subst b''. exact Hb3.
  - subst b''. exact Hb3.
Qed.

Lemma rewrite_reverse_prop (b b'' : props) (key name ref : jsstring) :
  file_name name = true ->
  prop_url key b = Some (JStr ref) ->
  stored_as manifest name ref ->
  rewrite_reverse assetMap b = Ok b'' ->
  prop_url key b'' = Some (JStr (lit "asset://" ++ name)).
Proof.
  intros Hf Hu Hs E.
  apply rewrite_reverse_steps in E as (m & sc & im & _ & E4). cbv zeta in E4.
  unfold prop_url in Hu.
  destruct (obj_get (lit "props") b) as [[| | | | |ps]|] eqn:Hps; try discriminate.
  destruct (obj_get key ps) as [[| | | | |p]|] eqn:Hk; try discriminate.
  assert (Hb3 : obj_get (lit "props")
                  (set_image_opt im
                     (set_str_opt (lit "script") sc (set_str_opt (lit "model") m b)))
                = Some (JObj ps)).
  { rewrite obj_get_set_image_opt by lit_neq.
    rewrite !obj_get_set_str_opt by lit_neq. exact Hps. }
  rewrite Hb3 in E4. cbn [truthy own_props rebuild_props] in E4.
  destruct E4 as [entries [Ep ->]].
  destruct (restore_props_at key name ps Hf _ _ _ Ep Hk Hu Hs) as [p' [Hk' Hu']].
  unfold prop_url. rewrite obj_get_set_eq, Hk'. exact Hu'.
Qed.

End Reverse.

(** ** The rewrites return *)

Lemma long_not_inherited (k : jsstring) :
  (64 <= List.length k)%nat -> existsb (str_eqb k) proto_names = false.
Proof.
  intros Hl. destruct (existsb (str_eqb k) proto_names) eqn:E; [|reflexivity].
  apply existsb_exists in E as [x [Hin Ex]]. apply str_eqb_eq in Ex. subst x.
  exfalso. unfold proto_names in Hin. cbn [In] in Hin.
  repeat (destruct Hin as [<-|Hin]; [vm_compute in Hl; lia|]). exact Hin.
Qed.

Lemma ref_modelled_hashed (f : jsstring) :
  (64 <= List.length f)%nat -> ref_modelled (Some (JStr (lit "asset://" ++ f))) = true.
Proof.
  intros Hl. unfold ref_modelled.
  now rewrite startsWith_prefix, replace_first_prefix, long_not_inherited.
Qed.

Lemma forallb_index_props (P : json -> bool) (l : list json) :
  forall i, forallb (fun kv => P (snd kv)) (index_props i l) = forallb P l.
Proof.
  induction l as [|v l IH]; intros i; cbn; [reflexivity|]. now rewrite IH.
Qed.

Lemma forallb_map_snd (P : json -> bool) (entries : props) :
  forallb P (map snd entries) = forallb (fun kv => P (snd kv)) entries.
Proof.
  induction entries as [|kv entries IH]; cbn; [reflexivity|]. now rewrite IH.
Qed.

Lemma props_modelled_rebuild (ps : json) (entries : props) :
  forallb prop_modelled (own_props ps) = true ->
  forallb prop_modelled entries = true ->
  forallb prop_modelled (own_props (rebuild_props ps entries)) = true.
Proof.
  intros Hps He. destruct ps; cbn [rebuild_props]; try exact Hps.
  - cbn [own_props]. unfold prop_modelled.
    rewrite (forallb_index_props (fun v => ref_modelled (url_of (Some v)))).
    rewrite forallb_map_snd. exact He.
  - exact He.
Qed.

Lemma ref_modelled_set_url_opt (prop : json) (new : option jsstring) :
  ref_modelled (url_of (Some prop)) = true ->
  (forall u, new = Some u -> ref_modelled (Some (JStr u)) = true) ->
  ref_modelled (url_of (Some (set_url_opt prop new))) = true.
Proof.
  intros Hp Hn. destruct new as [u|]; cbn [set_url_opt]; [|exact Hp].
  destruct prop; cbn [set_url url_of]; try exact Hp.
  rewrite obj_get_set_eq. now apply Hn.
Qed.

Lemma ref_modelled_set_str_opt (k : jsstring) (new : option jsstring) (b : props) :
  ref_modelled (obj_get k b) = true ->
  (forall u, new = Some u -> ref_modelled (Some (JStr u)) = true) ->
  ref_modelled (obj_get k (set_str_opt k new b)) = true.
Proof.
  intros Hb Hn. destruct new as [u|]; cbn [set_str_opt]; [|exact Hb].
  rewrite obj_get_set_eq. now apply Hn.
Qed.

Lemma ref_modelled_set_image_opt (new : option jsstring) (b : props) :
  ref_modelled (url_of (obj_get (lit "image") b)) = true ->
  (forall u, new = Some u -> ref_modelled (Some (JStr u)) = true) ->
  ref_modelled (url_of (obj_get (lit "image") (set_image_opt new b))) = true.
Proof.
  intros Hb Hn. unfold set_image_opt. destruct new as [u|]; [|exact Hb].
  destruct (obj_get (lit "image") b) as [im|] eqn:Ei; [|now rewrite Ei].
  rewrite obj_get_set_eq.
  apply (ref_modelled_set_url_opt im (Some u)); auto.
Qed.

Section Returns.
Context {F : Type} `{FileSystem F}.
Variable sha256_hex : list Z -> jsstring.
Hypothesis digest_length : forall data, List.length (sha256_hex data) = 64%nat.

Lemma store_field_returns (st : rewrite_state) (src glob : jsstring) (id : json)
  (field : jsstring) (x : option json) :
  ref_modelled x = true ->
  exists st1 new,
    store_field sha256_hex st src glob id field x = (st1, Ok new)
    /\ forall u, new = Some u -> ref_modelled (Some (JStr u)) = true.
Proof.
  intros Hx. unfold store_field.
  destruct x as [[| | |s| |]|]; try discriminate; cbn [asset_ref];
    try (exists st, None; split; [reflexivity|discriminate]).
  destruct (startsWith s (lit "asset://"));
    [|exists st, None; split; [reflexivity|discriminate]].
  unfold store_ref.
  destruct (storeAsset sha256_hex (rs_fs st) _ glob) as [[fs' [i|]] log] eqn:Es.
  - eexists _, _. split; [reflexivity|]. intros u E. injection E as <-.
    apply ref_modelled_hashed. eapply storeAsset_info; eauto.
  - eexists _, _. split; [reflexivity|discriminate].
Qed.

Lemma store_props_returns (src glob : jsstring) (id : json) (entries : props) :
  forallb prop_modelled entries = true ->
  forall st, exists st1 entries',
    store_props sha256_hex st src glob id entries = (st1, Ok entries')
    /\ forallb prop_modelled entries' = true.
Proof.
  induction entries as [|[key prop] rest IH]; intros He st; cbn [store_props].
  - exists st, []. auto.
  - cbn [forallb] in He. apply andb_true_iff in He as [Hp Hr].
    unfold prop_modelled in Hp. cbn [snd] in Hp.
    destruct (store_field_returns st src glob id (lit "props." ++ key ++ lit ".url")
                _ Hp) as (st1 & new & -> & Hn).
    destruct (IH Hr st1) as (st2 & rest' & -> & Hr').
    eexists _, _. split; [reflexivity|]. cbn [forallb]. apply andb_true_iff.
    split; [|exact Hr']. unfold prop_modelled. cbn [snd].
    now apply ref_modelled_set_url_opt.
Qed.

(** The forward rewrite of a blueprint with modelled references
    returns, and the blueprint it returns has modelled references. *)
Lemma rewrite_forward_returns (st : rewrite_state) (src glob : jsstring) (id : json)
  (b : props) :
  refs_modelled b = true ->
  exists st' b',
    rewrite_forward sha256_hex st src glob id b = (st', Ok b')
    /\ refs_modelled b' = true.
Proof.
  unfold refs_modelled. intros Hb.
  apply andb_true_iff in Hb as [Hb Hps]. apply andb_true_iff in Hb as [Hb Him].
  apply andb_true_iff in Hb as [Hm Hsc].
  unfold rewrite_forward.
  destruct (store_field_returns st src glob id (lit "model") _ Hm)
    as (st1 & new1 & -> & Hn1). cbn [rw_map rw_then].
  rewrite obj_get_set_str_opt by lit_neq.
  destruct (store_field_returns st1 src glob id (lit "script") _ Hsc)
    as (st2 & new2 & -> & Hn2). cbn [rw_map rw_then].
  rewrite obj_get_set_str_opt by lit_neq. rewrite obj_get_set_str_opt by lit_neq.
  destruct (store_field_returns st2 src glob id (lit "image.url") _ Him)
    as (st3 & new3 & -> & Hn3). cbn [rw_map rw_then].
  rewrite obj_get_set_image_opt by lit_neq.
  rewrite !obj_get_set_str_opt by lit_neq.
  set (b3 := set_image_opt new3
               (set_str_opt (lit "script") new2 (set_str_opt (lit "model") new1 b))).
  assert (Hm3 : ref_modelled (obj_get (lit "model") b3) = true).
  { unfold b3. rewrite obj_get_set_image_opt by lit_neq.
    rewrite obj_get_set_str_opt by lit_neq. now apply ref_modelled_set_str_opt. }
  assert (Hsc3 : ref_modelled (obj_get (lit "script") b3) = true).
  { unfold b3. rewrite obj_get_set_image_opt by lit_neq.
    apply ref_modelled_set_str_opt; [|exact Hn2].
    now rewrite obj_get_set_str_opt by lit_neq. }
  assert (Him3 : ref_modelled (url_of (obj_get (lit "image") b3)) = true).
  { unfold b3. apply ref_modelled_set_image_opt; [|exact Hn3].
    now rewrite !obj_get_set_str_opt by lit_neq. }
  assert (Hps3 : obj_get (lit "props") b3 = obj_get (lit "props") b).
  { unfold b3. rewrite obj_get_set_image_opt by lit_neq.
    now rewrite !obj_get_set_str_opt by lit_neq. }
  assert (Hkeep : refs_modelled b3 = true).
  { unfold refs_modelled. now rewrite Hm3, Hsc3, Him3, Hps3. }
  destruct (obj_get (lit "props") b) as [ps|]; [|eauto].
  destruct (truthy ps); [|eauto].
  destruct (store_props_returns src glob id (own_props ps) Hps st3)
    as (st4 & entries & -> & He). cbn [rw_map].
  eexists _, _. split; [reflexivity|]. unfold refs_modelled.
  rewrite !obj_get_set_neq by lit_neq. rewrite Hm3, Hsc3, Him3, obj_get_set_eq.
  cbn [andb]. now apply props_modelled_rebuild.
Qed.

End Returns.

Lemma restore_ref_returns (assetMap : props) (x : option json) :
  ref_modelled x = true ->
  exists new, restore_ref assetMap x = Ok new.
Proof.
  intros Hx. unfold restore_ref.
  destruct x as [[| | |s| |]|]; try discriminate; cbn [asset_ref bind]; eauto.
  cbn [ref_modelled] in Hx. destruct (startsWith s (lit "asset://")); eauto.
  apply negb_true_iff in Hx. unfold assetMap_get. rewrite Hx.
  destruct (obj_get _ assetMap); cbn [bind]; eauto.
Qed.

Lemma restore_props_returns (assetMap : props) (entries : props) :
  forallb prop_modelled entries = true ->
  exists entries', restore_props assetMap entries = Ok entries'.
Proof.
  induction entries as [|[key prop] rest IH]; intros He; cbn [restore_props]; eauto.
  cbn [forallb] in He. apply andb_true_iff in He as [Hp Hr].
  unfold prop_modelled in Hp. cbn [snd] in Hp.
  destruct (restore_ref_returns assetMap _ Hp) as [new ->].
  destruct (IH Hr) as [rest' ->]. cbn [bind]. eauto.
Qed.

(** The reverse rewrite of a blueprint with modelled references
    returns, whatever the map. *)
Lemma rewrite_reverse_returns (assetMap : props) (b : props) :
  refs_modelled b = true ->
  exists b'', rewrite_reverse assetMap b = Ok b''.
Proof.
  unfold refs_modelled. intros Hb.
  apply andb_true_iff in Hb as [Hb Hps]. apply andb_true_iff in Hb as [Hb Him].
  apply andb_true_iff in Hb as [Hm Hsc].
  unfold rewrite_reverse.
  destruct (restore_ref_returns assetMap _ Hm) as [m ->]. cbn [bind].
  rewrite obj_get_set_str_opt by lit_neq.
  destruct (restore_ref_returns assetMap _ Hsc) as [sc ->]. cbn [bind].
  rewrite !obj_get_set_str_opt by lit_neq.
  destruct (restore_ref_returns assetMap _ Him) as [im ->]. cbn [bind].
  rewrite obj_get_set_image_opt by lit_neq.
  rewrite !obj_get_set_str_opt by lit_neq.
  destruct (obj_get (lit "props") b) as [ps|]; [|eauto].
  destruct (truthy ps); [|eauto].
  destruct (restore_props_returns assetMap _ Hps) as [entries ->]. cbn [bind]. eauto.
Qed.

Lemma build_assetMap_returns (l : list manifest_asset) :
  Forall long_name l ->
  forall acc, exists assetMap,
    build_assetMap acc (map manifest_asset_json l) = Ok assetMap.
Proof.
  induction l as [|a l IH]; intros Hl acc.
  - cbn. eauto.
  - rewrite build_assetMap_step by (now apply Forall_inv in Hl).
    apply IH. now apply Forall_inv_tail in Hl.
Qed.

(** ** The entries of the manifest *)

Lemma entries_of_more (sha256_hex : list Z -> jsstring) (src : jsstring)
  (refs refs' : list jsstring) (m : list manifest_asset) :
  (forall r, In r refs -> In r refs') ->
  entries_of sha256_hex src refs m -> entries_of sha256_hex src refs' m.
Proof.
  intros Hsub Hm. eapply Forall_impl; [|exact Hm].
  intros a (r & Hin & He). exists r. auto.
Qed.

Lemma consistent_intro (manifest : list manifest_asset) :
  (forall a1 a2, In a1 manifest -> In a2 manifest ->
     ai_filename (ma_info a1) = ai_filename (ma_info a2) ->
     ai_originalName (ma_info a1) = ai_originalName (ma_info a2)) ->
  consistent manifest = true.
Proof.
  intros Hc. unfold consistent. apply forallb_forall. intros a1 H1.
  apply forallb_forall. intros a2 H2.
  destruct (str_eqb (ai_filename (ma_info a1)) (ai_filename (ma_info a2))) eqn:E;
    [|reflexivity].
  apply str_eqb_eq in E. cbn [implb]. apply str_eqb_eq. now apply Hc.
Qed.

Lemma app_same_length {A} (a b c d : list A) :
  List.length a = List.length c -> a ++ b = c ++ d -> b = d.
Proof.
  revert c. induction a as [|x a IH]; intros [|y c] Hl E; try discriminate Hl.
  - exact E.
  - injection E as _ E. injection Hl as Hl. eauto.
Qed.

Section Entries.
Context {F : Type} `{FileSystem F}.
Variable sha256_hex : list Z -> jsstring.

Lemma storeAsset_entry (fs fs' : F) (sourcePath globalAssetsDir : jsstring)
  (i : asset_info) (log : list msg) :
  storeAsset sha256_hex fs sourcePath globalAssetsDir = (fs', Some i, log) ->
  ai_originalName i = Path.basename sourcePath
  /\ exists data, ai_filename i = sha256_hex data ++ Path.extname sourcePath.
Proof.
  unfold storeAsset.
  destruct (existsSync fs sourcePath); cbn [negb]; [|discriminate].
  destruct (readFile fs sourcePath) as [data| |]; try discriminate.
  destruct (ensureDir fs globalAssetsDir) as [fs1| |]; try discriminate.
  destruct (existsSync fs1 _); cbn [negb].
  - intros E. injection E as _ <- _. cbn. eauto.
  - destruct (copyFileSync fs1 sourcePath _) as [fs2| |]; try discriminate.
    intros E. injection E as _ <- _. cbn. eauto.
Qed.

Lemma store_field_entries (st st1 : rewrite_state) (src glob : jsstring) (id : json)
  (field : jsstring) (x : option json) (r : result (option jsstring)) :
  store_field sha256_hex st src glob id field x = (st1, r) ->
  exists extra,
    rs_assets st1 = rs_assets st ++ extra
    /\ entries_of sha256_hex src (refs_of x) extra.
Proof.
  unfold store_field, refs_of.
  destruct (asset_ref x) as [[ref|]| |];
    try (intros E; injection E as <- <-; exists []; split;
         [now rewrite app_nil_r|constructor]).
  unfold store_ref.
  destruct (storeAsset sha256_hex (rs_fs st) _ glob) as [[fs' [i|]] log] eqn:Es;
    intros E; injection E as <- <-; cbn [rs_assets].
  - apply storeAsset_entry in Es. eexists. split; [reflexivity|].
    constructor; [|constructor]. exists ref. split; [now left|]. exact Es.
  - exists []. split; [now rewrite app_nil_r|constructor].
Qed.

Lemma entries_trans (src : jsstring) (a b c : list manifest_asset)
  (r1 r2 : list jsstring) :
  (exists e1, b = a ++ e1 /\ entries_of sha256_hex src r1 e1) ->
  (exists e2, c = b ++ e2 /\ entries_of sha256_hex src r2 e2) ->
  exists e, c = a ++ e /\ entries_of sha256_hex src (r1 ++ r2) e.
Proof.
  intros [e1 [-> H1]] [e2 [-> H2]]. exists (e1 ++ e2).
  split; [now rewrite app_assoc|]. apply Forall_app. split.
  - eapply entries_of_more; [|exact H1]. intros. apply in_or_app. now left.
  - eapply entries_of_more; [|exact H2]. intros. apply in_or_app. now right.
Qed.

Lemma store_props_entries (src glob : jsstring) (id : json) (entries : props) :
  forall st st1 r,
    store_props sha256_hex st src glob id entries = (st1, r) ->
    exists extra,
      rs_assets st1 = rs_assets st ++ extra
      /\ entries_of sha256_hex src
           (flat_map (fun kv => refs_of (url_of (Some (snd kv)))) entries) extra.
Proof.
  induction entries as [|[key prop] rest IH]; intros st st1 r; cbn [store_props flat_map].
  - intros E. injection E as <- <-. exists []. split; [now rewrite app_nil_r|constructor].
  - cbn [snd].
    destruct (store_field sha256_hex st src glob id _ _) as [st2 rf] eqn:Ef.
    pose proof (store_field_entries _ _ _ _ _ _ _ _ Ef) as Hf.
    destruct rf as [new| |].
    + destruct (store_props sha256_hex st2 src glob id rest) as [st3 rr] eqn:Er.
      pose proof (IH _ _ _ Er) as Hr.
      destruct rr; intros E; injection E as <- <-; eapply entries_trans; eauto.
    + intros E; injection E as <- <-.
      destruct Hf as [ex [-> He]]. exists ex. split; [reflexivity|].
      eapply entries_of_more; [|exact He]. intros. apply in_or_app. now left.
    + intros E; injection E as <- <-.
      destruct Hf as [ex [-> He]]. exists ex. split; [reflexivity|].
      eapply entries_of_more; [|exact He]. intros. apply in_or_app. now left.
Qed.

(** The entries a forward rewrite adds come from the references of
    the blueprint. *)
Lemma rewrite_forward_entries (st st' : rewrite_state) (src glob : jsstring) (id : json)
  (b b' : props) :
  rewrite_forward sha256_hex st src glob id b = (st', Ok b') ->
  exists extra,
    rs_assets st' = rs_assets st ++ extra
    /\ entries_of sha256_hex src (references b) extra.
Proof.
  intros E. apply rewrite_forward_steps in E
    as (st1 & new1 & st2 & new2 & st3 & new3 & E1 & E2 & E3 & E4).
  cbv zeta in E4.
  rewrite obj_get_set_str_opt in E2 by lit_neq.
  rewrite !obj_get_set_str_opt in E3 by lit_neq.
  rewrite obj_get_set_image_opt in E4 by lit_neq.
  rewrite !obj_get_set_str_opt in E4 by lit_neq.
  unfold references.
  eapply entries_trans; [eapply store_field_entries; exact E1|].
  eapply entries_trans; [eapply store_field_entries; exact E2|].
  eapply entries_trans; [eapply store_field_entries; exact E3|].
  destruct (obj_get (lit "props") b) as [ps|].
  - destruct (truthy ps).
    + destruct E4 as [entries [Ep _]]. eapply store_props_entries; eauto.
    + destruct E4 as [-> _]. exists []. split; [now rewrite app_nil_r|constructor].
  - destruct E4 as [-> _]. exists []. split; [now rewrite app_nil_r|constructor].
Qed.

Hypothesis digest_length : forall data, List.length (sha256_hex data) = 64%nat.

(** A manifest whose entries come from references that differ in
    their base name only when they differ in their extension is
    consistent. *)
Lemma entries_consistent (src : jsstring) (refs : list jsstring)
  (m : list manifest_asset) :
  entries_of sha256_hex src refs m ->
  (forall r1 r2, In r1 refs -> In r2 refs ->
     Path.extname (source_path src r1) = Path.extname (source_path src r2) ->
     Path.basename (source_path src r1) = Path.basename (source_path src r2)) ->
  consistent m = true.
Proof.
  intros Hm Hrefs. apply consistent_intro. intros a1 a2 H1 H2 Ef.
  unfold entries_of in Hm. rewrite Forall_forall in Hm.
  destruct (Hm a1 H1) as (r1 & Hr1 & Hn1 & d1 & Hf1).
  destruct (Hm a2 H2) as (r2 & Hr2 & Hn2 & d2 & Hf2).
  rewrite Hn1, Hn2. apply Hrefs; auto.
  rewrite Hf1, Hf2 in Ef. eapply app_same_length; [|exact Ef].
  now rewrite !digest_length.
Qed.

End Entries.

Lemma rewrite_roundtrip_fields {F : Type} `{FileSystem F} (sha256_hex : list Z -> jsstring)
  (st : rewrite_state (F := F)) (src glob : jsstring) (id : json)
  (b : props) (later : list manifest_asset) (key name1 name2 : jsstring) :
  (forall data, List.length (sha256_hex data) = 64%nat) ->
  Forall long_name (rs_assets st) ->
  Forall long_name later ->
  refs_modelled b = true ->
  file_name name1 = true -> file_name name2 = true ->
  obj_get (lit "model") b = Some (JStr (lit "asset://" ++ name1)) ->
  prop_url key b = Some (JStr (lit "asset://" ++ name2)) ->
  consistent (rs_assets (fst (rewrite_forward sha256_hex st src glob id b)) ++ later)
  = true ->
  exists st' b' assetMap b'',
    rewrite_forward sha256_hex st src glob id b = (st', Ok b')
    /\ build_assetMap [] (map manifest_asset_json (rs_assets st' ++ later)) = Ok assetMap
    /\ rewrite_reverse assetMap b' = Ok b''
    /\ obj_get (lit "model") b'' = Some (JStr (lit "asset://" ++ name1))
    /\ prop_url key b'' = Some (JStr (lit "asset://" ++ name2)).
Proof.
  intros Hd Hst Hl Hb Hn1 Hn2 Hm Hu Hc.
  assert (Hp1 : plain_name name1 = true).
  { unfold file_name in Hn1. apply andb_true_iff in Hn1 as [Hn1 _].
    now apply andb_true_iff in Hn1 as [Hn1 _]. }
  assert (Hp2 : plain_name name2 = true).
  { unfold file_name in Hn2. apply andb_true_iff in Hn2 as [Hn2 _].
    now apply andb_true_iff in Hn2 as [Hn2 _]. }
  destruct (rewrite_forward_returns sha256_hex Hd st src glob id b Hb)
    as (st' & b' & Ef & Hb').
  rewrite Ef in Hc. cbn [fst] in Hc.
  destruct (rewrite_forward_mono sha256_hex Hd _ _ _ _ _ _ _ Ef) as [extra [Ea Hex]].
  assert (Hlong : Forall long_name (rs_assets st' ++ later)).
  { rewrite Ea. apply Forall_app. split; [apply Forall_app; split|]; assumption. }
  destruct (build_assetMap_returns _ Hlong []) as [assetMap Ea'].
  destruct (rewrite_reverse_returns assetMap b' Hb') as [b'' Er].
  exists st', b', assetMap, b''.
  split; [exact Ef|]. split; [exact Ea'|]. split; [exact Er|]. split.
  - destruct (rewrite_forward_model sha256_hex Hd _ _ _ _ _ _ _ name1 Hp1 Hm Ef)
      as [m' [Hm' Hs]].
    apply (rewrite_reverse_model (rs_assets st' ++ later) assetMap Hlong Hc Ea'
             b' b'' name1 m' Hn1 Hm'); [|exact Er].
    now apply stored_as_more.
  - unfold prop_url in Hu.
    destruct (obj_get (lit "props") b) as [[| | | | |ps]|] eqn:Hps; try discriminate.
    destruct (obj_get key ps) as [[| | | | |p]|] eqn:Hk; try discriminate.
    destruct (rewrite_forward_prop sha256_hex Hd _ _ _ _ _ _ _ _ _ key name2 Hp2
                Hps Hk Hu Ef) as [u' [Hu' Hs]].
    apply (rewrite_reverse_prop (rs_assets st' ++ later) assetMap Hlong Hc Ea'
             b' b'' key name2 u' Hn2 Hu'); [|exact Er].
    now apply stored_as_more.
Qed.

Lemma extname_join_plain (src name : jsstring) :
  plain_name name = true ->
  Path.extname (Path.join src name) = Path.extname name.
Proof.
  intros Hp. unfold Path.extname. rewrite basename_join_plain by exact Hp.
  assert (Hb : Path.basename name = name).
  { pose proof (basename_join_plain [] name Hp) as E.
    unfold Path.join in E. destruct name as [|c name]; [discriminate Hp|].
    now rewrite normalize_plain_alone in E by exact Hp. }
  now rewrite Hb.
Qed.


(** ** The round trip of the rewriter *)

Lemma demo_digest_length (data : list Z) : List.length (demo_digest data) = 64%nat.
Proof. unfold demo_digest. now rewrite length_map, length_seq. Qed.

(** C4, as stated, fails: a blueprint whose model is [asset://car.glb]
    and whose [props.skin.url] is [asset://skin.png], both files being
    in the source directory, and which also refers to [car2.glb], a
    file with the bytes of [car.glb]. The two share one hashed name,
    the manifest maps it to the name stored last, and the model comes
    back as [asset://car2.glb]. *)
Lemma C4_counterexample :
  obj_get (lit "model") twin_blueprint = Some (JStr (lit "asset://car.glb"))
  /\ prop_url (lit "skin") twin_blueprint = Some (JStr (lit "asset://skin.png"))
  /\ existsSync car_disk (lit "src/car.glb") = true
  /\ existsSync car_disk (lit "src/skin.png") = true
  /\ exists st' b' assetMap b'',
       rewrite_forward demo_digest car_state (lit "src") (lit "assets")
         (JStr (lit "bp")) twin_blueprint = (st', Ok b')
       /\ build_assetMap [] (map manifest_asset_json (rs_assets st')) = Ok assetMap
       /\ rewrite_reverse assetMap b' = Ok b''
       /\ obj_get (lit "model") b'' = Some (JStr (lit "asset://car2.glb"))
       /\ obj_get (lit "model") b'' <> obj_get (lit "model") twin_blueprint.
Proof.
  split; [reflexivity|]. split; [reflexivity|]. split; [reflexivity|].
  split; [reflexivity|].
  eexists _, _, _, _.
  split; [vm_compute; reflexivity|]. split; [vm_compute; reflexivity|].
  split; [vm_compute; reflexivity|]. split; [vm_compute; reflexivity|].
  vm_compute. discriminate.
Qed.

(** C4, corrected. Take a blueprint whose model is [asset://car.glb]
    and whose [props.skin.url] is [asset://skin.png], and whose
    reference-bearing fields are absent, null or strings that name no
    inherited property. Its forward rewrite returns; the map of the
    manifest produced so far, with whatever entries later blueprints
    add, is built; the reverse rewrite returns; and if in that manifest
    a hashed file name stands for one original name only, both fields
    are back to their original strings. The files may or may not be in
    the source directory. *)
Theorem C4_rewrite_roundtrip {F : Type} `{FileSystem F} (sha256_hex : list Z -> jsstring)
  (st : rewrite_state (F := F)) (sourceAssetsDir globalAssetsDir : jsstring) (id : json)
  (b : props) (later : list manifest_asset) :
  (forall data, List.length (sha256_hex data) = 64%nat) ->
  Forall long_name (rs_assets st) ->
  Forall long_name later ->
  refs_modelled b = true ->
  obj_get (lit "model") b = Some (JStr (lit "asset://car.glb")) ->
  prop_url (lit "skin") b = Some (JStr (lit "asset://skin.png")) ->
  consistent
    (rs_assets (fst (rewrite_forward sha256_hex st sourceAssetsDir globalAssetsDir id b))
       ++ later) = true ->
  exists st' b' assetMap b'',
    rewrite_forward sha256_hex st sourceAssetsDir globalAssetsDir id b = (st', Ok b')
    /\ build_assetMap [] (map manifest_asset_json (rs_assets st' ++ later)) = Ok assetMap
    /\ rewrite_reverse assetMap b' = Ok b''
    /\ obj_get (lit "model") b'' = Some (JStr (lit "asset://car.glb"))
    /\ prop_url (lit "skin") b'' = Some (JStr (lit "asset://skin.png")).
Proof.
  intros Hd Hst Hl Hb Hm Hu Hc.
  destruct (rewrite_forward_returns sha256_hex Hd st sourceAssetsDir globalAssetsDir id b Hb)
    as (st' & b' & Ef & Hb').
  rewrite Ef in Hc. cbn [fst] in Hc.
  destruct (rewrite_forward_mono sha256_hex Hd _ _ _ _ _ _ _ Ef) as [extra [Ea Hex]].
  assert (Hlong : Forall long_name (rs_assets st' ++ later)).
  { rewrite Ea. apply Forall_app. split; [apply Forall_app; split|]; assumption. }
  destruct (build_assetMap_returns _ Hlong []) as [assetMap Ea'].
  destruct (rewrite_reverse_returns assetMap b' Hb') as [b'' Er].
  exists st', b', assetMap, b''.
  split; [exact Ef|]. split; [exact Ea'|]. split; [exact Er|]. split.
  - change (lit "asset://car.glb") with (lit "asset://" ++ lit "car.glb") in *.
    destruct (rewrite_forward_model sha256_hex Hd _ _ _ _ _ _ _ (lit "car.glb")
                eq_refl Hm Ef) as [m' [Hm' Hs]].
    apply (rewrite_reverse_model (rs_assets st' ++ later) assetMap Hlong Hc Ea'
             b' b'' (lit "car.glb") m' eq_refl Hm'); [|exact Er].
    now apply stored_as_more.
  - change (lit "asset://skin.png") with (lit "asset://" ++ lit "skin.png") in *.
    unfold prop_url in Hu.
    destruct (obj_get (lit "props") b) as [[| | | | |ps]|] eqn:Hps; try discriminate.
    destruct (obj_get (lit "skin") ps) as [[| | | | |p]|] eqn:Hk; try discriminate.
    destruct (rewrite_forward_prop sha256_hex Hd _ _ _ _ _ _ _ _ _ (lit "skin")
                (lit "skin.png") eq_refl Hps Hk Hu Ef) as [u' [Hu' Hs]].
    apply (rewrite_reverse_prop (rs_assets st' ++ later) assetMap Hlong Hc Ea'
             b' b'' (lit "skin") (lit "skin.png") u' eq_refl Hu'); [|exact Er].
    now apply stored_as_more.
Qed.

(** The round trip on the blueprint that refers to [car.glb] and
    [skin.png] only, both in the source directory. *)
Lemma C4_rewrite_roundtrip_witness :
  exists st' b' assetMap b'',
    rewrite_forward demo_digest car_state (lit "src") (lit "assets") (JStr (lit "bp"))
      car_blueprint = (st', Ok b')
    /\ build_assetMap [] (map manifest_asset_json (rs_assets st' ++ [])) = Ok assetMap
    /\ rewrite_reverse assetMap b' = Ok b''
    /\ obj_get (lit "model") b'' = Some (JStr (lit "asset://car.glb"))
    /\ prop_url (lit "skin") b'' = Some (JStr (lit "asset://skin.png")).
Proof.
  apply (C4_rewrite_roundtrip demo_digest car_state (lit "src") (lit "assets")
           (JStr (lit "bp")) car_blueprint []).
  - exact demo_digest_length.
  - constructor.
  - constructor.
  - vm_compute. reflexivity.
  - reflexivity.
  - reflexivity.
  - vm_compute. reflexivity.
Defined.

(** The scenario in full: a blueprint whose only references are the
    model [asset://car.glb] and [props.skin.url], [asset://skin.png],
    unpacked into an empty manifest. The two entries differ in their
    extension, so the manifest is consistent whatever the files hold,
    and both fields come back as they were. *)
Theorem rewrite_roundtrip_two_references {F : Type} `{FileSystem F}
  (sha256_hex : list Z -> jsstring) (st : rewrite_state (F := F))
  (sourceAssetsDir globalAssetsDir : jsstring) (id : json) (b : props) :
  (forall data, List.length (sha256_hex data) = 64%nat) ->
  rs_assets st = [] ->
  refs_modelled b = true ->
  references b = [lit "asset://car.glb"; lit "asset://skin.png"] ->
  obj_get (lit "model") b = Some (JStr (lit "asset://car.glb")) ->
  prop_url (lit "skin") b = Some (JStr (lit "asset://skin.png")) ->
  exists st' b' assetMap b'',
    rewrite_forward sha256_hex st sourceAssetsDir globalAssetsDir id b = (st', Ok b')
    /\ build_assetMap [] (map manifest_asset_json (rs_assets st')) = Ok assetMap
    /\ rewrite_reverse assetMap b' = Ok b''
    /\ obj_get (lit "model") b'' = Some (JStr (lit "asset://car.glb"))
    /\ prop_url (lit "skin") b'' = Some (JStr (lit "asset://skin.png")).
Proof.
  intros Hd Hst Hb Hrefs Hm Hu.
  destruct (rewrite_forward_returns sha256_hex Hd st sourceAssetsDir globalAssetsDir id b Hb)
    as (st' & b' & Ef & _).
  destruct (rewrite_forward_entries sha256_hex _ _ _ _ _ _ _ Ef) as [extra [Ea He]].
  rewrite Hst in Ea. cbn [app] in Ea. rewrite Hrefs in He.
  assert (Hc : consistent (rs_assets st' ++ []) = true).
  { rewrite app_nil_r, Ea.
    apply (entries_consistent sha256_hex Hd sourceAssetsDir _ _ He).
    assert (Ecar : source_path sourceAssetsDir (lit "asset://car.glb")
                   = Path.join sourceAssetsDir (lit "car.glb")) by reflexivity.
    assert (Eskin : source_path sourceAssetsDir (lit "asset://skin.png")
                    = Path.join sourceAssetsDir (lit "skin.png")) by reflexivity.
    intros r1 r2 [<-|[<-|[]]] [<-|[<-|[]]]; rewrite ?Ecar, ?Eskin;
      rewrite !extname_join_plain by reflexivity; intros E;
      try reflexivity; vm_compute in E; discriminate E. }
  destruct (rewrite_roundtrip_fields sha256_hex st sourceAssetsDir globalAssetsDir id b
              [] (lit "skin") (lit "car.glb") (lit "skin.png") Hd)
    as (st2 & b2 & assetMap & b'' & Ef2 & Em & Er & R1 & R2); auto.
  - rewrite Hst. constructor.
  - now rewrite Ef.
  - rewrite app_nil_r in Em. exists st2, b2, assetMap, b''. auto.
Qed.

Lemma rewrite_roundtrip_two_references_witness :
  exists st' b' assetMap b'',
    rewrite_forward demo_digest car_state (lit "src") (lit "assets") (JStr (lit "bp"))
      car_blueprint = (st', Ok b')
    /\ build_assetMap [] (map manifest_asset_json (rs_assets st')) = Ok assetMap
    /\ rewrite_reverse assetMap b' = Ok b''
    /\ obj_get (lit "model") b'' = Some (JStr (lit "asset://car.glb"))
    /\ prop_url (lit "skin") b'' = Some (JStr (lit "asset://skin.png")).
Proof.
  apply (rewrite_roundtrip_two_references demo_digest car_state (lit "src") (lit "assets")
           (JStr (lit "bp")) car_blueprint).
  - exact demo_digest_length.
  - reflexivity.
  - vm_compute. reflexivity.
  - vm_compute. reflexivity.
  - reflexivity.
  - reflexivity.
Defined.

(** In that round trip both references were rewritten to hashed
    names on the way. *)
Lemma car_blueprint_hashed :
  exists st' b',
    rewrite_forward demo_digest car_state (lit "src") (lit "assets") (JStr (lit "bp"))
      car_blueprint = (st', Ok b')
    /\ obj_get (lit "model") b'
       = Some (JStr (lit "asset://" ++ demo_digest [103; 108; 84; 70; 2] ++ lit ".glb"))
    /\ prop_url (lit "skin") b'
       = Some (JStr (lit "asset://" ++ demo_digest [137; 80; 78; 71] ++ lit ".png"))
    /\ map (fun a => ai_originalName (ma_info a)) (rs_assets st')
       = [lit "car.glb"; lit "skin.png"].
Proof.
  eexists _, _. split; [vm_compute; reflexivity|].
  split; [vm_compute; reflexivity|]. split; vm_compute; reflexivity.
Qed.

(** ** Whole runs *)

(** An unpack of three blueprint rows of which the second does not
    parse: the run returns, the first and the third row have their
    file, the second has none, and one error is reported. *)
Lemma unpack_passes_over_bad_row :
  let run := unpackDatabase demo_digest c7_database_world (lit "2025-01-01T00:00:00.000Z")
               (lit "db/db.sqlite") (lit "out") (lit "src") (lit "assets") false in
  snd run = Returned tt
  /\ existsSync (w_fs (fst run)) (lit "out/blueprints/a.json") = true
  /\ existsSync (w_fs (fst run)) (lit "out/blueprints/b.json") = false
  /\ existsSync (w_fs (fst run)) (lit "out/blueprints/c.json") = true
  /\ w_log (fst run) = [Error (lit "  - Error parsing blueprint data for b")].
Proof. cbv zeta. repeat split; vm_compute; reflexivity. Qed.

(** The blueprint with the two files of equal bytes, unpacked and
    packed again into a new database: its model is the other file. *)
Lemma twin_world_unpack_then_pack :
  let unpacked := fst (unpackDatabase demo_digest twin_world (lit "2025-01-01T00:00:00.000Z")
                         (lit "db/db.sqlite") (lit "out") (lit "src") (lit "assets")
                         false) in
  let run := Worlds.packDirectory unpacked (lit "out") (lit "new/db.sqlite")
               (lit "assets") false false in
  snd run = Returned tt
  /\ w_log (fst run) = []
  /\ option_map (map r_data) (blueprints (w_db (fst run)))
     = Some [JStr (json_text
         "{'id':'bp','model':'asset://car2.glb','props':{'skin':{'url':'asset://skin.png'},'spare':{'url':'asset://car2.glb'}}}")].
Proof. cbv zeta. repeat split; vm_compute; reflexivity. Qed.

(** ** JSON.parse after JSON.stringify *)

Lemma json_induction (P : json -> Prop) :
  P JNull -> (forall b, P (JBool b)) -> (forall n, P (JNum n)) -> (forall s, P (JStr s)) ->
  (forall l, Forall P l -> P (JArr l)) ->
  (forall o, Forall (fun kv => P (snd kv)) o -> P (JObj o)) ->
  forall v, P v.
Proof.
  intros Hnull Hbool Hnum Hstr Harr Hobj.
  fix IH 1. intros [| b | n | s | l | o].
  - exact Hnull.
  - apply Hbool.
  - apply Hnum.
  - apply Hstr.
  - apply Harr. induction l as [|x l IHl]; constructor; [apply IH|exact IHl].
  - apply Hobj. induction o as [|[k x] o IHo]; constructor; [apply IH|exact IHo].
Qed.

Lemma hex_value_hex_digit (n : Z) : 0 <= n < 16 -> hex_value (hex_digit n) = Some n.
Proof.
  intros Hn. unfold hex_value, hex_digit, is_digit.
  destruct (Z.ltb_spec n 10).
  - assert ((48 <=? 48 + n) = true) as -> by lia.
    assert ((48 + n <=? 57) = true) as -> by lia. cbn [andb]. f_equal. lia.
  - assert ((97 + (n - 10) <=? 57) = false) as -> by lia. rewrite andb_false_r.
    assert ((97 + (n - 10) <=? 70) = false) as -> by lia. rewrite andb_false_r.
    assert ((97 <=? 97 + (n - 10)) = true) as -> by lia.
    assert ((97 + (n - 10) <=? 102) = true) as -> by lia. cbn [andb]. f_equal. lia.
Qed.

Lemma hex4_unicode_escape (c : Z) :
  0 <= c < 65536 ->
  hex4 (hex_digit (Z.shiftr c 12 mod 16)) (hex_digit (Z.shiftr c 8 mod 16))
       (hex_digit (Z.shiftr c 4 mod 16)) (hex_digit (c mod 16)) = Some c.
Proof.
  intros Hc. unfold hex4. rewrite !Z.shiftr_div_pow2 by lia.
  rewrite !hex_value_hex_digit by (apply Z.mod_pos_bound; lia).
  f_equal. change (2 ^ 12) with 4096. change (2 ^ 8) with 256. change (2 ^ 4) with 16.
  replace (c / 256) with (c / 16 / 16) by (rewrite Z.div_div by lia; reflexivity).
  replace (c / 4096) with (c / 16 / 16 / 16) by (rewrite !Z.div_div by lia; reflexivity).
  pose proof (Z.div_mod c 16 ltac:(lia)) as E0.
  pose proof (Z.div_mod (c / 16) 16 ltac:(lia)) as E1.
  pose proof (Z.div_mod (c / 16 / 16) 16 ltac:(lia)) as E2.
  pose proof (Z.mod_pos_bound c 16 ltac:(lia)) as B0.
  pose proof (Z.mod_pos_bound (c / 16) 16 ltac:(lia)) as B1.
  pose proof (Z.mod_pos_bound (c / 16 / 16) 16 ltac:(lia)) as B2.
  assert (B3 : 0 <= c / 16 / 16 / 16 < 16).
  { rewrite !Z.div_div by lia. split; [apply Z.div_pos; lia|].
    apply Z.div_lt_upper_bound; lia. }
  rewrite (Z.mod_small (c / 16 / 16 / 16)) by exact B3.
  pose proof (Z.div_mod (c / 16 / 16) 16 ltac:(lia)) as E3.
  generalize dependent (c mod 16). generalize dependent ((c / 16) mod 16).
  generalize dependent ((c / 16 / 16) mod 16).
  generalize dependent (c / 16 / 16 / 16). generalize dependent (c / 16 / 16).
  generalize dependent (c / 16). intros. lia.
Qed.

(** A unit the quoting writes as it is. *)
Lemma parse_string_body_plain (c : Z) (t : jsstring) :
  32 <= c -> c <> 34 -> c <> 92 ->
  parse_string_body (c :: t) = cons_fst c (parse_string_body t).
Proof.
  intros H1 H2 H3. cbn [parse_string_body].
  assert ((c =? 34) = false) as -> by lia.
  assert ((c <? 32) = false) as -> by lia.
  assert ((c =? 92) = false) as -> by lia. reflexivity.
Qed.

Lemma parse_string_body_escape (c : Z) (t : jsstring) :
  0 <= c < 65536 ->
  parse_string_body (unicode_escape c ++ t) = cons_fst c (parse_string_body t).
Proof.
  intros Hc. unfold unicode_escape. cbn [app parse_string_body].
  change (92 =? 34) with false. change (92 <? 32) with false.
  change (92 =? 92) with true. change (117 =? 117) with true. cbv iota.
  now rewrite hex4_unicode_escape.
Qed.

Lemma parse_string_body_quote_units (n : nat) :
  forall s r,
    (List.length s <= n)%nat ->
    forallb is_unit s = true ->
    parse_string_body (quote_units s ++ 34 :: r) = Some (s, r).
Proof.
  induction n as [|n IH]; intros s r Hlen Hs.
  - destruct s; [reflexivity|simpl in Hlen; lia].
  - destruct s as [|c s]; [reflexivity|].
    cbn [forallb] in Hs. apply andb_true_iff in Hs as [Hc Hs].
    unfold is_unit in Hc. apply andb_true_iff in Hc as [Hc0 Hc1].
    apply Z.leb_le in Hc0. apply Z.ltb_lt in Hc1.
    simpl in Hlen. assert (Hlen' : (List.length s <= n)%nat) by lia.
    pose proof (IH s r Hlen' Hs) as IHs.
    cbn [quote_units].
    destruct (Z.eqb_spec c 8) as [->|N8]; [cbn; now rewrite IHs|].
    destruct (Z.eqb_spec c 9) as [->|N9]; [cbn; now rewrite IHs|].
    destruct (Z.eqb_spec c 10) as [->|N10]; [cbn; now rewrite IHs|].
    destruct (Z.eqb_spec c 12) as [->|N12]; [cbn; now rewrite IHs|].
    destruct (Z.eqb_spec c 13) as [->|N13]; [cbn; now rewrite IHs|].
    destruct (Z.eqb_spec c 34) as [->|N34]; [cbn; now rewrite IHs|].
    destruct (Z.eqb_spec c 92) as [->|N92]; [cbn; now rewrite IHs|].
    destruct (Z.ltb_spec c 32) as [L32|G32].
    { rewrite <- app_assoc, parse_string_body_escape by lia. now rewrite IHs. }
    destruct (is_high_surrogate c) eqn:Eh.
    { destruct s as [|d s].
      - rewrite parse_string_body_escape by lia. reflexivity.
      - destruct (is_low_surrogate d) eqn:El.
        + cbn [forallb] in Hs. apply andb_true_iff in Hs as [Hd Hs'].
          simpl in Hlen'. 
          assert (IHs' : parse_string_body (quote_units s ++ 34 :: r) = Some (s, r))
            by (apply IH; [lia|exact Hs']).
          unfold is_low_surrogate in El. apply andb_true_iff in El as [El _].
          apply Z.leb_le in El.
          cbn [app]. rewrite parse_string_body_plain by lia.
          rewrite parse_string_body_plain by lia. now rewrite IHs'.
        + rewrite <- app_assoc, parse_string_body_escape by lia. now rewrite IHs. }
    destruct (is_low_surrogate c) eqn:El.
    { rewrite <- app_assoc, parse_string_body_escape by lia. now rewrite IHs. }
    cbn [app]. rewrite parse_string_body_plain by lia. now rewrite IHs.
Qed.

Lemma parse_string_body_quote (s r : jsstring) :
  forallb is_unit s = true ->
  parse_string_body (quote_units s ++ 34 :: r) = Some (s, r).
Proof. apply (parse_string_body_quote_units (List.length s)). lia. Qed.

(** *** Numbers *)

Lemma closes_no_digit_head (r : jsstring) : closes r = true -> no_digit_head r = true.
Proof.
  destruct r as [|c r]; [reflexivity|]. cbn [closes no_digit_head]. intros Hc.
  apply orb_true_iff in Hc as [Hc|Hc]; [apply orb_true_iff in Hc as [Hc|Hc]|];
    apply Z.eqb_eq in Hc; subst c; reflexivity.
Qed.

Lemma span_digits_uint (d : Decimal.uint) (r : jsstring) :
  no_digit_head r = true ->
  span_digits (uint_units d ++ r) = (uint_units d, r).
Proof.
  intros Hr. induction d; cbn [uint_units app span_digits];
    try (change (is_digit 48) with true; cbv iota);
    try (rewrite IHd; reflexivity).
  destruct r as [|c r]; [reflexivity|]. cbn [span_digits].
  cbn [no_digit_head] in Hr. apply negb_true_iff in Hr. now rewrite Hr.
Qed.

Lemma digits_Z_acc (d : Decimal.uint) :
  forall acc, digits_Z (Zpos acc) (uint_units d) = Zpos (Pos.of_uint_acc d acc).
Proof.
  induction d; intros acc; cbn [uint_units digits_Z Pos.of_uint_acc];
    [reflexivity|..];
    match goal with
    | |- digits_Z ?x _ = Zpos (Pos.of_uint_acc _ ?p) =>
        replace x with (Zpos p) by lia
    end; apply IHd.
Qed.

Lemma digits_Z_uint (d : Decimal.uint) :
  digits_Z 0 (uint_units d) = Z.of_N (Pos.of_uint d).
Proof.
  induction d; cbn [uint_units digits_Z Pos.of_uint]; [reflexivity|exact IHd|..];
    match goal with
    | |- digits_Z ?x _ = _ => 
        let y := eval compute in x in change x with y
    end; apply digits_Z_acc.
Qed.

Lemma unorm_head (d x : Decimal.uint) : Decimal.unorm d = Decimal.D0 x -> x = Decimal.Nil.
Proof.
  induction d; cbn [Decimal.unorm]; intros E; try discriminate E; auto.
  now injection E as <-.
Qed.

(** The digits of a number: a digit first, and no zero before another
    digit. *)
Lemma to_uint_head (n : N) :
  exists c ds,
    uint_units (N.to_uint n) = c :: ds
    /\ is_digit c = true
    /\ ((c =? 48) && negb (match ds with [] => true | _ => false end)) = false.
Proof.
  pose proof (DecimalN.Unsigned.to_of (N.to_uint n)) as E.
  rewrite DecimalN.Unsigned.of_to in E.
  destruct (N.to_uint n) as [|d|d|d|d|d|d|d|d|d|d]; cbn [uint_units];
    try (eexists _, _; split; [reflexivity|]; split; reflexivity).
  - discriminate E.
  - cbn [Decimal.unorm] in E. symmetry in E. apply unorm_head in E. subst d.
    exists 48, []. repeat split.
Qed.

Lemma number_tail_closes (neg : bool) (ip r : jsstring) :
  closes r = true ->
  number_tail neg ip r = (n <- scaled_int neg (digits_Z 0 ip) 0 ;; Ok (n, r)).
Proof.
  intros Hc. unfold number_tail.
  destruct r as [|c r]; cbn [closes] in Hc.
  - cbn [negb]. now rewrite app_nil_r.
  - assert (E46 : (c =? 46) = false).
    { apply orb_true_iff in Hc as [Hc|Hc]; [apply orb_true_iff in Hc as [Hc|Hc]|];
        apply Z.eqb_eq in Hc; subst c; reflexivity. }
    assert (Ee : ((c =? 101) || (c =? 69)) = false).
    { apply orb_true_iff in Hc as [Hc|Hc]; [apply orb_true_iff in Hc as [Hc|Hc]|];
        apply Z.eqb_eq in Hc; subst c; reflexivity. }
    rewrite E46. cbn [negb]. rewrite Ee. cbn [negb]. now rewrite app_nil_r.
Qed.

Lemma parse_number_uint (neg : bool) (m : N) (r : jsstring) :
  closes r = true ->
  (let (ip, s2) := span_digits (uint_units (N.to_uint m) ++ r) in
   match ip with
   | [] => Throw SyntaxError
   | d :: ip' =>
       if (d =? 48) && negb (match ip' with [] => true | _ => false end)
       then Throw SyntaxError
       else number_tail neg ip s2
   end)
  = (n <- scaled_int neg (Z.of_N m) 0 ;; Ok (n, r)).
Proof.
  intros Hc. rewrite span_digits_uint by now apply closes_no_digit_head.
  destruct (to_uint_head m) as (c & ds & E & _ & Hz).
  rewrite number_tail_closes by exact Hc.
  rewrite digits_Z_uint.
  change (Pos.of_uint (N.to_uint m)) with (N.of_uint (N.to_uint m)).
  rewrite DecimalN.Unsigned.of_to. rewrite E. now rewrite Hz.
Qed.

Lemma scaled_int_plain (neg : bool) (m : Z) :
  0 <= m -> safe_int m = true ->
  scaled_int neg m 0 = Ok (if neg then - m else m).
Proof.
  intros Hm Hs. unfold scaled_int.
  destruct (Z.eqb_spec m 0) as [->|N]; [now destruct neg|].
  change (400 <? Z.abs 0) with false. change (0 <=? 0) with true. cbv iota.
  change (10 ^ 0) with 1. rewrite Z.mul_1_r. now rewrite Hs.
Qed.

Lemma parse_number_int_toString (n : Z) (r : jsstring) :
  safe_int n = true -> closes r = true ->
  parse_number (int_toString n ++ r) = Ok (n, r).
Proof.
  intros Hs Hc. unfold int_toString, safe_int in *. apply Z.leb_le in Hs.
  destruct (Z.ltb_spec n 0) as [Hn|Hn].
  - unfold parse_number. cbn [app]. change (45 =? 45) with true. cbv iota.
    rewrite parse_number_uint by exact Hc.
    rewrite scaled_int_plain; [|lia|unfold safe_int; apply Z.leb_le; lia].
    cbn [bind]. do 2 f_equal. lia.
  - destruct (to_uint_head (Z.to_N n)) as (c & ds & E & Hd & _).
    unfold parse_number. 
    assert (E45 : (c =? 45) = false).
    { unfold is_digit in Hd. apply andb_true_iff in Hd as [Hd _]. lia. }
    pose proof (parse_number_uint false (Z.to_N n) r Hc) as P.
    rewrite E in P |- *. cbn [app] in P |- *. rewrite E45.
    rewrite P. rewrite scaled_int_plain; [|lia|unfold safe_int; apply Z.leb_le; lia].
    cbn [bind]. do 2 f_equal. lia.
Qed.

(** *** Values *)

Lemma opens_cases (c : Z) :
  opens c = true ->
  is_ws c = false /\ (c =? 93) = false /\ (c =? 125) = false /\ (c =? 44) = false.
Proof.
  unfold opens, is_digit, is_ws. intros Ho.
  repeat (apply orb_true_iff in Ho as [Ho|Ho]);
    try (apply Z.eqb_eq in Ho; subst c; repeat split; reflexivity).
  apply andb_true_iff in Ho as [H1 H2]. apply Z.leb_le in H1. apply Z.leb_le in H2.
  repeat split; lia.
Qed.

Lemma skip_ws_opens (c : Z) (t : jsstring) : opens c = true -> skip_ws (c :: t) = c :: t.
Proof.
  intros Ho. cbn [skip_ws]. now rewrite (proj1 (opens_cases c Ho)).
Qed.

Lemma stringify_head (v : json) :
  exists c t, stringify v = c :: t /\ opens c = true.
Proof.
  destruct v as [|[|]|n|s|l|o]; cbn [stringify]; try (eexists _, _; split; reflexivity).
  unfold int_toString. destruct (n <? 0).
  - eexists _, _. split; reflexivity.
  - destruct (to_uint_head (Z.to_N n)) as (c & ds & E & Hd & _).
    exists c, ds. split; [exact E|]. unfold opens. rewrite Hd.
    now rewrite !orb_true_r.
Qed.

Lemma parse_value_number (f : nat) (c : Z) (t : jsstring) :
  (c =? 45) || is_digit c = true ->
  parse_value (S f) (c :: t) = with_rest (parse_number (c :: t)) JNum.
Proof.
  intros Hc.
  assert (Ho : opens c = true).
  { unfold opens. apply orb_true_iff in Hc as [->| ->]; now rewrite ?orb_true_r. }
  assert (Hr : 45 <= c <= 57).
  { apply orb_true_iff in Hc as [Hc|Hc]; [lia|].
    unfold is_digit in Hc. apply andb_true_iff in Hc as [H1 H2]. lia. }
  cbn [parse_value]. rewrite skip_ws_opens by exact Ho.
  assert ((c =? 123) = false) as -> by lia.
  assert ((c =? 91) = false) as -> by lia.
  assert ((c =? 34) = false) as -> by lia.
  change (lit "true") with [116; 114; 117; 101].
  change (lit "false") with [102; 97; 108; 115; 101].
  change (lit "null") with [110; 117; 108; 108].
  cbn [startsWith].
  assert ((116 =? c) = false) as -> by lia.
  assert ((102 =? c) = false) as -> by lia.
  assert ((110 =? c) = false) as -> by lia.
  cbn [andb]. now rewrite Hc.
Qed.

Lemma parse_elements_join (l : list json) :
  Forall parses l -> forallb well_formed l = true -> l <> [] ->
  forall fuel acc r,
    (fold_right (fun x n => S (parse_cost x + n)) O l <= fuel)%nat ->
    parse_elements fuel acc (join [44] (map stringify l) ++ 93 :: r)
    = Some (Ok (JArr (rev acc ++ l), r)).
Proof.
  induction l as [|v l IH]; intros HP Hwf Hne fuel acc r Hfuel; [contradiction|].
  apply Forall_cons_iff in HP as [Pv Pl].
  cbn [forallb] in Hwf. apply andb_true_iff in Hwf as [Wv Wl].
  cbn [fold_right] in Hfuel. destruct fuel as [|f]; [lia|].
  destruct l as [|v2 l].
  - cbn [map join parse_elements].
    rewrite (Pv Wv f (93 :: r)) by (cbn [fold_right] in Hfuel; lia || reflexivity).
    cbn [skip_ws]. change (is_ws 93) with false. cbv iota.
    change (93 =? 44) with false. change (93 =? 93) with true. cbv iota.
    cbn [rev]. reflexivity.
  - change (join [44] (map stringify (v :: v2 :: l)))
      with (stringify v ++ [44] ++ join [44] (map stringify (v2 :: l))).
    rewrite <- !app_assoc. cbn [app parse_elements].
    rewrite (Pv Wv f) by (lia || reflexivity).
    cbn [skip_ws]. change (is_ws 44) with false. cbv iota.
    change (44 =? 44) with true. cbv iota.
    rewrite IH; [|exact Pl|exact Wl|discriminate|lia].
    cbn [rev]. now rewrite <- app_assoc.
Qed.

Lemma parse_members_join (o : props) :
  Forall (fun kv => parses (snd kv)) o ->
  forallb (fun kv => forallb is_unit (fst kv) && well_formed (snd kv)) o = true ->
  o <> [] ->
  forall fuel acc r,
    (fold_right (fun kv n => S (parse_cost (snd kv) + n)) O o <= fuel)%nat ->
    parse_members fuel acc (join [44] (map member_text o) ++ 125 :: r)
    = Some (Ok (JObj (assign_all acc o), r)).
Proof.
  induction o as [|[k v] o IH]; intros HP Hwf Hne fuel acc r Hfuel; [contradiction|].
  apply Forall_cons_iff in HP as [Pv Po]. cbn [snd] in Pv.
  cbn [forallb fst snd] in Hwf. apply andb_true_iff in Hwf as [Wkv Wo].
  apply andb_true_iff in Wkv as [Wk Wv].
  cbn [fold_right snd] in Hfuel. destruct fuel as [|f]; [lia|].
  assert (Hhead : forall t,
             parse_members (S f) acc (member_text (k, v) ++ t)
             = match parse_value f (stringify v ++ t) with
               | None => None
               | Some (Ok (v', r3)) =>
                   match skip_ws r3 with
                   | d :: r4 =>
                       if d =? 44 then parse_members f (obj_set k v' acc) r4
                       else if d =? 125 then Some (Ok (JObj (obj_set k v' acc), r4))
                       else Some (Throw SyntaxError)
                   | [] => Some (Throw SyntaxError)
                   end
               | Some (Throw e) => Some (Throw e)
               | Some Unmodelled => Some Unmodelled
               end).
  { intros t. unfold member_text, quote. cbn [fst snd].
    cbn [app]. rewrite <- !app_assoc. cbn [app parse_members skip_ws].
    change (is_ws 34) with false. cbv iota. change (34 =? 34) with true. cbv iota.
    rewrite parse_string_body_quote by exact Wk.
    cbn [skip_ws]. change (is_ws 58) with false. cbv iota.
    change (58 =? 58) with true. cbv iota. reflexivity. }
  destruct o as [|kv2 o].
  - cbn [map join]. rewrite Hhead.
    rewrite (Pv Wv f (125 :: r)) by (lia || reflexivity).
    cbn [skip_ws]. change (is_ws 125) with false. cbv iota.
    change (125 =? 44) with false. change (125 =? 125) with true. cbv iota.
    reflexivity.
  - change (join [44] (map member_text ((k, v) :: kv2 :: o)))
      with (member_text (k, v) ++ [44] ++ join [44] (map member_text (kv2 :: o))).
    rewrite <- !app_assoc. rewrite Hhead. cbn [app].
    rewrite (Pv Wv f) by (lia || reflexivity).
    cbn [skip_ws]. change (is_ws 44) with false. cbv iota.
    change (44 =? 44) with true. cbv iota.
    rewrite IH; [|exact Po|exact Wo|discriminate|lia]. reflexivity.
Qed.

Lemma parse_value_array (f : nat) (c : Z) (t : jsstring) :
  opens c = true ->
  parse_value (S f) (91 :: c :: t) = parse_elements f [] (c :: t).
Proof.
  intros Ho. destruct (opens_cases c Ho) as (_ & E93 & _).
  cbn [parse_value skip_ws]. change (is_ws 91) with false. cbv iota.
  change (91 =? 123) with false. change (91 =? 91) with true. cbv iota.
  rewrite skip_ws_opens by exact Ho. now rewrite E93.
Qed.

Lemma parse_value_object (f : nat) (t : jsstring) :
  parse_value (S f) (123 :: 34 :: t) = parse_members f [] (34 :: t).
Proof. reflexivity. Qed.

Lemma join_head (sep x : jsstring) (l : list jsstring) :
  join sep (x :: l) = x ++ match l with [] => [] | _ => sep ++ join sep l end.
Proof. destruct l; cbn [join]; [now rewrite app_nil_r|reflexivity]. Qed.

Lemma int_toString_head (n : Z) :
  exists c t, int_toString n = c :: t /\ (c =? 45) || is_digit c = true.
Proof.
  unfold int_toString. destruct (n <? 0).
  - eexists _, _. split; reflexivity.
  - destruct (to_uint_head (Z.to_N n)) as (c & ds & E & Hd & _).
    exists c, ds. split; [exact E|]. rewrite Hd. apply orb_true_r.
Qed.

(** *** Objects in enumeration order *)

Lemma obj_has_app (k : jsstring) (p q : props) :
  obj_has k (p ++ q) = obj_has k p || obj_has k q.
Proof.
  induction p as [|[k' v'] p IH]; cbn [app obj_has]; [reflexivity|].
  now rewrite IH, orb_assoc.
Qed.

Lemma obj_insert_index_last (n : Z) (k : jsstring) (v : json) (p : props) :
  Forall (fun kv => exists m, array_index (fst kv) = Some m /\ m < n) p ->
  obj_insert_index n k v p = p ++ [(k, v)].
Proof.
  induction 1 as [|[k' v'] p (m & Em & Hm) _ IH]; cbn [obj_insert_index app];
    [reflexivity|].
  cbn [fst] in Em. rewrite Em. assert ((m <? n) = true) as -> by lia. now rewrite IH.
Qed.

Lemma assign_all_in_order (o : props) :
  forall p lo plain,
    keys_in_order lo plain o = true ->
    (forall k, obj_has k o = true -> obj_has k p = false) ->
    (plain = false ->
     Forall (fun kv => exists m, array_index (fst kv) = Some m /\ m < lo) p) ->
    assign_all p o = p ++ o.
Proof.
  induction o as [|[k v] o IH]; intros p lo plain Hord Hnew Hidx.
  - cbn. now rewrite app_nil_r.
  - cbn [keys_in_order] in Hord. apply andb_true_iff in Hord as [Hk Hord].
    apply negb_true_iff in Hk.
    assert (Hp : obj_has k p = false).
    { apply Hnew. cbn [obj_has]. now rewrite str_eqb_refl. }
    assert (Hrest : forall k', obj_has k' o = true -> obj_has k' (p ++ [(k, v)]) = false).
    { intros k' Hk'. rewrite obj_has_app. cbn [obj_has]. rewrite orb_false_r.
      apply orb_false_iff. split.
      - apply Hnew. cbn [obj_has]. rewrite Hk'. apply orb_true_r.
      - apply str_eqb_neq. intros ->. congruence. }
    unfold assign_all. cbn [fold_left fst snd]. fold (assign_all (obj_set k v p) o).
    unfold obj_set. rewrite Hp.
    destruct (array_index k) as [n|] eqn:Ek.
    + apply andb_true_iff in Hord as [Hord Hrec].
      apply andb_true_iff in Hord as [Hplain Hlo].
      apply negb_true_iff in Hplain. apply Z.leb_le in Hlo.
      specialize (Hidx Hplain).
      rewrite obj_insert_index_last.
      2:{ eapply Forall_impl; [|exact Hidx]. intros kv (m & Em & Hm). exists m.
          split; [exact Em|lia]. }
      rewrite (IH (p ++ [(k, v)]) (n + 1) false Hrec Hrest).
      * now rewrite <- app_assoc.
      * intros _. apply Forall_app. split.
        -- eapply Forall_impl; [|exact Hidx]. intros kv (m & Em & Hm). exists m.
           split; [exact Em|lia].
        -- constructor; [|constructor]. exists n. cbn [fst]. split; [exact Ek|lia].
    + rewrite (IH (p ++ [(k, v)]) lo true Hord Hrest).
      * now rewrite <- app_assoc.
      * discriminate.
Qed.

Lemma assign_all_well_formed (o : props) :
  keys_in_order 0 false o = true -> assign_all [] o = o.
Proof.
  intros Ho. apply (assign_all_in_order o [] 0 false Ho).
  - reflexivity.
  - constructor.
Qed.

(** *** The text of a value parses to the value *)

Lemma parse_value_stringify (v : json) : parses v.
Proof.
  induction v as [|b|n|s|l IH|o IH] using json_induction;
    intros Hwf fuel r Hfuel Hc; (destruct fuel as [|f]; [cbn in Hfuel; lia|]).
  - reflexivity.
  - destruct b; reflexivity.
  - cbn [stringify well_formed] in *.
    destruct (int_toString_head n) as (c & t & E & Hd).
    rewrite E. cbn [app]. rewrite parse_value_number by exact Hd.
    change (c :: t ++ r) with ((c :: t) ++ r). rewrite <- E.
    now rewrite parse_number_int_toString.
  - cbn [stringify well_formed] in *. unfold quote. cbn [app].
    rewrite <- app_assoc. cbn [app parse_value skip_ws].
    change (is_ws 34) with false. cbv iota.
    change (34 =? 123) with false. change (34 =? 91) with false.
    change (34 =? 34) with true. cbv iota.
    now rewrite parse_string_body_quote.
  - cbn [stringify well_formed parse_cost] in *. destruct l as [|v l]; [reflexivity|].
    destruct (stringify_head v) as (c & t & E & Ho).
    cbn [app]. rewrite <- app_assoc. cbn [app].
    assert (Hj : exists t', join [44] (map stringify (v :: l)) ++ 93 :: r = c :: t').
    { cbn [map]. rewrite join_head, E. cbn [app]. eauto. }
    destruct Hj as [t' Hj]. rewrite Hj. rewrite parse_value_array by exact Ho.
    rewrite <- Hj. rewrite parse_elements_join; auto; [discriminate|lia].
  - cbn [stringify well_formed parse_cost] in *.
    apply andb_true_iff in Hwf as [Hord Hwf].
    destruct o as [|[k v] o]; [reflexivity|].
    cbn [app]. rewrite <- app_assoc. cbn [app].
    fold member_text.
    change (fun kv : jsstring * json => quote (fst kv) ++ 58 :: stringify (snd kv))
      with member_text.
    match goal with
    | |- parse_value _ (123 :: ?x) = _ => assert (Hj : exists t', x = 34 :: t')
    end.
    { cbn [map]. rewrite join_head. unfold member_text at 1, quote. cbn [app]. eauto. }
    destruct Hj as [t' Hj]. rewrite Hj. rewrite parse_value_object.
    rewrite <- Hj. rewrite parse_members_join; auto; [|discriminate|lia].
    now rewrite assign_all_well_formed.
Qed.

Lemma cost_of_join {A} (cost : A -> nat) (text : A -> jsstring) (l : list A) :
  Forall (fun x => (cost x + 1 <= 2 * List.length (text x))%nat) l ->
  (fold_right (fun x n => S (cost x + n)) O l
   <= 2 * List.length (join [44%Z] (map text l)))%nat.
Proof.
  induction 1 as [|x l Hx _ IH]; [cbn; lia|].
  destruct l as [|y l].
  - cbn [map fold_right join]. lia.
  - change (join [44%Z] (map text (x :: y :: l)))
      with (text x ++ [44%Z] ++ join [44%Z] (map text (y :: l))).
    rewrite !length_app. cbn [List.length].
    change (fold_right (fun x n => S (cost x + n)) O (x :: y :: l))
      with (S (cost x + fold_right (fun x n => S (cost x + n)) O (y :: l))).
    lia.
Qed.

Lemma parse_cost_bound (v : json) :
  (parse_cost v + 1 <= 2 * List.length (stringify v))%nat.
Proof.
  induction v as [|b|n|s|l IH|o IH] using json_induction; cbn [parse_cost stringify].
  - cbn. lia.
  - destruct b; cbn; lia.
  - destruct (int_toString_head n) as (c & t & E & _). rewrite E. cbn [List.length]. lia.
  - unfold quote. cbn [List.length]. lia.
  - cbn [List.length]. rewrite length_app. cbn [List.length].
    pose proof (cost_of_join parse_cost stringify l IH). lia.
  - cbn [List.length]. rewrite length_app. cbn [List.length].
    assert (Hm : Forall (fun kv => (parse_cost (snd kv) + 1
                                    <= 2 * List.length (member_text kv))%nat) o).
    { eapply Forall_impl; [|exact IH]. intros [k x] Hx. cbn [snd] in *.
      unfold member_text. cbn [fst snd]. rewrite length_app. cbn [List.length]. lia. }
    pose proof (cost_of_join (fun kv => parse_cost (snd kv)) member_text o Hm) as Hj.
    cbv beta in Hj. unfold member_text in Hj. unfold jsstring in *. lia.
Qed.

Lemma parse_after_stringify (v : json) :
  well_formed v = true -> parse (stringify v) = Ok v.
Proof.
  intros Hwf. unfold parse.
  pose proof (parse_value_stringify v Hwf (2 * List.length (stringify v) + 2)%nat [])
    as P.
  rewrite app_nil_r in P. rewrite P; [reflexivity| |reflexivity].
  pose proof (parse_cost_bound v). lia.
Qed.

(** [JSON.parse(JSON.stringify(v))] is [v], for every value [v] whose
    strings are code units, whose numbers are integers a double holds
    exactly, and whose objects have their keys in enumeration order;
    the fuel [parse] gives the parser is enough. *)
Theorem parse_stringify (v : json) :
  well_formed v = true -> parse (stringify v) = Ok v.
Proof.
  intros Hwf.
  assert (Hfuel : (parse_cost v <= 2 * List.length (stringify v) + 2)%nat)
    by (pose proof (parse_cost_bound v); lia).
  pose proof (parse_value_stringify v Hwf _ [] Hfuel eq_refl) as P.
  rewrite app_nil_r in P. unfold parse. now rewrite P.
Qed.

(** ** The container read back *)

Lemma decode_not_bom (c : Z) (t : list Z) :
  c <> 239 -> Utf8.decode (c :: t) = Utf8.decode_from None (c :: t).
Proof.
  intros N. unfold Utf8.decode.
  destruct c as [|p|p]; try reflexivity.
  do 8 (destruct p as [p|p|]; try reflexivity). contradiction.
Qed.

Lemma decode_from_ascii (t : jsstring) :
  ascii_text t = true -> Utf8.decode_from None t = t.
Proof.
  induction t as [|c t IH]; intros Ha; [reflexivity|].
  cbn [ascii_text forallb] in Ha. apply andb_true_iff in Ha as [Hc Ha].
  cbn [Utf8.decode_from]. unfold Utf8.classify.
  assert ((0 <=? c) && (c <=? 127) = true) as -> by lia.
  f_equal. now apply IH.
Qed.

Lemma str2ab_of_ascii (t : jsstring) : ascii_text t = true -> str2ab t = t.
Proof.
  induction t as [|c t IH]; intros Ha; [reflexivity|].
  cbn [ascii_text forallb] in Ha. apply andb_true_iff in Ha as [Hc Ha].
  unfold str2ab. cbn [map]. fold (str2ab t). rewrite IH by exact Ha.
  f_equal. apply Z.mod_small. lia.
Qed.

(** A header text of ASCII units, written by [str2ab], is read back by
    [ab2str]. *)
Lemma ab2str_str2ab_ascii (t : jsstring) : ascii_text t = true -> ab2str (str2ab t) = t.
Proof.
  intros Ha. rewrite str2ab_of_ascii by exact Ha. unfold ab2str.
  destruct t as [|c t]; [reflexivity|].
  rewrite decode_not_bom.
  - now apply decode_from_ascii.
  - cbn [ascii_text forallb] in Ha. apply andb_true_iff in Ha as [Hc _]. lia.
Qed.

Lemma descriptor_well_formed (a : packed_asset) :
  packed_ok a = true -> safe_int (pa_size a) = true ->
  well_formed (descriptor a) = true.
Proof.
  unfold packed_ok, descriptor. intros Hok Hs.
  apply andb_true_iff in Hok as [Hok _]. apply andb_true_iff in Hok as [Hok Hm].
  apply andb_true_iff in Hok as [Ht Hu].
  destruct (pa_type a) as [t|]; cbn [app well_formed forallb fst snd];
    rewrite ?Ht, Hu, Hs, Hm; reflexivity.
Qed.

Lemma descriptor_props (a : packed_asset) :
  get_prop (descriptor a) (lit "size") = Ok (Some (JNum (pa_size a)))
  /\ get_prop (descriptor a) (lit "url") = Ok (Some (JStr (pa_url a)))
  /\ get_prop (descriptor a) (lit "type") = Ok (pa_type a)
  /\ get_prop (descriptor a) (lit "mime") = Ok (Some (JStr (pa_mime a))).
Proof.
  unfold descriptor. destruct (pa_type a); repeat split; reflexivity.
Qed.

Lemma sum_nonneg (l : list Z) :
  Forall (fun n => 0 <= n) l -> 0 <= fold_right Z.add 0 l.
Proof. induction 1; cbn [fold_right]; lia. Qed.

Lemma member_le_sum (l : list Z) (x : Z) :
  Forall (fun n => 0 <= n) l -> In x l -> x <= fold_right Z.add 0 l.
Proof.
  induction 1 as [|y l Hy Hl IH]; intros Hin; [contradiction|].
  cbn [fold_right]. pose proof (sum_nonneg l Hl). destruct Hin as [->|Hin]; [lia|].
  specialize (IH Hin). lia.
Qed.

Lemma extract_assets_container (assets : list packed_asset) :
  forall pre tail,
    forallb packed_ok assets = true ->
    Z.of_nat (List.length pre) + fold_right Z.add 0 (map pa_size assets)
    <= 9007199254740991 ->
    extract_assets (pre ++ List.concat (map pa_data assets) ++ tail)
      (Z.of_nat (List.length pre)) (map descriptor assets)
    = Ok (map imported assets).
Proof.
  induction assets as [|a assets IH]; intros pre tail Hok Hsum; [reflexivity|].
  cbn [forallb] in Hok. apply andb_true_iff in Hok as [Ha Hok].
  pose proof Ha as Ha'. unfold packed_ok in Ha'.
  apply andb_true_iff in Ha' as [_ Hsize]. apply Z.eqb_eq in Hsize.
  cbn [map fold_right] in Hsum.
  assert (Hrest : 0 <= fold_right Z.add 0 (map pa_size assets)).
  { apply sum_nonneg. apply Forall_forall. intros n Hin.
    apply in_map_iff in Hin as (b & <- & Hin). rewrite forallb_forall in Hok.
    specialize (Hok b Hin). unfold packed_ok in Hok.
    apply andb_true_iff in Hok as [_ Hb]. apply Z.eqb_eq in Hb. lia. }
  destruct (descriptor_props a) as (Es & Eu & Et & Em).
  set (buffer := pre ++ List.concat (map pa_data (a :: assets)) ++ tail).
  cbn [map extract_assets]. rewrite Es. cbn [bind].
  assert (safe_int (Z.of_nat (List.length pre) + pa_size a) = true) as ->
    by (unfold safe_int; apply Z.leb_le; lia).
  rewrite Eu. cbn [bind]. rewrite Et. cbn [bind]. rewrite Em. cbn [bind].
  assert (Ed : ab_slice buffer
                 (Z.of_nat (List.length pre)) (Z.of_nat (List.length pre) + pa_size a)
               = pa_data a).
  { unfold buffer. rewrite ab_slice_clamped by lia. rewrite Nat2Z.id.
    rewrite skipn_app, skipn_all, Nat.sub_diag. cbn [app skipn map List.concat].
    rewrite Hsize, Nat2Z.id, <- app_assoc.
    rewrite firstn_app, firstn_all, Nat.sub_diag. cbn [firstn]. apply app_nil_r. }
  rewrite Ed.
  replace buffer
    with ((pre ++ pa_data a) ++ List.concat (map pa_data assets) ++ tail)
    by (unfold buffer; cbn [map List.concat]; now rewrite <- !app_assoc).
  replace (Z.of_nat (List.length pre) + pa_size a)
    with (Z.of_nat (List.length (pre ++ pa_data a)))
    by (rewrite length_app; lia).
  rewrite IH; [reflexivity|exact Hok|rewrite length_app; lia].
Qed.

(** A container whose header text is ASCII is read back as it was
    written: [importApp] returns the blueprint and, for every asset,
    its descriptor's fields and its bytes. *)
Theorem importApp_container_bytes (blueprint : json) (assets : list packed_asset) :
  well_formed blueprint = true ->
  forallb packed_ok assets = true ->
  ascii_text (stringify (make_header blueprint assets)) = true ->
  Z.of_nat (List.length (stringify (make_header blueprint assets))) < 4294967296 ->
  4 + Z.of_nat (List.length (stringify (make_header blueprint assets)))
  + fold_right Z.add 0 (map pa_size assets) <= 9007199254740991 ->
  importApp (container_bytes blueprint assets)
  = Ok {| app_blueprint := Some blueprint; app_assets := map imported assets |}.
Proof.
  intros Hb Hok Ha HL Hsum.
  set (text := stringify (make_header blueprint assets)) in *.
  assert (Hbytes : container_bytes blueprint assets
                   = (setUint32_le (Z.of_nat (List.length text)) ++ text)
                       ++ List.concat (map pa_data assets) ++ []).
  { unfold container_bytes. fold text. rewrite str2ab_of_ascii by exact Ha.
    now rewrite app_nil_r, <- app_assoc. }
  assert (Hsizes : Forall (fun n => 0 <= n) (map pa_size assets)).
  { apply Forall_forall. intros n Hin. apply in_map_iff in Hin as (a & <- & Hin).
    rewrite forallb_forall in Hok.
    specialize (Hok a Hin). unfold packed_ok in Hok.
    apply andb_true_iff in Hok as [_ Hok]. apply Z.eqb_eq in Hok. lia. }
  assert (Hsafe : forall a, In a assets -> safe_int (pa_size a) = true).
  { intros a Hin. unfold safe_int. apply Z.leb_le.
    pose proof (member_le_sum (map pa_size assets) (pa_size a) Hsizes
                  (in_map pa_size assets a Hin)).
    rewrite Forall_forall in Hsizes.
    specialize (Hsizes (pa_size a) (in_map pa_size assets a Hin)). lia. }
  assert (Hwf : well_formed (make_header blueprint assets) = true).
  { unfold make_header. cbn [well_formed forallb fst snd]. rewrite Hb.
    assert (forallb well_formed (map descriptor assets) = true) as ->.
    { apply forallb_forall. intros d Hd. apply in_map_iff in Hd as (a & <- & Hin).
      apply descriptor_well_formed; [|now apply Hsafe].
      rewrite forallb_forall in Hok. now apply Hok. }
    reflexivity. }
  unfold importApp.
  assert (Hsize : getUint32_le (container_bytes blueprint assets)
                  = Ok (Z.of_nat (List.length text))).
  { rewrite Hbytes, <- app_assoc. apply getUint32_le_set. lia. }
  rewrite Hsize. cbn [bind].
  assert (Hslice : ab_slice (container_bytes blueprint assets) 4
                     (4 + Z.of_nat (List.length text)) = str2ab text).
  { rewrite ab_slice_clamped by lia. rewrite Hbytes, <- !app_assoc.
    change (Z.to_nat 4) with (List.length (setUint32_le (Z.of_nat (List.length text)))).
    rewrite skipn_app, skipn_all, Nat.sub_diag. cbn [app skipn].
    rewrite Nat2Z.id, firstn_app, firstn_all, Nat.sub_diag. cbn [firstn].
    rewrite app_nil_r. symmetry. now apply str2ab_of_ascii. }
  rewrite Hslice, ab2str_str2ab_ascii by exact Ha.
  unfold text at 1. rewrite parse_after_stringify by exact Hwf.
  cbn [try_catch bind make_header get_prop]. 
  change (obj_get (lit "assets") _) with (Some (JArr (map descriptor assets))).
  cbn [iterate bind].
  replace (4 + Z.of_nat (List.length text))
    with (Z.of_nat (List.length (setUint32_le (Z.of_nat (List.length text)) ++ text)))
    by (rewrite length_app, length_setUint32_le; lia).
  rewrite Hbytes, extract_assets_container; [reflexivity|exact Hok|].
  rewrite length_app, length_setUint32_le. lia.
Qed.

Lemma parse_stringify_witness :
  parse (stringify (JObj twin_blueprint)) = Ok (JObj twin_blueprint).
Proof. apply (parse_stringify (JObj twin_blueprint)). vm_compute. reflexivity. Defined.

Lemma importApp_container_bytes_witness :
  importApp chair_hyp
  = Ok {| app_blueprint := Some chair_blueprint; app_assets := [imported chair_asset] |}.
Proof.
  apply (importApp_container_bytes chair_blueprint [chair_asset]).
  - vm_compute. reflexivity.
  - vm_compute. reflexivity.
  - vm_compute. reflexivity.
  - vm_compute. reflexivity.
  - vm_compute. discriminate.
Defined.

(** What [packDirectory] writes, when it returns: the container of
    the blueprint parsed from [blueprint.json] and of the assets read
    for its references, at the path it returns. *)
Theorem packDirectory_writes_container {F} `{FileSystem F} (fs fs' : F)
  (cwd dirPath path : jsstring) (outputPath : option jsstring) (log : list msg) :
  Apps.packDirectory fs cwd dirPath outputPath = (fs', log, Returned path) ->
  exists text blueprint found assets,
    readFileUtf8 fs (Path.join dirPath (lit "blueprint.json")) = Ok text
    /\ parse text = Ok blueprint
    /\ collect_assets fs dirPath blueprint = Ok found
    /\ read_assets fs (fst found) = Ok assets
    /\ map pa_size assets = map (fun a => Z.of_nat (List.length (pa_data a))) assets
    /\ writeFile fs path (container_bytes blueprint assets) = Ok fs'.
Proof.
  unfold Apps.packDirectory.
  destruct (existsSync fs dirPath); cbn [negb]; [|discriminate].
  destruct (isDirectory fs dirPath) as [[|]| |]; try discriminate.
  destruct (existsSync fs (Path.join dirPath (lit "blueprint.json"))); cbn [negb];
    [|discriminate].
  destruct (Apps.pack_body fs cwd dirPath outputPath) as [[[fs1 out] log1]| |] eqn:E;
    try discriminate.
  intros R. injection R as <- <- <-.
  unfold Apps.pack_body in E.
  destruct (readFileUtf8 fs _) as [text| |] eqn:Et; cbn [bind] in E; try discriminate.
  destruct (parse text) as [blueprint| |] eqn:Ep; cbn [bind] in E; try discriminate.
  destruct (get_prop blueprint (lit "name")) as [name| |]; cbn [bind] in E;
    try discriminate.
  destruct (collect_assets fs dirPath blueprint) as [found| |] eqn:Ec; cbn [bind] in E;
    try discriminate.
  destruct (read_assets fs (fst found)) as [assets| |] eqn:Er; cbn [bind] in E;
    try discriminate.
  destruct (hyp_name blueprint) as [file| |]; cbn [bind] in E; try discriminate.
  match type of E with
  | (out0 <- ?m ;; _) = _ => destruct m as [out'| |]; cbn [bind] in E; try discriminate
  end.
  destruct (writeFile fs out' (container_bytes blueprint assets)) as [fs2| |] eqn:Ew;
    cbn [bind] in E; try discriminate.
  injection E as <- <- <-.
  exists text, blueprint, found, assets.
  repeat split; try assumption; try reflexivity.
  now apply (read_assets_sizes fs (fst found)).
Qed.

Lemma packDirectory_writes_container_witness :
  exists text blueprint found assets,
    readFileUtf8 chair_dir (Path.join (lit "chair") (lit "blueprint.json")) = Ok text
    /\ parse text = Ok blueprint
    /\ collect_assets chair_dir (lit "chair") blueprint = Ok found
    /\ read_assets chair_dir (fst found) = Ok assets
    /\ map pa_size assets = map (fun a => Z.of_nat (List.length (pa_data a))) assets
    /\ writeFile chair_dir (lit "chair.hyp") (container_bytes blueprint assets)
       = Ok (fst (fst (Apps.packDirectory chair_dir (lit ".") (lit "chair")
                         (Some (lit "chair.hyp"))))).
Proof.
  apply (packDirectory_writes_container chair_dir _ (lit ".") (lit "chair")
           (lit "chair.hyp") (Some (lit "chair.hyp")) []).
  vm_compute. reflexivity.
Defined.

(** ** The order of the keys of an object *)

Lemma digits_value_acc (s : jsstring) :
  forall acc,
    digits_value acc s
    = option_map (fun m => acc * 10 ^ Z.of_nat (List.length s) + m) (digits_value 0 s).
Proof.
  induction s as [|c s IH]; intros acc; cbn [digits_value List.length].
  - cbn. f_equal. lia.
  - destruct ((48 <=? c) && (c <=? 57)); [|reflexivity].
    rewrite (IH (10 * acc + (c - 48))), (IH (10 * 0 + (c - 48))).
    destruct (digits_value 0 s) as [m|]; [|reflexivity]. cbn [option_map]. f_equal.
    rewrite Nat2Z.inj_succ, Z.pow_succ_r by lia. ring.
Qed.

Lemma digits_value_cons (c : Z) (s : jsstring) (m : Z) :
  digits_value 0 (c :: s) = Some m ->
  48 <= c <= 57
  /\ exists m', digits_value 0 s = Some m'
                /\ m = (c - 48) * 10 ^ Z.of_nat (List.length s) + m'.
Proof.
  cbn [digits_value]. destruct ((48 <=? c) && (c <=? 57)) eqn:Ec; [|discriminate].
  rewrite digits_value_acc. destruct (digits_value 0 s) as [m'|]; [|discriminate].
  cbn [option_map]. intros E. injection E as <-. split; [lia|].
  exists m'. split; [reflexivity|]. ring.
Qed.

Lemma digits_value_bound (s : jsstring) :
  forall m, digits_value 0 s = Some m -> 0 <= m < 10 ^ Z.of_nat (List.length s).
Proof.
  induction s as [|c s IH]; intros m E.
  - cbn in E. injection E as <-. cbn. lia.
  - apply digits_value_cons in E as (Hc & m' & E' & ->).
    specialize (IH m' E'). cbn [List.length].
    rewrite Nat2Z.inj_succ, Z.pow_succ_r by lia. nia.
Qed.

Lemma digits_value_same_length (s : jsstring) :
  forall t m,
    List.length s = List.length t ->
    digits_value 0 s = Some m -> digits_value 0 t = Some m -> s = t.
Proof.
  induction s as [|c s IH]; intros [|d t] m Hl Es Et; try discriminate Hl;
    [reflexivity|].
  injection Hl as Hl.
  apply digits_value_cons in Es as (Hc & ms & Es & Em).
  apply digits_value_cons in Et as (Hd & mt & Et & Em').
  pose proof (digits_value_bound s ms Es) as Bs.
  pose proof (digits_value_bound t mt Et) as Bt.
  rewrite Hl in Em, Bs. subst m.
  set (P := 10 ^ Z.of_nat (List.length t)) in *.
  assert (Hcd : c = d).
  { destruct (Z.lt_trichotomy c d) as [Hlt|[Heq|Hgt]]; [exfalso|exact Heq|exfalso].
    - assert (P <= (d - c) * P) by nia. lia.
    - assert (P <= (c - d) * P) by nia. lia. }
  subst d. assert (ms = mt) by lia. subst mt.
  f_equal. eapply IH; eauto.
Qed.

(** The canonical form of an index: its digits have no zero before
    another digit. *)
Lemma canonical_lower (c : Z) (s : jsstring) (m : Z) :
  digits_value 0 (c :: s) = Some m -> c <> 48 ->
  10 ^ Z.of_nat (List.length s) <= m.
Proof.
  intros E Hc. apply digits_value_cons in E as (Hd & m' & E' & ->).
  pose proof (digits_value_bound s m' E'). nia.
Qed.

Lemma array_index_digits (k : jsstring) (n : Z) :
  array_index k = Some n ->
  digits_value 0 k = Some n
  /\ match k with
     | c :: _ :: _ => c <> 48
     | _ => True
     end
  /\ k <> [].
Proof.
  unfold array_index. destruct k as [|c r]; [discriminate|].
  destruct ((c =? 48) && negb (match r with [] => true | _ => false end)) eqn:Ez;
    [discriminate|].
  destruct (10 <? _); [discriminate|].
  destruct (digits_value 0 (c :: r)) as [m|]; [|discriminate].
  destruct (m <=? 4294967294); [|discriminate].
  intros E. injection E as <-. split; [reflexivity|]. split; [|discriminate].
  destruct r; [exact I|]. cbn [negb] in Ez. rewrite andb_true_r in Ez. lia.
Qed.

Lemma canonical_shorter (s t : jsstring) (m : Z) :
  (List.length s < List.length t)%nat -> s <> [] ->
  digits_value 0 s = Some m -> digits_value 0 t = Some m ->
  match t with c :: _ :: _ => c <> 48 | _ => True end ->
  False.
Proof.
  intros Hl Hs Es Et Ht. destruct t as [|c [|d t]].
  - cbn in Hl. lia.
  - destruct s; [contradiction|cbn in Hl; lia].
  - pose proof (canonical_lower c (d :: t) m Et Ht) as Lo.
    pose proof (digits_value_bound s m Es) as Up.
    assert (10 ^ Z.of_nat (List.length s) <= 10 ^ Z.of_nat (List.length (d :: t))).
    { apply Z.pow_le_mono_r; [lia|]. cbn [List.length] in *. lia. }
    lia.
Qed.

(** Two keys that are the same index are the same key. *)
Lemma array_index_inj (k1 k2 : jsstring) (n : Z) :
  array_index k1 = Some n -> array_index k2 = Some n -> k1 = k2.
Proof.
  intros E1 E2.
  apply array_index_digits in E1 as (D1 & C1 & N1).
  apply array_index_digits in E2 as (D2 & C2 & N2).
  destruct (Nat.lt_trichotomy (List.length k1) (List.length k2)) as [Hlt|[Heq|Hgt]].
  - exfalso. eapply (canonical_shorter k1 k2); eauto.
  - eapply digits_value_same_length; eauto.
  - exfalso. eapply (canonical_shorter k2 k1); eauto.
Qed.


Lemma obj_has_replace (k' k : jsstring) (v : json) (o : props) :
  obj_has k' (obj_replace k v o) = obj_has k' o.
Proof.
  induction o as [|[k0 v0] o IH]; cbn [obj_replace obj_has]; [reflexivity|].
  destruct (str_eqb k k0); cbn [obj_has]; [reflexivity|now rewrite IH].
Qed.

Lemma keys_in_order_replace (k : jsstring) (v : json) (o : props) :
  forall lo plain,
    keys_in_order lo plain (obj_replace k v o) = keys_in_order lo plain o.
Proof.
  induction o as [|[k0 v0] o IH]; intros lo plain; cbn [obj_replace keys_in_order];
    [reflexivity|].
  destruct (str_eqb k k0); cbn [keys_in_order]; [reflexivity|].
  rewrite obj_has_replace. destruct (array_index k0); now rewrite IH.
Qed.

Lemma keys_in_order_plain (o : props) :
  forall lo lo', keys_in_order lo true o = keys_in_order lo' true o.
Proof.
  induction o as [|[k v] o IH]; intros lo lo'; cbn [keys_in_order]; [reflexivity|].
  destruct (array_index k); [reflexivity|]. now rewrite (IH lo lo').
Qed.

Lemma keys_in_order_append (k : jsstring) (v : json) (o : props) :
  forall lo plain,
    keys_in_order lo plain o = true -> obj_has k o = false -> array_index k = None ->
    keys_in_order lo plain (o ++ [(k, v)]) = true.
Proof.
  induction o as [|[k0 v0] o IH]; intros lo plain Ho Hk Ek; cbn [app keys_in_order].
  - now rewrite Ek.
  - cbn [keys_in_order] in Ho. cbn [obj_has] in Hk.
    apply orb_false_iff in Hk as [Hk0 Hk].
    apply andb_true_iff in Ho as [Hn Ho]. apply negb_true_iff in Hn.
    rewrite obj_has_app, Hn. cbn [obj_has]. rewrite str_eqb_sym, Hk0. cbn [orb negb andb].
    destruct (array_index k0).
    + apply andb_true_iff in Ho as [Ho1 Ho2]. rewrite Ho1. cbn [andb]. now apply IH.
    + now apply IH.
Qed.

Lemma obj_has_insert_index (k' : jsstring) (n : Z) (k : jsstring) (v : json) (o : props) :
  obj_has k' (obj_insert_index n k v o) = str_eqb k' k || obj_has k' o.
Proof.
  induction o as [|[k0 v0] o IH]; cbn [obj_insert_index obj_has]; [reflexivity|].
  destruct (array_index k0) as [m|]; [destruct (m <? n)|]; cbn [obj_has];
    try reflexivity.
  rewrite IH. now rewrite !orb_assoc, (orb_comm (str_eqb k' k0)).
Qed.

Lemma keys_in_order_insert_index (n : Z) (k : jsstring) (v : json) (o : props) :
  array_index k = Some n ->
  forall lo,
    keys_in_order lo false o = true -> obj_has k o = false -> lo <= n ->
    keys_in_order lo false (obj_insert_index n k v o) = true.
Proof.
  intros Ek. induction o as [|[k0 v0] o IH]; intros lo Ho Hk Hlo;
    cbn [obj_insert_index].
  - cbn [keys_in_order obj_has]. rewrite Ek. cbn. lia.
  - pose proof Ho as Ho'. cbn [keys_in_order] in Ho. cbn [obj_has] in Hk.
    apply orb_false_iff in Hk as [Hk0 Hk].
    apply andb_true_iff in Ho as [Hn Ho]. apply negb_true_iff in Hn.
    assert (Hhead : keys_in_order lo false ((k, v) :: (k0, v0) :: o)
                    = keys_in_order (n + 1) false ((k0, v0) :: o)).
    { cbn [keys_in_order obj_has]. rewrite Hk0, Hk, Ek. cbn [orb negb andb].
      assert ((lo <=? n) = true) as -> by lia. reflexivity. }
    destruct (array_index k0) as [m|] eqn:E0.
    + apply andb_true_iff in Ho as [Ho1 Ho2]. cbn [negb andb] in Ho1.
      apply Z.leb_le in Ho1.
      destruct (Z.ltb_spec m n) as [Hlt|Hge].
      * cbn [keys_in_order]. rewrite obj_has_insert_index, Hn, str_eqb_sym, Hk0, E0.
        cbn [orb negb andb]. assert ((lo <=? m) = true) as -> by lia. cbn [andb].
        apply IH; [exact Ho2|exact Hk|lia].
      * rewrite Hhead. cbn [keys_in_order]. rewrite Hn, E0. cbn [negb andb].
        assert (m <> n).
        { intros ->. apply str_eqb_neq in Hk0. apply Hk0.
          eapply array_index_inj; eauto. }
        assert ((n + 1 <=? m) = true) as -> by lia. exact Ho2.
    + rewrite Hhead. cbn [keys_in_order]. rewrite Hn, E0. cbn [negb andb].
      now rewrite (keys_in_order_plain o (n + 1) lo).
Qed.

Lemma array_index_nonneg (k : jsstring) (n : Z) : array_index k = Some n -> 0 <= n.
Proof.
  intros E. apply array_index_digits in E as (D & _).
  apply digits_value_bound in D. lia.
Qed.

(** An assignment keeps the keys of an object in enumeration order. *)
Lemma keys_in_order_obj_set (k : jsstring) (v : json) (o : props) :
  keys_in_order 0 false o = true -> keys_in_order 0 false (obj_set k v o) = true.
Proof.
  intros Ho. unfold obj_set. destruct (obj_has k o) eqn:Hk.
  - now rewrite keys_in_order_replace.
  - destruct (array_index k) as [n|] eqn:Ek.
    + apply keys_in_order_insert_index; auto. eapply array_index_nonneg; eauto.
    + now apply keys_in_order_append.
Qed.



Lemma entries_ok_obj_set (k : jsstring) (v : json) (o : props) :
  forallb is_unit k = true -> well_formed v = true ->
  forallb entry_ok o = true -> forallb entry_ok (obj_set k v o) = true.
Proof.
  intros Hk Hv Ho.
  assert (Hkv : entry_ok (k, v) = true) by (unfold entry_ok; cbn; now rewrite Hk, Hv).
  unfold obj_set. destruct (obj_has k o).
  - clear -Hv Ho. induction o as [|[k0 v0] o IH]; cbn [obj_replace]; [reflexivity|].
    cbn [forallb] in Ho. apply andb_true_iff in Ho as [H0 Ho].
    destruct (str_eqb k k0); cbn [forallb].
    + rewrite Ho, andb_true_r. unfold entry_ok in *. cbn [fst snd] in *.
      apply andb_true_iff in H0 as [H0 _]. now rewrite H0, Hv.
    + now rewrite H0, IH.
  - destruct (array_index k) as [n|].
    + clear -Hkv Ho. induction o as [|[k0 v0] o IH]; cbn [obj_insert_index forallb].
      * now rewrite Hkv.
      * cbn [forallb] in Ho. apply andb_true_iff in Ho as [H0 Ho].
        destruct (array_index k0) as [m|]; [destruct (m <? n)|]; cbn [forallb];
          rewrite ?Hkv, ?H0, ?Ho, ?IH; auto.
    + rewrite forallb_app. cbn [forallb]. now rewrite Ho, Hkv.
Qed.

Lemma well_formed_obj (o : props) :
  well_formed (JObj o) = keys_in_order 0 false o && forallb entry_ok o.
Proof. reflexivity. Qed.

(** An assignment to a well-formed object gives a well-formed
    object. *)
Lemma well_formed_obj_set (k : jsstring) (v : json) (o : props) :
  forallb is_unit k = true -> well_formed v = true ->
  well_formed (JObj o) = true -> well_formed (JObj (obj_set k v o)) = true.
Proof.
  intros Hk Hv Ho. rewrite well_formed_obj in *.
  apply andb_true_iff in Ho as [H1 H2].
  now rewrite keys_in_order_obj_set, entries_ok_obj_set.
Qed.


(** ** What JSON.parse returns *)

Lemma units_skip_ws (s : jsstring) :
  forallb is_unit s = true -> forallb is_unit (skip_ws s) = true.
Proof.
  induction s as [|c s IH]; intros Hs; [reflexivity|]. cbn [skip_ws].
  destruct (is_ws c); [|exact Hs]. cbn [forallb] in Hs.
  apply andb_true_iff in Hs as [_ Hs]. auto.
Qed.

Lemma units_skipn (n : nat) (s : jsstring) :
  forallb is_unit s = true -> forallb is_unit (skipn n s) = true.
Proof.
  revert s. induction n as [|n IH]; intros s Hs; [exact Hs|].
  destruct s as [|c s]; [reflexivity|]. cbn [skipn]. cbn [forallb] in Hs.
  apply andb_true_iff in Hs as [_ Hs]. auto.
Qed.

Lemma units_tail (c : Z) (s : jsstring) :
  forallb is_unit (c :: s) = true -> forallb is_unit s = true.
Proof. cbn [forallb]. intros H. now apply andb_true_iff in H as [_ H]. Qed.

Lemma units_span_digits (s d r : jsstring) :
  span_digits s = (d, r) -> forallb is_unit s = true -> forallb is_unit r = true.
Proof.
  revert d r. induction s as [|c s IH]; intros d r E Hs; cbn [span_digits] in E.
  - now injection E as <- <-.
  - destruct (is_digit c).
    + destruct (span_digits s) as [d' r'] eqn:Es. injection E as <- <-.
      eapply IH; eauto. eapply units_tail; eauto.
    + now injection E as <- <-.
Qed.

Lemma hex_value_bound (c x : Z) : hex_value c = Some x -> 0 <= x < 16.
Proof.
  unfold hex_value, is_digit.
  destruct ((48 <=? c) && (c <=? 57)) eqn:E1; [intros E; injection E as <-; lia|].
  destruct ((65 <=? c) && (c <=? 70)) eqn:E2; [intros E; injection E as <-; lia|].
  destruct ((97 <=? c) && (c <=? 102)) eqn:E3; [intros E; injection E as <-; lia|].
  discriminate.
Qed.

Lemma hex4_bound (a b c d u : Z) : hex4 a b c d = Some u -> is_unit u = true.
Proof.
  unfold hex4.
  destruct (hex_value a) as [x|] eqn:Ea; [|discriminate].
  destruct (hex_value b) as [y|] eqn:Eb; [|discriminate].
  destruct (hex_value c) as [z|] eqn:Ec; [|discriminate].
  destruct (hex_value d) as [w|] eqn:Ed; [|discriminate].
  apply hex_value_bound in Ea, Eb, Ec, Ed.
  intros E. injection E as <-. unfold is_unit. lia.
Qed.

Lemma simple_escape_unit (e u : Z) : simple_escape e = Some u -> is_unit u = true.
Proof.
  unfold simple_escape.
  repeat match goal with
         | |- (if ?b then _ else _) = _ -> _ =>
             destruct b; [intros E; injection E as <-; reflexivity|]
         end.
  discriminate.
Qed.

Lemma cons_fst_some (c : Z) (r : option (jsstring * jsstring)) (str rest : jsstring) :
  cons_fst c r = Some (str, rest) ->
  exists str', r = Some (str', rest) /\ str = c :: str'.
Proof.
  destruct r as [[s' r']|]; cbn; [|discriminate].
  intros E. injection E as <- <-. eauto.
Qed.

Lemma units_parse_string_body (n : nat) :
  forall s str rest,
    (List.length s <= n)%nat ->
    parse_string_body s = Some (str, rest) ->
    forallb is_unit s = true ->
    forallb is_unit str = true /\ forallb is_unit rest = true.
Proof.
  induction n as [|n IH]; intros s str rest Hl E Hs.
  - destruct s; [discriminate E|cbn in Hl; lia].
  - destruct s as [|c s]; [discriminate E|]. cbn [List.length] in Hl.
    pose proof Hs as Hcs. cbn [forallb] in Hcs. apply andb_true_iff in Hcs as [Hc Hs'].
    cbn [parse_string_body] in E.
    destruct (c =? 34); [injection E as <- <-; auto|].
    destruct (c <? 32); [discriminate|].
    destruct (c =? 92).
    + destruct s as [|e s]; [discriminate|].
      pose proof (units_tail _ _ Hs') as Hs2. cbn [List.length] in Hl.
      destruct (e =? 117).
      * destruct s as [|h1 [|h2 [|h3 [|h4 s3]]]]; try discriminate.
        destruct (hex4 h1 h2 h3 h4) as [u|] eqn:Eh; [|discriminate].
        apply cons_fst_some in E as (str' & E & ->).
        cbn [List.length] in Hl.
        destruct (IH s3 str' rest ltac:(lia) E) as [H1 H2].
        { do 4 apply units_tail in Hs2. exact Hs2. }
        split; [|exact H2]. cbn [forallb]. rewrite H1.
        now rewrite (hex4_bound _ _ _ _ _ Eh).
      * destruct (simple_escape e) as [u|] eqn:Ee; [|discriminate].
        apply cons_fst_some in E as (str' & E & ->).
        destruct (IH s str' rest ltac:(lia) E Hs2) as [H1 H2].
        split; [|exact H2]. cbn [forallb]. rewrite H1.
        now rewrite (simple_escape_unit _ _ Ee).
    + apply cons_fst_some in E as (str' & E & ->).
      destruct (IH s str' rest ltac:(lia) E Hs') as [H1 H2].
      split; [|exact H2]. cbn [forallb]. now rewrite H1, Hc.
Qed.

Lemma safe_int_opp (v : Z) : safe_int (- v) = safe_int v.
Proof. unfold safe_int. now rewrite Z.abs_opp. Qed.

Lemma scaled_int_safe (neg : bool) (m e n : Z) :
  scaled_int neg m e = Ok n -> safe_int n = true.
Proof.
  unfold scaled_int. destruct (m =? 0); [intros E; injection E as <-; reflexivity|].
  destruct (400 <? Z.abs e); [discriminate|].
  destruct (0 <=? e).
  - destruct (safe_int (m * 10 ^ e)) eqn:Es; [|discriminate].
    intros E. injection E as <-. destruct neg; [now rewrite safe_int_opp|exact Es].
  - destruct ((m mod 10 ^ (- e) =? 0) && safe_int (m / 10 ^ (- e))) eqn:Es; [|discriminate].
    apply andb_true_iff in Es as [_ Es].
    intros E. injection E as <-. destruct neg; [now rewrite safe_int_opp|exact Es].
Qed.

Lemma number_tail_units (neg : bool) (ip s2 : jsstring) (n : Z) (rest : jsstring) :
  number_tail neg ip s2 = Ok (n, rest) ->
  forallb is_unit s2 = true ->
  safe_int n = true /\ forallb is_unit rest = true.
Proof.
  unfold number_tail. intros E Hs.
  destruct (match s2 with [] => _ | _ => _ end) as [[fp s3] frac_ok] eqn:E1 in E.
  assert (H3 : forallb is_unit s3 = true).
  { destruct s2 as [|c r]; [injection E1 as <- <- <-; exact Hs|].
    destruct (c =? 46).
    - destruct (span_digits r) as [f r'] eqn:Es. injection E1 as <- <- <-.
      eapply units_span_digits; [exact Es|]. eapply units_tail; eauto.
    - injection E1 as <- <- <-. exact Hs. }
  destruct (negb frac_ok); [discriminate|].
  destruct (match s3 with [] => _ | _ => _ end) as [[ex s4] exp_ok] eqn:E2 in E.
  assert (H4 : forallb is_unit s4 = true).
  { destruct s3 as [|c r]; [injection E2 as <- <- <-; exact H3|].
    destruct ((c =? 101) || (c =? 69)); [|injection E2 as <- <- <-; exact H3].
    pose proof (units_tail _ _ H3) as Hr.
    destruct (match r with [] => _ | _ => _ end) as [eneg r1] eqn:E3 in E2.
    assert (H1 : forallb is_unit r1 = true).
    { destruct r as [|g r0]; [injection E3 as <- <-; exact Hr|].
      destruct (g =? 45); [injection E3 as <- <-; eapply units_tail; eauto|].
      destruct (g =? 43); [injection E3 as <- <-; eapply units_tail; eauto|].
      injection E3 as <- <-; exact Hr. }
    destruct (span_digits r1) as [ed r2] eqn:Es.
    pose proof (units_span_digits _ _ _ Es H1) as H2.
    destruct ed; [injection E2 as <- <- <-; exact H2|].
    destruct (6 <? _); injection E2 as <- <- <-; exact H2. }
  destruct (negb exp_ok); [discriminate|].
  destruct (scaled_int _ _ _) as [m| |] eqn:Esc; cbn [bind] in E; try discriminate E.
  injection E as <- <-. split; [eapply scaled_int_safe; eauto|exact H4].
Qed.

Lemma parse_number_units (s : jsstring) (n : Z) (rest : jsstring) :
  parse_number s = Ok (n, rest) ->
  forallb is_unit s = true ->
  safe_int n = true /\ forallb is_unit rest = true.
Proof.
  unfold parse_number. intros E Hs.
  destruct (match s with [] => _ | _ => _ end) as [neg s1] eqn:E1 in E.
  assert (H1 : forallb is_unit s1 = true).
  { destruct s as [|c r]; [injection E1 as <- <-; exact Hs|].
    destruct (c =? 45); injection E1 as <- <-; [eapply units_tail; eauto|exact Hs]. }
  destruct (span_digits s1) as [ip s2] eqn:Es.
  pose proof (units_span_digits _ _ _ Es H1) as H2.
  destruct ip as [|d ip']; [discriminate|].
  destruct ((d =? 48) && _); [discriminate|].
  eapply number_tail_units; eauto.
Qed.

Lemma with_rest_ok {A} (m : result (A * jsstring)) (f : A -> json) v r :
  with_rest m f = Some (Ok (v, r)) -> exists a, m = Ok (a, r) /\ v = f a.
Proof.
  unfold with_rest. destruct m as [[a rest]| |]; intros E; try discriminate.
  injection E as <- <-. eauto.
Qed.

(** On a text of code units the parser returns well-formed values, and
    what it leaves is a text of code units. *)
Lemma parse_value_well_formed (fuel : nat) :
  (forall s v r, parse_value fuel s = Some (Ok (v, r)) ->
     forallb is_unit s = true ->
     well_formed v = true /\ forallb is_unit r = true)
  /\ (forall acc s v r, parse_elements fuel acc s = Some (Ok (v, r)) ->
     forallb is_unit s = true -> forallb well_formed acc = true ->
     well_formed v = true /\ forallb is_unit r = true)
  /\ (forall acc s v r, parse_members fuel acc s = Some (Ok (v, r)) ->
     forallb is_unit s = true -> well_formed (JObj acc) = true ->
     well_formed v = true /\ forallb is_unit r = true).
Proof.
  induction fuel as [|f (IHv & IHe & IHm)];
    [repeat split; intros; discriminate|].
  split; [|split].
  - intros s v r E Hs. cbn [parse_value] in E.
    pose proof (units_skip_ws _ Hs) as Hw.
    destruct (skip_ws s) as [|c t]; [discriminate|].
    pose proof (units_tail _ _ Hw) as Ht.
    destruct (c =? 123).
    { pose proof (units_skip_ws _ Ht) as Hw'.
      destruct (skip_ws t) as [|d t']; [discriminate|].
      destruct (d =? 125).
      - injection E as <- <-. split; [reflexivity|]. eapply units_tail; eauto.
      - eapply IHm; eauto. }
    destruct (c =? 91).
    { pose proof (units_skip_ws _ Ht) as Hw'.
      destruct (skip_ws t) as [|d t']; [discriminate|].
      destruct (d =? 93).
      - injection E as <- <-. split; [reflexivity|]. eapply units_tail; eauto.
      - eapply IHe; eauto. }
    destruct (c =? 34).
    { destruct (parse_string_body t) as [[str rest]|] eqn:Eb; [|discriminate].
      injection E as <- <-.
      exact (units_parse_string_body _ _ _ _ (le_n _) Eb Ht). }
    destruct (startsWith (c :: t) (lit "true")).
    { injection E as <- <-. split; [reflexivity|exact (units_skipn 4 (c :: t) Hw)]. }
    destruct (startsWith (c :: t) (lit "false")).
    { injection E as <- <-. split; [reflexivity|exact (units_skipn 5 (c :: t) Hw)]. }
    destruct (startsWith (c :: t) (lit "null")).
    { injection E as <- <-. split; [reflexivity|exact (units_skipn 4 (c :: t) Hw)]. }
    destruct ((c =? 45) || is_digit c); [|discriminate].
    apply with_rest_ok in E as (n & E & ->).
    exact (parse_number_units _ _ _ E Hw).
  - intros acc s v r E Hs Hacc. cbn [parse_elements] in E.
    destruct (parse_value f s) as [[[x t]| |]|] eqn:Ev; try discriminate.
    destruct (IHv _ _ _ Ev Hs) as [Hx Ht].
    pose proof (units_skip_ws _ Ht) as Hw.
    destruct (skip_ws t) as [|d t']; [discriminate|].
    pose proof (units_tail _ _ Hw) as Ht'.
    destruct (d =? 44).
    { eapply IHe; eauto. cbn [forallb]. now rewrite Hx, Hacc. }
    destruct (d =? 93); [|discriminate].
    injection E as <- <-. split; [|exact Ht'].
    cbn [well_formed]. fold (forallb well_formed). 
    change (forallb well_formed (rev (x :: acc)) = true).
    rewrite forallb_rev. cbn [forallb]. now rewrite Hx, Hacc.
  - intros acc s v r E Hs Hacc. cbn [parse_members] in E.
    pose proof (units_skip_ws _ Hs) as Hw.
    destruct (skip_ws s) as [|q t]; [discriminate|].
    pose proof (units_tail _ _ Hw) as Ht.
    destruct (q =? 34); [|discriminate].
    destruct (parse_string_body t) as [[k r1]|] eqn:Eb; [|discriminate].
    destruct (units_parse_string_body _ _ _ _ (le_n _) Eb Ht) as [Hk H1].
    pose proof (units_skip_ws _ H1) as Hw1.
    destruct (skip_ws r1) as [|c r2]; [discriminate|].
    pose proof (units_tail _ _ Hw1) as H2.
    destruct (c =? 58); [|discriminate].
    destruct (parse_value f r2) as [[[x r3]| |]|] eqn:Ev; try discriminate.
    destruct (IHv _ _ _ Ev H2) as [Hx H3].
    pose proof (units_skip_ws _ H3) as Hw3.
    destruct (skip_ws r3) as [|d r4]; [discriminate|].
    pose proof (units_tail _ _ Hw3) as H4.
    pose proof (well_formed_obj_set k x acc Hk Hx Hacc) as Hset.
    destruct (d =? 44); [eapply IHm; eauto|].
    destruct (d =? 125); [|discriminate].
    injection E as <- <-. split; [exact Hset|exact H4].
Qed.

(** [JSON.parse] of a text of code units returns well-formed
    values. *)
Lemma parse_well_formed (s : jsstring) (v : json) :
  parse s = Ok v -> forallb is_unit s = true -> well_formed v = true.
Proof.
  unfold parse. intros E Hs.
  destruct (parse_value _ s) as [[[x r]| |]|] eqn:Ev; try discriminate.
  cbn [bind fst snd] in E. destruct (skip_ws r); [|discriminate].
  injection E as <-. now destruct (proj1 (parse_value_well_formed _) _ _ _ Ev Hs).
Qed.


(** ** JSON.parse after JSON.stringify with indentation *)



Lemma skip_ws_spaces (n : nat) (s : jsstring) : skip_ws (spaces n ++ s) = skip_ws s.
Proof. induction n as [|n IH]; [reflexivity|exact IH]. Qed.

Lemma skip_ws_idem (s : jsstring) : skip_ws (skip_ws s) = skip_ws s.
Proof.
  induction s as [|c s IH]; [reflexivity|]. cbn [skip_ws].
  destruct (is_ws c) eqn:E; [exact IH|]. cbn [skip_ws]. now rewrite E.
Qed.

Lemma parse_value_skip_ws (fuel : nat) (s : jsstring) :
  parse_value fuel (skip_ws s) = parse_value fuel s.
Proof. destruct fuel; [reflexivity|]. cbn [parse_value]. now rewrite skip_ws_idem. Qed.

Lemma parse_members_skip_ws (fuel : nat) (acc : props) (s : jsstring) :
  parse_members fuel acc (skip_ws s) = parse_members fuel acc s.
Proof. destruct fuel; [reflexivity|]. cbn [parse_members]. now rewrite skip_ws_idem. Qed.

Lemma parse_value_indent (fuel n : nat) (s : jsstring) :
  parse_value fuel (10 :: spaces n ++ s) = parse_value fuel s.
Proof.
  rewrite <- (parse_value_skip_ws fuel (10 :: spaces n ++ s)).
  cbn [skip_ws]. change (is_ws 10) with true. cbv iota.
  rewrite skip_ws_spaces. apply parse_value_skip_ws.
Qed.

Lemma parse_members_indent (fuel n : nat) (acc : props) (s : jsstring) :
  parse_members fuel acc (10 :: spaces n ++ s) = parse_members fuel acc s.
Proof.
  rewrite <- (parse_members_skip_ws fuel acc (10 :: spaces n ++ s)).
  cbn [skip_ws]. change (is_ws 10) with true. cbv iota.
  rewrite skip_ws_spaces. apply parse_members_skip_ws.
Qed.

Lemma ends_cases (c : Z) (r : jsstring) :
  ends (c :: r) = true ->
  is_digit c = false /\ (c =? 46) = false /\ ((c =? 101) || (c =? 69)) = false.
Proof.
  cbn [ends]. unfold is_ws, is_digit. intros H.
  repeat (apply orb_true_iff in H as [H|H]); apply Z.eqb_eq in H; subst c;
    repeat split; reflexivity.
Qed.

Lemma span_digits_uint_ends (d : Decimal.uint) (r : jsstring) :
  ends r = true ->
  span_digits (uint_units d ++ r) = (uint_units d, r).
Proof.
  intros Hr. apply span_digits_uint. destruct r as [|c r]; [reflexivity|].
  cbn [no_digit_head]. now rewrite (proj1 (ends_cases c r Hr)).
Qed.

Lemma number_tail_ends (neg : bool) (ip r : jsstring) :
  ends r = true ->
  number_tail neg ip r = (n <- scaled_int neg (digits_Z 0 ip) 0 ;; Ok (n, r)).
Proof.
  intros Hc. unfold number_tail.
  destruct r as [|c r].
  - cbn [negb]. now rewrite app_nil_r.
  - destruct (ends_cases c r Hc) as (_ & E46 & Ee).
    rewrite E46. cbn [negb]. rewrite Ee. cbn [negb]. now rewrite app_nil_r.
Qed.

Lemma parse_number_uint_ends (neg : bool) (m : N) (r : jsstring) :
  ends r = true ->
  (let (ip, s2) := span_digits (uint_units (N.to_uint m) ++ r) in
   match ip with
   | [] => Throw SyntaxError
   | d :: ip' =>
       if (d =? 48) && negb (match ip' with [] => true | _ => false end)
       then Throw SyntaxError
       else number_tail neg ip s2
   end)
  = (n <- scaled_int neg (Z.of_N m) 0 ;; Ok (n, r)).
Proof.
  intros Hc. rewrite span_digits_uint_ends by exact Hc.
  destruct (to_uint_head m) as (c & ds & E & _ & Hz).
  rewrite number_tail_ends by exact Hc.
  rewrite digits_Z_uint.
  change (Pos.of_uint (N.to_uint m)) with (N.of_uint (N.to_uint m)).
  rewrite DecimalN.Unsigned.of_to. rewrite E. now rewrite Hz.
Qed.

Lemma parse_number_int_toString_ends (n : Z) (r : jsstring) :
  safe_int n = true -> ends r = true ->
  parse_number (int_toString n ++ r) = Ok (n, r).
Proof.
  intros Hs Hc. unfold int_toString, safe_int in *. apply Z.leb_le in Hs.
  destruct (Z.ltb_spec n 0) as [Hn|Hn].
  - unfold parse_number. cbn [app]. change (45 =? 45) with true. cbv iota.
    rewrite parse_number_uint_ends by exact Hc.
    rewrite scaled_int_plain; [|lia|unfold safe_int; apply Z.leb_le; lia].
    cbn [bind]. do 2 f_equal. lia.
  - destruct (to_uint_head (Z.to_N n)) as (c & ds & E & Hd & _).
    unfold parse_number.
    assert (E45 : (c =? 45) = false).
    { unfold is_digit in Hd. apply andb_true_iff in Hd as [Hd _]. lia. }
    pose proof (parse_number_uint_ends false (Z.to_N n) r Hc) as P.
    rewrite E in P |- *. cbn [app] in P |- *. rewrite E45.
    rewrite P. rewrite scaled_int_plain; [|lia|unfold safe_int; apply Z.leb_le; lia].
    cbn [bind]. do 2 f_equal. lia.
Qed.

Lemma stringify_at_head (d : nat) (v : json) :
  exists c t, stringify_at d v = c :: t /\ opens c = true.
Proof.
  destruct v as [|b|n|s|[|x l]|[|kv o]];
    try (cbn [stringify_at]; eexists _, _; split; reflexivity);
    cbn [stringify_at]; apply stringify_head.
Qed.

Lemma parse_elements_pretty (l : list json) :
  Forall parses_pretty l -> forallb well_formed l = true -> l <> [] ->
  forall d n1 n2 fuel acc r,
    (fold_right (fun x n => S (parse_cost x + n)) O l <= fuel)%nat ->
    parse_elements fuel acc
      (10 :: spaces n1 ++ join (44 :: 10 :: spaces n1) (map (stringify_at d) l)
          ++ 10 :: spaces n2 ++ 93 :: r)
    = Some (Ok (JArr (rev acc ++ l), r)).
Proof.
  induction l as [|v l IH]; intros HP Hwf Hne d n1 n2 fuel acc r Hfuel; [contradiction|].
  apply Forall_cons_iff in HP as [Pv Pl].
  cbn [forallb] in Hwf. apply andb_true_iff in Hwf as [Wv Wl].
  cbn [fold_right] in Hfuel. destruct fuel as [|f]; [lia|].
  cbn [parse_elements]. rewrite parse_value_indent.
  destruct l as [|v2 l].
  - cbn [map join].
    rewrite (Pv Wv d f (10 :: spaces n2 ++ 93 :: r)) by (cbn [fold_right] in Hfuel; lia || reflexivity).
    cbn [skip_ws]. change (is_ws 10) with true. cbv iota. rewrite skip_ws_spaces.
    cbn [skip_ws]. change (is_ws 93) with false. cbv iota.
    change (93 =? 44) with false. change (93 =? 93) with true. cbv iota.
    cbn [rev]. reflexivity.
  - change (join (44 :: 10 :: spaces n1) (map (stringify_at d) (v :: v2 :: l)))
      with (stringify_at d v ++ (44 :: 10 :: spaces n1)
              ++ join (44 :: 10 :: spaces n1) (map (stringify_at d) (v2 :: l))).
    rewrite <- !app_assoc. cbn [app].
    rewrite (Pv Wv d f) by (lia || reflexivity).
    cbn [skip_ws]. change (is_ws 44) with false. cbv iota.
    change (44 =? 44) with true. cbv iota.
    rewrite <- ?app_assoc.
    rewrite (IH Pl Wl ltac:(discriminate) d n1 n2 f (v :: acc) r ltac:(lia)).
    cbn [rev]. now rewrite <- app_assoc.
Qed.

Lemma parse_members_pretty (o : props) :
  Forall (fun kv => parses_pretty (snd kv)) o ->
  forallb entry_ok o = true ->
  o <> [] ->
  forall d n1 n2 fuel acc r,
    (fold_right (fun kv n => S (parse_cost (snd kv) + n)) O o <= fuel)%nat ->
    parse_members fuel acc
      (10 :: spaces n1 ++ join (44 :: 10 :: spaces n1) (map (member_pretty d) o)
          ++ 10 :: spaces n2 ++ 125 :: r)
    = Some (Ok (JObj (assign_all acc o), r)).
Proof.
  induction o as [|[k v] o IH]; intros HP Hwf Hne d n1 n2 fuel acc r Hfuel; [contradiction|].
  apply Forall_cons_iff in HP as [Pv Po]. cbn [snd] in Pv.
  cbn [forallb] in Hwf. apply andb_true_iff in Hwf as [Wkv Wo].
  unfold entry_ok in Wkv. cbn [fst snd] in Wkv.
  apply andb_true_iff in Wkv as [Wk Wv].
  cbn [fold_right snd] in Hfuel. destruct fuel as [|f]; [lia|].
  rewrite parse_members_indent.
  assert (Hhead : forall t,
             parse_members (S f) acc (member_pretty d (k, v) ++ t)
             = match parse_value f (stringify_at d v ++ t) with
               | None => None
               | Some (Ok (v', r3)) =>
                   match skip_ws r3 with
                   | d :: r4 =>
                       if d =? 44 then parse_members f (obj_set k v' acc) r4
                       else if d =? 125 then Some (Ok (JObj (obj_set k v' acc), r4))
                       else Some (Throw SyntaxError)
                   | [] => Some (Throw SyntaxError)
                   end
               | Some (Throw e) => Some (Throw e)
               | Some Unmodelled => Some Unmodelled
               end).
  { intros t. unfold member_pretty, quote. cbn [fst snd].
    cbn [app]. rewrite <- !app_assoc. cbn [app parse_members skip_ws].
    change (is_ws 34) with false. cbv iota. change (34 =? 34) with true. cbv iota.
    rewrite parse_string_body_quote by exact Wk.
    cbn [skip_ws]. change (is_ws 58) with false. cbv iota.
    change (58 =? 58) with true. cbv iota.
    rewrite <- (parse_value_skip_ws f (32 :: _)). cbn [skip_ws].
    change (is_ws 32) with true. cbv iota. rewrite parse_value_skip_ws. reflexivity. }
  destruct o as [|kv2 o].
  - cbn [map join]. rewrite Hhead.
    rewrite (Pv Wv d f (10 :: spaces n2 ++ 125 :: r)) by (lia || reflexivity).
    cbn [skip_ws]. change (is_ws 10) with true. cbv iota. rewrite skip_ws_spaces.
    cbn [skip_ws]. change (is_ws 125) with false. cbv iota.
    change (125 =? 44) with false. change (125 =? 125) with true. cbv iota.
    reflexivity.
  - change (join (44 :: 10 :: spaces n1) (map (member_pretty d) ((k, v) :: kv2 :: o)))
      with (member_pretty d (k, v) ++ (44 :: 10 :: spaces n1)
              ++ join (44 :: 10 :: spaces n1) (map (member_pretty d) (kv2 :: o))).
    rewrite <- !app_assoc. rewrite Hhead. cbn [app].
    rewrite (Pv Wv d f) by (lia || reflexivity).
    cbn [skip_ws]. change (is_ws 44) with false. cbv iota.
    change (44 =? 44) with true. cbv iota.
    rewrite <- ?app_assoc.
    rewrite (IH Po Wo ltac:(discriminate) d n1 n2 f _ r ltac:(lia)). reflexivity.
Qed.

Lemma parse_value_ends (v : json) (fuel : nat) (r : jsstring) :
  (match v with JArr _ | JObj _ => False | _ => True end) ->
  well_formed v = true -> (1 <= fuel)%nat -> ends r = true ->
  parse_value fuel (stringify v ++ r) = Some (Ok (v, r)).
Proof.
  intros Hv Hwf Hfuel Hc. destruct fuel as [|f]; [lia|].
  destruct v as [|b|n|s|l|o]; try contradiction.
  - reflexivity.
  - destruct b; reflexivity.
  - cbn [stringify well_formed] in *.
    destruct (int_toString_head n) as (c & t & E & Hd).
    rewrite E. cbn [app]. rewrite parse_value_number by exact Hd.
    change (c :: t ++ r) with ((c :: t) ++ r). rewrite <- E.
    now rewrite parse_number_int_toString_ends.
  - cbn [stringify well_formed] in *. unfold quote. cbn [app].
    rewrite <- app_assoc. cbn [app parse_value skip_ws].
    change (is_ws 34) with false. cbv iota.
    change (34 =? 123) with false. change (34 =? 91) with false.
    change (34 =? 34) with true. cbv iota.
    now rewrite parse_string_body_quote.
Qed.

Lemma parse_value_open_array (f : nat) (t : jsstring) :
  parse_value (S f) (91 :: t)
  = match skip_ws t with
    | d :: r' => if d =? 93 then Some (Ok (JArr [], r')) else parse_elements f [] t
    | [] => Some (Throw SyntaxError)
    end.
Proof. reflexivity. Qed.

Lemma parse_value_open_object (f : nat) (t : jsstring) :
  parse_value (S f) (123 :: t)
  = match skip_ws t with
    | d :: r' => if d =? 125 then Some (Ok (JObj [], r')) else parse_members f [] t
    | [] => Some (Throw SyntaxError)
    end.
Proof. reflexivity. Qed.

Lemma parse_value_stringify_at (v : json) : parses_pretty v.
Proof.
  induction v as [|b|n|s|l IH|o IH] using json_induction;
    intros Hwf d fuel r Hfuel Hc.
  - apply (parse_value_ends JNull); auto.
  - apply (parse_value_ends (JBool b)); auto.
  - apply (parse_value_ends (JNum n)); auto.
  - apply (parse_value_ends (JStr s)); auto.
  - destruct fuel as [|f]; [cbn in Hfuel; lia|].
    cbn [well_formed parse_cost] in *. destruct l as [|v l]; [reflexivity|].
    cbn [stringify_at].
    cbn [app]. rewrite <- !app_assoc. cbn [app].
    destruct (stringify_at_head (S d) v) as (c & t & E & Ho).
    destruct (opens_cases c Ho) as (Hw & E93 & _).
    match goal with
    | |- parse_value _ (91 :: 10 :: ?x) = _ =>
        assert (Hs : skip_ws (10 :: x) = c :: t ++ skipn (List.length (c :: t)) (skip_ws (10 :: x)))
    end.
    { cbn [skip_ws]. change (is_ws 10) with true. cbv iota. rewrite skip_ws_spaces.
      cbn [map]. rewrite join_head, E. rewrite <- !app_assoc. cbn [app skip_ws].
      rewrite Hw. cbn [List.length skipn]. f_equal.
      rewrite skipn_app, skipn_all, Nat.sub_diag. reflexivity. }
    rewrite parse_value_open_array, Hs, E93.
    rewrite <- app_assoc.
    change ([93] ++ r) with (93 :: r).
    rewrite (parse_elements_pretty (v :: l)); auto; [discriminate|lia].
  - destruct fuel as [|f]; [cbn in Hfuel; lia|].
    rewrite well_formed_obj in Hwf. cbn [parse_cost] in *.
    apply andb_true_iff in Hwf as [Hord Hwf].
    destruct o as [|[k v] o]; [reflexivity|].
    cbn [stringify_at].
    cbn [app]. rewrite <- !app_assoc. cbn [app].
    change (fun kv : jsstring * json =>
              quote (fst kv) ++ 58 :: 32 :: stringify_at (S d) (snd kv))
      with (member_pretty (S d)).
    match goal with
    | |- parse_value _ (123 :: 10 :: ?x) = _ =>
        assert (Hs : exists t, skip_ws (10 :: x) = 34 :: t)
    end.
    { cbn [skip_ws]. change (is_ws 10) with true. cbv iota. rewrite skip_ws_spaces.
      cbn [map]. rewrite join_head. unfold member_pretty at 1, quote.
      cbn [app skip_ws]. change (is_ws 34) with false. cbv iota. eauto. }
    destruct Hs as [t Hs].
    rewrite parse_value_open_object, Hs. change (34 =? 125) with false. cbv iota.
    rewrite <- app_assoc.
    change ([125] ++ r) with (125 :: r).
    rewrite (parse_members_pretty ((k, v) :: o)); auto; [|discriminate|lia].
    now rewrite assign_all_well_formed.
Qed.

Lemma cost_of_join_sep {A} (sep : jsstring) (cost : A -> nat) (text : A -> jsstring)
    (l : list A) :
  Forall (fun x => (cost x + 1 <= 2 * List.length (text x))%nat) l ->
  (fold_right (fun x n => S (cost x + n)) O l
   <= 2 * List.length (join (44%Z :: sep) (map text l)))%nat.
Proof.
  induction 1 as [|x l Hx _ IH]; [cbn; lia|].
  destruct l as [|y l].
  - cbn [map fold_right join]. lia.
  - change (join (44%Z :: sep) (map text (x :: y :: l)))
      with (text x ++ (44%Z :: sep) ++ join (44%Z :: sep) (map text (y :: l))).
    rewrite !length_app. cbn [List.length].
    change (fold_right (fun x n => S (cost x + n)) O (x :: y :: l))
      with (S (cost x + fold_right (fun x n => S (cost x + n)) O (y :: l))).
    lia.
Qed.

Lemma parse_cost_bound_at (v : json) :
  forall d, (parse_cost v + 1 <= 2 * List.length (stringify_at d v))%nat.
Proof.
  induction v as [|b|n|s|l IH|o IH] using json_induction; intros d;
    try apply (parse_cost_bound JNull); try apply (parse_cost_bound (JBool b));
    try apply (parse_cost_bound (JNum n)); try apply (parse_cost_bound (JStr s)).
  - destruct l as [|x l]; [cbn; lia|]. cbn [parse_cost stringify_at].
    cbn [List.length]. rewrite !length_app.
    assert (Hm : Forall (fun x => (parse_cost x + 1
                                   <= 2 * List.length (stringify_at (S d) x))%nat) (x :: l)).
    { eapply Forall_impl; [|exact IH]. intros y Hy. apply Hy. }
    pose proof (cost_of_join_sep (10 :: spaces (2 * S d)) parse_cost
                  (stringify_at (S d)) (x :: l) Hm) as Hj.
    unfold jsstring in *. lia.
  - destruct o as [|kv o]; [cbn; lia|]. cbn [parse_cost stringify_at].
    cbn [List.length]. rewrite !length_app.
    assert (Hm : Forall (fun kv => (parse_cost (snd kv) + 1
                                    <= 2 * List.length (member_pretty (S d) kv))%nat)
                   (kv :: o)).
    { eapply Forall_impl; [|exact IH]. intros [k x] Hx. cbn [snd] in *.
      unfold member_pretty. cbn [fst snd]. rewrite length_app. cbn [List.length].
      specialize (Hx (S d)). lia. }
    pose proof (cost_of_join_sep (10 :: spaces (2 * S d))
                  (fun kv => parse_cost (snd kv)) (member_pretty (S d)) (kv :: o) Hm) as Hj.
    cbv beta in Hj. unfold member_pretty in Hj. unfold jsstring in *. lia.
Qed.

(** [JSON.parse(JSON.stringify(v, null, 2))] is [v]. *)
Lemma parse_after_stringify_pretty (v : json) :
  well_formed v = true -> parse (stringify_pretty v) = Ok v.
Proof.
  intros Hwf. unfold parse, stringify_pretty.
  pose proof (parse_value_stringify_at v Hwf 0%nat
                (2 * List.length (stringify_at 0 v) + 2)%nat []) as P.
  rewrite app_nil_r in P. rewrite P; [reflexivity| |reflexivity].
  pose proof (parse_cost_bound_at v 0%nat). lia.
Qed.

(** ** The db-cli add, get and delete commands *)

Lemma ensure_id_obj (o : props) (opt_id : option jsstring) (uuid : result jsstring) :
  ensure_id (JObj o) opt_id uuid
  = if truthy_opt (obj_get (lit "id") o) then Ok (JObj o)
    else (new <- id_or_uuid opt_id uuid ;; Ok (JObj (obj_set (lit "id") (JStr new) o))).
Proof.
  unfold ensure_id. cbn [get_prop bind].
  destruct (truthy_opt (obj_get (lit "id") o)); [reflexivity|].
  destruct (id_or_uuid opt_id uuid); reflexivity.
Qed.

Lemma default_prop_obj (k : jsstring) (d : json) (o : props) :
  default_prop k d (JObj o)
  = Ok (JObj (match obj_get k o with
              | None => obj_set k d o
              | Some _ => o
              end)).
Proof. unfold default_prop. cbn [get_prop bind]. now destruct (obj_get k o). Qed.

Lemma blueprint_defaults_obj (o : props) :
  blueprint_defaults (JObj o) = Ok (JObj (fill_defaults blueprint_default_values o)).
Proof.
  unfold blueprint_defaults.
  repeat (rewrite default_prop_obj; cbn [bind]). reflexivity.
Qed.

Lemma fill_defaults_other (k : jsstring) (defaults o : props) :
  obj_has k defaults = false ->
  obj_get k (fill_defaults defaults o) = obj_get k o.
Proof.
  revert o. induction defaults as [|[k' d] l IH]; intros o Hk; [reflexivity|].
  cbn [obj_has] in Hk. apply orb_false_iff in Hk as [Hk Hl].
  apply str_eqb_neq in Hk.
  unfold fill_defaults. cbn [fold_left fst snd].
  fold (fill_defaults l (match obj_get k' o with
                         | None => obj_set k' d o
                         | Some _ => o
                         end)).
  rewrite IH by exact Hl.
  destruct (obj_get k' o); [reflexivity|].
  apply obj_get_set_neq. congruence.
Qed.

Lemma fill_defaults_first (k : jsstring) (d : json) (defaults o : props) :
  obj_has k defaults = false ->
  obj_get k (fill_defaults ((k, d) :: defaults) o) = Some (or_default (obj_get k o) d).
Proof.
  intros Hk. unfold fill_defaults. cbn [fold_left fst snd].
  fold (fill_defaults defaults (match obj_get k o with
                                | None => obj_set k d o
                                | Some _ => o
                                end)).
  rewrite fill_defaults_other by exact Hk.
  destruct (obj_get k o) eqn:E; cbn [or_default]; [exact E|apply obj_get_set_eq].
Qed.

Lemma fill_defaults_cons_other (k k' : jsstring) (d : json) (defaults o : props) :
  k <> k' ->
  obj_get k (fill_defaults ((k', d) :: defaults) o)
  = obj_get k (fill_defaults defaults
                 (match obj_get k' o with None => obj_set k' d o | Some _ => o end)).
Proof. reflexivity. Qed.

(** Keys distinct in the list of defaults: each default reaches its
    key. *)
Lemma fill_defaults_get (defaults : props) :
  keys_in_order 0 false defaults = true \/ keys_in_order 0 true defaults = true ->
  forall o k d,
    In (k, d) defaults ->
    obj_get k (fill_defaults defaults o) = Some (or_default (obj_get k o) d).
Proof.
  assert (G : forall l lo plain, keys_in_order lo plain l = true ->
            forall o k d, In (k, d) l ->
              obj_get k (fill_defaults l o) = Some (or_default (obj_get k o) d)).
  { induction l as [|[k' d'] l IH]; intros lo plain Hord o k d Hin; [contradiction|].
    cbn [keys_in_order] in Hord. apply andb_true_iff in Hord as [Hnew Hord].
    apply negb_true_iff in Hnew.
    assert (Hrest : exists lo' plain', keys_in_order lo' plain' l = true).
    { destruct (array_index k').
      - apply andb_true_iff in Hord as [_ Hord]. eauto.
      - eauto. }
    destruct Hrest as (lo' & plain' & Hrest).
    destruct Hin as [E|Hin].
    - injection E as <- <-. now apply fill_defaults_first.
    - assert (N : k <> k').
      { intros ->. rewrite obj_has_get in Hnew.
        assert (Hg : obj_has k' l = true).
        { clear -Hin. induction l as [|[k2 d2] l IH]; [contradiction|].
          cbn [obj_has]. destruct Hin as [E|Hin].
          - injection E as -> _. now rewrite str_eqb_refl.
          - rewrite IH by exact Hin. apply orb_true_r. }
        rewrite obj_has_get in Hg. destruct (obj_get k' l); discriminate. }
      rewrite fill_defaults_cons_other by exact N.
      rewrite (IH lo' plain' Hrest _ k d Hin). f_equal. f_equal.
      destruct (obj_get k' o); [reflexivity|].
      apply obj_get_set_neq. congruence. }
  intros [Hd|Hd] o k d; eapply G; eauto.
Qed.

Lemma insert_ok {R} (key : R -> json) (r : R) (rows rows' : list R) :
  insert key r (Some rows) = Ok rows' ->
  rows' = rows ++ [r] /\ existsb (fun r' => same_key (key r) (key r')) rows = false.
Proof.
  unfold insert. destruct (existsb _ rows); [discriminate|].
  intros E. injection E as <-. auto.
Qed.

Lemma find_existsb_false {A} (f : A -> bool) (l : list A) :
  existsb f l = false -> find f l = None.
Proof.
  induction l as [|a l IH]; [reflexivity|]. cbn [existsb find].
  intros E. apply orb_false_iff in E as [Ea El]. rewrite Ea. auto.
Qed.

Lemma same_key_refl (id : jsstring) : same_key (JStr id) (JStr id) = true.
Proof. apply str_eqb_refl. Qed.

(** What an add command reports as added is the row it appended: no
    row had the id, and the row is found under it. *)
Lemma add_record_added (rows rows' : list row) (columns : result (jsstring * jsstring))
    (now id : jsstring) :
  add_record rows columns now = Ok (rows', Added id) ->
  exists data,
    columns = Ok (id, data)
    /\ rows' = rows ++ [{| r_id := JStr id; r_data := JStr data;
                           r_createdAt := JStr now; r_updatedAt := JStr now |}]
    /\ first_by_id (JStr id) rows = None
    /\ first_by_id (JStr id) rows'
       = Some {| r_id := JStr id; r_data := JStr data;
                 r_createdAt := JStr now; r_updatedAt := JStr now |}.
Proof.
  unfold add_record. destruct columns as [[id' data]| |]; cbn [bind fst snd];
    try discriminate.
  destruct (insert _ _ _) as [rs| |] eqn:Ei; cbn [bind]; try discriminate.
  intros E. injection E as <- <-.
  apply insert_ok in Ei as [-> Hnew]. cbn [r_id] in Hnew.
  exists data. split; [reflexivity|]. split; [reflexivity|].
  assert (Hf : first_by_id (JStr id') rows = None)
    by (apply find_existsb_false; exact Hnew).
  split; [exact Hf|].
  unfold first_by_id in *. rewrite find_app, Hf. cbn [find r_id].
  now rewrite same_key_refl.
Qed.

Lemma add_columns_ok (x : json) (id data : jsstring) :
  add_columns x = Ok (id, data) ->
  exists o, x = JObj o /\ obj_get (lit "id") o = Some (JStr id) /\ data = stringify x.
Proof.
  destruct x as [| | | | |o]; cbn [add_columns]; try discriminate.
  destruct (obj_get (lit "id") o) as [[| | |s| |]|] eqn:E; try discriminate.
  intros H. injection H as <- <-. eauto.
Qed.

Lemma ensure_id_ok (x y : json) (opt_id : option jsstring) (uuid : result jsstring) :
  ensure_id x opt_id uuid = Ok y ->
  match y with
  | JObj o1 =>
      exists o, x = JObj o
        /\ (if truthy_opt (obj_get (lit "id") o) then o1 = o
            else exists new, id_or_uuid opt_id uuid = Ok new
                             /\ o1 = obj_set (lit "id") (JStr new) o)
  | JArr _ => True
  | _ => False
  end.
Proof.
  destruct x as [|b|n|s|l|o].
  - discriminate.
  - unfold ensure_id. cbn. destruct (id_or_uuid opt_id uuid); discriminate.
  - unfold ensure_id. cbn. destruct (id_or_uuid opt_id uuid); discriminate.
  - unfold ensure_id. cbn. destruct (id_or_uuid opt_id uuid); discriminate.
  - unfold ensure_id. cbn. destruct (id_or_uuid opt_id uuid); cbn; try discriminate.
    intros E. injection E as <-. exact I.
  - rewrite ensure_id_obj. destruct (truthy_opt (obj_get (lit "id") o)) eqn:Et.
    + intros E. injection E as <-. exists o. now rewrite Et.
    + destruct (id_or_uuid opt_id uuid) as [new| |]; cbn [bind]; try discriminate.
      intros E. injection E as <-. exists o. rewrite Et. eauto.
Qed.

Lemma default_prop_arr (k : jsstring) (d : json) (l : list json) :
  default_prop k d (JArr l) = Ok (JArr l).
Proof. reflexivity. Qed.

Lemma blueprint_defaults_arr (l : list json) : blueprint_defaults (JArr l) = Ok (JArr l).
Proof. reflexivity. Qed.

Lemma parse_column_text (s : jsstring) : parse_column (JStr s) = parse s.
Proof. reflexivity. Qed.

Lemma well_formed_fill_defaults (defaults o : props) :
  forallb entry_ok defaults = true ->
  well_formed (JObj o) = true -> well_formed (JObj (fill_defaults defaults o)) = true.
Proof.
  revert o. induction defaults as [|[k d] l IH]; intros o Hd Ho; [exact Ho|].
  cbn [forallb] in Hd. apply andb_true_iff in Hd as [Hkd Hl].
  unfold entry_ok in Hkd. cbn [fst snd] in Hkd. apply andb_true_iff in Hkd as [Hk Hv].
  unfold fill_defaults. cbn [fold_left fst snd].
  apply IH; [exact Hl|].
  destruct (obj_get k o); [exact Ho|]. now apply well_formed_obj_set.
Qed.

(** [blueprint-add], when it reports the blueprint as added under
    [id]: the file held a JSON object; the table has one more row, the
    last, with that id, both time stamps [now] and as data the text of
    an object [o'] that carries the id, every default of
    [blueprint_default_values] on the keys the file left undefined, and
    the file's value on every other key. The id is the file's when
    that is truthy, the option's or the generated one otherwise; no
    row had it before. For a file and an id of code units, [get_by_id]
    then prints [o']. *)
Theorem blueprint_add_stores (rows rows' : list row) (content : jsstring)
    (opt_id : option jsstring) (uuid : result jsstring) (now id : jsstring) :
  blueprint_add rows (Ok content) opt_id uuid now = Ok (rows', Added id) ->
  exists o o',
    parse content = Ok (JObj o)
    /\ rows' = rows ++ [{| r_id := JStr id; r_data := JStr (stringify (JObj o'));
                           r_createdAt := JStr now; r_updatedAt := JStr now |}]
    /\ first_by_id (JStr id) rows = None
    /\ obj_get (lit "id") o' = Some (JStr id)
    /\ (if truthy_opt (obj_get (lit "id") o) then obj_get (lit "id") o = Some (JStr id)
        else id_or_uuid opt_id uuid = Ok id)
    /\ (forall k d, In (k, d) blueprint_default_values ->
          obj_get k o' = Some (or_default (obj_get k o) d))
    /\ (forall k, k <> lit "id" -> obj_has k blueprint_default_values = false ->
          obj_get k o' = obj_get k o)
    /\ (forallb is_unit content = true -> forallb is_unit id = true ->
        get_by_id rows' id = Ok (Printed (stringify_pretty (JObj o')))).
Proof.
  intros Hadd. unfold blueprint_add in Hadd.
  apply add_record_added in Hadd as (data & Hcol & Hrows & Hnone & Hfound).
  cbn [bind] in Hcol.
  destruct (parse content) as [x| |] eqn:Hp; cbn [bind] in Hcol; try discriminate.
  destruct (ensure_id x opt_id uuid) as [y| |] eqn:He; cbn [bind] in Hcol;
    try discriminate.
  pose proof (ensure_id_ok _ _ _ _ He) as Hy.
  destruct y as [| | | |l|o1]; try contradiction.
  { rewrite blueprint_defaults_arr in Hcol. discriminate. }
  destruct Hy as (o & -> & Hid).
  rewrite blueprint_defaults_obj in Hcol. cbn [bind] in Hcol.
  apply add_columns_ok in Hcol as (o' & Eo' & Hido' & ->).
  assert (Eo : o' = fill_defaults blueprint_default_values o1) by congruence.
  clear Eo'. subst o'.
  exists o, (fill_defaults blueprint_default_values o1).
  assert (Hid1 : obj_get (lit "id") o1 = Some (JStr id)).
  { rewrite fill_defaults_other in Hido' by reflexivity. exact Hido'. }
  assert (Hother : forall k, k <> lit "id" -> obj_get k o1 = obj_get k o).
  { intros k N. destruct (truthy_opt (obj_get (lit "id") o)).
    - now subst o1.
    - destruct Hid as (new & _ & ->). apply obj_get_set_neq. congruence. }
  split; [reflexivity|]. split; [exact Hrows|]. split; [exact Hnone|].
  split; [exact Hido'|]. split; [|split; [|split]].
  - destruct (truthy_opt (obj_get (lit "id") o)).
    + now subst o1.
    + destruct Hid as (new & Hnew & ->). rewrite obj_get_set_eq in Hid1.
      injection Hid1 as ->. exact Hnew.
  - intros k d Hin.
    rewrite (fill_defaults_get blueprint_default_values (or_intror eq_refl) o1 k d Hin).
    rewrite Hother; [reflexivity|].
    intros ->. cbn [blueprint_default_values In] in Hin.
    repeat (destruct Hin as [Hin|Hin];
            [apply (f_equal fst) in Hin; vm_compute in Hin; discriminate Hin|]).
    contradiction.
  - intros k N Hk. rewrite fill_defaults_other by exact Hk. now apply Hother.
  - intros Hc Hu. unfold get_by_id. rewrite Hrows in Hfound. rewrite Hrows, Hfound.
    cbn [r_data]. rewrite parse_column_text.
    assert (Hwf : well_formed (JObj (fill_defaults blueprint_default_values o1)) = true).
    { apply well_formed_fill_defaults; [reflexivity|].
      pose proof (parse_well_formed _ _ Hp Hc) as Hwo.
      destruct (truthy_opt (obj_get (lit "id") o)).
      - now subst o1.
      - destruct Hid as (new & Hnew & ->). rewrite obj_get_set_eq in Hid1.
        injection Hid1 as ->. now apply well_formed_obj_set. }
    now rewrite parse_after_stringify.
Qed.

Lemma find_some_existsb {A} (f : A -> bool) (l : list A) (a : A) :
  find f l = Some a -> existsb f l = true.
Proof.
  intros E. apply find_some in E as [Hin Hf]. apply existsb_exists. eauto.
Qed.

(** [blueprint-add] of a file whose [id] is that of a row of the
    table: the insert is refused, the error is reported and the table
    is as it was. *)
Theorem blueprint_add_existing_id (rows : list row) (content : jsstring) (o : props)
    (opt_id : option jsstring) (uuid : result jsstring) (now id : jsstring) :
  parse content = Ok (JObj o) ->
  obj_get (lit "id") o = Some (JStr id) -> id <> [] ->
  first_by_id (JStr id) rows <> None ->
  blueprint_add rows (Ok content) opt_id uuid now = Ok (rows, AddFailed DbError).
Proof.
  intros Hp Hid Hne Hex. unfold blueprint_add. cbn [bind]. rewrite Hp. cbn [bind].
  rewrite ensure_id_obj, Hid.
  assert (Ht : truthy_opt (Some (JStr id)) = true) by (destruct id; [contradiction|reflexivity]).
  rewrite Ht. cbn [bind]. rewrite blueprint_defaults_obj. cbn [bind].
  cbn [add_columns]. rewrite fill_defaults_other by reflexivity. rewrite Hid.
  unfold add_record. cbn [bind fst snd]. unfold insert. cbn [r_id].
  destruct (first_by_id (JStr id) rows) as [r|] eqn:Ef; [|contradiction].
  unfold first_by_id in Ef. now rewrite (find_some_existsb _ _ _ Ef).
Qed.

(** [entity-add], when it reports the entity as added under [id]: the
    file held a JSON object [o]; the table has one more row, the last,
    with that id, both time stamps [now] and as data the text of [o],
    with the id assigned when the file's was falsy. No row had the id
    before. *)
Theorem entity_add_stores (rows rows' : list row) (content : jsstring)
    (opt_id : option jsstring) (uuid : result jsstring) (now id : jsstring) :
  entity_add rows (Ok content) opt_id uuid now = Ok (rows', Added id) ->
  exists o,
    parse content = Ok (JObj o)
    /\ rows' = rows ++ [{| r_id := JStr id;
                           r_data := JStr (stringify
                                             (JObj (if truthy_opt (obj_get (lit "id") o)
                                                    then o
                                                    else obj_set (lit "id") (JStr id) o)));
                           r_createdAt := JStr now; r_updatedAt := JStr now |}]
    /\ first_by_id (JStr id) rows = None
    /\ (if truthy_opt (obj_get (lit "id") o) then obj_get (lit "id") o = Some (JStr id)
        else id_or_uuid opt_id uuid = Ok id).
Proof.
  intros Hadd. unfold entity_add in Hadd.
  apply add_record_added in Hadd as (data & Hcol & Hrows & Hnone & _).
  cbn [bind] in Hcol.
  destruct (parse content) as [x| |] eqn:Hp; cbn [bind] in Hcol; try discriminate.
  destruct (ensure_id x opt_id uuid) as [y| |] eqn:He; cbn [bind] in Hcol;
    try discriminate.
  pose proof (ensure_id_ok _ _ _ _ He) as Hy.
  destruct y as [| | | |l|o1]; try contradiction; [discriminate|].
  destruct Hy as (o & -> & Hid).
  apply add_columns_ok in Hcol as (o' & Eo' & Hido' & ->).
  assert (Eo : o' = o1) by congruence. clear Eo'. subst o'.
  exists o. split; [reflexivity|].
  destruct (truthy_opt (obj_get (lit "id") o)).
  - subst o1. repeat split; assumption.
  - destruct Hid as (new & Hnew & ->). rewrite obj_get_set_eq in Hido'.
    injection Hido' as ->. repeat split; assumption.
Qed.

Lemma same_key_text (a : jsstring) (x : json) :
  same_key (JStr a) x = true -> x <> JNull /\ to_string x = a.
Proof.
  unfold same_key. destruct x; try discriminate; intros E;
    apply str_eqb_eq in E; (split; [discriminate|now symmetry]).
Qed.

Lemma find_filter_other {A} (f g : A -> bool) (l : list A) :
  (forall x, f x = true -> g x = true) -> find f (filter g l) = find f l.
Proof.
  intros Hfg. induction l as [|a l IH]; [reflexivity|]. cbn [filter find].
  destruct (g a) eqn:Eg; cbn [find].
  - now rewrite IH.
  - destruct (f a) eqn:Ef; [|exact IH]. apply Hfg in Ef. congruence.
Qed.

Lemma find_filter_negb {A} (f : A -> bool) (l : list A) :
  find f (filter (fun x => negb (f x)) l) = None.
Proof.
  induction l as [|a l IH]; [reflexivity|]. cbn [filter].
  destruct (f a) eqn:Ef; cbn [negb find]; [exact IH|]. now rewrite Ef.
Qed.

Lemma filter_length_all {A} (g : A -> bool) (l : list A) :
  List.length (filter g l) = List.length l -> filter g l = l.
Proof.
  induction l as [|a l IH]; [reflexivity|]. cbn [filter].
  pose proof (filter_length_le g l) as Hle.
  destruct (g a); cbn [List.length]; intros E.
  - f_equal. apply IH. lia.
  - lia.
Qed.

Lemma filter_negb_find_none {A} (f : A -> bool) (l : list A) :
  find f l = None -> filter (fun x => negb (f x)) l = l.
Proof.
  induction l as [|a l IH]; [reflexivity|]. cbn [find filter].
  destruct (f a); [discriminate|]. cbn [negb]. intros E. f_equal. auto.
Qed.

(** [blueprint-delete] and [entity-delete]: afterwards no row has the
    id, the rows under every other id are found as before, and
    "deleted" is reported exactly when a row had the id; when none
    had, the table is as it was. *)
Theorem delete_command_spec (rows : list row) (id : jsstring) :
  let (rows', deleted) := delete_command rows id in
  first_by_id (JStr id) rows' = None
  /\ (forall id', id' <> id ->
        first_by_id (JStr id') rows' = first_by_id (JStr id') rows)
  /\ (deleted = false <-> first_by_id (JStr id) rows = None)
  /\ (deleted = false -> rows' = rows).
Proof.
  unfold delete_command, delete_by_id.
  set (kept := filter (fun r => negb (same_key (JStr id) (r_id r))) rows).
  assert (H1 : first_by_id (JStr id) kept = None).
  { unfold first_by_id, kept.
    apply (find_filter_negb (fun r => same_key (JStr id) (r_id r))). }
  assert (H3 : Z.of_nat (List.length rows) - Z.of_nat (List.length kept) = 0
               <-> first_by_id (JStr id) rows = None).
  { split.
    - intros E. assert (Hk : kept = rows) by (apply filter_length_all; fold kept; lia).
      now rewrite <- Hk.
    - intros E. unfold kept, first_by_id in *.
      rewrite (filter_negb_find_none (fun r => same_key (JStr id) (r_id r)) rows E). lia. }
  split; [exact H1|]. split; [|split].
  - intros id' N. unfold first_by_id, kept. apply find_filter_other.
    intros r Hr. apply negb_true_iff.
    destruct (same_key (JStr id) (r_id r)) eqn:E; [|reflexivity].
    apply same_key_text in Hr as [_ Hr]. apply same_key_text in E as [_ E]. congruence.
  - rewrite negb_false_iff, Z.eqb_eq. exact H3.
  - rewrite negb_false_iff, Z.eqb_eq. intros E. apply H3 in E.
    unfold kept, first_by_id in *.
    exact (filter_negb_find_none (fun r => same_key (JStr id) (r_id r)) rows E).
Qed.

(** ** The db-cli config and user commands, and the deploy upsert *)

Lemma upsert_config_find (key value : json) (rows : list config_row) :
  key <> JNull ->
  exists c,
    find (fun c => same_key key (c_key c)) (upsert_config key value rows) = Some c
    /\ c_value c = value.
Proof.
  intros Hk. unfold upsert_config.
  destruct (existsb (fun c => same_key key (c_key c)) rows) eqn:Ex.
  - induction rows as [|c rows IH]; [discriminate|].
    cbn [existsb] in Ex. cbn [map find].
    destruct (same_key key (c_key c)) eqn:Ec; cbn [c_key].
    + rewrite Ec. eexists. split; reflexivity.
    + rewrite Ec. apply IH. exact Ex.
  - rewrite find_app, (find_existsb_false _ _ Ex). cbn [find c_key].
    assert (Hs : same_key key key = true).
    { destruct key; try contradiction; apply str_eqb_refl. }
    rewrite Hs. eexists. split; reflexivity.
Qed.

Lemma find_map_preserve {A} (f : A -> bool) (g : A -> A) (l : list A) :
  (forall x, f (g x) = f x) -> (forall x, f x = true -> g x = x) ->
  find f (map g l) = find f l.
Proof.
  intros H1 H2. induction l as [|a l IH]; [reflexivity|]. cbn [map find].
  rewrite H1. destruct (f a) eqn:Ef; [now rewrite H2|exact IH].
Qed.

Lemma same_key_other (a b : jsstring) (x : json) :
  a <> b -> same_key (JStr a) x = true -> same_key (JStr b) x = false.
Proof.
  intros N Ha. destruct (same_key (JStr b) x) eqn:Eb; [|reflexivity].
  apply same_key_text in Ha as [_ Ha]. apply same_key_text in Eb as [_ Eb]. congruence.
Qed.

Lemma upsert_config_other (k k' : jsstring) (value : json) (rows : list config_row) :
  k' <> k ->
  find (fun c => same_key (JStr k') (c_key c)) (upsert_config (JStr k) value rows)
  = find (fun c => same_key (JStr k') (c_key c)) rows.
Proof.
  intros N. unfold upsert_config.
  destruct (existsb (fun c => same_key (JStr k) (c_key c)) rows) eqn:Ex.
  - apply find_map_preserve.
    + intros c. now destruct (same_key (JStr k) (c_key c)).
    + intros c Hc. destruct (same_key (JStr k) (c_key c)) eqn:Ec; [|reflexivity].
      rewrite (same_key_other k k' _ (not_eq_sym N) Ec) in Hc. discriminate.
  - rewrite find_app. destruct (find _ rows); [reflexivity|]. cbn [find c_key].
    assert (Hs : same_key (JStr k') (JStr k) = false)
      by (apply str_eqb_neq; exact N).
    now rewrite Hs.
Qed.

Lemma upsert_config_again (key v v' : json) (rows : list config_row) :
  key <> JNull ->
  upsert_config key v' (upsert_config key v rows) = upsert_config key v' rows.
Proof.
  intros Hk.
  assert (Hs : same_key key key = true).
  { destruct key; try contradiction; apply str_eqb_refl. }
  unfold upsert_config at 2 3.
  destruct (existsb (fun c => same_key key (c_key c)) rows) eqn:Ex.
  - unfold upsert_config.
    assert (Ex' : existsb (fun c => same_key key (c_key c))
                    (map (fun c => if same_key key (c_key c)
                                   then {| c_key := c_key c; c_value := v |} else c) rows)
                  = true).
    { clear -Ex. induction rows as [|c rows IH]; [discriminate|].
      cbn [existsb map] in *.
      destruct (same_key key (c_key c)) eqn:E; cbn [c_key]; rewrite E;
        [reflexivity|]. apply IH. exact Ex. }
    rewrite Ex'. rewrite map_map. apply map_ext. intros c.
    destruct (same_key key (c_key c)) eqn:E; cbn [c_key]; now rewrite E.
  - unfold upsert_config. rewrite existsb_app, Ex. cbn [existsb c_key]. rewrite Hs.
    cbn [orb]. rewrite map_app. cbn [map c_key]. rewrite Hs. f_equal.
    rewrite <- (map_id rows) at 2. apply map_ext_in. intros c Hin.
    destruct (same_key key (c_key c)) eqn:E; [|reflexivity].
    assert (existsb (fun c => same_key key (c_key c)) rows = true)
      by (apply existsb_exists; eauto).
    congruence.
Qed.

(** [config-set] then [config-get]: the value set is the value shown
    under the key, whether the key was there or not; what is shown
    under every other key is as before; and a second [config-set] of
    the key replaces the first. *)
Theorem config_set_get (rows : list config_row) (k v : jsstring) :
  config_get (config_set rows k v) k
  = match parse v with
    | Ok parsed => Ok (Some (JStr v, Some (stringify_pretty parsed)))
    | Throw _ => Ok (Some (JStr v, None))
    | Unmodelled => Unmodelled
    end
  /\ (forall k', k' <> k -> config_get (config_set rows k v) k' = config_get rows k')
  /\ (forall v', config_set (config_set rows k v) k v' = config_set rows k v').
Proof.
  split; [|split].
  - unfold config_get, config_set.
    destruct (upsert_config_find (JStr k) (JStr v) rows ltac:(discriminate))
      as (c & -> & Hc).
    rewrite Hc. reflexivity.
  - intros k' N. unfold config_get, config_set. now rewrite upsert_config_other.
  - intros v'. apply upsert_config_again. discriminate.
Qed.

Lemma assign_all_get_other (k : jsstring) (ups o : props) :
  obj_has k ups = false -> obj_get k (assign_all o ups) = obj_get k o.
Proof.
  revert o. induction ups as [|[k' v'] ups IH]; intros o Hk; [reflexivity|].
  cbn [obj_has] in Hk. apply orb_false_iff in Hk as [Hk Hl]. apply str_eqb_neq in Hk.
  unfold assign_all. cbn [fold_left fst snd]. fold (assign_all (obj_set k' v' o) ups).
  rewrite IH by exact Hl. apply obj_get_set_neq. congruence.
Qed.

(** Assignments to distinct keys: each key assigned holds its value,
    every other key is as before. *)
Lemma assign_all_get (ups : props) :
  forall lo plain o k,
    keys_in_order lo plain ups = true ->
    obj_get k (assign_all o ups)
    = match obj_get k ups with
      | Some v => Some v
      | None => obj_get k o
      end.
Proof.
  induction ups as [|[k' v'] ups IH]; intros lo plain o k Hord; [reflexivity|].
  cbn [keys_in_order] in Hord. apply andb_true_iff in Hord as [Hnew Hord].
  apply negb_true_iff in Hnew.
  assert (Hrest : exists lo' plain', keys_in_order lo' plain' ups = true).
  { destruct (array_index k').
    - apply andb_true_iff in Hord as [_ Hord]. eauto.
    - eauto. }
  destruct Hrest as (lo' & plain' & Hrest).
  unfold assign_all. cbn [fold_left fst snd]. fold (assign_all (obj_set k' v' o) ups).
  cbn [obj_get]. destruct (str_eqb k k') eqn:E.
  - apply str_eqb_eq in E. subst k'.
    rewrite assign_all_get_other by exact Hnew. apply obj_get_set_eq.
  - rewrite (IH lo' plain' _ k Hrest). destruct (obj_get k ups); [reflexivity|].
    apply obj_get_set_neq. apply str_eqb_neq in E. congruence.
Qed.

Lemma user_updates_distinct (name roles avatar : option jsstring) :
  keys_in_order 0 true (user_updates name roles avatar) = true.
Proof.
  destruct name as [[|c1 s1]|], roles as [[|c2 s2]|], avatar as [[|c3 s3]|];
    reflexivity.
Qed.

(** [user-update]: a row under another id is as it was; in a row under
    the id every column named by a non-empty option holds the option,
    and every other column is as it was. With no non-empty option, or
    with no row under the id, the table is as it was. *)
Theorem user_update_frame (rows : list json) (id : jsstring)
    (name roles avatar : option jsstring) :
  let (rows', report) := user_update rows id name roles avatar in
  Forall2 (fun u u' =>
             if same_key (JStr id) (user_id u)
             then match u with
                  | JObj o =>
                      exists o', u' = JObj o'
                        /\ forall k,
                             obj_get k o'
                             = match obj_get k (user_updates name roles avatar) with
                               | Some v => Some v
                               | None => obj_get k o
                               end
                  | _ => u' = u
                  end
             else u' = u) rows rows'
  /\ (report <> UserUpdated -> rows' = rows)
  /\ (user_updates name roles avatar = [] -> report <> UserUpdated).
Proof.
  unfold user_update.
  assert (Hsame : Forall2 (fun u u' =>
             if same_key (JStr id) (user_id u)
             then match u with
                  | JObj o =>
                      exists o', u' = JObj o'
                        /\ forall k,
                             obj_get k o'
                             = match obj_get k (user_updates name roles avatar) with
                               | Some v => Some v
                               | None => obj_get k o
                               end
                  | _ => u' = u
                  end
             else u' = u) rows
            (map (fun u => if same_key (JStr id) (Worlds.user_id u)
                           then update_columns (user_updates name roles avatar) u
                           else u) rows)).
  { induction rows as [|u rows IH]; constructor; [|exact IH].
    destruct (same_key (JStr id) (user_id u)); [|reflexivity].
    destruct u as [| | | | |o]; try reflexivity.
    cbn [update_columns]. eexists. split; [reflexivity|]. intros k.
    apply (assign_all_get _ 0 true). apply user_updates_distinct. }
  destruct (find _ rows) as [u0|] eqn:Ef.
  - destruct (user_updates name roles avatar) as [|kv ups] eqn:Eu.
    + split; [|split; [reflexivity|intros _; discriminate]].
      clear. induction rows as [|u rows IH]; constructor; [|exact IH].
      destruct (same_key (JStr id) (user_id u)); [|reflexivity].
      destruct u as [| | | | |o]; try reflexivity.
      exists o. split; [reflexivity|]. intros k. reflexivity.
    + split; [exact Hsame|]. split; [intros N; now contradiction N|discriminate].
  - split; [|split; [reflexivity|intros _; discriminate]].
    clear -Ef. induction rows as [|u rows IH]; constructor.
    + cbn [find] in Ef. destruct (same_key (JStr id) (user_id u)); [discriminate|reflexivity].
    + apply IH. cbn [find] in Ef.
      destruct (same_key (JStr id) (user_id u)); [discriminate|exact Ef].
Qed.

Lemma first_by_id_update (id data updatedAt : json) (rows : list row) (old : row) :
  first_by_id id rows = Some old ->
  first_by_id id (update_by_id id data updatedAt rows)
  = Some {| r_id := r_id old; r_data := data;
            r_createdAt := r_createdAt old; r_updatedAt := updatedAt |}.
Proof.
  unfold first_by_id, update_by_id.
  induction rows as [|r rows IH]; [discriminate|]. cbn [find map].
  destruct (same_key id (r_id r)) eqn:E; cbn [r_id]; rewrite E.
  - intros H. now injection H as ->.
  - exact IH.
Qed.

Lemma same_key_texts (a b x : json) :
  to_string a <> to_string b -> same_key a x = true -> same_key b x = false.
Proof.
  intros N Ha. destruct (same_key b x) eqn:Eb; [|reflexivity].
  unfold same_key in *.
  destruct a; try discriminate; destruct x; try discriminate;
    destruct b; try discriminate;
    apply str_eqb_eq in Ha; apply str_eqb_eq in Eb; congruence.
Qed.

Lemma first_by_id_update_other (id id' data updatedAt : json) (rows : list row) :
  to_string id' <> to_string id ->
  first_by_id id' (update_by_id id data updatedAt rows) = first_by_id id' rows.
Proof.
  intros N. unfold first_by_id, update_by_id. apply find_map_preserve.
  - intros r. now destruct (same_key id (r_id r)).
  - intros r Hr. destruct (same_key id (r_id r)) eqn:E; [|reflexivity].
    rewrite (same_key_texts id id' _ (not_eq_sym N) E) in Hr. discriminate.
Qed.

(** The deploy command's insert-or-update never fails and leaves one
    row to be found under the blueprint's id: it holds the text of the
    blueprint and the time of the deploy as [updatedAt]; its
    [createdAt] is that of the row found there before, or the time of
    the deploy when there was none. What is found under an id of
    another text is as before. *)
Theorem deploy_blueprint_upsert (rows : list row) (id blueprint : json) (now : jsstring) :
  id <> JNull ->
  exists rows' r,
    deploy_blueprint rows id blueprint now = Ok rows'
    /\ first_by_id id rows' = Some r
    /\ r_data r = JStr (stringify blueprint)
    /\ r_updatedAt r = JStr now
    /\ r_createdAt r = match first_by_id id rows with
                       | Some old => r_createdAt old
                       | None => JStr now
                       end
    /\ forall id', to_string id' <> to_string id ->
         first_by_id id' rows' = first_by_id id' rows.
Proof.
  intros Hid. unfold deploy_blueprint.
  destruct (first_by_id id rows) as [old|] eqn:Ef.
  - exists (update_by_id id (JStr (stringify blueprint)) (JStr now) rows),
      {| r_id := r_id old; r_data := JStr (stringify blueprint);
         r_createdAt := r_createdAt old; r_updatedAt := JStr now |}.
    split; [reflexivity|]. split; [now apply first_by_id_update|].
    cbn [r_data r_updatedAt r_createdAt]. repeat split.
    intros id' N. now apply first_by_id_update_other.
  - unfold insert. cbn [r_id].
    assert (Ex : existsb (fun r' => same_key id (r_id r')) rows = false).
    { destruct (existsb _ rows) eqn:Ex; [|reflexivity].
      apply existsb_exists in Ex as (r & Hin & Hr).
      unfold first_by_id in Ef. now rewrite (find_none _ _ Ef r Hin) in Hr. }
    rewrite Ex. eexists _, _. split; [reflexivity|].
    assert (Hs : same_key id id = true).
    { destruct id; try contradiction; apply str_eqb_refl. }
    unfold first_by_id in *. rewrite find_app, Ef. cbn [find r_id]. rewrite Hs.
    split; [reflexivity|]. cbn [r_data r_updatedAt r_createdAt]. repeat split.
    intros id' N. rewrite find_app.
    destruct (find (fun r => same_key id' (r_id r)) rows); [reflexivity|].
    cbn [find r_id].
    destruct (same_key id' id) eqn:E; [|reflexivity].
    exfalso. apply N. unfold same_key in E.
    destruct id'; try discriminate; destruct id; try discriminate;
      apply str_eqb_eq in E; exact E.
Qed.

Lemma blueprint_add_stores_witness :
  blueprint_add [] (Ok add_content) (Some (lit "b1")) (Throw TypeError)
    (lit "2025-03-03T00:00:00.000Z")
  = Ok ([added_row], Added (lit "b1"))
  /\ exists o o',
      parse add_content = Ok (JObj o)
      /\ [added_row]
         = [] ++ [{| r_id := JStr (lit "b1"); r_data := JStr (stringify (JObj o'));
                     r_createdAt := JStr (lit "2025-03-03T00:00:00.000Z");
                     r_updatedAt := JStr (lit "2025-03-03T00:00:00.000Z") |}]
      /\ first_by_id (JStr (lit "b1")) [] = None
      /\ obj_get (lit "id") o' = Some (JStr (lit "b1"))
      /\ (if truthy_opt (obj_get (lit "id") o)
          then obj_get (lit "id") o = Some (JStr (lit "b1"))
          else id_or_uuid (Some (lit "b1")) (Throw TypeError) = Ok (lit "b1"))
      /\ (forall k d, In (k, d) blueprint_default_values ->
            obj_get k o' = Some (or_default (obj_get k o) d))
      /\ (forall k, k <> lit "id" -> obj_has k blueprint_default_values = false ->
            obj_get k o' = obj_get k o)
      /\ (forallb is_unit add_content = true -> forallb is_unit (lit "b1") = true ->
          get_by_id [added_row] (lit "b1") = Ok (Printed (stringify_pretty (JObj o')))).
Proof.
  split; [vm_compute; reflexivity|].
  apply (blueprint_add_stores [] [added_row] add_content (Some (lit "b1"))
           (Throw TypeError) (lit "2025-03-03T00:00:00.000Z") (lit "b1")).
  vm_compute. reflexivity.
Defined.

Lemma blueprint_add_existing_id_witness :
  blueprint_add [added_row] (Ok (json_text "{'id':'b1','name':'stool'}")) None
    (Ok (lit "u")) (lit "2025-04-04T00:00:00.000Z")
  = Ok ([added_row], AddFailed DbError).
Proof.
  apply (blueprint_add_existing_id [added_row] (json_text "{'id':'b1','name':'stool'}")
           [(lit "id", JStr (lit "b1")); (lit "name", JStr (lit "stool"))]
           None (Ok (lit "u")) (lit "2025-04-04T00:00:00.000Z") (lit "b1")).
  - vm_compute. reflexivity.
  - vm_compute. reflexivity.
  - discriminate.
  - vm_compute. discriminate.
Defined.

Lemma entity_add_stores_witness :
  exists o,
    parse (json_text "{'type':'app','blueprint':'b1'}") = Ok (JObj o)
    /\ [{| r_id := JStr (lit "u-1");
           r_data := JStr (json_text "{'type':'app','blueprint':'b1','id':'u-1'}");
           r_createdAt := JStr (lit "t"); r_updatedAt := JStr (lit "t") |}]
       = [] ++ [{| r_id := JStr (lit "u-1");
                   r_data := JStr (stringify
                                     (JObj (if truthy_opt (obj_get (lit "id") o)
                                            then o
                                            else obj_set (lit "id") (JStr (lit "u-1")) o)));
                   r_createdAt := JStr (lit "t"); r_updatedAt := JStr (lit "t") |}]
    /\ first_by_id (JStr (lit "u-1")) [] = None
    /\ (if truthy_opt (obj_get (lit "id") o)
        then obj_get (lit "id") o = Some (JStr (lit "u-1"))
        else id_or_uuid (Some []) (Ok (lit "u-1")) = Ok (lit "u-1")).
Proof.
  apply (entity_add_stores [] _ (json_text "{'type':'app','blueprint':'b1'}") (Some [])
           (Ok (lit "u-1")) (lit "t") (lit "u-1")).
  vm_compute. reflexivity.
Defined.

Lemma deploy_blueprint_upsert_witness :
  exists rows' r,
    deploy_blueprint [added_row] (JStr (lit "b1"))
      (JObj [(lit "id", JStr (lit "b1")); (lit "version", JNum 2)])
      (lit "2025-05-05T00:00:00.000Z") = Ok rows'
    /\ first_by_id (JStr (lit "b1")) rows' = Some r
    /\ r_data r = JStr (stringify (JObj [(lit "id", JStr (lit "b1"));
                                         (lit "version", JNum 2)]))
    /\ r_updatedAt r = JStr (lit "2025-05-05T00:00:00.000Z")
    /\ r_createdAt r = match first_by_id (JStr (lit "b1")) [added_row] with
                       | Some old => r_createdAt old
                       | None => JStr (lit "2025-05-05T00:00:00.000Z")
                       end
    /\ forall id', to_string id' <> to_string (JStr (lit "b1")) ->
         first_by_id id' rows' = first_by_id id' [added_row].
Proof.
  apply (deploy_blueprint_upsert [added_row] (JStr (lit "b1"))). discriminate.
Defined.

(** ** A record unpacked, then packed *)

Lemma well_formed_assign_all (d p : props) :
  forallb entry_ok d = true -> well_formed (JObj p) = true ->
  well_formed (JObj (assign_all p d)) = true.
Proof.
  revert p. induction d as [|[k v] d IH]; intros p Hd Hp; [exact Hp|].
  cbn [forallb] in Hd. apply andb_true_iff in Hd as [Hkv Hd].
  unfold entry_ok in Hkv. cbn [fst snd] in Hkv. apply andb_true_iff in Hkv as [Hk Hv].
  unfold assign_all. cbn [fold_left fst snd]. fold (assign_all (obj_set k v p) d).
  apply IH; [exact Hd|]. now apply well_formed_obj_set.
Qed.

Lemma full_record_obj (r : row) (d : props) :
  full_record r (JObj d)
  = assign_all [(lit "id", r_id r); (lit "createdAt", r_createdAt r);
                (lit "updatedAt", r_updatedAt r)] d.
Proof. reflexivity. Qed.

Lemma well_formed_full_record (r : row) (d : props) :
  well_formed (r_id r) = true -> well_formed (r_createdAt r) = true ->
  well_formed (r_updatedAt r) = true -> well_formed (JObj d) = true ->
  well_formed (JObj (full_record r (JObj d))) = true.
Proof.
  intros Hi Hc Hu Hd. rewrite full_record_obj.
  rewrite well_formed_obj in Hd. apply andb_true_iff in Hd as [_ Hd].
  apply well_formed_assign_all; [exact Hd|].
  rewrite well_formed_obj. cbn [forallb]. unfold entry_ok. cbn [fst snd].
  rewrite Hi, Hc, Hu. reflexivity.
Qed.

Lemma obj_delete_absent (k : jsstring) (o : props) :
  obj_has k o = false -> obj_delete k o = o.
Proof.
  induction o as [|[k' v'] o IH]; [reflexivity|]. cbn [obj_has obj_delete].
  intros E. apply orb_false_iff in E as [E1 E2]. rewrite E1. now rewrite IH.
Qed.

Lemma payload_copy_well_formed (full : props) :
  keys_in_order 0 false full = true ->
  payload_copy (JObj full)
  = obj_delete (lit "updatedAt") (obj_delete (lit "createdAt") full).
Proof.
  intros Ho. unfold payload_copy, spread_into. cbn [own_props].
  fold (assign_all [] full). now rewrite assign_all_well_formed.
Qed.

(** The import of an entity file: the row inserted. *)
Lemma import_entity_file {F} `{FileSystem F} (w : world) (inputDir file : jsstring)
    (full : props) :
  well_formed (JObj full) = true ->
  readFileUtf8 (w_fs w) (Path.join inputDir file) = Ok (stringify_pretty (JObj full)) ->
  import_entity_files w inputDir [file]
  = of_result w
      (insert r_id
         {| r_id := column (obj_get (lit "id") full);
            r_data := JStr (stringify
                              (JObj (obj_delete (lit "updatedAt")
                                       (obj_delete (lit "createdAt") full))));
            r_createdAt := column (obj_get (lit "createdAt") full);
            r_updatedAt := column (obj_get (lit "updatedAt") full) |}
         (entities (w_db w)))
      (fun rows => done (with_entities w rows)).
Proof.
  intros Hwf Hread. cbn [import_entity_files]. rewrite Hread. cbn [of_result].
  rewrite parse_after_stringify_pretty by exact Hwf. cbn [of_result get_prop].
  rewrite payload_copy_well_formed; [reflexivity|].
  rewrite well_formed_obj in Hwf. now apply andb_true_iff in Hwf as [Hwf _].
Qed.

(** An entity row whose data is the text of an object that starts
    with the row's id and has no [createdAt] and no [updatedAt]:
    [extractEntities] writes one file for it, and [importEntities],
    reading a file of that text, inserts the row as it was. *)
Theorem entity_roundtrip {F} `{FileSystem F} (w w' : world)
    (outputDir inputDir file : jsstring) (verbose : bool) (r : row) (d : props) :
  r_data r = JStr (stringify (JObj ((lit "id", r_id r) :: d))) ->
  well_formed (JObj ((lit "id", r_id r) :: d)) = true ->
  well_formed (r_createdAt r) = true -> well_formed (r_updatedAt r) = true ->
  obj_has (lit "createdAt") d = false -> obj_has (lit "updatedAt") d = false ->
  exists text,
    extract_entity_rows w outputDir verbose [r]
    = of_result w
        (writeFileText (w_fs w)
           (Path.join outputDir (to_string (r_id r) ++ lit ".json")) text)
        (fun fs' => done (with_fs w fs'))
    /\ (readFileUtf8 (w_fs w') (Path.join inputDir file) = Ok text ->
        import_entity_files w' inputDir [file]
        = of_result w' (insert r_id r (entities (w_db w')))
            (fun rows => done (with_entities w' rows))).
Proof.
  intros Hdata Hwf Hc Hu Hnc Hnu.
  set (o := (lit "id", r_id r) :: d) in *.
  assert (Hid : well_formed (r_id r) = true).
  { rewrite well_formed_obj in Hwf. apply andb_true_iff in Hwf as [_ Hwf].
    cbn [o forallb] in Hwf. apply andb_true_iff in Hwf as [Hwf _].
    unfold entry_ok in Hwf. cbn [fst snd] in Hwf. now apply andb_true_iff in Hwf as [_ Hwf]. }
  assert (Hni : obj_has (lit "id") d = false /\ keys_in_order 0 true d = true).
  { rewrite well_formed_obj in Hwf. apply andb_true_iff in Hwf as [Hwf _].
    cbn [o keys_in_order] in Hwf. apply andb_true_iff in Hwf as [H1 H2].
    apply negb_true_iff in H1. split; [exact H1|exact H2]. }
  destruct Hni as [Hni Hord].
  assert (Hfull : full_record r (JObj o)
                  = [(lit "id", r_id r); (lit "createdAt", r_createdAt r);
                     (lit "updatedAt", r_updatedAt r)] ++ d).
  { rewrite full_record_obj. unfold assign_all, o. cbn [fold_left fst snd].
    change (obj_set (lit "id") (r_id r) _)
      with [(lit "id", r_id r); (lit "createdAt", r_createdAt r);
            (lit "updatedAt", r_updatedAt r)].
    apply (assign_all_in_order d _ 0 true Hord); [|discriminate].
    intros k Hk. cbn [obj_has].
    destruct (str_eqb k (lit "id")) eqn:E1;
      [apply str_eqb_eq in E1; subst k; congruence|].
    destruct (str_eqb k (lit "createdAt")) eqn:E2;
      [apply str_eqb_eq in E2; subst k; congruence|].
    destruct (str_eqb k (lit "updatedAt")) eqn:E3;
      [apply str_eqb_eq in E3; subst k; congruence|].
    reflexivity. }
  exists (stringify_pretty (JObj (full_record r (JObj o)))). split.
  - cbn [extract_entity_rows]. rewrite Hdata, parse_column_text.
    rewrite parse_after_stringify by exact Hwf. destruct verbose; reflexivity.
  - intros Hread.
    rewrite (import_entity_file w' inputDir file (full_record r (JObj o)));
      [|now apply well_formed_full_record|exact Hread].
    rewrite Hfull. cbn [app obj_get]. 
    change (str_eqb (lit "id") (lit "id")) with true.
    change (str_eqb (lit "createdAt") (lit "id")) with false.
    change (str_eqb (lit "createdAt") (lit "createdAt")) with true.
    change (str_eqb (lit "updatedAt") (lit "id")) with false.
    change (str_eqb (lit "updatedAt") (lit "createdAt")) with false.
    change (str_eqb (lit "updatedAt") (lit "updatedAt")) with true.
    cbv iota. cbn [column obj_delete].
    change (str_eqb (lit "createdAt") (lit "id")) with false.
    change (str_eqb (lit "createdAt") (lit "createdAt")) with true.
    change (str_eqb (lit "createdAt") (lit "updatedAt")) with false.
    cbv iota. cbn [obj_delete].
    change (str_eqb (lit "updatedAt") (lit "id")) with false.
    change (str_eqb (lit "updatedAt") (lit "updatedAt")) with true.
    cbv iota.
    rewrite (obj_delete_absent (lit "createdAt") d Hnc).
    rewrite (obj_delete_absent (lit "updatedAt") d Hnu).
    fold o. rewrite <- Hdata. destruct r; reflexivity.
Qed.

(** A configuration row with a text key and a text value that is not
    the JSON text of a number or of a boolean: [extractConfig] writes
    one file for it, and [importConfig], reading a file of that text,
    inserts under the same key the text [value]. A value that is not
    JSON text comes back as it was, and so does the text
    [JSON.stringify] gives for an object, an array or [null]; a value
    that is the JSON text of a string comes back as that string,
    without its quotes. *)
Theorem config_roundtrip {F} `{FileSystem F} (w w' : world)
    (outputDir inputDir file : jsstring) (k s : jsstring) :
  forallb is_unit k = true -> forallb is_unit s = true ->
  parse s <> Unmodelled ->
  (forall v, parse s = Ok v -> is_object v = true \/ exists t, v = JStr t) ->
  exists text value,
    extract_config_rows w outputDir [{| c_key := JStr k; c_value := JStr s |}]
    = of_result w
        (writeFileText (w_fs w) (Path.join outputDir (k ++ lit ".json")) text)
        (fun fs' => done (with_fs w fs'))
    /\ (readFileUtf8 (w_fs w') (Path.join inputDir file) = Ok text ->
        import_config_files w' inputDir [file]
        = of_result w'
            (insert c_key {| c_key := JStr k; c_value := JStr value |} (config (w_db w')))
            (fun rows =>
               done (with_db w' {| config := Some rows; users := users (w_db w');
                                   blueprints := blueprints (w_db w');
                                   entities := entities (w_db w') |})))
    /\ (forall e, parse s = Throw e -> value = s)
    /\ (forall v, parse s = Ok v -> is_object v = true -> value = stringify v)
    /\ (forall t, parse s = Ok (JStr t) -> value = t)
    /\ (forall v, well_formed v = true -> is_object v = true -> s = stringify v ->
          value = s).
Proof.
  intros Hk Hs Hm Hkind.
  assert (Himport : forall cv, well_formed cv = true ->
            (is_object cv = true \/ exists t, cv = JStr t) ->
            readFileUtf8 (w_fs w') (Path.join inputDir file)
            = Ok (stringify_pretty (JObj [(lit "key", JStr k); (lit "value", cv)])) ->
            import_config_files w' inputDir [file]
            = of_result w'
                (insert c_key {| c_key := JStr k;
                                 c_value := JStr (if is_object cv then stringify cv
                                                  else to_string cv) |}
                   (config (w_db w')))
                (fun rows =>
                   done (with_db w' {| config := Some rows; users := users (w_db w');
                                       blueprints := blueprints (w_db w');
                                       entities := entities (w_db w') |}))).
  { intros cv Hcv Hc Hread. cbn [import_config_files]. rewrite Hread. cbn [of_result].
    rewrite parse_after_stringify_pretty.
    - cbn [of_result get_prop obj_get].
      change (str_eqb (lit "key") (lit "key")) with true.
      change (str_eqb (lit "value") (lit "key")) with false.
      change (str_eqb (lit "value") (lit "value")) with true.
      cbv iota. cbn [of_result column].
      destruct Hc as [Ho|[t ->]].
      + rewrite Ho. reflexivity.
      + reflexivity.
    - rewrite well_formed_obj. cbn [forallb]. unfold entry_ok. cbn [fst snd].
      cbn [well_formed]. rewrite Hk, Hcv. reflexivity. }
  destruct (parse s) as [v|e|] eqn:Hp; [| |contradiction].
  - exists (stringify_pretty (JObj [(lit "key", JStr k); (lit "value", v)])),
      (if is_object v then stringify v else to_string v).
    pose proof (parse_well_formed s v Hp Hs) as Hv.
    split; [|split; [|split; [|split; [|split]]]].
    + cbn [extract_config_rows c_key c_value to_string]. rewrite parse_column_text, Hp.
      reflexivity.
    + apply Himport; [exact Hv|]. now apply Hkind.
    + discriminate.
    + intros v' E Ho. injection E as <-. now rewrite Ho.
    + intros t E. injection E as ->. reflexivity.
    + intros v' Hv' Ho' ->. rewrite parse_after_stringify in Hp by exact Hv'.
      injection Hp as ->. now rewrite Ho'.
  - exists (stringify_pretty (JObj [(lit "key", JStr k); (lit "value", JStr s)])), s.
    split; [|split; [|split; [|split; [|split]]]].
    + cbn [extract_config_rows c_key c_value to_string]. rewrite parse_column_text, Hp.
      reflexivity.
    + intros Hread. rewrite (Himport (JStr s) Hs); [reflexivity| |exact Hread].
      right. now exists s.
    + reflexivity.
    + discriminate.
    + discriminate.
    + reflexivity.
Qed.

(** A row of [users] that is an object of code units: [extractUsers]
    writes one file for it, and [importUsers], reading a file of that
    text, inserts a row with the six columns [id], [name], [roles],
    [avatar], [createdAt] and [updatedAt] of the row as it was, a
    column the row did not have being NULL; any other column is left
    out. *)
Theorem user_roundtrip {F} `{FileSystem F} (w w' : world)
    (outputDir inputDir file : jsstring) (o : props) :
  well_formed (JObj o) = true ->
  exists text,
    extract_user_rows w outputDir [JObj o]
    = of_result w
        (writeFileText (w_fs w)
           (Path.join outputDir (to_string (column (obj_get (lit "id") o)) ++ lit ".json"))
           text)
        (fun fs' => done (with_fs w fs'))
    /\ (readFileUtf8 (w_fs w') (Path.join inputDir file) = Ok text ->
        import_user_files w' inputDir [file]
        = of_result w'
            (insert user_id
               (JObj [(lit "id", column (obj_get (lit "id") o));
                      (lit "name", column (obj_get (lit "name") o));
                      (lit "roles", column (obj_get (lit "roles") o));
                      (lit "avatar", column (obj_get (lit "avatar") o));
                      (lit "createdAt", column (obj_get (lit "createdAt") o));
                      (lit "updatedAt", column (obj_get (lit "updatedAt") o))])
               (users (w_db w')))
            (fun rows =>
               done (with_db w' {| config := config (w_db w'); users := Some rows;
                                   blueprints := blueprints (w_db w');
                                   entities := entities (w_db w') |}))).
Proof.
  intros Hwf. exists (stringify_pretty (JObj o)). split.
  - reflexivity.
  - intros Hread. cbn [import_user_files]. rewrite Hread. cbn [of_result].
    rewrite parse_after_stringify_pretty by exact Hwf. reflexivity.
Qed.

Lemma entity_roundtrip_witness :
  exists text,
    extract_entity_rows bare_world (lit "out") true [entity_row]
    = of_result bare_world
        (writeFileText (w_fs bare_world)
           (Path.join (lit "out") (to_string (r_id entity_row) ++ lit ".json")) text)
        (fun fs' => done (with_fs bare_world fs'))
    /\ (readFileUtf8 (w_fs bare_world) (Path.join (lit "in") (lit "e1.json")) = Ok text ->
        import_entity_files bare_world (lit "in") [lit "e1.json"]
        = of_result bare_world (insert r_id entity_row (entities (w_db bare_world)))
            (fun rows => done (with_entities bare_world rows))).
Proof.
  apply (entity_roundtrip bare_world bare_world (lit "out") (lit "in") (lit "e1.json")
           true entity_row [(lit "type", JStr (lit "app")); (lit "blueprint", JStr (lit "b1"))]);
    vm_compute; reflexivity.
Defined.

Lemma config_roundtrip_witness :
  readFileUtf8 (w_fs config_world) (Path.join (lit "in") (lit "motd.json"))
  = Ok (stringify_pretty (JObj [(lit "key", JStr (lit "motd"));
                                (lit "value", JStr (lit "hello"))]))
  /\ import_config_files config_world (lit "in") [lit "motd.json"]
     = done (with_db config_world
               {| config := Some [{| c_key := JStr (lit "motd");
                                     c_value := JStr (lit "hello") |}];
                  users := None; blueprints := None; entities := None |})
  /\ exists text value,
       extract_config_rows config_world (lit "out")
         [{| c_key := JStr (lit "motd"); c_value := JStr (json_text "'hello'") |}]
       = of_result config_world
           (writeFileText (w_fs config_world)
              (Path.join (lit "out") (lit "motd" ++ lit ".json")) text)
           (fun fs' => done (with_fs config_world fs'))
       /\ (readFileUtf8 (w_fs config_world) (Path.join (lit "in") (lit "motd.json"))
           = Ok text ->
           import_config_files config_world (lit "in") [lit "motd.json"]
           = of_result config_world
               (insert c_key {| c_key := JStr (lit "motd"); c_value := JStr value |}
                  (config (w_db config_world)))
               (fun rows =>
                  done (with_db config_world
                          {| config := Some rows; users := users (w_db config_world);
                             blueprints := blueprints (w_db config_world);
                             entities := entities (w_db config_world) |})))
       /\ (forall e, parse (json_text "'hello'") = Throw e -> value = json_text "'hello'")
       /\ (forall v, parse (json_text "'hello'") = Ok v -> is_object v = true ->
             value = stringify v)
       /\ (forall t, parse (json_text "'hello'") = Ok (JStr t) -> value = t)
       /\ (forall v, well_formed v = true -> is_object v = true ->
             json_text "'hello'" = stringify v -> value = json_text "'hello'").
Proof.
  split; [vm_compute; reflexivity|]. split; [vm_compute; reflexivity|].
  apply (config_roundtrip config_world config_world (lit "out") (lit "in")
           (lit "motd.json") (lit "motd") (json_text "'hello'")).
  - vm_compute. reflexivity.
  - vm_compute. reflexivity.
  - vm_compute. discriminate.
  - intros v E. vm_compute in E. injection E as <-. right. eexists. reflexivity.
Defined.

Lemma user_roundtrip_witness :
  exists text,
    extract_user_rows bare_world (lit "out")
      [JObj [(lit "id", JStr (lit "u1")); (lit "name", JStr (lit "ann"))]]
    = of_result bare_world
        (writeFileText (w_fs bare_world)
           (Path.join (lit "out")
              (to_string (column (obj_get (lit "id")
                                    [(lit "id", JStr (lit "u1"));
                                     (lit "name", JStr (lit "ann"))])) ++ lit ".json"))
           text)
        (fun fs' => done (with_fs bare_world fs'))
    /\ (readFileUtf8 (w_fs bare_world) (Path.join (lit "in") (lit "u1.json")) = Ok text ->
        import_user_files bare_world (lit "in") [lit "u1.json"]
        = of_result bare_world
            (insert user_id
               (JObj [(lit "id", column (obj_get (lit "id")
                                           [(lit "id", JStr (lit "u1"));
                                            (lit "name", JStr (lit "ann"))]));
                      (lit "name", column (obj_get (lit "name")
                                             [(lit "id", JStr (lit "u1"));
                                              (lit "name", JStr (lit "ann"))]));
                      (lit "roles", column (obj_get (lit "roles")
                                              [(lit "id", JStr (lit "u1"));
                                               (lit "name", JStr (lit "ann"))]));
                      (lit "avatar", column (obj_get (lit "avatar")
                                               [(lit "id", JStr (lit "u1"));
                                                (lit "name", JStr (lit "ann"))]));
                      (lit "createdAt", column (obj_get (lit "createdAt")
                                                  [(lit "id", JStr (lit "u1"));
                                                   (lit "name", JStr (lit "ann"))]));
                      (lit "updatedAt", column (obj_get (lit "updatedAt")
                                                  [(lit "id", JStr (lit "u1"));
                                                   (lit "name", JStr (lit "ann"))]))])
               (users (w_db bare_world)))
            (fun rows =>
               done (with_db bare_world
                       {| config := config (w_db bare_world); users := Some rows;
                          blueprints := blueprints (w_db bare_world);
                          entities := entities (w_db bare_world) |}))).
Proof.
  apply (user_roundtrip bare_world bare_world (lit "out") (lit "in") (lit "u1.json")
           [(lit "id", JStr (lit "u1")); (lit "name", JStr (lit "ann"))]).
  vm_compute. reflexivity.
Defined.

(** ** The manifest plugin *)

Lemma startsWith_split (s p : jsstring) :
  startsWith s p = true -> s = p ++ skipn (List.length p) s.
Proof.
  revert s. induction p as [|x p IH]; intros s E; [reflexivity|].
  destruct s as [|y s]; cbn [startsWith] in E; [discriminate|].
  apply andb_true_iff in E as [Exy E]. apply Z.eqb_eq in Exy. subst y.
  cbn [List.length skipn app]. f_equal. now apply IH.
Qed.

Lemma indexOf_some (pat s : jsstring) (n : nat) :
  indexOf pat s = Some n ->
  (n <= List.length s)%nat /\ startsWith (skipn n s) pat = true.
Proof.
  revert n. induction s as [|c s IH]; intros n E; cbn [indexOf] in E.
  - destruct (startsWith [] pat) eqn:Es; [|discriminate].
    injection E as <-. split; [lia|exact Es].
  - destruct (startsWith (c :: s) pat) eqn:Es.
    + injection E as <-. split; [lia|exact Es].
    + destruct (indexOf pat s) as [m|] eqn:Ei; [|discriminate].
      injection E as <-. destruct (IH m eq_refl) as [H1 H2].
      cbn [List.length skipn]. split; [lia|exact H2].
Qed.

Lemma brace_depth_app (a b : jsstring) :
  brace_depth (a ++ b) = brace_depth a + brace_depth b.
Proof.
  induction a as [|c a IH]; cbn [app brace_depth]; [reflexivity|]. rewrite IH. lia.
Qed.

(** The loop stops after the shortest prefix that closes every brace
    it opens, and only there. *)
Lemma scan_braces_spec (s : jsstring) :
  forall n i,
    match scan_braces n i s with
    | Some e =>
        exists m, e = (i + m)%nat /\ (1 <= m <= List.length s)%nat
                  /\ n + brace_depth (firstn m s) = 0
                  /\ forall m', (1 <= m' < m)%nat -> n + brace_depth (firstn m' s) <> 0
    | None =>
        forall m, (1 <= m <= List.length s)%nat -> n + brace_depth (firstn m s) <> 0
    end.
Proof.
  induction s as [|c s IH]; intros n i; cbn [scan_braces].
  - intros m Hm. cbn in Hm. lia.
  - set (d := (if c =? 123 then 1 else 0) - (if c =? 125 then 1 else 0)).
    assert (Ec : (if c =? 125
                  then (if c =? 123 then n + 1 else n) - 1
                  else (if c =? 123 then n + 1 else n)) = n + d).
    { unfold d. destruct (c =? 123), (c =? 125); lia. }
    rewrite Ec.
    assert (Hd : forall m, brace_depth (firstn (S m) (c :: s)) = d + brace_depth (firstn m s)).
    { intros m. reflexivity. }
    destruct (Z.eqb_spec (n + d) 0) as [E0|N0].
    + exists 1%nat. cbn [List.length]. split; [lia|]. split; [lia|]. split.
      * rewrite Hd. cbn [firstn brace_depth]. lia.
      * intros m' Hm'. lia.
    + specialize (IH (n + d) (S i)).
      destruct (scan_braces (n + d) (S i) s) as [e|].
      * destruct IH as (m & -> & Hm & Hz & Hmin).
        exists (S m). cbn [List.length]. split; [lia|]. split; [lia|]. split.
        -- rewrite Hd. lia.
        -- intros m' Hm'. destruct m' as [|m']; [lia|]. rewrite Hd.
           destruct m' as [|m'].
           ++ cbn [firstn brace_depth]. lia.
           ++ specialize (Hmin (S m') ltac:(lia)). lia.
      * intros m Hm. cbn [List.length] in Hm. destruct m as [|m]; [lia|]. rewrite Hd.
        destruct m as [|m].
        -- cbn [firstn brace_depth]. lia.
        -- specialize (IH (S m) ltac:(lia)). lia.
Qed.

Lemma marker_brace (rest : jsstring) :
  indexOf [123] (marker ++ rest) = Some 17%nat.
Proof. reflexivity. Qed.

Lemma substring2_forward (a m : nat) (s : jsstring) :
  substring2 a (a + m) s = firstn m (skipn a s).
Proof.
  unfold substring2. rewrite Nat.max_r, Nat.min_l by lia.
  now replace (a + m - a)%nat with m by lia.
Qed.

Lemma substring2_backward (a m : nat) (s : jsstring) :
  substring2 (a + m) a s = firstn m (skipn a s).
Proof.
  unfold substring2. rewrite Nat.max_l, Nat.min_r by lia.
  now replace (a + m - a)%nat with m by lia.
Qed.

Section Transformed.
Variable evaluate : jsstring -> result json.
(** [return const manifest = ] is not a function body. *)
Hypothesis not_a_body : forall v, evaluate (lit "return const manifest = ") <> Ok v.

(** What [transform] does to the code at the first declaration. *)
Lemma transform_at_marker (code id : jsstring) (manifestStart : nat) :
  indexOf marker code = Some manifestStart ->
  exists rest,
    code = firstn manifestStart code ++ lit "const manifest = " ++ 123 :: rest
    /\ skipn (manifestStart + 17) code = 123 :: rest
    /\ (negb (endsWith id (lit ".js")) && negb (endsWith id (lit ".jsx"))
        && negb (endsWith id (lit ".ts")) && negb (endsWith id (lit ".tsx")) = false ->
        transform evaluate code id
        = match evaluate
                  (lit "return "
                     ++ match scan_braces 0 (manifestStart + 17) (123 :: rest) with
                        | Some e => firstn (e - (manifestStart + 17)) (123 :: rest)
                        | None => lit "const manifest = "
                        end) with
          | Ok manifestObj =>
              Ok (Replaced
                    (firstn manifestStart code ++ note
                       ++ skipn match scan_braces 0 (manifestStart + 17) (123 :: rest) with
                                | Some e => e
                                | None => manifestStart
                                end code)
                    (stringify_pretty manifestObj))
          | Throw _ => Ok Rejected
          | Unmodelled => Unmodelled
          end).
Proof.
  intros Hi. destruct (indexOf_some _ _ _ Hi) as [Hlen Hs].
  apply startsWith_split in Hs.
  set (rest := skipn (List.length marker) (skipn manifestStart code)) in *.
  exists rest.
  assert (Hcode : code = firstn manifestStart code ++ lit "const manifest = " ++ 123 :: rest).
  { rewrite <- (firstn_skipn manifestStart code) at 1. f_equal. exact Hs. }
  assert (Hskip : skipn (manifestStart + 17) code = 123 :: rest).
  { rewrite Nat.add_comm, <- skipn_skipn, Hs. reflexivity. }
  split; [exact Hcode|]. split; [exact Hskip|].
  intros Hext. unfold transform. rewrite Hext, Hi.
  rewrite Hs, marker_brace. cbv zeta. rewrite Hskip.
  pose proof (scan_braces_spec (123 :: rest) 0 (manifestStart + 17)) as Hscan.
  destruct (scan_braces 0 (manifestStart + 17) (123 :: rest)) as [e|].
  - destruct Hscan as (m & -> & _).
    rewrite substring2_forward, Hskip.
    now replace (manifestStart + 17 + m - (manifestStart + 17))%nat with m by lia.
  - rewrite substring2_backward. rewrite Hs. reflexivity.
Qed.

(** When [transform] returns new code, the code it was given is
    [pre ++ "const manifest = " ++ literal ++ suf], where the
    declaration is the first in the code and [literal] is the
    shortest text from the opening brace on that closes every brace it
    opens, whatever the braces are part of; the new code is [pre],
    the note and [suf], and the asset is the indented JSON text of
    the value [literal] evaluates to. *)
Theorem transform_replaces (code id code' blueprint : jsstring) :
  transform evaluate code id = Ok (Replaced code' blueprint) ->
  exists pre literal suf v,
    code = pre ++ lit "const manifest = " ++ literal ++ suf
    /\ indexOf marker code = Some (List.length pre)
    /\ code' = pre ++ note ++ suf
    /\ evaluate (lit "return " ++ literal) = Ok v
    /\ blueprint = stringify_pretty v
    /\ brace_depth literal = 0
    /\ (forall m, (1 <= m < List.length literal)%nat ->
          brace_depth (firstn m literal) <> 0).
Proof.
  intros Ht.
  destruct (negb (endsWith id (lit ".js")) && negb (endsWith id (lit ".jsx"))
            && negb (endsWith id (lit ".ts")) && negb (endsWith id (lit ".tsx")))
    eqn:Hext.
  { unfold transform in Ht. rewrite Hext in Ht. discriminate. }
  destruct (indexOf marker code) as [ms|] eqn:Hi.
  2:{ unfold transform in Ht. rewrite Hext, Hi in Ht. discriminate. }
  destruct (transform_at_marker code id ms Hi) as (rest & Hcode & Hskip & Hrun).
  rewrite (Hrun Hext) in Ht. clear Hrun.
  destruct (indexOf_some _ _ _ Hi) as [Hlen _].
  pose proof (scan_braces_spec (123 :: rest) 0 (ms + 17)) as Hscan.
  destruct (scan_braces 0 (ms + 17) (123 :: rest)) as [e|].
  - destruct Hscan as (m & -> & Hm & Hz & Hmin).
    replace (ms + 17 + m - (ms + 17))%nat with m in Ht by lia.
    destruct (evaluate (lit "return " ++ firstn m (123 :: rest))) as [v| |] eqn:Ev;
      try discriminate.
    injection Ht as <- <-.
    exists (firstn ms code), (firstn m (123 :: rest)), (skipn m (123 :: rest)), v.
    split; [|split; [|split; [|split; [|split; [|split]]]]].
    + rewrite firstn_skipn. exact Hcode.
    + rewrite length_firstn, Nat.min_l by exact Hlen. reflexivity.
    + do 2 f_equal. replace (ms + 17 + m)%nat with (m + (ms + 17))%nat by lia.
      now rewrite <- skipn_skipn, Hskip.
    + exact Ev.
    + reflexivity.
    + lia.
    + intros m' Hm'. rewrite length_firstn in Hm'.
      rewrite firstn_firstn, Nat.min_l by lia.
      specialize (Hmin m' ltac:(lia)). lia.
  - destruct (evaluate (lit "return " ++ lit "const manifest = ")) as [v| |] eqn:Ev;
      try discriminate.
    exfalso. exact (not_a_body v Ev).
Qed.

(** A declaration whose braces never close: the text evaluated is
    [return const manifest = ], and when that throws the build is
    ended with an error. *)
Theorem transform_unbalanced (code id : jsstring) (manifestStart : nat) (e : exn) :
  negb (endsWith id (lit ".js")) && negb (endsWith id (lit ".jsx"))
  && negb (endsWith id (lit ".ts")) && negb (endsWith id (lit ".tsx")) = false ->
  indexOf marker code = Some manifestStart ->
  (forall m, (1 <= m)%nat ->
     brace_depth (firstn m (skipn (manifestStart + 17) code)) <> 0) ->
  evaluate (lit "return const manifest = ") = Throw e ->
  transform evaluate code id = Ok Rejected.
Proof.
  intros Hext Hi Hopen Hev.
  destruct (transform_at_marker code id manifestStart Hi) as (rest & _ & Hskip & Hrun).
  rewrite (Hrun Hext). rewrite Hskip in Hopen.
  pose proof (scan_braces_spec (123 :: rest) 0 (manifestStart + 17)) as Hscan.
  destruct (scan_braces 0 (manifestStart + 17) (123 :: rest)) as [x|].
  - destruct Hscan as (m & _ & Hm & Hz & _). exfalso.
    apply (Hopen m); lia.
  - change (lit "return " ++ lit "const manifest = ")
      with (lit "return const manifest = ").
    now rewrite Hev.
Qed.

End Transformed.

Lemma transform_replaces_witness :
  exists pre literal suf v,
    manifest_code = pre ++ lit "const manifest = " ++ literal ++ suf
    /\ indexOf marker manifest_code = Some (List.length pre)
    /\ lit "import x from 'y';" ++ [10] ++ note ++ lit ";" ++ [10] ++ lit "export default 1;"
       = pre ++ note ++ suf
    /\ manifest_evaluate (lit "return " ++ literal) = Ok v
    /\ stringify_pretty (JObj [(lit "name", JStr (lit "chair"))]) = stringify_pretty v
    /\ brace_depth literal = 0
    /\ (forall m, (1 <= m < List.length literal)%nat ->
          brace_depth (firstn m literal) <> 0).
Proof.
  apply (transform_replaces manifest_evaluate) with (id := lit "app.js").
  - intros v. vm_compute. discriminate.
  - vm_compute. reflexivity.
Defined.

Lemma transform_unbalanced_witness :
  transform manifest_evaluate (lit "const manifest = { name: 'chair' ;") (lit "app.ts")
  = Ok Rejected.
Proof.
  apply (transform_unbalanced manifest_evaluate _ _ 0%nat SyntaxError).
  - vm_compute. reflexivity.
  - vm_compute. reflexivity.
  - intros m Hm.
    assert (Hcases : (m <= 17)%nat \/ (17 < m)%nat) by lia.
    destruct Hcases as [Hle|Hgt].
    + do 18 (destruct m as [|m]; [vm_compute; try lia; discriminate|]). lia.
    + rewrite firstn_all2 by (vm_compute; lia). vm_compute. discriminate.
  - vm_compute. reflexivity.
Defined.

(** ** What processAssets leaves as it is *)

Lemma map_fst_obj_replace (k : jsstring) (v : json) (o : props) :
  map fst (obj_replace k v o) = map fst o.
Proof.
  induction o as [|[k' v'] o IH]; [reflexivity|]. cbn [obj_replace].
  destruct (str_eqb k k'); cbn [map fst]; [reflexivity|now rewrite IH].
Qed.

Lemma map_fst_obj_set (k : jsstring) (v x : json) (o : props) :
  obj_get k o = Some x -> map fst (obj_set k v o) = map fst o.
Proof.
  intros Hg. unfold obj_set. rewrite obj_has_get, Hg. apply map_fst_obj_replace.
Qed.

Section Frame.
Context {F : Type} `{FileSystem F}.
Variable sha256_hex : list Z -> jsstring.

Lemma process_model_frame (st st' : build_state) (appDir : jsstring)
    (searchDirs : list jsstring) (b b' : props) :
  process_model sha256_hex st appDir searchDirs b = (st', Ok b') ->
  map fst b' = map fst b
  /\ forall k, k <> lit "model" -> obj_get k b' = obj_get k b.
Proof.
  unfold process_model. destruct (obj_get (lit "model") b) as [m|] eqn:Em.
  - destruct (truthy m).
    + destruct (process_ref _ _ _ _ _ _ _ _) as [st1 [[url'|]| |]]; intros E;
        try discriminate; injection E as <- <-.
      * split; [now apply (map_fst_obj_set _ _ m)|].
        intros k N. apply obj_get_set_neq. congruence.
      * auto.
    + intros E. injection E as <- <-. auto.
  - intros E. injection E as <- <-. auto.
Qed.

Lemma process_image_frame (st st' : build_state) (appDir : jsstring)
    (searchDirs : list jsstring) (b b' : props) :
  process_image sha256_hex st appDir searchDirs b = (st', Ok b') ->
  map fst b' = map fst b
  /\ forall k, k <> lit "image" -> obj_get k b' = obj_get k b.
Proof.
  unfold process_image. destruct (obj_get (lit "image") b) as [im|] eqn:Em.
  - destruct (truthy_url im).
    + destruct (process_ref _ _ _ _ _ _ _ _) as [st1 [[url'|]| |]]; intros E;
        try discriminate; injection E as <- <-.
      * split; [now apply (map_fst_obj_set _ _ im)|].
        intros k N. apply obj_get_set_neq. congruence.
      * auto.
    + intros E. injection E as <- <-. auto.
  - intros E. injection E as <- <-. auto.
Qed.

Lemma process_all_props_frame (st st' : build_state) (appDir : jsstring)
    (searchDirs : list jsstring) (b b' : props) :
  process_all_props sha256_hex st appDir searchDirs b = (st', Ok b') ->
  map fst b' = map fst b
  /\ forall k, k <> lit "props" -> obj_get k b' = obj_get k b.
Proof.
  unfold process_all_props. destruct (obj_get (lit "props") b) as [ps|] eqn:Em.
  - destruct (truthy ps).
    + destruct (process_props _ _ _ _ _) as [st1 [entries| |]]; intros E;
        try discriminate; injection E as <- <-.
      split; [now apply (map_fst_obj_set _ _ ps)|].
      intros k N. apply obj_get_set_neq. congruence.
    + intros E. injection E as <- <-. auto.
  - intros E. injection E as <- <-. auto.
Qed.

(** The props loop keeps the keys of the entries, in their order, and
    every entry without a truthy [url]. *)
Lemma process_props_frame (entries : props) :
  forall (st st' : build_state) (appDir : jsstring) (searchDirs : list jsstring)
         (entries' : props),
    process_props sha256_hex st appDir searchDirs entries = (st', Ok entries') ->
    map fst entries' = map fst entries
    /\ forall k v, truthy_url v = None -> In (k, v) entries -> In (k, v) entries'.
Proof.
  induction entries as [|[key prop] rest IH]; intros st st' appDir searchDirs entries' E.
  - injection E as <- <-. auto.
  - cbn [process_props] in E. destruct (truthy_url prop) as [u|] eqn:Eu.
    + destruct (process_ref _ _ _ _ _ _ _ _) as [st1 [new| |]]; try discriminate.
      destruct (process_props sha256_hex st1 appDir searchDirs rest)
        as [st2 [rest'| |]] eqn:Er; try discriminate.
      injection E as <- <-. destruct (IH _ _ _ _ _ Er) as [H1 H2].
      split; [cbn [map fst]; now rewrite H1|].
      intros k v Hv [Hin|Hin].
      * injection Hin as <- <-. congruence.
      * right. now apply H2.
    + destruct (process_props sha256_hex st appDir searchDirs rest)
        as [st2 [rest'| |]] eqn:Er; try discriminate.
      injection E as <- <-. destruct (IH _ _ _ _ _ Er) as [H1 H2].
      split; [cbn [map fst]; now rewrite H1|].
      intros k v Hv [Hin|Hin]; [now left|right; now apply H2].
Qed.

(** [processAssets] on a blueprint object as [JSON.parse] returns
    them: the blueprint it returns has the same keys in the same
    order, and every field other than [model], [image] and [props] is
    as it was. *)
Theorem processAssets_frame (fs : F) (b : props) (appDir : jsstring)
    (searchDirs : list jsstring) (st : build_state) (v : json) :
  keys_in_order 0 false b = true ->
  processAssets sha256_hex fs (JObj b) appDir searchDirs = (st, Ok v) ->
  exists b',
    v = JObj b'
    /\ map fst b' = map fst b
    /\ forall k, k <> lit "model" -> k <> lit "image" -> k <> lit "props" ->
         obj_get k b' = obj_get k b.
Proof.
  intros Hord. unfold processAssets, spread_into. cbn [own_props].
  fold (assign_all [] b). rewrite assign_all_well_formed by exact Hord.
  destruct (process_model _ _ _ _ b) as [st1 [b1| |]] eqn:E1; cbn [then_do];
    try discriminate.
  destruct (process_image _ _ _ _ b1) as [st2 [b2| |]] eqn:E2; cbn [then_do];
    try discriminate.
  destruct (process_all_props _ _ _ _ b2) as [st3 [b3| |]] eqn:E3; try discriminate.
  intros E. injection E as <- <-.
  apply process_model_frame in E1 as [K1 G1].
  apply process_image_frame in E2 as [K2 G2].
  apply process_all_props_frame in E3 as [K3 G3].
  exists b3. split; [reflexivity|]. split; [congruence|].
  intros k N1 N2 N3. rewrite G3, G2, G1 by assumption. reflexivity.
Qed.

End Frame.

Lemma processAssets_frame_witness :
  exists b',
    JObj [(lit "name", JStr (lit "car"));
          (lit "model", JStr (lit "asset://" ++ demo_digest [1; 2; 3] ++ lit ".glb"));
          (lit "author", JStr (lit "ann"))] = JObj b'
    /\ map fst b'
       = map fst [(lit "name", JStr (lit "car")); (lit "model", JStr (lit "asset://car.glb"));
                  (lit "author", JStr (lit "ann"))]
    /\ forall k, k <> lit "model" -> k <> lit "image" -> k <> lit "props" ->
         obj_get k b'
         = obj_get k [(lit "name", JStr (lit "car"));
                      (lit "model", JStr (lit "asset://car.glb"));
                      (lit "author", JStr (lit "ann"))].
Proof.
  apply (processAssets_frame demo_digest c5_disk
           [(lit "name", JStr (lit "car")); (lit "model", JStr (lit "asset://car.glb"));
            (lit "author", JStr (lit "ann"))]
           (lit "build") [lit "assets"]
           (fst (processAssets demo_digest c5_disk
                   (JObj [(lit "name", JStr (lit "car"));
                          (lit "model", JStr (lit "asset://car.glb"));
                          (lit "author", JStr (lit "ann"))])
                   (lit "build") [lit "assets"]))).
  - vm_compute. reflexivity.
  - vm_compute. reflexivity.
Defined.

(** ** The header recovery on printable text *)

Lemma span_digits_app (s d r : jsstring) : span_digits s = (d, r) -> s = d ++ r.
Proof.
  revert d r. induction s as [|c s IH]; intros d r E; cbn [span_digits] in E.
  - now injection E as <- <-.
  - destruct (is_digit c).
    + destruct (span_digits s) as [d' r'] eqn:Es. injection E as <- <-.
      cbn [app]. f_equal. now apply IH.
    + now injection E as <- <-.
Qed.

Lemma take_to_quote_app (s a b : jsstring) :
  take_to_quote s = Some (a, b) -> s = a ++ 34 :: b.
Proof.
  revert a b. induction s as [|c s IH]; intros a b E; cbn [take_to_quote] in E;
    [discriminate|].
  destruct (Z.eqb_spec c 34) as [->|N].
  - now injection E as <- <-.
  - destruct (take_to_quote s) as [[a' b']|] eqn:Es; [|discriminate].
    injection E as <- <-. cbn [app]. f_equal. now apply IH.
Qed.

(** A match of the pattern is a non-empty prefix of the input. *)
Lemma match_field_prefix (s m : jsstring) :
  match_field s = Some m -> exists c m' t, m = c :: m' /\ s = c :: m' ++ t.
Proof.
  unfold match_field. destruct s as [|c r]; [discriminate|].
  destruct (Z.eqb_spec c 34) as [->|N]; [|discriminate].
  set (name := if startsWith r (lit "message") then Some (lit "message")
               else if startsWith r (lit "emoji") then Some (lit "emoji") else None).
  assert (Hname : forall nm, name = Some nm -> r = nm ++ skipn (List.length nm) r).
  { intros nm E. unfold name in E.
    destruct (startsWith r (lit "message")) eqn:E1.
    - injection E as <-. now apply startsWith_split.
    - destruct (startsWith r (lit "emoji")) eqn:E2; [|discriminate].
      injection E as <-. now apply startsWith_split. }
  destruct name as [nm|]; [|discriminate].
  specialize (Hname nm eq_refl).
  destruct (span_digits (skipn (List.length nm) r)) as [ds r2] eqn:Es.
  apply span_digits_app in Es.
  destruct (startsWith r2 [34; 58; 34]) eqn:E3; [|discriminate].
  apply startsWith_split in E3.
  destruct (take_to_quote (skipn 3 r2)) as [[body rest]|] eqn:Et; [|discriminate].
  apply take_to_quote_app in Et.
  intros E. injection E as <-.
  exists 34, (nm ++ ds ++ [34; 58; 34] ++ body ++ [34]), rest.
  split; [reflexivity|]. f_equal.
  rewrite Hname at 1. rewrite Es. rewrite E3 at 1.
  change (List.length [34; 58; 34]) with 3%nat. rewrite Et.
  rewrite <- !app_assoc. reflexivity.
Qed.

Lemma strip_printable (s : jsstring) :
  forallb printable s = true -> strip_nonprintable s = s.
Proof.
  unfold strip_nonprintable. induction s as [|c s IH]; [reflexivity|].
  cbn [forallb filter]. intros E. apply andb_true_iff in E as [Ec Es].
  rewrite Ec. f_equal. auto.
Qed.

Lemma forallb_skipn {A} (f : A -> bool) (n : nat) (l : list A) :
  forallb f l = true -> forallb f (skipn n l) = true.
Proof.
  revert l. induction n as [|n IH]; intros l E; [exact E|].
  destruct l as [|a l]; [reflexivity|]. cbn [skipn]. cbn [forallb] in E.
  apply andb_true_iff in E as [_ E]. auto.
Qed.

(** On printable text every match is replaced by itself. *)
Lemma fix_fields_printable (s : jsstring) :
  forall skip, forallb printable s = true -> fix_fields skip s = skipn skip s.
Proof.
  induction s as [|c s IH]; intros skip Hs.
  - now destruct skip.
  - pose proof Hs as Hcs. cbn [forallb] in Hcs. apply andb_true_iff in Hcs as [Hc Hs'].
    cbn [fix_fields]. destruct skip as [|k]; [|now apply IH].
    destruct (match_field (c :: s)) as [m|] eqn:Em.
    + destruct (match_field_prefix _ _ Em) as (c' & m' & t & -> & E).
      injection E as <- E. subst s.
      rewrite strip_printable.
      * rewrite IH by exact Hs'.
        replace (List.length (c :: m') - 1)%nat with (List.length m')
          by (cbn [List.length]; lia).
        cbn [skipn app]. f_equal. now rewrite skipn_app, skipn_all, Nat.sub_diag.
      * cbn [forallb]. rewrite Hc. rewrite forallb_app in Hs'.
        now apply andb_true_iff in Hs' as [Hs' _].
    + cbn [skipn]. f_equal. now apply (IH 0%nat).
Qed.

(** A header region of printable ASCII: the recovery of
    [parseHypHeader] changes nothing, it returns or throws what
    [JSON.parse] does on the region; and [importApp] fails on a
    container whose printable header region is not JSON. *)
Theorem printable_header_no_recovery (buffer : list Z) (headerSize : Z) :
  forallb printable (ab2str (ab_slice buffer 4 (4 + headerSize))) = true ->
  parseHypHeader buffer headerSize = parse (ab2str (ab_slice buffer 4 (4 + headerSize)))
  /\ (forall e, getUint32_le buffer = Ok headerSize ->
        parse (ab2str (ab_slice buffer 4 (4 + headerSize))) = Throw e ->
        importApp buffer = Throw e).
Proof.
  intros Hp.
  assert (Hh : parseHypHeader buffer headerSize
               = parse (ab2str (ab_slice buffer 4 (4 + headerSize)))).
  { unfold parseHypHeader. rewrite (fix_fields_printable _ 0%nat Hp).
    rewrite strip_printable by exact Hp. cbn [skipn].
    now destruct (parse (ab2str (ab_slice buffer 4 (4 + headerSize)))). }
  split; [exact Hh|].
  intros e Hs He. unfold importApp. rewrite Hs. cbn [bind]. rewrite He.
  cbn [try_catch]. rewrite Hh, He. reflexivity.
Qed.

Lemma printable_header_no_recovery_witness :
  parseHypHeader ([9; 0; 0; 0] ++ lit "{'a': 1}!") 9
  = parse (ab2str (ab_slice ([9; 0; 0; 0] ++ lit "{'a': 1}!") 4 (4 + 9)))
  /\ (forall e, getUint32_le ([9; 0; 0; 0] ++ lit "{'a': 1}!") = Ok 9 ->
        parse (ab2str (ab_slice ([9; 0; 0; 0] ++ lit "{'a': 1}!") 4 (4 + 9))) = Throw e ->
        importApp ([9; 0; 0; 0] ++ lit "{'a': 1}!") = Throw e).
Proof.
  apply (printable_header_no_recovery ([9; 0; 0; 0] ++ lit "{'a': 1}!") 9).
  vm_compute. reflexivity.
Defined.

(** ** What an unpack leaves as it is *)

Section Unpack.
Context {F : Type} `{FileSystem F}.

Lemma entity_errors_parsed (r : row) (rows : list row) (data : json) :
  parse_column (r_data r) = Ok data -> entity_errors (r :: rows) = entity_errors rows.
Proof. intros E. unfold entity_errors. cbn [filter]. now rewrite E. Qed.

Lemma entity_errors_bad (r : row) (rows : list row) (e : exn) :
  parse_column (r_data r) = Throw e ->
  entity_errors (r :: rows)
  = Error (lit "  - Error parsing entity data for " ++ to_string (r_id r))
      :: entity_errors rows.
Proof. intros E. unfold entity_errors. cbn [filter]. now rewrite E. Qed.

Lemma extracted_line_throws (verbose : bool) (data : json) (e : exn) :
  extracted_line verbose data = Throw e ->
  verbose = true /\ data = JNull /\ e = TypeError.
Proof.
  unfold extracted_line. destruct verbose; [|discriminate].
  destruct data; cbn; intros E; try discriminate E.
  inversion E. auto.
Qed.

Lemma extracted_line_modelled (verbose : bool) (data : json) :
  extracted_line verbose data <> Unmodelled.
Proof. unfold extracted_line. destruct verbose; [|discriminate]. now destruct data. Qed.

(** How the loop of [extractEntities] can end. *)
Lemma extract_entity_rows_outcome (outputDir : jsstring) (verbose : bool)
    (rows : list row) :
  forall w : @world F,
    (exists w', extract_entity_rows w outputDir verbose rows = (w', Ok tt)
                /\ w_log w' = w_log w ++ entity_errors rows)
    \/ (exists w' before r after data e,
          rows = before ++ r :: after
          /\ parse_column (r_data r) = Ok data
          /\ (writeFileText (w_fs w')
                (Path.join outputDir (to_string (r_id r) ++ lit ".json"))
                (stringify_pretty (JObj (full_record r data))) = Throw e
              \/ (verbose = true /\ data = JNull /\ e = TypeError
                  /\ exists fs0,
                       writeFileText fs0
                         (Path.join outputDir (to_string (r_id r) ++ lit ".json"))
                         (stringify_pretty (JObj (full_record r data)))
                       = Ok (w_fs w')))
          /\ extract_entity_rows w outputDir verbose rows = (w', Throw e)
          /\ w_log w' = w_log w ++ entity_errors before)
    \/ (exists w' before r after,
          rows = before ++ r :: after
          /\ parse_column (r_data r) = Unmodelled
          /\ extract_entity_rows w outputDir verbose rows = (w', Unmodelled)
          /\ w_log w' = w_log w ++ entity_errors before).
Proof.
  induction rows as [|r rows IH]; intros w.
  - left. exists w. split; [reflexivity|]. unfold entity_errors. cbn. now rewrite app_nil_r.
  - cbn [extract_entity_rows].
    destruct (parse_column (r_data r)) as [data|e|] eqn:Ep.
    + destruct (writeFileText (w_fs w) _ _) as [fs'|e|] eqn:Ew; cbn [of_result].
      * destruct (extracted_line verbose data) as [[]|e|] eqn:El; cbn [of_result].
        -- destruct (IH (with_fs w fs'))
             as [(w' & E & L)
                |[(w' & before & r' & after & data' & e & -> & Ep' & Ew' & E & L)
                 |(w' & before & r' & after & -> & Ep' & E & L)]].
           ++ left. exists w'. split; [exact E|].
              now rewrite (entity_errors_parsed r rows data Ep).
           ++ right. left. exists w', (r :: before), r', after, data', e.
              rewrite (entity_errors_parsed r before data Ep). auto.
           ++ right. right. exists w', (r :: before), r', after.
              rewrite (entity_errors_parsed r before data Ep). auto.
        -- right. left. exists (with_fs w fs'), [], r, rows, data, e.
           destruct (extracted_line_throws _ _ _ El) as (Hv & Hd & He).
           split; [reflexivity|]. split; [exact Ep|]. split.
           ++ right. repeat split; try assumption. exists (w_fs w). exact Ew.
           ++ split; [reflexivity|]. unfold entity_errors. cbn. now rewrite app_nil_r.
        -- exfalso. exact (extracted_line_modelled _ _ El).
      * right. left. exists w, [], r, rows, data, e.
        split; [reflexivity|]. split; [exact Ep|]. split; [left; exact Ew|].
        split; [reflexivity|]. unfold entity_errors. cbn. now rewrite app_nil_r.
      * exfalso. unfold writeFileText, writeFile in Ew. now apply lift_modelled in Ew.
    + set (w1 := log_error w (lit "  - Error parsing entity data for "
                                ++ to_string (r_id r))).
      assert (L1 : forall l, w_log w1 ++ l
                   = w_log w ++ Error (lit "  - Error parsing entity data for "
                                         ++ to_string (r_id r)) :: l).
      { intros l. unfold w1. cbn [log_error w_log]. now rewrite <- app_assoc. }
      destruct (IH w1)
        as [(w' & E & L)
           |[(w' & before & r' & after & data' & e' & -> & Ep' & Ew' & E & L)
            |(w' & before & r' & after & -> & Ep' & E & L)]].
      * left. exists w'. split; [exact E|].
        now rewrite (entity_errors_bad r rows e Ep), L, L1.
      * right. left. exists w', (r :: before), r', after, data', e'.
        rewrite (entity_errors_bad r before e Ep), L, L1. auto.
      * right. right. exists w', (r :: before), r', after.
        rewrite (entity_errors_bad r before e Ep), L, L1. auto.
    + right. right. exists w, [], r, rows.
      repeat split; try assumption; try reflexivity.
      unfold entity_errors. cbn. now rewrite app_nil_r.
Qed.

(** [extractEntities] passes over the rows whose data is not JSON:
    for each of them it prints one error, in the order of the rows,
    and goes on. When it returns it has printed exactly these errors.
    It ends before the last row only at a row whose data does parse,
    with the errors of the rows before that row: either the file of
    that row cannot be written, and the error is that of the write; or
    the run has [-v] and the data is [null], and the error is the
    [TypeError] of the line printed once the file is written. Or it
    ends at a row whose data is outside what the parser here
    handles. *)
Theorem extractEntities_reports_bad_rows (w : @world F) (outputDir : jsstring)
    (verbose : bool) (rows : list row) :
  entities (w_db w) = Some rows ->
  (exists w', extractEntities w outputDir verbose = (w', Ok tt)
              /\ w_log w' = w_log w ++ entity_errors rows)
  \/ (exists w' before r after data e,
        rows = before ++ r :: after
        /\ parse_column (r_data r) = Ok data
        /\ (writeFileText (w_fs w')
              (Path.join outputDir (to_string (r_id r) ++ lit ".json"))
              (stringify_pretty (JObj (full_record r data))) = Throw e
            \/ (verbose = true /\ data = JNull /\ e = TypeError
                /\ exists fs0,
                     writeFileText fs0
                       (Path.join outputDir (to_string (r_id r) ++ lit ".json"))
                       (stringify_pretty (JObj (full_record r data)))
                     = Ok (w_fs w')))
        /\ extractEntities w outputDir verbose = (w', Throw e)
        /\ w_log w' = w_log w ++ entity_errors before)
  \/ (exists w' before r after,
        rows = before ++ r :: after
        /\ parse_column (r_data r) = Unmodelled
        /\ extractEntities w outputDir verbose = (w', Unmodelled)
        /\ w_log w' = w_log w ++ entity_errors before).
Proof.
  intros Hrows. unfold extractEntities. rewrite Hrows.
  apply extract_entity_rows_outcome.
Qed.

End Unpack.

(** Three rows of which the second is not JSON: the run returns with
    the one error of that row, and the row after it has its file. *)
Lemma extractEntities_reports_bad_rows_witness :
  entities (w_db entities_world)
  = Some [ entity_row;
           {| r_id := JStr (lit "bad"); r_data := JStr (lit "not json");
              r_createdAt := JStr (lit "t0"); r_updatedAt := JStr (lit "t0") |};
           second_entity_row ]
  /\ snd (extractEntities entities_world (lit "out") true) = Ok tt
  /\ w_log (fst (extractEntities entities_world (lit "out") true))
     = [Error (lit "  - Error parsing entity data for bad")]
  /\ existsSync (w_fs (fst (extractEntities entities_world (lit "out") true)))
       (lit "out/e1.json") = true
  /\ existsSync (w_fs (fst (extractEntities entities_world (lit "out") true)))
       (lit "out/bad.json") = false
  /\ existsSync (w_fs (fst (extractEntities entities_world (lit "out") true)))
       (lit "out/e2.json") = true.
Proof.
  pose proof (extractEntities_reports_bad_rows entities_world (lit "out") true _ eq_refl)
    as Hout.
  assert (Hr : snd (extractEntities entities_world (lit "out") true) = Ok tt)
    by (vm_compute; reflexivity).
  split; [reflexivity|]. split; [exact Hr|]. split.
  - destruct Hout as [(w' & E & L)|[(w' & b & r & a & d & e & _ & _ & _ & E & _)
                                   |(w' & b & r & a & _ & _ & E & _)]].
    + rewrite E. cbn [fst]. rewrite L. vm_compute. reflexivity.
    + rewrite E in Hr. discriminate Hr.
    + rewrite E in Hr. discriminate Hr.
  - repeat split; vm_compute; reflexivity.
Defined.

(** A row whose data is the text [null] between two rows of objects:
    without [-v] the three files are written and the run returns;
    with [-v] the run ends at that row, after its file is written, and
    the row after it has no file. *)
Lemma extractEntities_null_row :
  snd (extractEntities null_row_world (lit "out") false) = Ok tt
  /\ existsSync (w_fs (fst (extractEntities null_row_world (lit "out") false)))
       (lit "out/e2.json") = true
  /\ snd (extractEntities null_row_world (lit "out") true) = Throw TypeError
  /\ existsSync (w_fs (fst (extractEntities null_row_world (lit "out") true)))
       (lit "out/n.json") = true
  /\ existsSync (w_fs (fst (extractEntities null_row_world (lit "out") true)))
       (lit "out/e2.json") = false.
Proof. repeat split; vm_compute; reflexivity. Qed.

(** [JSON.parse(JSON.stringify(v, null, 2))] is [v], for every value
    [v] whose strings are code units, whose numbers are integers a
    double holds exactly, and whose objects have their keys in
    enumeration order: what the exchange writes with indentation, it
    reads back. The fuel [parse] gives the parser is enough. *)
Theorem parse_stringify_pretty (v : json) :
  well_formed v = true -> parse (stringify_pretty v) = Ok v.
Proof.
  intros Hwf.
  assert (Hfuel : (parse_cost v <= 2 * List.length (stringify_at 0 v) + 2)%nat)
    by (pose proof (parse_cost_bound_at v 0%nat); lia).
  pose proof (parse_value_stringify_at v Hwf 0%nat _ [] Hfuel eq_refl) as P.
  rewrite app_nil_r in P. unfold parse, stringify_pretty. now rewrite P.
Qed.

Lemma parse_stringify_pretty_witness :
  parse (stringify_pretty
           (JObj [(lit "id", JStr (lit "e1"));
                  (lit "position", JArr [JNum 0; JNum (-12); JNum 7]);
                  (lit "state", JObj []);
                  (lit "tags", JArr []);
                  (lit "label", JStr [34; 10; 55357; 56832]);
                  (lit "pinned", JBool false);
                  (lit "mover", JNull)]))
  = Ok (JObj [(lit "id", JStr (lit "e1"));
              (lit "position", JArr [JNum 0; JNum (-12); JNum 7]);
              (lit "state", JObj []);
              (lit "tags", JArr []);
              (lit "label", JStr [34; 10; 55357; 56832]);
              (lit "pinned", JBool false);
              (lit "mover", JNull)]).
Proof.
  apply parse_stringify_pretty. vm_compute. reflexivity.
Defined.

(** ** A blueprint without asset references, unpacked and packed *)

Lemma no_reference_spec (x : option json) :
  no_reference x = true -> asset_ref x = Ok None.
Proof.
  unfold no_reference. destruct (asset_ref x) as [[r|]| |]; try discriminate. reflexivity.
Qed.

Lemma obj_replace_same (k : jsstring) (v : json) (o : props) :
  obj_get k o = Some v -> obj_replace k v o = o.
Proof.
  induction o as [|[k' v'] o IH]; [reflexivity|]. cbn [obj_get obj_replace].
  destruct (str_eqb k k').
  - intros E. now injection E as ->.
  - intros E. now rewrite IH.
Qed.

Lemma obj_set_same (k : jsstring) (v : json) (o : props) :
  obj_get k o = Some v -> obj_set k v o = o.
Proof.
  intros E. unfold obj_set. rewrite obj_has_get, E. now apply obj_replace_same.
Qed.

Lemma map_snd_index_props (l : list json) :
  forall i, map snd (index_props i l) = l.
Proof.
  induction l as [|v l IH]; intros i; [reflexivity|].
  cbn [index_props map snd]. now rewrite IH.
Qed.

Lemma rebuild_props_same (ps : json) : rebuild_props ps (own_props ps) = ps.
Proof.
  destruct ps as [| | | |l|o]; try reflexivity.
  cbn [rebuild_props own_props]. now rewrite map_snd_index_props.
Qed.

(** ** References that are not found *)

Section Unresolved.
Context {F : Type} `{FileSystem F}.
Variable sha256_hex : list Z -> jsstring.













End Unresolved.




Lemma restore_props_plain (assetMap : props) (entries : props) :
  forallb (fun kv => no_reference (url_of (Some (snd kv)))) entries = true ->
  restore_props assetMap entries = Ok entries.
Proof.
  induction entries as [|[key prop] rest IH]; intros Hp; [reflexivity|].
  cbn [forallb snd] in Hp. apply andb_true_iff in Hp as [Hp Hr].
  cbn [restore_props]. unfold restore_ref. rewrite (no_reference_spec _ Hp).
  cbn [bind]. rewrite IH by exact Hr. reflexivity.
Qed.

(** The reverse rewrite leaves a blueprint without references as it
    is, whatever the manifest. *)
Lemma rewrite_reverse_plain (assetMap b : props) :
  without_references b = true -> rewrite_reverse assetMap b = Ok b.
Proof.
  unfold without_references. intros Hb.
  apply andb_true_iff in Hb as [Hb Hp]. apply andb_true_iff in Hb as [Hb Hi].
  apply andb_true_iff in Hb as [Hm Hs].
  unfold rewrite_reverse, restore_ref.
  rewrite (no_reference_spec _ Hm). cbn [bind set_str_opt].
  rewrite (no_reference_spec _ Hs). cbn [bind set_str_opt].
  rewrite (no_reference_spec _ Hi). cbn [bind set_image_opt].
  destruct (obj_get (lit "props") b) as [ps|] eqn:Ep; [|reflexivity].
  destruct (truthy ps); [|reflexivity].
  rewrite restore_props_plain by exact Hp. cbn [bind].
  rewrite rebuild_props_same. now rewrite obj_set_same.
Qed.

Section Plain.
Context {F : Type} `{FileSystem F}.
Variable sha256_hex : list Z -> jsstring.

Lemma store_props_plain (st : rewrite_state) (src glob : jsstring) (id : json)
    (entries : props) :
  forallb (fun kv => no_reference (url_of (Some (snd kv)))) entries = true ->
  store_props sha256_hex st src glob id entries = (st, Ok entries).
Proof.
  induction entries as [|[key prop] rest IH]; intros Hp; [reflexivity|].
  cbn [forallb snd] in Hp. apply andb_true_iff in Hp as [Hp Hr].
  cbn [store_props]. unfold store_field. rewrite (no_reference_spec _ Hp).
  rewrite IH by exact Hr. reflexivity.
Qed.

(** The forward rewrite leaves a blueprint without references, and
    the state, as they are. *)
Lemma rewrite_forward_plain (st : rewrite_state) (src glob : jsstring) (id : json)
    (b : props) :
  without_references b = true ->
  rewrite_forward sha256_hex st src glob id b = (st, Ok b).
Proof.
  unfold without_references. intros Hb.
  apply andb_true_iff in Hb as [Hb Hp]. apply andb_true_iff in Hb as [Hb Hi].
  apply andb_true_iff in Hb as [Hm Hs].
  unfold rewrite_forward, store_field.
  rewrite (no_reference_spec _ Hm). cbn [rw_map rw_then set_str_opt].
  rewrite (no_reference_spec _ Hs). cbn [rw_map rw_then set_str_opt].
  rewrite (no_reference_spec _ Hi). cbn [rw_map rw_then set_image_opt].
  destruct (obj_get (lit "props") b) as [ps|] eqn:Ep; [|reflexivity].
  destruct (truthy ps); [|reflexivity].
  rewrite store_props_plain by exact Hp. cbn [rw_map].
  rewrite rebuild_props_same. now rewrite obj_set_same.
Qed.

End Plain.

(** The record written for a row whose data starts with the row's id
    and has no time stamp of its own: the three columns, then the
    rest of the data; its payload is the data. *)
Lemma full_record_shape (r : row) (d : props) :
  well_formed (JObj ((lit "id", r_id r) :: d)) = true ->
  well_formed (r_createdAt r) = true -> well_formed (r_updatedAt r) = true ->
  obj_has (lit "createdAt") d = false -> obj_has (lit "updatedAt") d = false ->
  full_record r (JObj ((lit "id", r_id r) :: d))
  = [(lit "id", r_id r); (lit "createdAt", r_createdAt r);
     (lit "updatedAt", r_updatedAt r)] ++ d
  /\ well_formed (JObj (full_record r (JObj ((lit "id", r_id r) :: d)))) = true
  /\ payload_copy (JObj (full_record r (JObj ((lit "id", r_id r) :: d))))
     = (lit "id", r_id r) :: d.
Proof.
  intros Hwf Hc Hu Hnc Hnu.
  set (o := (lit "id", r_id r) :: d) in *.
  assert (Hid : well_formed (r_id r) = true).
  { rewrite well_formed_obj in Hwf. apply andb_true_iff in Hwf as [_ Hwf].
    cbn [o forallb] in Hwf. apply andb_true_iff in Hwf as [Hwf _].
    unfold entry_ok in Hwf. cbn [fst snd] in Hwf. now apply andb_true_iff in Hwf as [_ Hwf]. }
  assert (Hni : obj_has (lit "id") d = false /\ keys_in_order 0 true d = true).
  { rewrite well_formed_obj in Hwf. apply andb_true_iff in Hwf as [Hwf _].
    cbn [o keys_in_order] in Hwf. apply andb_true_iff in Hwf as [H1 H2].
    apply negb_true_iff in H1. split; [exact H1|exact H2]. }
  destruct Hni as [Hni Hord].
  assert (Hfull : full_record r (JObj o)
                  = [(lit "id", r_id r); (lit "createdAt", r_createdAt r);
                     (lit "updatedAt", r_updatedAt r)] ++ d).
  { rewrite full_record_obj. unfold assign_all, o. cbn [fold_left fst snd].
    change (obj_set (lit "id") (r_id r) _)
      with [(lit "id", r_id r); (lit "createdAt", r_createdAt r);
            (lit "updatedAt", r_updatedAt r)].
    apply (assign_all_in_order d _ 0 true Hord); [|discriminate].
    intros k Hk. cbn [obj_has].
    destruct (str_eqb k (lit "id")) eqn:E1;
      [apply str_eqb_eq in E1; subst k; congruence|].
    destruct (str_eqb k (lit "createdAt")) eqn:E2;
      [apply str_eqb_eq in E2; subst k; congruence|].
    destruct (str_eqb k (lit "updatedAt")) eqn:E3;
      [apply str_eqb_eq in E3; subst k; congruence|].
    reflexivity. }
  pose proof (well_formed_full_record r o Hid Hc Hu Hwf) as Hwfull.
  split; [exact Hfull|]. split; [exact Hwfull|].
  rewrite payload_copy_well_formed.
  2:{ rewrite well_formed_obj in Hwfull. now apply andb_true_iff in Hwfull as [Hw _]. }
  rewrite Hfull. cbn [app obj_delete].
  change (str_eqb (lit "createdAt") (lit "id")) with false.
  change (str_eqb (lit "createdAt") (lit "createdAt")) with true.
  change (str_eqb (lit "createdAt") (lit "updatedAt")) with false.
  cbv iota. cbn [obj_delete].
  change (str_eqb (lit "updatedAt") (lit "id")) with false.
  change (str_eqb (lit "updatedAt") (lit "updatedAt")) with true.
  cbv iota.
  rewrite (obj_delete_absent (lit "createdAt") d Hnc).
  now rewrite (obj_delete_absent (lit "updatedAt") d Hnu).
Qed.

Lemma without_references_ext (b1 b2 : props) :
  obj_get (lit "model") b1 = obj_get (lit "model") b2 ->
  obj_get (lit "script") b1 = obj_get (lit "script") b2 ->
  obj_get (lit "image") b1 = obj_get (lit "image") b2 ->
  obj_get (lit "props") b1 = obj_get (lit "props") b2 ->
  without_references b1 = without_references b2.
Proof. unfold without_references. now intros -> -> -> ->. Qed.

(** A blueprint row whose data is the text of an object that starts
    with the row's id, has no [createdAt] and no [updatedAt], and
    holds no asset reference: [extractBlueprints] writes one file for
    it and adds nothing to the manifest, and [importBlueprints],
    reading a file of that text, inserts the row as it was, whatever
    the manifest. *)
Theorem blueprint_roundtrip_plain {F} `{FileSystem F} (sha256_hex : list Z -> jsstring)
    (w w' : world) (assets : list manifest_asset)
    (outputDir sourceAssetsDir globalAssetsDir inputDir file : jsstring)
    (verbose : bool) (r : row) (d : props) :
  r_data r = JStr (stringify (JObj ((lit "id", r_id r) :: d))) ->
  well_formed (JObj ((lit "id", r_id r) :: d)) = true ->
  well_formed (r_createdAt r) = true -> well_formed (r_updatedAt r) = true ->
  obj_has (lit "createdAt") d = false -> obj_has (lit "updatedAt") d = false ->
  without_references d = true ->
  exists text,
    extract_blueprint_rows sha256_hex w assets outputDir sourceAssetsDir globalAssetsDir
      verbose [r]
    = (of_result w
         (writeFileText (w_fs w)
            (Path.join outputDir (to_string (r_id r) ++ lit ".json")) text)
         (fun fs' => done (with_fs w fs')),
       assets)
    /\ (forall assetMap,
          readFileUtf8 (w_fs w') (Path.join inputDir file) = Ok text ->
          import_blueprint_files w' assetMap inputDir [file]
          = of_result w' (insert r_id r (blueprints (w_db w')))
              (fun rows => done (with_blueprints w' rows))).
Proof.
  intros Hdata Hwf Hc Hu Hnc Hnu Hplain.
  destruct (full_record_shape r d Hwf Hc Hu Hnc Hnu) as (Hfull & Hwfull & Hpay).
  set (o := (lit "id", r_id r) :: d) in *.
  assert (Ho : without_references o = true).
  { rewrite <- Hplain. now apply without_references_ext. }
  assert (Hf : without_references (full_record r (JObj o)) = true).
  { rewrite <- Hplain, Hfull. now apply without_references_ext. }
  exists (stringify_pretty (JObj (full_record r (JObj o)))). split.
  - cbn [extract_blueprint_rows]. rewrite Hdata, parse_column_text.
    rewrite parse_after_stringify by exact Hwf.
    rewrite rewrite_forward_plain by exact Hf. cbn [rs_fs rs_log rs_assets].
    destruct w as [fs db log]. cbn [w_fs w_db w_log].
    destruct (writeFileText fs _ _); destruct verbose; reflexivity.
  - intros assetMap Hread. cbn [import_blueprint_files]. rewrite Hread. cbn [of_result].
    rewrite parse_after_stringify_pretty by exact Hwfull. cbn [of_result get_prop].
    rewrite Hpay. rewrite rewrite_reverse_plain by exact Ho. cbn [of_result].
    rewrite Hfull. cbn [app obj_get].
    change (str_eqb (lit "id") (lit "id")) with true.
    change (str_eqb (lit "createdAt") (lit "id")) with false.
    change (str_eqb (lit "createdAt") (lit "createdAt")) with true.
    change (str_eqb (lit "updatedAt") (lit "id")) with false.
    change (str_eqb (lit "updatedAt") (lit "createdAt")) with false.
    change (str_eqb (lit "updatedAt") (lit "updatedAt")) with true.
    cbv iota. cbn [column]. fold o. rewrite <- Hdata. destruct r; reflexivity.
Qed.

Lemma blueprint_roundtrip_plain_witness :
  exists text,
    extract_blueprint_rows demo_digest bare_world [] (lit "out") (lit "src") (lit "assets")
      true [plain_blueprint_row]
    = (of_result bare_world
         (writeFileText (w_fs bare_world)
            (Path.join (lit "out") (to_string (r_id plain_blueprint_row) ++ lit ".json"))
            text)
         (fun fs' => done (with_fs bare_world fs')),
       [])
    /\ (forall assetMap,
          readFileUtf8 (w_fs bare_world) (Path.join (lit "in") (lit "b7.json")) = Ok text ->
          import_blueprint_files bare_world assetMap (lit "in") [lit "b7.json"]
          = of_result bare_world (insert r_id plain_blueprint_row (blueprints (w_db bare_world)))
              (fun rows => done (with_blueprints bare_world rows))).
Proof.
  apply (blueprint_roundtrip_plain demo_digest bare_world bare_world [] (lit "out")
           (lit "src") (lit "assets") (lit "in") (lit "b7.json") true plain_blueprint_row
           [(lit "version", JNum 3); (lit "name", JStr (lit "sign")); (lit "model", JNull);
            (lit "props", JObj [(lit "text", JObj [(lit "value", JStr (lit "hi"))])])]);
    vm_compute; reflexivity.
Defined.

(** ** The text of a byte sequence *)

Lemma is_unit_intro (c : Z) : 0 <= c < 65536 -> is_unit c = true.
Proof. unfold is_unit. lia. Qed.

Lemma lor_lt_pow2 (a b n : Z) :
  0 <= n -> 0 <= a < 2 ^ n -> 0 <= b < 2 ^ n -> 0 <= Z.lor a b < 2 ^ n.
Proof.
  intros Hn Ha Hb.
  assert (H0 : 0 <= Z.lor a b) by (apply Z.lor_nonneg; lia).
  split; [exact H0|].
  destruct (Z.eq_dec (Z.lor a b) 0) as [E|E]; [rewrite E; lia|].
  apply Z.log2_lt_pow2; [lia|].
  rewrite Z.log2_lor by lia.
  assert (La : Z.log2 a < n \/ a = 0).
  { destruct (Z.eq_dec a 0); [now right|left; apply Z.log2_lt_pow2; lia]. }
  assert (Lb : Z.log2 b < n \/ b = 0).
  { destruct (Z.eq_dec b 0); [now right|left; apply Z.log2_lt_pow2; lia]. }
  assert (Hn0 : 0 < n).
  { destruct (Z.eq_dec n 0) as [->|]; [|lia].
    change (2 ^ 0) with 1 in *. assert (a = 0) by lia. assert (b = 0) by lia.
    subst. now contradiction E. }
  destruct La as [La| ->], Lb as [Lb| ->]; cbn [Z.log2]; lia.
Qed.

Lemma land_ones_bound (a k : Z) : 0 <= k -> 0 <= Z.land a (Z.ones k) < 2 ^ k.
Proof.
  intros Hk. rewrite Z.land_ones by exact Hk. apply Z.mod_pos_bound. lia.
Qed.



Lemma classify_start (b : Z) (p : Utf8.pending) :
  Utf8.classify b = Utf8.Start p -> pending_ok p.
Proof.
  unfold Utf8.classify.
  destruct ((0 <=? b) && (b <=? 127)); [discriminate|].
  destruct ((194 <=? b) && (b <=? 223)).
  { intros E. injection E as <-. left. cbn. split; [reflexivity|].
    pose proof (land_ones_bound b 5 ltac:(lia)) as Hb. change (Z.ones 5) with 31 in Hb.
    change (2 ^ 5) with 32 in Hb. lia. }
  destruct ((224 <=? b) && (b <=? 239)).
  { intros E. injection E as <-. right. left. cbn. split; [reflexivity|].
    pose proof (land_ones_bound b 4 ltac:(lia)) as Hb. change (Z.ones 4) with 15 in Hb.
    change (2 ^ 4) with 16 in Hb. lia. }
  destruct ((240 <=? b) && (b <=? 244)); [|discriminate].
  intros E. injection E as <-. right. right. cbn. split; [reflexivity|].
  pose proof (land_ones_bound b 3 ltac:(lia)) as Hb. change (Z.ones 3) with 7 in Hb.
  change (2 ^ 3) with 8 in Hb. lia.
Qed.

Lemma classify_single (b c : Z) : Utf8.classify b = Utf8.Single c -> 0 <= c <= 127.
Proof.
  unfold Utf8.classify.
  destruct ((0 <=? b) && (b <=? 127)) eqn:E.
  - intros H. injection H as <-. lia.
  - destruct ((194 <=? b) && (b <=? 223)); [discriminate|].
    destruct ((224 <=? b) && (b <=? 239)); [discriminate|].
    destruct ((240 <=? b) && (b <=? 244)); discriminate.
Qed.

Lemma next_cp_bound (c b n : Z) :
  0 <= n -> 0 <= c < 2 ^ n ->
  0 <= Z.lor (Z.shiftl c 6) (Z.land b 63) < 2 ^ (n + 6).
Proof.
  intros Hn Hc. apply lor_lt_pow2; [lia| |].
  - rewrite Z.shiftl_mul_pow2 by lia. rewrite Z.pow_add_r by lia.
    change (2 ^ 6) with 64. nia.
  - pose proof (land_ones_bound b 6 ltac:(lia)) as Hb. change (Z.ones 6) with 63 in Hb.
    rewrite Z.pow_add_r by lia. change (2 ^ 6) with 64 in *.
    assert (0 < 2 ^ n) by (apply Z.pow_pos_nonneg; lia). nia.
Qed.

Lemma units_of_cp (c : Z) : 0 <= c < 2097152 -> forallb is_unit (Utf8.units c) = true.
Proof.
  intros Hc. unfold Utf8.units. destruct (Z.ltb_spec c 65536).
  - cbn [forallb]. rewrite is_unit_intro by lia. reflexivity.
  - cbn [forallb]. rewrite !is_unit_intro; [reflexivity| |].
    + pose proof (land_ones_bound (c - 65536) 10 ltac:(lia)) as Hb.
      change (Z.ones 10) with 1023 in Hb. change (2 ^ 10) with 1024 in Hb. lia.
    + rewrite Z.shiftr_div_pow2 by lia. change (2 ^ 10) with 1024.
      assert (0 <= (c - 65536) / 1024 < 1984).
      { split; [apply Z.div_pos; lia|apply Z.div_lt_upper_bound; lia]. }
      lia.
Qed.

(** The decoder returns code units, whatever the bytes. *)
Lemma units_decode_from (bs : list Z) :
  forall st,
    match st with
    | Some p => pending_ok p
    | None => True
    end ->
    forallb is_unit (Utf8.decode_from st bs) = true.
Proof.
  induction bs as [|b bs IH]; intros st Hst.
  - destruct st; reflexivity.
  - cbn [Utf8.decode_from].
    assert (Hfresh : forallb is_unit
                       match Utf8.classify b with
                       | Utf8.Single c => c :: Utf8.decode_from None bs
                       | Utf8.Start p => Utf8.decode_from (Some p) bs
                       | Utf8.Invalid => 65533 :: Utf8.decode_from None bs
                       end = true).
    { destruct (Utf8.classify b) as [c|p|] eqn:Ec.
      - apply classify_single in Ec. cbn [forallb].
        rewrite is_unit_intro by lia. now rewrite (IH None).
      - apply classify_start in Ec. now apply (IH (Some p)).
      - cbn [forallb]. now rewrite (IH None). }
    destruct st as [p|]; [|exact Hfresh].
    destruct ((Utf8.lower p <=? b) && (b <=? Utf8.upper p)).
    + assert (Hc : 0 <= Z.lor (Z.shiftl (Utf8.cp p) 6) (Z.land b 63) < 2097152
                   /\ (Utf8.needed p <> 1 ->
                       pending_ok {| Utf8.needed := Utf8.needed p - 1;
                                     Utf8.cp := Z.lor (Z.shiftl (Utf8.cp p) 6) (Z.land b 63);
                                     Utf8.lower := 128; Utf8.upper := 191 |})).
      { destruct Hst as [[Hn Hcp]|[[Hn Hcp]|[Hn Hcp]]].
        - pose proof (next_cp_bound (Utf8.cp p) b 15 ltac:(lia) Hcp) as Hb.
          change (2 ^ (15 + 6)) with 2097152 in Hb. split; [exact Hb|]. intros N. lia.
        - pose proof (next_cp_bound (Utf8.cp p) b 9 ltac:(lia) Hcp) as Hb.
          change (2 ^ (9 + 6)) with 32768 in Hb. split; [lia|]. intros _.
          left. cbn. split; [lia|exact Hb].
        - pose proof (next_cp_bound (Utf8.cp p) b 3 ltac:(lia) Hcp) as Hb.
          change (2 ^ (3 + 6)) with 512 in Hb. split; [lia|]. intros _.
          right. left. cbn. split; [lia|exact Hb]. }
      destruct Hc as [Hc Hnext].
      destruct (Z.eqb_spec (Utf8.needed p) 1) as [E1|N1].
      * rewrite forallb_app, units_of_cp by exact Hc. now rewrite (IH None).
      * apply (IH (Some _)). now apply Hnext.
    + cbn [forallb]. now rewrite Hfresh.
Qed.

Lemma units_ab2str (bs : list Z) : forallb is_unit (ab2str bs) = true.
Proof.
  unfold ab2str, Utf8.decode.
  repeat match goal with
         | |- context [match ?x with _ => _ end] => destruct x
         end; now apply units_decode_from.
Qed.

Lemma forallb_filter_keep {A} (f g : A -> bool) (l : list A) :
  forallb f l = true -> forallb f (filter g l) = true.
Proof.
  induction l as [|a l IH]; [reflexivity|]. cbn [forallb filter].
  intros E. apply andb_true_iff in E as [Ea El].
  destruct (g a); cbn [forallb]; [rewrite Ea|]; auto.
Qed.

Lemma units_fix_fields (s : jsstring) :
  forall skip, forallb is_unit s = true -> forallb is_unit (fix_fields skip s) = true.
Proof.
  induction s as [|c s IH]; intros skip Hs; [reflexivity|].
  pose proof Hs as Hcs. cbn [forallb] in Hcs. apply andb_true_iff in Hcs as [Hc Hs'].
  cbn [fix_fields]. destruct skip as [|k]; [|now apply IH].
  destruct (match_field (c :: s)) as [m|] eqn:Em.
  - destruct (match_field_prefix _ _ Em) as (c' & m' & t & -> & E).
    rewrite forallb_app, IH by exact Hs'. rewrite andb_true_r.
    apply forallb_filter_keep. rewrite E in Hs.
    change (c' :: m' ++ t) with ((c' :: m') ++ t) in Hs. rewrite forallb_app in Hs.
    now apply andb_true_iff in Hs as [Hs _].
  - cbn [forallb]. rewrite Hc. now apply IH.
Qed.

Lemma well_formed_get (k : jsstring) (o : props) (v : json) :
  well_formed (JObj o) = true -> obj_get k o = Some v -> well_formed v = true.
Proof.
  rewrite well_formed_obj. intros Hwf. apply andb_true_iff in Hwf as [_ Hwf].
  induction o as [|[k' v'] o IH]; [discriminate|]. cbn [obj_get].
  cbn [forallb] in Hwf. apply andb_true_iff in Hwf as [Hkv Hwf].
  destruct (str_eqb k k').
  - intros E. injection E as <-. unfold entry_ok in Hkv.
    now apply andb_true_iff in Hkv as [_ Hkv].
  - now apply IH.
Qed.

(** The header [importApp] works with is such as [JSON.parse]
    returns, whichever of the three attempts has read it. *)
Lemma importApp_header_well_formed (buffer : list Z) (headerSize : Z) (header : json) :
  try_catch (parse (ab2str (ab_slice buffer 4 (4 + headerSize))))
    (fun _ => parseHypHeader buffer headerSize) = Ok header ->
  well_formed header = true.
Proof.
  pose proof (units_ab2str (ab_slice buffer 4 (4 + headerSize))) as Hu.
  destruct (parse (ab2str (ab_slice buffer 4 (4 + headerSize)))) as [h|e|] eqn:Hp;
    cbn [try_catch]; [| |discriminate].
  - intros E. injection E as <-. exact (parse_well_formed _ _ Hp Hu).
  - unfold parseHypHeader.
    destruct (parse (fix_fields 0 _)) as [h|e2|] eqn:Hf; cbn [try_catch]; [| |discriminate].
    + intros E. injection E as <-.
      exact (parse_well_formed _ _ Hf (units_fix_fields _ 0%nat Hu)).
    + intros E. apply (parse_well_formed _ _ E).
      now apply forallb_filter_keep.
Qed.

(** The blueprint [importApp] returns is such as [JSON.parse]
    returns, whatever the bytes of the file. *)
Lemma importApp_blueprint_well_formed (buffer : list Z) (app : imported_app) (b : json) :
  importApp buffer = Ok app -> app_blueprint app = Some b -> well_formed b = true.
Proof.
  unfold importApp. destruct (getUint32_le buffer) as [n| |]; cbn [bind]; try discriminate.
  destruct (try_catch _ _) as [header| |] eqn:Eh; cbn [bind]; try discriminate.
  apply importApp_header_well_formed in Eh.
  destruct (get_prop header (lit "assets")) as [assets| |]; cbn [bind]; try discriminate.
  destruct (iterate assets) as [infos| |]; cbn [bind]; try discriminate.
  destruct (extract_assets _ _ _) as [extracted| |]; cbn [bind]; try discriminate.
  destruct (get_prop header (lit "blueprint")) as [bp| |] eqn:Eb; cbn [bind];
    try discriminate.
  intros E. injection E as <-. cbn [app_blueprint]. intros ->.
  destruct header as [| | | | |o]; cbn [get_prop] in Eb; try discriminate.
  injection Eb as Eb. now apply (well_formed_get (lit "blueprint") o).
Qed.

(** ** extractHypFile *)

Section Extracting.
Context {F : Type} `{FileSystem F}.

(** What [importApp] prints: nothing, or the one line of
    [parseHypHeader], and that line exactly when neither the header as
    read nor the header with its fields fixed parses. *)
Lemma importApp_errors_cases (buffer : list Z) :
  (importApp_errors buffer = [Error (lit "Still having JSON parsing issues:")]
   /\ exists headerSize e1 e2,
        getUint32_le buffer = Ok headerSize
        /\ parse (ab2str (ab_slice buffer 4 (4 + headerSize))) = Throw e1
        /\ parse (fix_fields 0 (ab2str (ab_slice buffer 4 (4 + headerSize)))) = Throw e2)
  \/ (importApp_errors buffer = []
      /\ forall headerSize e1 e2,
           getUint32_le buffer = Ok headerSize ->
           parse (ab2str (ab_slice buffer 4 (4 + headerSize))) = Throw e1 ->
           parse (fix_fields 0 (ab2str (ab_slice buffer 4 (4 + headerSize)))) = Throw e2 ->
           False).
Proof.
  unfold importApp_errors, parseHypHeader_errors.
  destruct (getUint32_le buffer) as [headerSize|e|].
  - destruct (parse (ab2str (ab_slice buffer 4 (4 + headerSize)))) as [v|e1|] eqn:E1.
    + right. split; [reflexivity|]. intros h e1 e2 Eh. injection Eh as <-. congruence.
    + destruct (parse (fix_fields 0 (ab2str (ab_slice buffer 4 (4 + headerSize)))))
        as [v|e2|] eqn:E2.
      * right. split; [reflexivity|]. intros h e1' e2 Eh. injection Eh as <-. congruence.
      * left. split; [reflexivity|]. now exists headerSize, e1, e2.
      * right. split; [reflexivity|]. intros h e1' e2 Eh. injection Eh as <-. congruence.
    + right. split; [reflexivity|]. intros h e1 e2 Eh. injection Eh as <-. congruence.
  - right. split; [reflexivity|]. discriminate.
  - right. split; [reflexivity|]. discriminate.
Qed.

(** [extractHypFile] writes nothing and ends the process with code 1
    when the path does not end with [.hyp], when no file is there,
    when the file cannot be read, and when it cannot be read as a
    container. In the first three cases it prints one error. In the
    fourth it prints the error of its [catch], after what [importApp]
    has printed: the line of [parseHypHeader] when neither the header
    as read nor the header with its fields fixed parses, and nothing
    otherwise. *)
Theorem extractHypFile_refuses (fs : F) (filePath outputDir : jsstring) :
  (endsWith filePath (lit ".hyp") = false ->
   extractHypFile fs filePath outputDir
   = (fs, [Error (lit "Error: File must have .hyp extension.")], Exited 1))
  /\ (endsWith filePath (lit ".hyp") = true -> existsSync fs filePath = false ->
      extractHypFile fs filePath outputDir
      = (fs, [Error (lit "Error: File not found: " ++ filePath)], Exited 1))
  /\ (forall e,
        endsWith filePath (lit ".hyp") = true -> existsSync fs filePath = true ->
        readFile fs filePath = Throw e ->
        extractHypFile fs filePath outputDir
        = (fs, [Error (lit "Error extracting .hyp file:")], Exited 1))
  /\ (forall buffer e,
        endsWith filePath (lit ".hyp") = true -> existsSync fs filePath = true ->
        readFile fs filePath = Ok buffer -> importApp buffer = Throw e ->
        extractHypFile fs filePath outputDir
        = (fs, importApp_errors buffer ++ [Error (lit "Error extracting .hyp file:")],
           Exited 1)
        /\ (importApp_errors buffer = []
            \/ importApp_errors buffer
               = [Error (lit "Still having JSON parsing issues:")])
        /\ (forall headerSize e1 e2,
              getUint32_le buffer = Ok headerSize ->
              parse (ab2str (ab_slice buffer 4 (4 + headerSize))) = Throw e1 ->
              parse (fix_fields 0 (ab2str (ab_slice buffer 4 (4 + headerSize))))
              = Throw e2 ->
              importApp_errors buffer
              = [Error (lit "Still having JSON parsing issues:")])).
Proof.
  split; [|split; [|split]].
  - intros Ee. unfold extractHypFile. now rewrite Ee.
  - intros Ee Ex. unfold extractHypFile. now rewrite Ee, Ex.
  - intros e Ee Ex Er. unfold extractHypFile, extract_body, extract_errors.
    rewrite Ee, Ex, Er. reflexivity.
  - intros buffer e Ee Ex Er Ei. split; [|split].
    + unfold extractHypFile, extract_body, extract_errors.
      rewrite Ee, Ex, Er. cbn [negb bind]. now rewrite Ei.
    + destruct (importApp_errors_cases buffer) as [[E _]|[E _]]; auto.
    + intros headerSize e1 e2 Eh E1 E2.
      destruct (importApp_errors_cases buffer) as [[E _]|[_ E]]; [exact E|].
      destruct (E headerSize e1 e2 Eh E1 E2).
Qed.

(** When [extractHypFile] returns a directory: the path ends with
    [.hyp]; the file was read as a container with a blueprint and
    that gave the directory's name; the directory was made,
    [blueprint.json] written with the indented text of the blueprint,
    which parses back to the blueprint, and every asset written under
    its file name, in order. On the error channel is what [importApp]
    has printed: nothing, or the line of [parseHypHeader] when the
    header parsed only with everything outside printable ASCII
    stripped. *)
Theorem extractHypFile_writes (fs fs' : F) (filePath outputDir appDir : jsstring)
    (log : list msg) :
  extractHypFile fs filePath outputDir = (fs', log, Returned appDir) ->
  exists buffer importedApp blueprint appName fs1 fs2,
    endsWith filePath (lit ".hyp") = true
    /\ readFile fs filePath = Ok buffer
    /\ importApp buffer = Ok importedApp
    /\ app_blueprint importedApp = Some blueprint
    /\ app_name blueprint filePath = Ok appName
    /\ appDir = Path.join outputDir appName
    /\ mkdirp fs appDir = Ok fs1
    /\ writeFileText fs1 (Path.join appDir (lit "blueprint.json"))
         (stringify_pretty blueprint) = Ok fs2
    /\ write_assets fs2 appDir (app_assets importedApp) = (fs', Ok tt)
    /\ parse (stringify_pretty blueprint) = Ok blueprint
    /\ log = importApp_errors buffer
    /\ (log = [] \/ log = [Error (lit "Still having JSON parsing issues:")]).
Proof.
  unfold extractHypFile.
  destruct (endsWith filePath (lit ".hyp")) eqn:Ee; cbn [negb]; [|discriminate].
  destruct (existsSync fs filePath); cbn [negb]; [|discriminate].
  destruct (extract_body fs filePath outputDir) as [fs3 [dir|e|]] eqn:Eb; try discriminate.
  intros E. injection E as <- <- <-.
  unfold extract_body, extract_errors in *.
  destruct (readFile fs filePath) as [buffer| |] eqn:Er; cbn [bind] in Eb;
    try discriminate.
  destruct (importApp buffer) as [app| |] eqn:Ei; try discriminate.
  destruct (app_blueprint app) as [b|] eqn:Ebp; [|discriminate].
  destruct (app_name b filePath) as [name| |] eqn:En; try discriminate.
  destruct (mkdirp fs (Path.join outputDir name)) as [fs1| |] eqn:Em; try discriminate.
  destruct (writeFileText fs1 _ _) as [fs2| |] eqn:Ew; try discriminate.
  destruct (write_assets fs2 _ _) as [fs4 [u|e|]] eqn:Ea; try discriminate.
  injection Eb as <- <-. destruct u.
  exists buffer, app, b, name, fs1, fs2.
  repeat split; try assumption; try reflexivity.
  - apply parse_after_stringify_pretty.
    exact (importApp_blueprint_well_formed buffer app b Ei Ebp).
  - destruct (importApp_errors_cases buffer) as [[E _]|[E _]]; auto.
Qed.

End Extracting.

(** A file whose header is not JSON however it is read: the line of
    [parseHypHeader], then the error of the [catch]. *)
Lemma extractHypFile_refuses_witness :
  endsWith (lit "bad.hyp") (lit ".hyp") = true
  /\ existsSync hyp_disk (lit "bad.hyp") = true
  /\ readFile hyp_disk (lit "bad.hyp") = Ok not_json_hyp
  /\ importApp not_json_hyp = Throw SyntaxError
  /\ extractHypFile hyp_disk (lit "bad.hyp") (lit "build")
     = (hyp_disk,
        [Error (lit "Still having JSON parsing issues:");
         Error (lit "Error extracting .hyp file:")],
        Exited 1).
Proof.
  assert (H1 : endsWith (lit "bad.hyp") (lit ".hyp") = true) by reflexivity.
  assert (H2 : existsSync hyp_disk (lit "bad.hyp") = true) by reflexivity.
  assert (H3 : readFile hyp_disk (lit "bad.hyp") = Ok not_json_hyp) by reflexivity.
  assert (H4 : importApp not_json_hyp = Throw SyntaxError) by (vm_compute; reflexivity).
  repeat (split; [assumption|]).
  destruct (proj2 (proj2 (proj2 (extractHypFile_refuses hyp_disk (lit "bad.hyp")
                                   (lit "build"))))
              not_json_hyp SyntaxError H1 H2 H3 H4) as (E & _ & L).
  rewrite E. rewrite (L 3 SyntaxError SyntaxError); [reflexivity| | |];
    vm_compute; reflexivity.
Defined.

(** The chair container, and a container whose blueprint has a raw
    BEL character in its name: both are extracted, the second with
    the line of [parseHypHeader] on the error channel. *)
Lemma extractHypFile_writes_witness :
  (exists buffer importedApp blueprint appName fs1 fs2,
     endsWith (lit "chair.hyp") (lit ".hyp") = true
     /\ readFile hyp_disk (lit "chair.hyp") = Ok buffer
     /\ importApp buffer = Ok importedApp
     /\ app_blueprint importedApp = Some blueprint
     /\ app_name blueprint (lit "chair.hyp") = Ok appName
     /\ lit "build/chair" = Path.join (lit "build") appName
     /\ mkdirp hyp_disk (lit "build/chair") = Ok fs1
     /\ writeFileText fs1 (Path.join (lit "build/chair") (lit "blueprint.json"))
          (stringify_pretty blueprint) = Ok fs2
     /\ write_assets fs2 (lit "build/chair") (app_assets importedApp)
        = (fst (fst (extractHypFile hyp_disk (lit "chair.hyp") (lit "build"))), Ok tt)
     /\ parse (stringify_pretty blueprint) = Ok blueprint
     /\ [] = importApp_errors buffer
     /\ (([] : list msg) = [] \/ [] = [Error (lit "Still having JSON parsing issues:")]))
  /\ snd (fst (extractHypFile hyp_disk (lit "bel.hyp") (lit "build")))
     = [Error (lit "Still having JSON parsing issues:")]
  /\ snd (extractHypFile hyp_disk (lit "bel.hyp") (lit "build"))
     = Returned (lit "build/chair").
Proof.
  split.
  - apply (extractHypFile_writes hyp_disk _ (lit "chair.hyp") (lit "build")
             (lit "build/chair") []).
    vm_compute. reflexivity.
  - split; vm_compute; reflexivity.
Defined.

(** ** The statistics of showDbStatus *)

Lemma or_zero_plus_one_no_throw (v : option json) (e : exn) :
  or_zero_plus_one v <> Throw e.
Proof.
  destruct v as [x|]; [|discriminate]. cbn [or_zero_plus_one].
  destruct (truthy x); [|discriminate].
  destruct x as [|b|n|s|l|o]; try discriminate.
  destruct (safe_int (n + 1)); discriminate.
Qed.

Lemma count_type_counted (c : jsstring -> Z) (typeCount counted' : props)
    (type : jsstring) :
  counted c typeCount ->
  count_type typeCount type = Ok counted' ->
  counted (fun k => c k + (if str_eqb type k then 1 else 0)) counted'.
Proof.
  intros Hc. unfold count_type.
  destruct (existsb (str_eqb type) proto_names); [discriminate|].
  destruct (Hc type) as [H0 Ht]. rewrite Ht.
  assert (Hv : forall v, or_zero_plus_one (if c type =? 0 then None
                                           else Some (JNum (c type))) = Ok v ->
                         v = JNum (c type + 1)).
  { intros v. destruct (Z.eqb_spec (c type) 0) as [E|N]; cbn [or_zero_plus_one].
    - rewrite E. intros H. now injection H as <-.
    - cbn [truthy]. assert ((c type =? 0) = false) as -> by lia. cbn [negb].
      destruct (safe_int (c type + 1)); [|discriminate]. intros H. now injection H as <-. }
  destruct (or_zero_plus_one _) as [v| |] eqn:Ev; cbn [bind]; try discriminate.
  specialize (Hv v eq_refl). subst v. intros E. injection E as <-.
  intros k. destruct (Hc k) as [Hk0 Hk]. destruct (str_eqb type k) eqn:Ek.
  - apply str_eqb_eq in Ek. subst k. split; [lia|].
    rewrite obj_get_set_eq. assert ((c type + 1 =? 0) = false) as -> by lia. reflexivity.
  - apply str_eqb_neq in Ek. split; [lia|].
    rewrite obj_get_set_neq by exact Ek. rewrite Z.add_0_r. exact Hk.
Qed.

Lemma count_row_types_counted (rows : list row) :
  forall (c : jsstring -> Z) (typeCount counted' : props),
    counted c typeCount ->
    count_row_types typeCount rows = Ok counted' ->
    counted (fun k => c k + rows_of_type k rows) counted'.
Proof.
  induction rows as [|r rows IH]; intros c tc tc' Hc E.
  - injection E as <-. intros k. unfold rows_of_type. cbn. rewrite Z.add_0_r. apply Hc.
  - cbn [count_row_types] in E.
    assert (Hstep : forall k, rows_of_type k (r :: rows)
                              = (if has_type k r then 1 else 0) + rows_of_type k rows).
    { intros k. unfold rows_of_type. cbn [filter].
      destruct (has_type k r); cbn [List.length]; lia. }
    destruct (parse_column (r_data r)) as [data|e|] eqn:Ep; cbn [bind] in E;
      [|pose proof (IH c tc tc' Hc E) as Hr|discriminate].
    + destruct (type_of data) as [t|e|] eqn:Et; cbn [bind] in E;
        [|pose proof (IH c tc tc' Hc E) as Hr|discriminate].
      * destruct (count_type tc t) as [tc1|e|] eqn:Ec; [| |discriminate].
        -- pose proof (IH _ _ _ (count_type_counted c tc tc1 t Hc Ec) E) as Hr.
           intros k. destruct (Hr k) as [H0 Hk]. rewrite Hstep.
           unfold has_type. rewrite Ep. cbn [bind]. rewrite Et.
           replace (c k + ((if str_eqb t k then 1 else 0) + rows_of_type k rows))
             with (c k + (if str_eqb t k then 1 else 0) + rows_of_type k rows) by lia.
           split; [exact H0|exact Hk].
        -- unfold count_type in Ec.
           destruct (existsb (str_eqb t) proto_names); [discriminate|].
           destruct (or_zero_plus_one (obj_get t tc)) as [v|e0|] eqn:Ev;
             cbn [bind] in Ec; try discriminate.
           now apply or_zero_plus_one_no_throw in Ev.
      * intros k. destruct (Hr k) as [H0 Hk]. rewrite Hstep.
        unfold has_type. rewrite Ep. cbn [bind]. rewrite Et. now rewrite Z.add_0_l.
    + intros k. destruct (Hr k) as [H0 Hk]. rewrite Hstep.
      unfold has_type. rewrite Ep. cbn [bind]. now rewrite Z.add_0_l.
Qed.

(** The statistics of [showDbStatus], when the counting returns: the
    count listed for a type is the number of rows whose data parses
    to a value of that type ([unknown] for a falsy or absent type),
    and a type no row has is not listed; rows whose data is not JSON
    or is [null] are counted nowhere. *)
Theorem type_statistics_counts (rows : list row) (typeCount : props) :
  type_statistics rows = Ok typeCount ->
  forall type,
    obj_get type typeCount
    = if rows_of_type type rows =? 0 then None
      else Some (JNum (rows_of_type type rows)).
Proof.
  intros E type.
  assert (H0 : counted (fun _ => 0) []).
  { intros k. split; [lia|reflexivity]. }
  destruct (count_row_types_counted rows _ _ _ H0 E type) as [_ Hk].
  rewrite Z.add_0_l in Hk. exact Hk.
Qed.

Lemma type_statistics_counts_witness :
  type_statistics counted_rows = Ok [(lit "app", JNum 2); (lit "unknown", JNum 1)]
  /\ obj_get (lit "app") [(lit "app", JNum 2); (lit "unknown", JNum 1)]
     = (if rows_of_type (lit "app") counted_rows =? 0 then None
        else Some (JNum (rows_of_type (lit "app") counted_rows))).
Proof.
  split; [vm_compute; reflexivity|].
  apply (type_statistics_counts counted_rows). vm_compute. reflexivity.
Defined.

(** ** UTF-8: what is written is what is read *)

Lemma land_shiftl_low (a b : Z) :
  0 <= a -> 0 <= b < 64 -> Z.land (Z.shiftl a 6) b = 0.
Proof.
  intros Ha Hb. apply Z.bits_inj'. intros n Hn.
  rewrite Z.land_spec, Z.bits_0.
  destruct (Z.lt_ge_cases n 6) as [L|G].
  - rewrite Z.shiftl_spec_low by lia. reflexivity.
  - assert (Z.testbit b n = false) as ->; [|apply andb_false_r].
    destruct (Z.eq_dec b 0) as [->|N]; [apply Z.bits_0|].
    apply Z.bits_above_log2; [lia|].
    assert (Z.log2 b < 6) by (apply Z.log2_lt_pow2; lia). lia.
Qed.

Lemma lor_shiftl_low (a b : Z) :
  0 <= a -> 0 <= b < 64 -> Z.lor (Z.shiftl a 6) b = a * 64 + b.
Proof.
  intros Ha Hb. pose proof (Z.add_lor_land (Z.shiftl a 6) b) as H.
  rewrite land_shiftl_low in H by assumption.
  rewrite Z.shiftl_mul_pow2 in * by lia. change (2 ^ 6) with 64 in *. lia.
Qed.

Lemma land_63 (x : Z) : Z.land x 63 = x mod 64.
Proof. change 63 with (Z.ones 6). now rewrite Z.land_ones by lia. Qed.

Lemma land_31 (x : Z) : Z.land x 31 = x mod 32.
Proof. change 31 with (Z.ones 5). now rewrite Z.land_ones by lia. Qed.

Lemma land_15 (x : Z) : Z.land x 15 = x mod 16.
Proof. change 15 with (Z.ones 4). now rewrite Z.land_ones by lia. Qed.

Lemma land_7 (x : Z) : Z.land x 7 = x mod 8.
Proof. change 7 with (Z.ones 3). now rewrite Z.land_ones by lia. Qed.

Lemma land_1023 (x : Z) : Z.land x 1023 = x mod 1024.
Proof. change 1023 with (Z.ones 10). now rewrite Z.land_ones by lia. Qed.

Lemma shiftr_6 (x : Z) : Z.shiftr x 6 = x / 64.
Proof. now rewrite Z.shiftr_div_pow2 by lia. Qed.

Lemma shiftr_12 (x : Z) : Z.shiftr x 12 = x / 4096.
Proof. now rewrite Z.shiftr_div_pow2 by lia. Qed.

Lemma shiftr_18 (x : Z) : Z.shiftr x 18 = x / 262144.
Proof. now rewrite Z.shiftr_div_pow2 by lia. Qed.

Lemma shiftr_10 (x : Z) : Z.shiftr x 10 = x / 1024.
Proof. now rewrite Z.shiftr_div_pow2 by lia. Qed.

(** A continuation byte in range adds its six bits. *)
Lemma decode_continue (p : Utf8.pending) (b : Z) (bs : list Z) :
  0 <= Utf8.cp p -> Utf8.lower p <= 128 + b <= Utf8.upper p -> 0 <= b < 64 ->
  Utf8.decode_from (Some p) ((128 + b) :: bs)
  = if Utf8.needed p =? 1 then Utf8.units (Utf8.cp p * 64 + b) ++ Utf8.decode_from None bs
    else Utf8.decode_from
           (Some {| Utf8.needed := Utf8.needed p - 1; Utf8.cp := Utf8.cp p * 64 + b;
                    Utf8.lower := 128; Utf8.upper := 191 |}) bs.
Proof.
  intros Hc Hr Hb. cbn [Utf8.decode_from].
  assert ((Utf8.lower p <=? 128 + b) && (128 + b <=? Utf8.upper p) = true) as -> by lia.
  rewrite land_63.
  replace ((128 + b) mod 64) with b
    by (symmetry; rewrite <- (Z.mod_small b 64) at 2 by lia;
        replace (128 + b) with (b + 2 * 64) by lia; apply Z.mod_add; lia).
  rewrite lor_shiftl_low by lia. reflexivity.
Qed.

Lemma decode_start (b : Z) (p : Utf8.pending) (bs : list Z) :
  Utf8.classify b = Utf8.Start p ->
  Utf8.decode_from None (b :: bs) = Utf8.decode_from (Some p) bs.
Proof. intros H. cbn [Utf8.decode_from]. now rewrite H. Qed.

Lemma decode_encode_cp (c : Z) (bs : list Z) :
  scalar c ->
  Utf8.decode_from None (Utf8.encode_cp c ++ bs) = Utf8.units c ++ Utf8.decode_from None bs.
Proof.
  intros Hc. unfold Utf8.encode_cp.
  destruct (Z.ltb_spec c 128) as [L1|G1].
  { cbn [app Utf8.decode_from]. unfold Utf8.classify.
    assert ((0 <=? c) && (c <=? 127) = true) as -> by (unfold scalar in Hc; lia).
    unfold Utf8.units. assert ((c <? 65536) = true) as -> by lia. reflexivity. }
  destruct (Z.ltb_spec c 2048) as [L2|G2].
  { rewrite shiftr_6, land_63. cbn [app].
    assert (Hq : 2 <= c / 64 < 32).
    { split; [apply Z.div_le_lower_bound; lia|apply Z.div_lt_upper_bound; lia]. }
    pose proof (Z.mod_pos_bound c 64 ltac:(lia)) as Hm.
    pose proof (Z.div_mod c 64 ltac:(lia)) as Hdm.
    erewrite decode_start.
    2:{ unfold Utf8.classify.
        assert ((0 <=? 192 + c / 64) && (192 + c / 64 <=? 127) = false) as -> by lia.
        assert ((194 <=? 192 + c / 64) && (192 + c / 64 <=? 223) = true) as -> by lia.
        rewrite land_31.
        replace ((192 + c / 64) mod 32) with (c / 64)
          by (symmetry; rewrite <- (Z.mod_small (c / 64) 32) at 2 by lia;
              replace (192 + c / 64) with (c / 64 + 6 * 32) by lia; apply Z.mod_add; lia).
        reflexivity. }
    rewrite decode_continue; cbn [Utf8.cp Utf8.lower Utf8.upper Utf8.needed]; try lia.
    change (1 =? 1) with true. cbv iota. do 2 f_equal. lia. }
  destruct (Z.ltb_spec c 65536) as [L3|G3].
  { rewrite shiftr_12, shiftr_6, !land_63. cbn [app].
    assert (Hq : 0 <= c / 4096 < 16).
    { split; [apply Z.div_pos; lia|apply Z.div_lt_upper_bound; lia]. }
    pose proof (Z.mod_pos_bound c 64 ltac:(lia)) as Hm.
    pose proof (Z.mod_pos_bound (c / 64) 64 ltac:(lia)) as Hm2.
    pose proof (Z.div_mod c 64 ltac:(lia)) as Hdm.
    pose proof (Z.div_mod (c / 64) 64 ltac:(lia)) as Hdm2.
    assert (Hdd : c / 64 / 64 = c / 4096) by (rewrite Z.div_div by lia; reflexivity).
    erewrite decode_start.
    2:{ unfold Utf8.classify.
        assert ((0 <=? 224 + c / 4096) && (224 + c / 4096 <=? 127) = false) as -> by lia.
        assert ((194 <=? 224 + c / 4096) && (224 + c / 4096 <=? 223) = false) as -> by lia.
        assert ((224 <=? 224 + c / 4096) && (224 + c / 4096 <=? 239) = true) as -> by lia.
        rewrite land_15.
        replace ((224 + c / 4096) mod 16) with (c / 4096)
          by (symmetry; rewrite <- (Z.mod_small (c / 4096) 16) at 2 by lia;
              replace (224 + c / 4096) with (c / 4096 + 14 * 16) by lia; apply Z.mod_add; lia).
        reflexivity. }
    rewrite decode_continue; cbn [Utf8.cp Utf8.lower Utf8.upper Utf8.needed]; try lia.
    2:{ unfold scalar in Hc.
        destruct (Z.eqb_spec (224 + c / 4096) 224) as [E1|N1];
          destruct (Z.eqb_spec (224 + c / 4096) 237) as [E2|N2]; lia. }
    change (2 =? 1) with false. cbv iota.
    rewrite decode_continue; cbn [Utf8.cp Utf8.lower Utf8.upper Utf8.needed]; try lia.
    change (2 - 1 =? 1) with true. cbv iota. do 2 f_equal. lia. }
  rewrite shiftr_18, shiftr_12, shiftr_6, !land_63. cbn [app].
  assert (Hc' : 65536 <= c < 1114112) by (unfold scalar in Hc; lia).
  assert (Hq : 0 <= c / 262144 < 5).
  { split; [apply Z.div_pos; lia|apply Z.div_lt_upper_bound; lia]. }
  pose proof (Z.mod_pos_bound c 64 ltac:(lia)) as Hm.
  pose proof (Z.mod_pos_bound (c / 64) 64 ltac:(lia)) as Hm2.
  pose proof (Z.mod_pos_bound (c / 4096) 64 ltac:(lia)) as Hm3.
  pose proof (Z.div_mod c 64 ltac:(lia)) as Hdm.
  pose proof (Z.div_mod (c / 64) 64 ltac:(lia)) as Hdm2.
  pose proof (Z.div_mod (c / 4096) 64 ltac:(lia)) as Hdm3.
  assert (Hdd : c / 64 / 64 = c / 4096) by (rewrite Z.div_div by lia; reflexivity).
  assert (Hdd2 : c / 4096 / 64 = c / 262144) by (rewrite Z.div_div by lia; reflexivity).
  erewrite decode_start.
  2:{ unfold Utf8.classify.
      assert ((0 <=? 240 + c / 262144) && (240 + c / 262144 <=? 127) = false) as -> by lia.
      assert ((194 <=? 240 + c / 262144) && (240 + c / 262144 <=? 223) = false) as -> by lia.
      assert ((224 <=? 240 + c / 262144) && (240 + c / 262144 <=? 239) = false) as -> by lia.
      assert ((240 <=? 240 + c / 262144) && (240 + c / 262144 <=? 244) = true) as -> by lia.
      rewrite land_7.
      replace ((240 + c / 262144) mod 8) with (c / 262144)
        by (symmetry; rewrite <- (Z.mod_small (c / 262144) 8) at 2 by lia;
            replace (240 + c / 262144) with (c / 262144 + 30 * 8) by lia; apply Z.mod_add; lia).
      reflexivity. }
  rewrite decode_continue; cbn [Utf8.cp Utf8.lower Utf8.upper Utf8.needed]; try lia.
  2:{ destruct (Z.eqb_spec (240 + c / 262144) 240) as [E1|N1];
        destruct (Z.eqb_spec (240 + c / 262144) 244) as [E2|N2]; lia. }
  change (3 =? 1) with false. cbv iota.
  rewrite decode_continue; cbn [Utf8.cp Utf8.lower Utf8.upper Utf8.needed]; try lia.
  change (3 - 1 =? 1) with false. cbv iota.
  rewrite decode_continue; cbn [Utf8.cp Utf8.lower Utf8.upper Utf8.needed]; try lia.
  change (3 - 1 - 1 =? 1) with true. cbv iota. do 2 f_equal. lia.
Qed.

Lemma units_of_scalar (c : Z) : 0 <= c < 65536 -> Utf8.units c = [c].
Proof. intros Hc. unfold Utf8.units. now assert ((c <? 65536) = true) as -> by lia. Qed.

Lemma units_of_pair (c d : Z) :
  is_high_surrogate c = true -> is_low_surrogate d = true ->
  Utf8.units (65536 + (c - 55296) * 1024 + (d - 56320)) = [c; d].
Proof.
  unfold is_high_surrogate, is_low_surrogate. intros Hc Hd.
  unfold Utf8.units.
  assert ((65536 + (c - 55296) * 1024 + (d - 56320) <? 65536) = false) as -> by lia.
  rewrite shiftr_10, land_1023.
  replace (65536 + (c - 55296) * 1024 + (d - 56320) - 65536)
    with ((d - 56320) + (c - 55296) * 1024) by lia.
  rewrite Z.div_add, Z.mod_add by lia.
  rewrite Z.div_small, Z.mod_small by lia. f_equal; [lia|f_equal; lia].
Qed.

Lemma well_paired_length (n : nat) :
  forall s, (List.length s <= n)%nat -> well_paired s = true ->
    Utf8.decode_from None (Utf8.encode s) = s.
Proof.
  induction n as [|n IH]; intros [|c s] Hn Hw; cbn [List.length] in Hn; try lia;
    try reflexivity.
  cbn [well_paired Utf8.encode] in *.
  destruct (is_high_surrogate c) eqn:Hh.
  - destruct s as [|d s]; [discriminate|].
    apply andb_true_iff in Hw as [Hl Hw]. rewrite Hl.
    rewrite decode_encode_cp, units_of_pair by
      (try assumption; unfold scalar, is_high_surrogate, is_low_surrogate in *; lia).
    cbn [app]. do 2 f_equal. apply IH; [cbn [List.length] in Hn; lia|exact Hw].
  - apply andb_true_iff in Hw as [Hw Hs]. apply andb_true_iff in Hw as [Hl Hu].
    apply negb_true_iff in Hl. rewrite Hl.
    assert (Hc : 0 <= c < 65536) by (unfold is_unit in Hu; lia).
    rewrite decode_encode_cp, units_of_scalar by
      (try assumption; unfold scalar, is_high_surrogate, is_low_surrogate in *; lia).
    cbn [app]. f_equal. apply IH; [lia|exact Hs].
Qed.

Lemma decode_encode (s : jsstring) :
  well_paired s = true -> Utf8.decode_from None (Utf8.encode s) = s.
Proof. apply (well_paired_length (List.length s)). lia. Qed.

(** Texts that leave no surrogate open. *)
Lemma well_paired_ascii_app (a r : jsstring) :
  ascii_text a = true -> well_paired (a ++ r) = well_paired r.
Proof.
  induction a as [|c a IH]; intros Ha; [reflexivity|].
  cbn [ascii_text forallb] in Ha. apply andb_true_iff in Ha as [Hc Ha].
  cbn [app well_paired].
  assert (is_high_surrogate c = false) as -> by (unfold is_high_surrogate; lia).
  assert (is_low_surrogate c = false) as -> by (unfold is_low_surrogate; lia).
  assert (is_unit c = true) as -> by (unfold is_unit; lia).
  cbn [negb andb]. now apply IH.
Qed.

Lemma ascii_uint_units (d : Decimal.uint) : ascii_text (uint_units d) = true.
Proof. induction d; cbn [uint_units ascii_text forallb]; try reflexivity; exact IHd. Qed.

Lemma ascii_int_toString (n : Z) : ascii_text (int_toString n) = true.
Proof.
  unfold int_toString. destruct (n <? 0); [cbn [ascii_text forallb]|];
    apply ascii_uint_units.
Qed.

Lemma ascii_unicode_escape (c : Z) : ascii_text (unicode_escape c) = true.
Proof.
  assert (Hh : forall n, 0 <= n < 16 -> (0 <=? hex_digit n) && (hex_digit n <? 128) = true).
  { intros n Hn. unfold hex_digit. destruct (n <? 10); lia. }
  unfold unicode_escape. cbn [ascii_text forallb].
  rewrite !Hh by (apply Z.mod_pos_bound; lia). reflexivity.
Qed.

Lemma ascii_spaces (n : nat) : ascii_text (spaces n) = true.
Proof. induction n as [|n IH]; [reflexivity|exact IH]. Qed.

Lemma well_paired_quote_units (n : nat) :
  forall s r, (List.length s <= n)%nat -> forallb is_unit s = true ->
    well_paired (quote_units s ++ r) = well_paired r.
Proof.
  induction n as [|n IH]; intros [|c s] r Hn Hu; cbn [List.length] in Hn; try lia;
    try reflexivity.
  cbn [forallb] in Hu. apply andb_true_iff in Hu as [Hc Hu].
  assert (Hs : forall r', well_paired (quote_units s ++ r') = well_paired r')
    by (intros r'; apply IH; [lia|exact Hu]).
  assert (He : forall t r', well_paired ((unicode_escape c ++ t) ++ r') = well_paired (t ++ r')).
  { intros t r'. rewrite <- app_assoc. apply well_paired_ascii_app, ascii_unicode_escape. }
  cbn [quote_units].
  repeat match goal with
         | |- context [if ?c =? ?k then _ else _] =>
             destruct (Z.eqb_spec c k) as [->|?]; [exact (Hs r)|]
         end.
  destruct (c <? 32); [now rewrite He|].
  destruct (is_high_surrogate c) eqn:Hh.
  - destruct s as [|d s].
    + rewrite <- (app_nil_r (unicode_escape c)). now rewrite He.
    + destruct (is_low_surrogate d) eqn:Hl.
      * cbn [app well_paired]. rewrite Hh, Hl. cbn [andb].
        cbn [forallb] in Hu. apply andb_true_iff in Hu as [_ Hu].
        apply IH; [cbn [List.length] in Hn; lia|exact Hu].
      * now rewrite He.
  - destruct (is_low_surrogate c) eqn:Hl; [now rewrite He|].
    cbn [app well_paired]. rewrite Hh, Hl, Hc. cbn [negb andb]. apply Hs.
Qed.

Lemma well_paired_quote (s r : jsstring) :
  forallb is_unit s = true -> well_paired (quote s ++ r) = well_paired r.
Proof.
  intros Hu. unfold quote. cbn [app]. rewrite <- app_assoc.
  change (well_paired (34 :: quote_units s ++ [34] ++ r))
    with (well_paired ([34] ++ quote_units s ++ [34] ++ r)).
  rewrite well_paired_ascii_app by reflexivity.
  rewrite (well_paired_quote_units (List.length s)) by (try exact Hu; lia).
  now rewrite well_paired_ascii_app by reflexivity.
Qed.

Lemma well_paired_join (sep : jsstring) (l : list jsstring) :
  ascii_text sep = true ->
  Forall (fun x => forall r, well_paired (x ++ r) = well_paired r) l ->
  forall r, well_paired (join sep l ++ r) = well_paired r.
Proof.
  intros Hsep Hl. induction Hl as [|x l Hx Hl IH]; intros r; [reflexivity|].
  destruct l as [|y l].
  - cbn [join]. apply Hx.
  - change (join sep (x :: y :: l)) with (x ++ sep ++ join sep (y :: l)).
    rewrite <- !app_assoc. rewrite Hx, well_paired_ascii_app by exact Hsep. apply IH.
Qed.

Lemma well_paired_stringify_at (v : json) :
  well_formed v = true ->
  forall d r, well_paired (stringify_at d v ++ r) = well_paired r.
Proof.
  induction v as [| b | n | s | l IHl | o IHo] using json_induction; intros Hwf d r.
  - now apply well_paired_ascii_app.
  - destruct b; now apply well_paired_ascii_app.
  - apply well_paired_ascii_app, ascii_int_toString.
  - apply well_paired_quote. exact Hwf.
  - destruct l as [|x l]; [now apply well_paired_ascii_app|].
    remember (x :: l) as xs eqn:Exs.
    assert (Es : stringify_at d (JArr xs)
                 = [91; 10] ++ spaces (2 * S d)
                   ++ join (44 :: 10 :: spaces (2 * S d)) (map (stringify_at (S d)) xs)
                   ++ (10 :: spaces (2 * d)) ++ [93])
      by (subst xs; reflexivity).
    rewrite Es. rewrite <- !app_assoc.
    rewrite well_paired_ascii_app by reflexivity.
    rewrite well_paired_ascii_app by apply ascii_spaces.
    rewrite well_paired_join.
    + change ((10 :: spaces (2 * d)) ++ [93] ++ r) with ([10] ++ spaces (2 * d) ++ [93] ++ r).
      rewrite well_paired_ascii_app by reflexivity.
      rewrite well_paired_ascii_app by apply ascii_spaces.
      now apply well_paired_ascii_app.
    + exact (ascii_spaces (2 + 2 * S d)).
    + cbn [well_formed] in Hwf. rewrite forallb_forall in Hwf.
      rewrite Forall_forall in IHl. apply Forall_forall. intros t Ht.
      apply in_map_iff in Ht as (y & <- & Hy). intros r'. apply IHl; auto.
  - destruct o as [|x o]; [now apply well_paired_ascii_app|].
    remember (x :: o) as xs eqn:Exs.
    assert (Es : stringify_at d (JObj xs)
                 = [123; 10] ++ spaces (2 * S d)
                   ++ join (44 :: 10 :: spaces (2 * S d))
                        (map (fun kv => quote (fst kv) ++ 58 :: 32 :: stringify_at (S d) (snd kv)) xs)
                   ++ (10 :: spaces (2 * d)) ++ [125])
      by (subst xs; reflexivity).
    rewrite Es. rewrite <- !app_assoc.
    rewrite well_paired_ascii_app by reflexivity.
    rewrite well_paired_ascii_app by apply ascii_spaces.
    rewrite well_paired_join.
    + change ((10 :: spaces (2 * d)) ++ [125] ++ r) with ([10] ++ spaces (2 * d) ++ [125] ++ r).
      rewrite well_paired_ascii_app by reflexivity.
      rewrite well_paired_ascii_app by apply ascii_spaces.
      now apply well_paired_ascii_app.
    + exact (ascii_spaces (2 + 2 * S d)).
    + cbn [well_formed] in Hwf. apply andb_true_iff in Hwf as [_ Hwf].
      rewrite forallb_forall in Hwf.
      rewrite Forall_forall in IHo. apply Forall_forall. intros t Ht.
      apply in_map_iff in Ht as ([k y] & <- & Hy). intros r'. cbn [fst snd].
      specialize (Hwf _ Hy). cbn [fst snd] in Hwf. apply andb_true_iff in Hwf as [Hk Hv].
      rewrite <- app_assoc. rewrite well_paired_quote by exact Hk.
      change ((58 :: 32 :: stringify_at (S d) y) ++ r')
        with ([58; 32] ++ stringify_at (S d) y ++ r').
      rewrite well_paired_ascii_app by reflexivity.
      apply (IHo _ Hy Hv).
Qed.

Lemma well_paired_stringify_pretty (v : json) :
  well_formed v = true -> well_paired (stringify_pretty v) = true.
Proof.
  intros Hwf. pose proof (well_paired_stringify_at v Hwf 0%nat []) as P.
  now rewrite app_nil_r in P.
Qed.

Section TextFiles.
Context {F : Type} `{FileSystem F}.

(** Every file the unpacking writes is [JSON.stringify(v, null, 2)]
    encoded as UTF-8 by [fs.writeFileSync]; the packing reads a file
    with [JSON.parse(fs.readFileSync(p, "utf8"))]. A file that holds
    the bytes written for a value [v] is read back as [v]: text outside
    ASCII survives, and a lone surrogate does because [JSON.stringify]
    writes it as an escape. *)
Theorem written_json_read_back (fs : F) (p : jsstring) (v : json) :
  well_formed v = true ->
  readFile fs p = Ok (Utf8.encode (stringify_pretty v)) ->
  readFileUtf8 fs p = Ok (stringify_pretty v)
  /\ (text <- readFileUtf8 fs p ;; parse text) = Ok v.
Proof.
  intros Hwf Hread.
  assert (Ht : readFileUtf8 fs p = Ok (stringify_pretty v)).
  { unfold readFileUtf8. rewrite Hread. cbn [bind].
    now rewrite decode_encode by now apply well_paired_stringify_pretty. }
  split; [exact Ht|]. rewrite Ht. cbn [bind].
  now apply parse_after_stringify_pretty.
Qed.

End TextFiles.

Lemma written_json_read_back_witness :
  well_formed accented_value = true
  /\ readFile accented_disk (lit "world/config.json")
     = Ok (Utf8.encode (stringify_pretty accented_value))
  /\ readFileUtf8 accented_disk (lit "world/config.json")
     = Ok (stringify_pretty accented_value)
  /\ (text <- readFileUtf8 accented_disk (lit "world/config.json") ;; parse text)
     = Ok accented_value.
Proof.
  split; [reflexivity|]. split; [reflexivity|].
  apply (written_json_read_back accented_disk (lit "world/config.json") accented_value);
    reflexivity.
Defined.

(** ** The entities table through the exchange *)

Section Table.
Context {F : Type} `{FileSystem F}.

Lemma entity_form_record (r : row) (d : props) :
  well_formed (JObj ((lit "id", r_id r) :: d)) = true ->
  obj_has (lit "createdAt") d = false -> obj_has (lit "updatedAt") d = false ->
  full_record r (JObj ((lit "id", r_id r) :: d))
  = [(lit "id", r_id r); (lit "createdAt", r_createdAt r);
     (lit "updatedAt", r_updatedAt r)] ++ d.
Proof.
  intros Hwf Hnc Hnu.
  assert (Hni : obj_has (lit "id") d = false /\ keys_in_order 0 true d = true).
  { rewrite well_formed_obj in Hwf. apply andb_true_iff in Hwf as [Hwf _].
    cbn [keys_in_order] in Hwf. apply andb_true_iff in Hwf as [H1 H2].
    apply negb_true_iff in H1. split; [exact H1|exact H2]. }
  destruct Hni as [Hni Hord].
  rewrite full_record_obj. unfold assign_all. cbn [fold_left fst snd].
  change (obj_set (lit "id") (r_id r) _)
    with [(lit "id", r_id r); (lit "createdAt", r_createdAt r);
          (lit "updatedAt", r_updatedAt r)].
  apply (assign_all_in_order d _ 0 true Hord); [|discriminate].
  intros k Hk. cbn [obj_has].
  destruct (str_eqb k (lit "id")) eqn:E1;
    [apply str_eqb_eq in E1; subst k; congruence|].
  destruct (str_eqb k (lit "createdAt")) eqn:E2;
    [apply str_eqb_eq in E2; subst k; congruence|].
  destruct (str_eqb k (lit "updatedAt")) eqn:E3;
    [apply str_eqb_eq in E3; subst k; congruence|].
  reflexivity.
Qed.

(** A file that holds the bytes written for a row in form is imported
    as an insertion of that row. *)
Lemma import_held_entity (w : @world F) (inputDir file : jsstring) (r : row) :
  entity_form r ->
  holds_entity (w_fs w) (Path.join inputDir file) r ->
  import_entity_files w inputDir [file]
  = of_result w (insert r_id r (entities (w_db w)))
      (fun rows => done (with_entities w rows)).
Proof.
  intros (d & Hdata & Hwf & Hc & Hu & Hnc & Hnu) (data & Hparse & Hread).
  set (o := (lit "id", r_id r) :: d) in *.
  rewrite Hdata, parse_column_text, parse_after_stringify in Hparse by exact Hwf.
  injection Hparse as <-.
  assert (Hid : well_formed (r_id r) = true).
  { rewrite well_formed_obj in Hwf. apply andb_true_iff in Hwf as [_ Hwf].
    cbn [o forallb] in Hwf. apply andb_true_iff in Hwf as [Hwf _].
    unfold entry_ok in Hwf. cbn [fst snd] in Hwf. now apply andb_true_iff in Hwf as [_ Hwf]. }
  assert (Hfw : well_formed (JObj (full_record r (JObj o))) = true)
    by now apply well_formed_full_record.
  assert (Htext : readFileUtf8 (w_fs w) (Path.join inputDir file)
                  = Ok (stringify_pretty (JObj (full_record r (JObj o))))).
  { unfold readFileUtf8. rewrite Hread. cbn [bind].
    now rewrite decode_encode by now apply well_paired_stringify_pretty. }
  rewrite (import_entity_file w inputDir file (full_record r (JObj o)) Hfw Htext).
  unfold o. rewrite (entity_form_record r d Hwf Hnc Hnu). cbn [app obj_get].
  change (str_eqb (lit "id") (lit "id")) with true.
  change (str_eqb (lit "createdAt") (lit "id")) with false.
  change (str_eqb (lit "createdAt") (lit "createdAt")) with true.
  change (str_eqb (lit "updatedAt") (lit "id")) with false.
  change (str_eqb (lit "updatedAt") (lit "createdAt")) with false.
  change (str_eqb (lit "updatedAt") (lit "updatedAt")) with true.
  cbv iota. cbn [column obj_delete].
  change (str_eqb (lit "createdAt") (lit "id")) with false.
  change (str_eqb (lit "createdAt") (lit "createdAt")) with true.
  change (str_eqb (lit "createdAt") (lit "updatedAt")) with false.
  cbv iota. cbn [obj_delete].
  change (str_eqb (lit "updatedAt") (lit "id")) with false.
  change (str_eqb (lit "updatedAt") (lit "updatedAt")) with true.
  cbv iota.
  rewrite (obj_delete_absent (lit "createdAt") d Hnc).
  rewrite (obj_delete_absent (lit "updatedAt") d Hnu).
  fold o. rewrite <- Hdata. destruct r; reflexivity.
Qed.

(** The loop over a list of files is the loop over its first file,
    then over the others. *)
Lemma import_entity_files_cons (w : @world F) (inputDir file : jsstring)
    (rest : list jsstring) :
  import_entity_files w inputDir (file :: rest)
  = and_then (import_entity_files w inputDir [file])
      (fun w1 => import_entity_files w1 inputDir rest).
Proof.
  cbn [import_entity_files].
  destruct (readFileUtf8 (w_fs w) (Path.join inputDir file)) as [text| |];
    cbn [of_result and_then]; try reflexivity.
  destruct (parse text) as [fullEntity| |]; cbn [of_result and_then]; try reflexivity.
  destruct (get_prop fullEntity (lit "id")) as [id| |];
    cbn [of_result and_then]; try reflexivity.
  destruct (get_prop fullEntity (lit "createdAt")) as [createdAt| |];
    cbn [of_result and_then]; try reflexivity.
  destruct (get_prop fullEntity (lit "updatedAt")) as [updatedAt| |];
    cbn [of_result and_then]; try reflexivity.
  destruct (insert r_id _ (entities (w_db w))) as [rows| |];
    cbn [of_result and_then]; reflexivity.
Qed.

(** The directory [extractEntities] filled, read by [importEntities]
    into a table that holds [rows0]: every file holds the bytes written
    for a row in form, and no id repeats. The loop returns, and the
    table then holds [rows0] followed by the rows of the files, in the
    order of the files; nothing else of the database, the files or the
    log has changed. *)
Theorem entities_table_restored (w : @world F) (inputDir : jsstring)
    (files : list jsstring) (rows0 rows : list row) :
  entities (w_db w) = Some rows0 ->
  Forall entity_form rows ->
  distinct_after rows0 rows = true ->
  Forall2 (fun file r => holds_entity (w_fs w) (Path.join inputDir file) r) files rows ->
  import_entity_files w inputDir files = done (with_entities w (rows0 ++ rows)).
Proof.
  intros Hdb Hform Hdist Hfiles.
  remember (w_fs w) as fs eqn:Efs. revert w rows0 Efs Hdb Hform Hdist.
  induction Hfiles as [|file r files rows Hheld Hfiles IH];
    intros w rows0 Efs Hdb Hform Hdist.
  - cbn [import_entity_files]. rewrite app_nil_r. unfold done, with_entities, with_db.
    destruct w as [fs0 [c u b e] l]. cbn in *. now subst e.
  - inversion Hform as [|r' rows' Hr Hrows]; subst.
    cbn [distinct_after] in Hdist. apply andb_true_iff in Hdist as [Hnew Hdist].
    apply negb_true_iff in Hnew.
    rewrite import_entity_files_cons.
    rewrite (import_held_entity w inputDir file r Hr Hheld).
    rewrite Hdb. unfold insert. rewrite Hnew. cbn [of_result and_then done].
    rewrite (IH (with_entities w (rows0 ++ [r])) (rows0 ++ [r]));
      [|reflexivity|reflexivity|exact Hrows|exact Hdist].
    rewrite <- app_assoc. reflexivity.
Qed.

End Table.

Lemma entities_table_restored_witness :
  entities (w_db entities_dir_world) = Some []
  /\ Forall entity_form [entity_row; second_entity_row]
  /\ distinct_after [] [entity_row; second_entity_row] = true
  /\ Forall2 (fun file r =>
                holds_entity (w_fs entities_dir_world) (Path.join (lit "in") file) r)
       [lit "e1.json"; lit "e2.json"] [entity_row; second_entity_row]
  /\ import_entity_files entities_dir_world (lit "in") [lit "e1.json"; lit "e2.json"]
     = done (with_entities entities_dir_world ([] ++ [entity_row; second_entity_row])).
Proof.
  assert (Hf : Forall entity_form [entity_row; second_entity_row]).
  { constructor; [|constructor; [|constructor]].
    - exists [(lit "type", JStr (lit "app")); (lit "blueprint", JStr (lit "b1"))].
      vm_compute. repeat split; reflexivity.
    - exists [(lit "type", JStr (lit "app")); (lit "blueprint", JStr (lit "b1"))].
      vm_compute. repeat split; reflexivity. }
  assert (Hh : Forall2 (fun file r =>
                holds_entity (w_fs entities_dir_world) (Path.join (lit "in") file) r)
       [lit "e1.json"; lit "e2.json"] [entity_row; second_entity_row]).
  { constructor; [|constructor; [|constructor]].
    - eexists. split; [vm_compute; reflexivity|]. vm_compute. reflexivity.
    - eexists. split; [vm_compute; reflexivity|]. vm_compute. reflexivity. }
  split; [reflexivity|]. split; [exact Hf|]. split; [reflexivity|]. split; [exact Hh|].
  apply (entities_table_restored entities_dir_world (lit "in")
           [lit "e1.json"; lit "e2.json"] [] [entity_row; second_entity_row]);
    [reflexivity|exact Hf|reflexivity|exact Hh].
Defined.

Section Stops.
Context {F : Type} `{FileSystem F}.

Lemma import_entity_files_app (inputDir : jsstring) (a b : list jsstring) :
  forall w : @world F,
    import_entity_files w inputDir (a ++ b)
    = and_then (import_entity_files w inputDir a)
        (fun w1 => import_entity_files w1 inputDir b).
Proof.
  induction a as [|file a IH]; intros w; [reflexivity|].
  change ((file :: a) ++ b) with (file :: (a ++ b)).
  rewrite (import_entity_files_cons w inputDir file (a ++ b)).
  rewrite (import_entity_files_cons w inputDir file a).
  destruct (import_entity_files w inputDir [file]) as [w1 [[]| |]];
    cbn [and_then]; [apply IH|reflexivity|reflexivity].
Qed.

(** [importEntities] does not guard its loop: at the first file whose
    text is not JSON the loop ends with the [SyntaxError]. The rows of
    the files before it stay in the table, and the files after it are
    not read, whatever they hold. *)
Theorem importEntities_stops_at_bad_file (w w1 : @world F) (inputDir file text : jsstring)
    (before after : list jsstring) (e : exn) :
  import_entity_files w inputDir before = done w1 ->
  readFileUtf8 (w_fs w1) (Path.join inputDir file) = Ok text ->
  parse text = Throw e ->
  import_entity_files w inputDir (before ++ file :: after) = throw w1 e.
Proof.
  intros Hbefore Hread Hparse.
  rewrite import_entity_files_app, Hbefore. cbn [done and_then].
  cbn [import_entity_files]. rewrite Hread. cbn [of_result]. rewrite Hparse.
  reflexivity.
Qed.

End Stops.

Lemma importEntities_stops_at_bad_file_witness :
  import_entity_files broken_dir_world (lit "in") [lit "e1.json"]
  = done (with_entities broken_dir_world [entity_row])
  /\ readFileUtf8 (w_fs (with_entities broken_dir_world [entity_row]))
       (Path.join (lit "in") (lit "e1b.json")) = Ok (lit "{")
  /\ parse (lit "{") = Throw SyntaxError
  /\ import_entity_files broken_dir_world (lit "in")
       ([lit "e1.json"] ++ lit "e1b.json" :: [lit "e2.json"])
     = throw (with_entities broken_dir_world [entity_row]) SyntaxError.
Proof.
  assert (H1 : import_entity_files broken_dir_world (lit "in") [lit "e1.json"]
               = done (with_entities broken_dir_world [entity_row]))
    by (vm_compute; reflexivity).
  assert (H2 : readFileUtf8 (w_fs (with_entities broken_dir_world [entity_row]))
                 (Path.join (lit "in") (lit "e1b.json")) = Ok (lit "{"))
    by (vm_compute; reflexivity).
  assert (H3 : parse (lit "{") = Throw SyntaxError) by (vm_compute; reflexivity).
  split; [exact H1|]. split; [exact H2|]. split; [exact H3|].
  exact (importEntities_stops_at_bad_file broken_dir_world
           (with_entities broken_dir_world [entity_row]) (lit "in") (lit "e1b.json")
           (lit "{") [lit "e1.json"] [lit "e2.json"] SyntaxError H1 H2 H3).
Defined.

(** ** A file that does not parse, in a pack *)

Section PackLoops.
Context {F : Type} `{FileSystem F}.

Lemma import_config_files_cons (w : @world F) (inputDir file : jsstring)
    (rest : list jsstring) :
  import_config_files w inputDir (file :: rest)
  = and_then (import_config_files w inputDir [file])
      (fun w1 => import_config_files w1 inputDir rest).
Proof.
  cbn [import_config_files].
  repeat match goal with
         | |- context [of_result w ?r _] =>
             destruct r; cbn [of_result and_then]; try reflexivity
         end.
Qed.

Lemma import_config_files_app (inputDir : jsstring) (a b : list jsstring) :
  forall w : @world F,
    import_config_files w inputDir (a ++ b)
    = and_then (import_config_files w inputDir a)
        (fun w1 => import_config_files w1 inputDir b).
Proof.
  induction a as [|file a IH]; intros w; [reflexivity|].
  change ((file :: a) ++ b) with (file :: (a ++ b)).
  rewrite (import_config_files_cons w inputDir file (a ++ b)).
  rewrite (import_config_files_cons w inputDir file a).
  destruct (import_config_files w inputDir [file]) as [w1 [[]| |]];
    cbn [and_then]; [apply IH|reflexivity|reflexivity].
Qed.

Lemma import_user_files_cons (w : @world F) (inputDir file : jsstring)
    (rest : list jsstring) :
  import_user_files w inputDir (file :: rest)
  = and_then (import_user_files w inputDir [file])
      (fun w1 => import_user_files w1 inputDir rest).
Proof.
  cbn [import_user_files].
  repeat match goal with
         | |- context [of_result w ?r _] =>
             destruct r; cbn [of_result and_then]; try reflexivity
         end.
Qed.

Lemma import_user_files_app (inputDir : jsstring) (a b : list jsstring) :
  forall w : @world F,
    import_user_files w inputDir (a ++ b)
    = and_then (import_user_files w inputDir a)
        (fun w1 => import_user_files w1 inputDir b).
Proof.
  induction a as [|file a IH]; intros w; [reflexivity|].
  change ((file :: a) ++ b) with (file :: (a ++ b)).
  rewrite (import_user_files_cons w inputDir file (a ++ b)).
  rewrite (import_user_files_cons w inputDir file a).
  destruct (import_user_files w inputDir [file]) as [w1 [[]| |]];
    cbn [and_then]; [apply IH|reflexivity|reflexivity].
Qed.

Lemma import_blueprint_files_cons (w : @world F) (assetMap : props)
    (inputDir file : jsstring) (rest : list jsstring) :
  import_blueprint_files w assetMap inputDir (file :: rest)
  = and_then (import_blueprint_files w assetMap inputDir [file])
      (fun w1 => import_blueprint_files w1 assetMap inputDir rest).
Proof.
  cbn [import_blueprint_files].
  repeat match goal with
         | |- context [of_result w ?r _] =>
             destruct r; cbn [of_result and_then]; try reflexivity
         end.
Qed.

Lemma import_blueprint_files_app (assetMap : props) (inputDir : jsstring)
    (a b : list jsstring) :
  forall w : @world F,
    import_blueprint_files w assetMap inputDir (a ++ b)
    = and_then (import_blueprint_files w assetMap inputDir a)
        (fun w1 => import_blueprint_files w1 assetMap inputDir b).
Proof.
  induction a as [|file a IH]; intros w; [reflexivity|].
  change ((file :: a) ++ b) with (file :: (a ++ b)).
  rewrite (import_blueprint_files_cons w assetMap inputDir file (a ++ b)).
  rewrite (import_blueprint_files_cons w assetMap inputDir file a).
  destruct (import_blueprint_files w assetMap inputDir [file]) as [w1 [[]| |]];
    cbn [and_then]; [apply IH|reflexivity|reflexivity].
Qed.

End PackLoops.

(** C7: the unpack loops guard [JSON.parse]: a row of [blueprints] or
    of [entities] whose data is not JSON is reported and passed over,
    and a value of [config] that is not JSON is written as the text it
    is; the loop goes on with the rows that follow. The pack loops do
    not guard it: in the loop over the files of [config], of [users],
    of [blueprints] and of [entities], a file whose text is not JSON
    ends the loop with the parser's error; the rows of the files
    before it stay inserted and the files after it are not read. The
    error leaves the [try] block of [packDirectory], whose [catch]
    prints "Error packing directory:", and with [-v] the stack, and
    the run goes on to its end. *)
Theorem C7_parse_failure_in_a_batch {F} `{FileSystem F}
  (sha256_hex : list Z -> jsstring) (w w1 : world) (inputDir file text : jsstring)
  (before after : list jsstring) (e : exn) :
  readFileUtf8 (w_fs w1) (Path.join inputDir file) = Ok text ->
  parse text = Throw e ->
  ((import_config_files w inputDir before = done w1 ->
    import_config_files w inputDir (before ++ file :: after) = throw w1 e)
   /\ (import_user_files w inputDir before = done w1 ->
       import_user_files w inputDir (before ++ file :: after) = throw w1 e)
   /\ (forall assetMap,
         import_blueprint_files w assetMap inputDir before = done w1 ->
         import_blueprint_files w assetMap inputDir (before ++ file :: after)
         = throw w1 e)
   /\ (import_entity_files w inputDir before = done w1 ->
       import_entity_files w inputDir (before ++ file :: after) = throw w1 e))
  /\ (forall verbose,
        caught verbose (throw w1 e) (lit "Error packing directory:")
        = ({| w_fs := w_fs w1; w_db := w_db w1;
              w_log := w_log w1 ++ Error (lit "Error packing directory:")
                         :: (if verbose then [Stack e] else []) |}, true))
  /\ ((forall assets outputDir sourceAssetsDir globalAssetsDir verbose bad rest e',
         parse_column (r_data bad) = Throw e' ->
         extract_blueprint_rows sha256_hex w assets outputDir sourceAssetsDir
           globalAssetsDir verbose (bad :: rest)
         = extract_blueprint_rows sha256_hex
             (log_error w (lit "  - Error parsing blueprint data for "
                             ++ to_string (r_id bad)))
             assets outputDir sourceAssetsDir globalAssetsDir verbose rest)
      /\ (forall outputDir verbose bad rest e',
            parse_column (r_data bad) = Throw e' ->
            extract_entity_rows w outputDir verbose (bad :: rest)
            = extract_entity_rows
                (log_error w (lit "  - Error parsing entity data for "
                                ++ to_string (r_id bad)))
                outputDir verbose rest)
      /\ (forall outputDir bad rest e',
            parse_column (c_value bad) = Throw e' ->
            extract_config_rows w outputDir (bad :: rest)
            = of_result w
                (writeFileText (w_fs w)
                   (Path.join outputDir (to_string (c_key bad) ++ lit ".json"))
                   (stringify_pretty
                      (JObj [(lit "key", c_key bad); (lit "value", c_value bad)])))
                (fun fs' => extract_config_rows (with_fs w fs') outputDir rest))).
Proof.
  intros Hread Hparse. split; [|split].
  - split; [|split; [|split]].
    + intros Hb. rewrite import_config_files_app, Hb. cbn [done and_then].
      cbn [import_config_files]. rewrite Hread. cbn [of_result]. now rewrite Hparse.
    + intros Hb. rewrite import_user_files_app, Hb. cbn [done and_then].
      cbn [import_user_files]. rewrite Hread. cbn [of_result]. now rewrite Hparse.
    + intros assetMap Hb. rewrite import_blueprint_files_app, Hb. cbn [done and_then].
      cbn [import_blueprint_files]. rewrite Hread. cbn [of_result]. now rewrite Hparse.
    + intros Hb. rewrite import_entity_files_app, Hb. cbn [done and_then].
      cbn [import_entity_files]. rewrite Hread. cbn [of_result]. now rewrite Hparse.
  - intros [|]; unfold caught, throw, log_stack, log_error; cbn [w_fs w_db w_log];
      rewrite <- ?app_assoc; reflexivity.
  - split; [|split].
    + intros assets outputDir sourceAssetsDir globalAssetsDir verbose bad rest e' Hp.
      cbn [extract_blueprint_rows]. now rewrite Hp.
    + intros outputDir verbose bad rest e' Hp. cbn [extract_entity_rows]. now rewrite Hp.
    + intros outputDir bad rest e' Hp. cbn [extract_config_rows]. now rewrite Hp.
Qed.

(** Whole runs. A pack of the directory whose first blueprint file,
    [a.json], is not JSON: the loop over the blueprint files ends at
    that file, the run returns with empty [blueprints] and [entities]
    tables, having printed the one error, and with [-v] the stack;
    without [a.json] the blueprint [b] and the entity [e] are
    imported. An unpack of three blueprint rows of which the second
    is not JSON: the row is reported, and the third row has its file
    like the first. *)
Lemma C7_parse_failure_in_a_batch_witness :
  import_blueprint_files c7_world [] (lit "w/blueprints")
    ([] ++ lit "a.json" :: [lit "b.json"])
  = throw c7_world SyntaxError
  /\ (exists w',
        Worlds.packDirectory c7_world (lit "w") (lit "db/db.sqlite") (lit "assets")
          true false
        = (w', Returned tt)
        /\ blueprints (w_db w') = Some []
        /\ entities (w_db w') = Some []
        /\ w_log w' = [Error (lit "Error packing directory:")])
  /\ w_log (fst (Worlds.packDirectory c7_world (lit "w") (lit "db/db.sqlite")
                   (lit "assets") true true))
     = [Error (lit "Error packing directory:"); Stack SyntaxError]
  /\ (exists w',
        Worlds.packDirectory
          {| w_fs := filter (fun kn => negb (str_eqb (fst kn) (lit "w/blueprints/a.json")))
                       c7_world_dir;
             w_db := empty_db; w_log := [] |}
          (lit "w") (lit "db/db.sqlite") (lit "assets") true false
        = (w', Returned tt)
        /\ option_map (map r_id) (blueprints (w_db w')) = Some [JStr (lit "b")]
        /\ option_map (map r_id) (entities (w_db w')) = Some [JStr (lit "e")]
        /\ w_log w' = [])
  /\ (let run := unpackDatabase demo_digest c7_database_world
                   (lit "2025-01-01T00:00:00.000Z") (lit "db/db.sqlite") (lit "out")
                   (lit "src") (lit "assets") false in
      snd run = Returned tt
      /\ existsSync (w_fs (fst run)) (lit "out/blueprints/a.json") = true
      /\ existsSync (w_fs (fst run)) (lit "out/blueprints/b.json") = false
      /\ existsSync (w_fs (fst run)) (lit "out/blueprints/c.json") = true
      /\ w_log (fst run) = [Error (lit "  - Error parsing blueprint data for b")]).
Proof.
  assert (Hread : readFileUtf8 (w_fs c7_world) (Path.join (lit "w/blueprints") (lit "a.json"))
                  = Ok (json_text "{'id':'a',")) by (vm_compute; reflexivity).
  assert (Hparse : parse (json_text "{'id':'a',") = Throw SyntaxError)
    by (vm_compute; reflexivity).
  destruct (C7_parse_failure_in_a_batch demo_digest c7_world c7_world
              (lit "w/blueprints") (lit "a.json") (json_text "{'id':'a',")
              [] [lit "b.json"] SyntaxError Hread Hparse) as [(_ & _ & Hb & _) _].
  split.
  - exact (Hb [] eq_refl).
  - split; [|split; [|split]].
    + eexists. split; [vm_compute; reflexivity|]. repeat split; vm_compute; reflexivity.
    + vm_compute. reflexivity.
    + eexists. split; [vm_compute; reflexivity|]. repeat split; vm_compute; reflexivity.
    + cbv zeta. repeat split; vm_compute; reflexivity.
Defined.

(** ** The warnings of a pack that throws *)

Section Warnings.
Context {F : Type} `{FileSystem F}.

Lemma collect_props_warnings (fs : F) (dirPath : jsstring) (entries : props) :
  forall found,
    collect_props fs dirPath entries = Ok found ->
    props_warnings fs dirPath entries = snd found.
Proof.
  induction entries as [|[key value] rest IH]; intros found E.
  - injection E as <-. reflexivity.
  - cbn [collect_props props_warnings] in *.
    destruct (collect_prop fs dirPath value) as [one| |]; cbn [bind] in E;
      try discriminate.
    destruct (collect_props fs dirPath rest) as [more| |]; cbn [bind] in E;
      try discriminate.
    injection E as <-. cbn [warnings_then snd]. now rewrite (IH more eq_refl).
Qed.

(** When the search for the assets returns, the warnings it has
    printed are those it returns. *)
Lemma collect_assets_warnings (fs : F) (dirPath : jsstring) (blueprintJson : json)
    (found : list asset_path * list msg) :
  collect_assets fs dirPath blueprintJson = Ok found ->
  collect_warnings fs dirPath blueprintJson = snd found.
Proof.
  unfold collect_assets, collect_warnings. intros E.
  destruct (get_prop blueprintJson (lit "model")) as [model| |]; cbn [bind] in E;
    try discriminate.
  destruct (collect_model fs dirPath model) as [a1| |]; cbn [bind] in E;
    try discriminate.
  destruct (get_prop blueprintJson (lit "script")) as [script| |]; cbn [bind] in E;
    try discriminate.
  destruct (collect_script fs dirPath script) as [a2| |]; cbn [bind] in E;
    try discriminate.
  destruct (get_prop blueprintJson (lit "image")) as [image| |]; cbn [bind] in E;
    try discriminate.
  destruct (collect_image fs dirPath image) as [a3| |]; cbn [bind] in E;
    try discriminate.
  destruct (get_prop blueprintJson (lit "props")) as [props| |]; cbn [bind] in E;
    try discriminate.
  destruct (collect_all_props fs dirPath props) as [a4| |] eqn:E4; cbn [bind] in E;
    try discriminate.
  injection E as <-. cbn [warnings_then snd]. do 3 f_equal.
  unfold collect_all_props in E4. destruct props as [ps|].
  - destruct (truthy ps).
    + now apply collect_props_warnings.
    + now injection E4 as <-.
  - now injection E4 as <-.
Qed.

End Warnings.

(** A directory whose blueprint names a model that is not there and
    has a number for its script: the warning for the model is
    printed, then the error that ends the run. *)
Lemma packDirectory_warns_then_throws :
  Apps.packDirectory
    [ (lit "app", Dir);
      (lit "app/blueprint.json",
       File (json_text "{'name':'car','model':'car.glb','script':5}")) ]
    (lit ".") (lit "app") None
  = ([ (lit "app", Dir);
       (lit "app/blueprint.json",
        File (json_text "{'name':'car','model':'car.glb','script':5}")) ],
     [Warn (lit "Warning: Model file car.glb not found");
      Error (lit "Error packing directory:")],
     Exited 1).
Proof. vm_compute. reflexivity. Qed.
